(* ===== verification/_CoqProject ===== *)
-Q . S2P
Prelude.v
Json.v
Env.v
Mongo.v
Prog.v
JsDate.v
JsonText.v
Url.v
Email.v
Validator.v
Ledger.v
Trades.v
TradesProps.v
Auth.v
AuthProps.v
AuthWitnesses.v
Ltp.v
LtpProps.v
Chat.v
ChatProps.v
ServiceWitnesses.v
Client.v
Forms.v
Routes.v
ClientProps.v
Prompts.v
Dashboard.v
DashboardProps.v
Calendar.v
CalendarProps.v
ClientWitnesses.v
Witnesses.v
