(* ===== verification/Prelude.v ===== *)
(** * A verification development for DaddysAi (iDaddy VedaAI)

    The repository is a Next.js application: server routes under
    [src/app/api] over a MongoDB database, and React pages in the browser
    that call them with [fetch].  The routes are the trades API with its
    audit ledger, the authentication routes (OTP verification, password
    reset, LTP credentials), the LTP Calculator proxy with its in-process
    rate limiter, and the chat proxy to OpenRouter.  In the browser, the
    authentication context and its forms talk to the authentication
    routes, and the dashboard page talks to the chat and LTP routes
    through a scenario-data dialog.

    ** How the program is modelled, file by file

    Shared data and effects:
    - [Prelude] (this file): the scope [daddy_scope], the hint database
      [daddy], the shared tactics and the generic list and option lemmas.
    - [Json]: JSON/BSON values ([jval]; numbers as [Z]), JS objects as
      association lists (key order and [{...a, ...b}] matter), truthiness,
      property reads and template-literal stringification.
    - [Env]: what the server reaches besides MongoDB: the remote HTTP
      services, the mails sent, the module variables (the rate limiter's
      last request, the cached mail transport).
    - [Mongo]: the driver's document store ([findOne], [insertOne] with
      [ObjectId] generation, [updateOne] with [$set], [deleteOne],
      [find().sort()]) over the collections [trades], [ledger], [users].
    - [Prog]: a handler is a finite tree [Prog.prog] of awaited events;
      [Prog.run] executes it against the database and a fault script (the
      outcome of each call: success, failure before or after the write, a
      lost acknowledgement), so [await], [try]/[catch] and early returns
      read as in the source.
    - [JsDate]: [new Date(x)] and [toISOString] as the class [DateEnv],
      with the laws [DateLaws] and an ISO-8601 instance; [JsonText]:
      [JSON.stringify] and [JSON.parse] with their round trip; [Url]:
      [encodeURIComponent] and [URLSearchParams.get]; [Email]: the three
      mails of [src/lib/email.ts] with their HTML text.

    Server routes (one file per group, theorems in a [..Props] file):
    - [Validator], [Ledger], [Trades], [TradesProps]: the trades API
      ([src/app/api/trades/...], [src/app/lib/mongodb.ts]; [validateTrade]
      is absent from the repository and modelled from the spec).
    - [Auth], [AuthProps]: [forgot-password], [reset-password] ([POST],
      [GET]), [verify] ([POST], [PUT]), [update-ltp-credentials]; the
      signature scheme of [jsonwebtoken] is the class [JwtSig] with the
      law [JwtSigLaws], so the theorems hold for any implementation.
    - [Ltp], [LtpProps]: [ltp-calculator/verify] and
      [ltp-calculator/historical] with its rate limiter.
    - [Chat], [ChatProps]: [api/chat], the [<think>] extraction and the
      markdown cleaning.

    Browser side and composition:
    - [Client]: [AuthContext.tsx] in a state monad [Client.sm] over the
      context's state and an abstract world reached by [fetch];
      [Forms]: the forgot-password form, the reset page and form, the LTP
      credentials dialog, with the e-mail regular expression run by a
      backtracking matcher.
    - [Routes]: the App Router table of the repository's routes and the
      browser's cookie jar; [Routes.serve] is a [fetch] that runs the
      handlers, so client and server compose.
    - [Prompts], [Dashboard], [DashboardProps]: the dashboard page
      ([src/app/dashboard/page.tsx]): its state, [handleSubmit], the
      scenario flow ([checkForScenarioKeyword], [fetchLTPData],
      [generateLTPSummary], [handleScenarioDataSelection]), feedback and
      translation with retries; the prompt texts are copied verbatim.
    - [Calendar], [CalendarProps]: the scenario-data dialog
      ([ScenarioDataDialog.tsx]) over JS [Date] in the browser's local
      time zone, a section variable.
    - [AuthWitnesses], [ServiceWitnesses], [ClientWitnesses], [Witnesses]:
      each theorem with hypotheses applied at concrete inputs.

    ** What the theorems show

    - Trades: creation writes one trade and one ledger entry; a failed
      ledger append is compensated; deletion writes the ledger first;
      ownership scoping; the ledger is append-only; handlers keep the
      database well formed; the listing is sorted.
    - Authentication: the handlers keep the database well formed; the
      reset link works for its hour; a resent code verifies; the session
      cookie of [verify] is accepted by [update-ltp-credentials]; wrong
      codes and bad tokens are refused without effect; and two defects:
      a query-operator injection in [reset-password] and forgeable
      sessions when [JWT_SECRET] is unset.
    - LTP: the limiter spaces admitted requests two seconds apart over
      any sequence of requests; the Basic header round-trips; the route's
      cookie name never matches the session's.
    - Chat: no heading mark reaches the answer; malformed bodies are
      refused before any remote call.
    - Browser: every context operation settles ([isLoading] false);
      [verifyResetToken] never throws; the LTP password is masked; the
      e-mail check is equivalent to a declarative description; the whole
      password reset works end to end through [Routes.serve].
    - Dashboard: the summary always falls back (a [ReferenceError]), the
      historical request always gets 400 from the repository's own route,
      so a scenario analysis never shows an analysis; the LTP-enhanced
      prompt is never sent; translation makes at most three requests.
    - Dialog: the date sent is the clicked day east of UTC and the next
      day at UTC or west; the coming Thursday is within a week; the
      last-Thursday loop terminates.

    ** Fuel and bounds

    Handlers are finite trees and [Prog.run] is structural.  Recursion
    that is not structural takes fuel that is proved sufficient: the JSON
    parser [length + 1], the regular-expression matcher
    [re_size r * (length + 1) + 1] (each [+] turn consumes a character),
    the chat cleaning passes the length of the text, the translation loop
    3 (its own check [retries <= maxRetries] stops it by then: any larger
    fuel gives the same run, [DashboardProps.translate_loop_enough]), the
    last-Thursday loop 7 (a week, [CalendarProps.option_loop_terminates]).  The calendar facts ([CalendarProps]) are checked by
    computation on the days 2020-2030, which hold every date of the
    dialog's 2025 data.  Numbers are unbounded [Z]: the code does no
    arithmetic where JS doubles would round, but [ObjectId]s are read
    modulo 2^96 as the driver does.

    ** Not modelled

    JSX markup, styles, scrolling and speech synthesis (presentation, no
    claim of the spec); the static pages and the navigation bar and footer
    ([src/app/blog], [careers], [contact], [faq], [components]); daylight
    saving time (the local offset is fixed); the SMTP and HTTP transports,
    which are events answered by the environment; MongoDB features the
    code does not reach; and the routes the client calls that do not exist
    in the repository ([/api/auth/login], [register], [me], [logout],
    [complete-profile], [/api/ltp-calculator]): [Routes.route] answers
    them with the 404 page. *)

From stdpp Require Export base list strings decidable option sets.
From Stdlib Require Export ZArith.
From Stdlib Require Import Lia.
From Stdlib Require Export Ascii.

Declare Scope daddy_scope.
Delimit Scope daddy_scope with daddy.

Create HintDb daddy discriminated.
Create Rewrite HintDb daddy_rw.

(** Inversion that cleans up after itself. *)
Ltac invc H := inversion H; subst; clear H.

(** Case analysis on the tests of a goal's [if]s and [match]es on
    booleans and decisions, closing what is contradictory. *)
Ltac case_tests :=
  repeat (case_decide || case_match); simplify_eq/=; try done.

(** ** Generic list lemmas shared by the components *)

(** [s.split(t)[0]]: the characters before the first [t]. *)
Fixpoint before_char (t : ascii) (l : list ascii) : list ascii :=
  match l with
  | [] => []
  | c :: l' => if Ascii.eqb c t then [] else c :: before_char t l'
  end.

Definition split_first (t : ascii) (s : string) : string :=
  String.string_of_list_ascii (before_char t (String.list_ascii_of_string s)).

Lemma list_ascii_of_string_app (a b : string) :
  String.list_ascii_of_string (a +:+ b) = String.list_ascii_of_string a ++ String.list_ascii_of_string b.
Proof. induction a as [|c a IH]; simpl; [done|]. by rewrite IH. Qed.

Section lists.
Context {A : Type}.

(** Removing the first element satisfying a test. *)
Fixpoint remove_first (p : A -> bool) (l : list A) : list A :=
  match l with
  | [] => []
  | x :: l' => if p x then l' else x :: remove_first p l'
  end.

(** Replacing the first element satisfying a test. *)
Fixpoint replace_first (p : A -> bool) (y : A) (l : list A) : list A :=
  match l with
  | [] => []
  | x :: l' => if p x then y :: l' else x :: replace_first p y l'
  end.

(** The first element satisfying a test. *)
Fixpoint find_first (p : A -> bool) (l : list A) : option A :=
  match l with
  | [] => None
  | x :: l' => if p x then Some x else find_first p l'
  end.

Lemma find_first_None p l :
  find_first p l = None -> forall x, x ∈ l -> p x = false.
Proof.
  induction l as [|y l IH]; simpl; intros H x Hx; [by apply elem_of_nil in Hx|].
  destruct (p y) eqn:E; [done|]. apply elem_of_cons in Hx as [->|Hx]; auto.
Qed.

Lemma find_first_None_intro p l :
  (forall x, x ∈ l -> p x = false) -> find_first p l = None.
Proof.
  induction l as [|y l IH]; simpl; intros H; [done|].
  rewrite (H y) by set_solver. apply IH. set_solver.
Qed.

Lemma find_first_Some p l x :
  find_first p l = Some x -> p x = true /\ x ∈ l.
Proof.
  induction l as [|y l IH]; simpl; [done|].
  destruct (p y) eqn:E; intros H; simplify_eq.
  - split; [done|]. by left.
  - destruct (IH H). split; [done|]. by right.
Qed.

(** The first match splits the list around it. *)
Lemma find_first_split p l x :
  find_first p l = Some x ->
  exists l1 l2, l = l1 ++ x :: l2 /\ Forall (fun y => p y = false) l1.
Proof.
  induction l as [|y l IH]; simpl; [done|].
  destruct (p y) eqn:E; intros H; simplify_eq.
  - by exists [], l.
  - destruct (IH H) as (l1 & l2 & -> & HF). exists (y :: l1), l2. by auto.
Qed.

Lemma remove_first_split p l1 x l2 :
  Forall (fun y => p y = false) l1 -> p x = true ->
  remove_first p (l1 ++ x :: l2) = l1 ++ l2.
Proof.
  intros HF Hx. induction HF as [|y l1 Hy HF IH]; simpl; [by rewrite Hx|].
  by rewrite Hy, IH.
Qed.

Lemma replace_first_split p y l1 x l2 :
  Forall (fun z => p z = false) l1 -> p x = true ->
  replace_first p y (l1 ++ x :: l2) = l1 ++ y :: l2.
Proof.
  intros HF Hx. induction HF as [|z l1 Hz HF IH]; simpl; [by rewrite Hx|].
  by rewrite Hz, IH.
Qed.

Lemma remove_first_None p l :
  find_first p l = None -> remove_first p l = l.
Proof.
  induction l as [|y l IH]; simpl; [done|].
  destruct (p y); [done|]. intros H. by rewrite IH.
Qed.

Lemma replace_first_None p y l :
  find_first p l = None -> replace_first p y l = l.
Proof.
  induction l as [|z l IH]; simpl; [done|].
  destruct (p z); [done|]. intros H. by rewrite IH.
Qed.

Lemma length_remove_first_Some p l x :
  find_first p l = Some x -> length (remove_first p l) = pred (length l).
Proof.
  intros H. destruct (find_first_split p l x H) as (l1 & l2 & -> & HF).
  rewrite remove_first_split by (done || by apply find_first_Some in H as []).
  rewrite !length_app; simpl; lia.
Qed.
(** Skipping a prefix of non-matching elements. *)
Lemma find_first_app_l p l1 l2 :
  Forall (fun y => p y = false) l1 -> find_first p (l1 ++ l2) = find_first p l2.
Proof. induction 1 as [|y l1 Hy _ IH]; simpl; [done|]. by rewrite Hy. Qed.

Lemma remove_first_app_l p l1 l2 :
  Forall (fun y => p y = false) l1 -> remove_first p (l1 ++ l2) = l1 ++ remove_first p l2.
Proof. induction 1 as [|y l1 Hy _ IH]; simpl; [done|]. by rewrite Hy, IH. Qed.
(** After replacing the first match by a value that matches, the first
    match is that value. *)
Lemma find_first_replace p l x y :
  find_first p l = Some x -> p y = true -> find_first p (replace_first p y l) = Some y.
Proof.
  induction l as [|z l IH]; simpl; [done|].
  destruct (p z) eqn:E; intros Hf Hy; simplify_eq; simpl; rewrite ?Hy, ?E; auto.
Qed.

End lists.

#[export] Hint Resolve find_first_Some find_first_None : daddy.
#[export] Hint Rewrite @remove_first_None @replace_first_None : daddy_rw.
