(* ===== verification/Json.v ===== *)
(** * JSON and BSON values, JS objects and the JS operations the routes use

    A request body ([await request.json()]), a MongoDB document and a
    response body are all values of [jval].  A JS object is an association
    list [obj]: the code spreads objects ([{...existingTrade, ...updates}])
    and the order of keys is observable in the stored documents, so keys
    keep their order; [set] replaces a key in place or appends it, which is
    what a JS property assignment does.  The file also holds the JS
    semantics the route handlers branch on: truthiness ([if (!x)]),
    property reads ([updates.userId] throws on [null]), the errors a
    handler can raise ([exn]) and template-literal stringification. *)

From S2P Require Import Prelude.
From stdpp Require Import pretty.
#[local] Set Warnings "-register-all".

Inductive jval : Type :=
| JNull
| JBool (b : bool)
| JNum (z : Z)
| JStr (s : string)
| JArr (xs : list jval)
| JObj (fs : list (string * jval))
| JOid (n : N)        (* a BSON ObjectId, identified by its 96-bit value *)
| JDate (ms : Z).     (* a BSON date / JS Date, in ms since the epoch *)

(** A JS object or a MongoDB document: its own properties in order. *)
Abbreviation obj := (list (string * jval)).

(** ** Induction and decidable equality *)

Section jval_ind'.
Variable P : jval -> Prop.
Hypothesis HNull : P JNull.
Hypothesis HBool : forall b, P (JBool b).
Hypothesis HNum : forall z, P (JNum z).
Hypothesis HStr : forall s, P (JStr s).
Hypothesis HArr : forall xs, Forall P xs -> P (JArr xs).
Hypothesis HObj : forall fs, Forall (fun kv => P kv.2) fs -> P (JObj fs).
Hypothesis HOid : forall n, P (JOid n).
Hypothesis HDate : forall ms, P (JDate ms).

Fixpoint jval_ind' (v : jval) : P v :=
  match v with
  | JNull => HNull
  | JBool b => HBool b
  | JNum z => HNum z
  | JStr s => HStr s
  | JArr xs =>
      HArr xs ((fix go (l : list jval) : Forall P l :=
                  match l with
                  | [] => List.Forall_nil _
                  | x :: l' => List.Forall_cons _ _ _ (jval_ind' x) (go l')
                  end) xs)
  | JObj fs =>
      HObj fs ((fix go (l : obj) : Forall (fun kv => P kv.2) l :=
                  match l with
                  | [] => List.Forall_nil _
                  | kv :: l' => List.Forall_cons _ _ _ (jval_ind' kv.2) (go l')
                  end) fs)
  | JOid n => HOid n
  | JDate ms => HDate ms
  end.
End jval_ind'.

Fixpoint jval_eqb (x y : jval) : bool :=
  match x, y with
  | JNull, JNull => true
  | JBool a, JBool b => Bool.eqb a b
  | JNum a, JNum b => Z.eqb a b
  | JStr a, JStr b => String.eqb a b
  | JArr xs, JArr ys =>
      (fix go (l1 l2 : list jval) : bool :=
         match l1, l2 with
         | [], [] => true
         | a :: l1', b :: l2' => jval_eqb a b && go l1' l2'
         | _, _ => false
         end) xs ys
  | JObj fs, JObj gs =>
      (fix go (l1 l2 : obj) : bool :=
         match l1, l2 with
         | [], [] => true
         | (k1, a) :: l1', (k2, b) :: l2' =>
             String.eqb k1 k2 && jval_eqb a b && go l1' l2'
         | _, _ => false
         end) fs gs
  | JOid a, JOid b => N.eqb a b
  | JDate a, JDate b => Z.eqb a b
  | _, _ => false
  end.

Lemma jval_eqb_eq x y : jval_eqb x y = true <-> x = y.
Proof.
  revert y. induction x as [| | | |xs IH|fs IH| |] using jval_ind';
    intros [| | | |ys|gs| |]; simpl;
    rewrite ?Bool.eqb_true_iff, ?Z.eqb_eq, ?String.eqb_eq, ?N.eqb_eq;
    try (split; congruence).
  - revert ys. induction IH as [|x xs Hx _ IHxs]; intros [|y ys]; simpl;
      try (split; congruence).
    rewrite andb_true_iff, Hx, IHxs. split; [intros [-> [=->]]|intros [=-> ->]]; done.
  - revert gs. induction IH as [|[k x] fs Hx _ IHfs]; intros [|[k' y] gs]; simpl;
      try (split; congruence).
    simpl in Hx. rewrite !andb_true_iff, String.eqb_eq, Hx, IHfs.
    split; [intros [[-> ->] [=->]]|intros [=-> -> ->]]; done.
Qed.

#[export] Instance jval_eq_dec : EqDecision jval.
Proof.
  intros x y. destruct (jval_eqb x y) eqn:E.
  - left. by apply jval_eqb_eq.
  - right. intros H. apply jval_eqb_eq in H. congruence.
Defined.

(** ** Objects: property lookup, assignment and spread *)

(** [o[k]], [None] for [undefined]. *)
Fixpoint get (k : string) (o : obj) : option jval :=
  match o with
  | [] => None
  | (k', v) :: o' => if String.eqb k k' then Some v else get k o'
  end.

Lemma get_app k a b : get k (a ++ b) = match get k a with Some v => Some v | None => get k b end.
Proof. induction a as [|[k' v] a IH]; simpl; [done|]. by destruct (String.eqb k k'). Qed.

(** [o[k] = v]: in place when [k] is a key of [o], appended otherwise. *)
Fixpoint set (k : string) (v : jval) (o : obj) : obj :=
  match o with
  | [] => [(k, v)]
  | (k', v') :: o' => if String.eqb k k' then (k', v) :: o' else (k', v') :: set k v o'
  end.

(** [{...a, ...b}]: the own properties of [b] assigned, in order, onto a copy
    of [a]. *)
Definition spread (a b : obj) : obj :=
  foldl (fun acc kv => set kv.1 kv.2 acc) a b.

(** A JS object has each key once. *)
Definition obj_wf (o : obj) : Prop := NoDup (map fst o).

Lemma get_set_eq k v o : get k (set k v o) = Some v.
Proof.
  induction o as [|[k' v'] o IH]; simpl; [by rewrite String.eqb_refl|].
  destruct (String.eqb k k') eqn:E; simpl; rewrite E; [done|exact IH].
Qed.

Lemma get_set_ne k k' v o : k <> k' -> get k' (set k v o) = get k' o.
Proof.
  intros Hne. induction o as [|[k'' v'] o IH]; simpl.
  - apply String.eqb_neq in Hne. by rewrite String.eqb_sym, Hne.
  - destruct (String.eqb k k'') eqn:E; simpl; [|by rewrite IH].
    apply String.eqb_eq in E as ->. apply String.eqb_neq in Hne.
    by rewrite String.eqb_sym, Hne.
Qed.

Lemma get_set k k' v o :
  get k' (set k v o) = if decide (k = k') then Some v else get k' o.
Proof. case_decide; subst; [apply get_set_eq|by apply get_set_ne]. Qed.

Lemma keys_set_in k v o : k ∈ map fst o -> map fst (set k v o) = map fst o.
Proof.
  induction o as [|[k' v'] o IH]; simpl; [by intros ?%elem_of_nil|].
  rewrite elem_of_cons. intros Hk.
  destruct (String.eqb k k') eqn:E; simpl; [done|].
  apply String.eqb_neq in E. rewrite IH; [done|naive_solver].
Qed.

Lemma keys_set_notin k v o : k ∉ map fst o -> map fst (set k v o) = map fst o ++ [k].
Proof.
  induction o as [|[k' v'] o IH]; simpl; [done|].
  rewrite elem_of_cons. intros Hk.
  destruct (String.eqb k k') eqn:E; simpl.
  - apply String.eqb_eq in E. naive_solver.
  - rewrite IH; [done|naive_solver].
Qed.

Lemma set_wf k v o : obj_wf o -> obj_wf (set k v o).
Proof.
  unfold obj_wf. intros H. destruct (decide (k ∈ map fst o)) as [Hk|Hk].
  - by rewrite keys_set_in.
  - rewrite keys_set_notin by done. apply NoDup_app.
    split; [done|]. split; [set_solver|apply NoDup_singleton].
Qed.

Lemma get_spread k a b :
  get k (spread a b) = match get k (rev b) with Some v => Some v | None => get k a end.
Proof.
  unfold spread. revert a. induction b as [|[k' v'] b IH] using rev_ind;
    intros a; [done|].
  rewrite foldl_app, rev_app_distr. simpl. rewrite get_set.
  case_decide; subst; simpl.
  - by rewrite String.eqb_refl.
  - destruct (String.eqb k k') eqn:E; [apply String.eqb_eq in E; congruence|]. apply IH.
Qed.

Lemma spread_wf a b : obj_wf a -> obj_wf (spread a b).
Proof.
  unfold spread. revert a. induction b as [|kv b IH]; intros a Ha; simpl; [done|].
  apply IH, set_wf, Ha.
Qed.

(** Over a well-formed object the last occurrence of a key is the only one. *)
Lemma get_rev o k : obj_wf o -> get k (rev o) = get k o.
Proof.
  unfold obj_wf. induction o as [|[k' v'] o IH]; simpl; intros Hnd; [done|].
  apply NoDup_cons in Hnd as [Hk' Hnd].
  assert (Hnot : get k' o = None).
  { clear IH Hnd. induction o as [|[k'' v''] o IHo]; simpl in *; [done|].
    destruct (String.eqb k' k'') eqn:E;
      [apply String.eqb_eq in E as ->; set_solver|set_solver]. }
  assert (Hgr : forall l, get k (l ++ [(k', v')]) =
                         match get k l with Some v => Some v
                                       | None => if String.eqb k k' then Some v' else None end).
  { induction l as [|[k2 v2] l IHl]; simpl; [done|]. destruct (String.eqb k k2); auto. }
  rewrite Hgr, IH by done.
  destruct (String.eqb k k') eqn:E; [|by destruct (get k o)].
  apply String.eqb_eq in E as ->. by rewrite Hnot.
Qed.

Lemma get_spread_wf k a b :
  obj_wf b -> get k (spread a b) = match get k b with Some v => Some v | None => get k a end.
Proof. intros Hb. by rewrite get_spread, get_rev. Qed.

#[export] Hint Rewrite get_set_eq get_set : daddy_rw.
#[export] Hint Resolve set_wf spread_wf : daddy.

(** ** JS semantics the handlers branch on *)

(** JS errors: the [name] and [message] of the thrown [Error]. *)
Record exn := JsError { exn_name : string; exn_message : string }.

Definition Error (msg : string) : exn := JsError "Error" msg.
Definition TypeError (msg : string) : exn := JsError "TypeError" msg.
Definition RangeError (msg : string) : exn := JsError "RangeError" msg.

(** [!!x]: [undefined], [null], [false], [0] and [""] are falsy. *)
Definition truthy (v : option jval) : bool :=
  match v with
  | None | Some JNull => false
  | Some (JBool b) => b
  | Some (JNum z) => negb (Z.eqb z 0)
  | Some (JStr s) => negb (String.eqb s "")
  | Some _ => true
  end.

(** [v.k]: reading a property of [null] throws a [TypeError]; a property of a
    primitive or an array that is not an own property is [undefined]. *)
Definition prop (v : jval) (k : string) : exn + option jval :=
  match v with
  | JNull => inl (TypeError ("Cannot read properties of null (reading '" +:+ k +:+ "')"))
  | JObj fs => inr (get k fs)
  | _ => inr None
  end.

(** An [undefined] field of an object literal is stored by the driver as
    [null] ([ignoreUndefined] is off by default). *)
Definition undef_null (v : option jval) : jval :=
  match v with Some v => v | None => JNull end.

(** Hex digits of an ObjectId, 24 of them, as [ObjectId.toString()]. *)
Definition hex_digit (n : N) : string :=
  String (Ascii.ascii_of_N (if N.ltb n 10 then 48 + n else 87 + n)) "".

Fixpoint hex_pad (k : nat) (n : N) : string :=
  match k with
  | O => ""
  | S k' => hex_pad k' (N.div n 16) +:+ hex_digit (N.modulo n 16)
  end.

Definition oid_hex (n : N) : string := hex_pad 24 n.

(** [`${v}`]: the string a template literal makes of a value.  Dates and
    arrays of objects do not occur where the code interpolates (an id, a
    user id, a message) and are given their [Object.prototype] form. *)
Definition to_js_string (v : option jval) : string :=
  match v with
  | None => "undefined"
  | Some JNull => "null"
  | Some (JBool b) => if b then "true" else "false"
  | Some (JNum z) => pretty z
  | Some (JStr s) => s
  | Some (JOid n) => oid_hex n
  | Some (JArr _) | Some (JObj _) | Some (JDate _) => "[object Object]"
  end.

Example to_js_string_ex :
  to_js_string (Some (JNum 42)) = "42" /\ to_js_string None = "undefined" /\
  oid_hex 255 = "0000000000000000000000ff".
Proof. vm_compute. auto. Qed.

(** ** Values that [JSON.parse] produces

    A request body is JSON: no ObjectId or Date inside, and each object with
    distinct keys (a repeated key keeps its last value). *)
Fixpoint is_json (v : jval) : bool :=
  match v with
  | JNull | JBool _ | JNum _ | JStr _ => true
  | JArr xs =>
      (fix go (l : list jval) : bool :=
         match l with [] => true | x :: l' => is_json x && go l' end) xs
  | JObj fs =>
      bool_decide (NoDup (map fst fs)) &&
      (fix go (l : obj) : bool :=
         match l with [] => true | kv :: l' => is_json kv.2 && go l' end) fs
  | JOid _ | JDate _ => false
  end.

Lemma is_json_obj o :
  is_json (JObj o) = true -> obj_wf o /\ forall k v, get k o = Some v -> is_json v = true.
Proof.
  simpl. rewrite andb_true_iff, bool_decide_eq_true. intros [Hnd Hall]. split; [done|].
  clear Hnd. induction o as [|[k' v'] o IH]; intros k v; simpl in *; [done|].
  apply andb_true_iff in Hall as [Hv' Hall].
  destruct (String.eqb k k'); [intros [=<-]; done|intros; by eapply IH].
Qed.

Lemma get_Some_wf o k v : obj_wf o -> get k o = Some v <-> (k, v) ∈ o.
Proof.
  unfold obj_wf. induction o as [|[k' v'] o IH]; simpl; intros Hnd.
  - split; [done|]. by intros ?%elem_of_nil.
  - apply NoDup_cons in Hnd as [Hk' Hnd]. rewrite elem_of_cons.
    destruct (String.eqb_spec k k') as [->|Hne].
    + split; [intros [=->]; by left|].
      intros [[=->]|Hin]; [done|]. exfalso. apply Hk'.
      apply list_elem_of_In, in_map_iff. exists (k', v). split; [done|]. by apply list_elem_of_In.
    + rewrite IH by done. naive_solver.
Qed.

Lemma get_None o k : get k o = None <-> k ∉ map fst o.
Proof.
  induction o as [|[k' v'] o IH]; simpl; [split; [intros _ ?%elem_of_nil; done|done]|].
  rewrite elem_of_cons. destruct (String.eqb_spec k k'); naive_solver.
Qed.

Lemma obj_wf_perm l l' : Permutation l l' -> obj_wf l -> obj_wf l'.
Proof. unfold obj_wf. intros Hp. apply NoDup_Permutation_proper. by apply Permutation_map. Qed.

(** Reordering the fields of an object does not change its lookups. *)
Lemma get_perm l l' k : Permutation l l' -> obj_wf l -> get k l = get k l'.
Proof.
  intros Hp Hwf. assert (Hwf' : obj_wf l') by (by eapply obj_wf_perm).
  destruct (get k l) as [v|] eqn:E.
  - symmetry. apply get_Some_wf; [done|]. rewrite <-Hp. by apply get_Some_wf.
  - symmetry. apply get_None. apply get_None in E. intros Hin. apply E.
    apply list_elem_of_In. apply list_elem_of_In in Hin.
    eapply Permutation_in; [|exact Hin]. apply Permutation_map. by symmetry.
Qed.
