(* ===== verification/Env.v ===== *)
(** * What the server process shares besides the database

    The route handlers reach three things outside MongoDB: remote HTTP
    services ([fetch]: OpenRouter, the LTP Calculator, the translation
    API), the mail transport of [src/lib/email.ts] (nodemailer, with a
    transporter cached in a module variable), and module-level variables
    of a route ([lastRequestTime] of the LTP rate limiter).  [env] holds
    them: the mails sent so far, whether the transporter is cached, the
    remote services as a function from request to reply, and the rate
    limiter's last accepted time. *)

From S2P Require Import Prelude Json.

(** A request made with [fetch(url, init)]. *)
Record request := mkreq {
  rq_method : string;
  rq_url : string;
  rq_headers : list (string * string);
  rq_body : option string
}.

(** A reply: its status and body text ([response.text()]). *)
Record reply := mkreply { rp_status : Z; rp_text : string }.

(** [response.ok]. *)
Definition rp_ok (r : reply) : bool := (200 <=? rp_status r)%Z && (rp_status r <=? 299)%Z.

(** The [mailOptions] handed to [transport.sendMail]. *)
Record mail := mkmail {
  mail_from : string;
  mail_to : jval;          (* the recipient as the caller passed it *)
  mail_subject : string;
  mail_html : string
}.

Record env := mkenv {
  env_mail : list mail;               (* mails handed to the transport, oldest first *)
  env_transport : bool;               (* email.ts: [transporter] is set *)
  env_web : request -> reply;         (* the remote services *)
  env_ltp_last : Z                    (* historical/route.ts: [lastRequestTime] *)
}.

Definition set_mail (m : list mail) (e : env) : env :=
  mkenv m (env_transport e) (env_web e) (env_ltp_last e).
Definition set_transport (b : bool) (e : env) : env :=
  mkenv (env_mail e) b (env_web e) (env_ltp_last e).
Definition set_ltp_last (t : Z) (e : env) : env :=
  mkenv (env_mail e) (env_transport e) (env_web e) t.
