(* ===== verification/Mongo.v ===== *)
(** * The MongoDB collections the routes use, and the driver operations on them

    The database is the state of the program.  [db] holds the collections
    the source names ([trades], [ledger], [users]), each a list of documents
    in natural (insertion) order, the counter from which the driver draws
    fresh [ObjectId]s and the wall clock read by [new Date()].  The
    operations are those of [db.collection(c)] that the routes call:
    [findOne], [find(...).sort(...).toArray()], [insertOne], [updateOne]
    with [$set], and [deleteOne], each with the equality filters the code
    builds ([{ id: tradeId, userId }], [{ _id: insertedId }], [{ email }]). *)

From S2P Require Import Prelude Json Env.
From Stdlib Require Import Sorting.Sorted Sorting.Permutation Ascii.

Inductive cname := Trades | Ledger | Users.

#[export] Instance cname_eq_dec : EqDecision cname.
Proof. solve_decision. Defined.

Record db := mkdb {
  db_trades : list obj;
  db_ledger : list obj;
  db_users : list obj;
  db_next_oid : N;   (* the next ObjectId the driver's pkFactory returns *)
  db_clock : Z;      (* Date.now() *)
  db_env : env       (* the process state outside the database *)
}.

Definition coll (c : cname) (s : db) : list obj :=
  match c with Trades => db_trades s | Ledger => db_ledger s | Users => db_users s end.

Definition set_coll (c : cname) (l : list obj) (s : db) : db :=
  match c with
  | Trades => mkdb l (db_ledger s) (db_users s) (db_next_oid s) (db_clock s) (db_env s)
  | Ledger => mkdb (db_trades s) l (db_users s) (db_next_oid s) (db_clock s) (db_env s)
  | Users => mkdb (db_trades s) (db_ledger s) l (db_next_oid s) (db_clock s) (db_env s)
  end.

(** ** BSON comparison, used by [sort] and by [$gt] on dates *)

Fixpoint str_cmp (a b : string) : comparison :=
  match a, b with
  | EmptyString, EmptyString => Eq
  | EmptyString, String _ _ => Lt
  | String _ _, EmptyString => Gt
  | String x a', String y b' =>
      match N.compare (Ascii.N_of_ascii x) (Ascii.N_of_ascii y) with
      | Eq => str_cmp a' b'
      | c => c
      end
  end.

(** The rank of a BSON type in MongoDB's comparison order. *)
Definition bson_rank (v : jval) : nat :=
  match v with
  | JNull => 1 | JNum _ => 2 | JStr _ => 3 | JObj _ => 4 | JArr _ => 5
  | JOid _ => 7 | JBool _ => 8 | JDate _ => 9
  end.

(** Values of one type compare by value; objects and arrays, which never
    hold a sort key in this program, compare equal among themselves. *)
Definition bson_cmp (a b : jval) : comparison :=
  match a, b with
  | JNum x, JNum y => Z.compare x y
  | JStr x, JStr y => str_cmp x y
  | JOid x, JOid y => N.compare x y
  | JBool x, JBool y => Bool.compare x y
  | JDate x, JDate y => Z.compare x y
  | _, _ => Nat.compare (bson_rank a) (bson_rank b)
  end.

Lemma str_cmp_antisym a b : str_cmp b a = CompOpp (str_cmp a b).
Proof.
  revert b. induction a as [|x a IH]; intros [|y b]; simpl; try done.
  rewrite (N.compare_antisym (Ascii.N_of_ascii x)).
  destruct (N.compare (Ascii.N_of_ascii x) (Ascii.N_of_ascii y)); simpl; auto.
Qed.

Lemma bson_cmp_antisym a b : bson_cmp b a = CompOpp (bson_cmp a b).
Proof.
  destruct a, b; simpl;
    first [ reflexivity | apply Nat.compare_antisym | apply Z.compare_antisym
          | apply str_cmp_antisym | apply N.compare_antisym
          | match goal with |- Bool.compare ?x ?y = _ => by destruct x, y end ].
Qed.

(** ** Filters *)

(** The value at a dotted path ([{'passwordReset.token': t}]). *)
Fixpoint get_path (ks : list string) (d : obj) : option jval :=
  match ks with
  | [] => None
  | [k] => get k d
  | k :: ks' =>
      match get k d with Some (JObj d') => get_path ks' d' | _ => None end
  end.

Definition split_dots (k : string) : list string :=
  map String.string_of_list_ascii
      (foldr (fun c acc => if Ascii.eqb c "."%char then [] :: acc
                          else match acc with [] => [[c]] | w :: acc' => (c :: w) :: acc' end)
             [[]] (String.list_ascii_of_string k)).

(** A comparison operator holds when the field exists, has the type of
    the operand (MongoDB's type bracketing) and compares as asked. *)
Definition op_holds (op : string) (v : option jval) (arg : jval) : bool :=
  match v with
  | None => false
  | Some v =>
      bool_decide (bson_rank v = bson_rank arg) &&
      match op with
      | "$gt" => bool_decide (bson_cmp v arg = Gt)
      | "$gte" => bool_decide (bson_cmp v arg <> Lt)
      | "$lt" => bool_decide (bson_cmp v arg = Lt)
      | "$lte" => bool_decide (bson_cmp v arg <> Gt)
      | _ => false
      end%string
  end.

Definition is_operator (k : string) : bool :=
  match k with String "$" _ => true | _ => false end.

(** One condition of a query: an object of operators ([{ $gte: d }]), or a
    value the field must equal (a missing field equals only [null]). *)
Definition cond_holds (v : option jval) (q : jval) : bool :=
  match q with
  | JObj ops =>
      if bool_decide (ops <> []) && forallb (fun kv => is_operator kv.1) ops
      then forallb (fun kv => op_holds kv.1 v kv.2) ops
      else bool_decide (undef_null v = q)
  | _ => bool_decide (undef_null v = q)
  end.

(** [{k1: q1, ..., kn: qn}] as a query: every condition holds. *)
Definition matches (f : obj) (d : obj) : bool :=
  forallb (fun kv => cond_holds (get_path (split_dots kv.1) d) kv.2) f.

(** [.sort({ k1: -1, k2: -1 })]: descending on [k1], then on [k2], a
    missing field sorting as [null].  The server does not promise an order
    among equal keys; the model takes the stable one, which is one of the
    admissible orders. *)
Definition key_of (key : string) (d : obj) : jval := undef_null (get key d).

Fixpoint keys_cmp (keys : list string) (a b : obj) : comparison :=
  match keys with
  | [] => Eq
  | k :: ks =>
      match bson_cmp (key_of k a) (key_of k b) with
      | Eq => keys_cmp ks a b
      | c => c
      end
  end.

Fixpoint insert_desc (keys : list string) (d : obj) (l : list obj) : list obj :=
  match l with
  | [] => [d]
  | x :: l' =>
      match keys_cmp keys d x with
      | Lt => x :: insert_desc keys d l'
      | _ => d :: x :: l'
      end
  end.

Definition sort_desc (keys : list string) (l : list obj) : list obj :=
  foldr (insert_desc keys) [] l.

(** The order the result of such a sort satisfies, pair by pair. *)
Definition desc_le (keys : list string) (a b : obj) : Prop := keys_cmp keys a b <> Lt.

Lemma keys_cmp_antisym keys a b : keys_cmp keys b a = CompOpp (keys_cmp keys a b).
Proof.
  induction keys as [|k ks IH]; simpl; [done|].
  rewrite (bson_cmp_antisym (key_of k a)).
  destruct (bson_cmp (key_of k a) (key_of k b)); simpl; auto.
Qed.

Lemma insert_desc_perm keys d l : Permutation (insert_desc keys d l) (d :: l).
Proof.
  induction l as [|x l IH]; simpl; [done|].
  destruct (keys_cmp keys d x); try done.
  rewrite IH. apply perm_swap.
Qed.

Lemma sort_desc_perm keys l : Permutation (sort_desc keys l) l.
Proof.
  induction l as [|x l IH]; simpl; [done|].
  rewrite insert_desc_perm. by apply perm_skip.
Qed.

Lemma insert_desc_sorted keys d l :
  Sorted (desc_le keys) l -> Sorted (desc_le keys) (insert_desc keys d l).
Proof.
  unfold desc_le. induction 1 as [|x l Hl IH Hhd]; simpl; [by repeat constructor|].
  destruct (keys_cmp keys d x) eqn:E.
  - constructor; [by constructor|constructor; congruence].
  - constructor; [done|]. destruct l as [|y l]; simpl.
    + constructor. rewrite keys_cmp_antisym, E. done.
    + invc Hhd. destruct (keys_cmp keys d y) eqn:E'; constructor; try done;
        rewrite keys_cmp_antisym, E; done.
  - constructor; [by constructor|constructor; congruence].
Qed.

Lemma sort_desc_sorted keys l : Sorted (desc_le keys) (sort_desc keys l).
Proof. induction l; simpl; [constructor|by apply insert_desc_sorted]. Qed.

(** ** The fields of a [$set], in the order the server applies them
    (MongoDB 5.0 and later apply update operators' fields in
    lexicographic order of their names). *)
Fixpoint insert_key (kv : string * jval) (l : obj) : obj :=
  match l with
  | [] => [kv]
  | kv' :: l' =>
      match str_cmp kv.1 kv'.1 with
      | Gt => kv' :: insert_key kv l'
      | _ => kv :: kv' :: l'
      end
  end.

Definition set_order (upd : obj) : obj := foldr insert_key [] upd.

(** ** Operations *)

Definition find_one (c : cname) (f : obj) (s : db) : option obj :=
  find_first (matches f) (coll c s).

Definition find (c : cname) (f : obj) (s : db) : list obj :=
  filter (fun d => matches f d) (coll c s).

(** [insertOne(doc)]: a document whose [_id] is absent or [null] is given a
    fresh [ObjectId] by the driver, written into the caller's object; the
    server's unique index on [_id] refuses a document whose [_id] is already
    in the collection (error E11000).  The result holds [insertedId] and the
    document as stored. *)
Definition with_id (d : obj) (s : db) : jval * obj * db :=
  let fresh := (JOid (db_next_oid s), set "_id" (JOid (db_next_oid s)) d,
                mkdb (db_trades s) (db_ledger s) (db_users s) (db_next_oid s + 1) (db_clock s) (db_env s)) in
  match get "_id" d with
  | Some JNull | None => fresh
  | Some id => (id, d, s)
  end.

Definition insert_one (c : cname) (d : obj) (s : db) : exn + (jval * obj * db) :=
  let '(id, d', s1) := with_id d s in
  if existsb (fun x => bool_decide (get "_id" x = Some id)) (coll c s)
  then inl (Error "E11000 duplicate key error collection")
  else inr (id, d', set_coll c (coll c s ++ [d']) s1).

(** [updateOne(f, { $set: upd })]: the first matching document gets each
    field of [upd]; changing its [_id] is refused.  The result is
    [matchedCount] and [modifiedCount]. *)
Definition update_one (c : cname) (f upd : obj) (s : db) : exn + (nat * nat * db) :=
  match find_one c f s with
  | None => inr (0, 0, s)
  | Some d =>
      match get "_id" upd with
      | Some id =>
          if bool_decide (get "_id" d = Some id) then
            let d' := spread d (set_order upd) in
            inr (1, (if bool_decide (d' = d) then 0 else 1),
                 set_coll c (replace_first (matches f) d' (coll c s)) s)
          else inl (Error "Performing an update on the path '_id' would modify the immutable field '_id'")
      | None =>
          let d' := spread d (set_order upd) in
          inr (1, (if bool_decide (d' = d) then 0 else 1),
               set_coll c (replace_first (matches f) d' (coll c s)) s)
      end
  end.

(** [deleteOne(f)]: removes the first matching document; the result is
    [deletedCount]. *)
Definition delete_one (c : cname) (f : obj) (s : db) : nat * db :=
  match find_one c f s with
  | None => (0, s)
  | Some _ => (1, set_coll c (remove_first (matches f) (coll c s)) s)
  end.

(** [updateOne(f, { $set: upd, $unset: { k: "" } })]: the fields of
    [uns] are removed after the [$set]; a path in both operators, or the
    [_id] in [$unset], is refused. *)
Definition unset_keys (ks : list string) (d : obj) : obj :=
  filter (fun kv => negb (bool_decide (kv.1 ∈ ks))) d.

Definition update_unset (c : cname) (f upd : obj) (uns : list string) (s : db)
    : exn + (nat * nat * db) :=
  match find_one c f s with
  | None => inr (0, 0, s)
  | Some d =>
      let d' := unset_keys uns (spread d (set_order upd)) in
      let ok := inr (1, (if bool_decide (d' = d) then 0 else 1),
                     set_coll c (replace_first (matches f) d' (coll c s)) s) in
      if existsb (fun k => bool_decide (k ∈ map fst upd)) uns then
        inl (Error "Updating the path would create a conflict")
      else if bool_decide ("_id" ∈ uns) then
        inl (Error "Performing an update on the path '_id' would modify the immutable field '_id'")
      else
        match get "_id" upd with
        | Some id => if bool_decide (get "_id" d = Some id) then ok
                     else inl (Error "Performing an update on the path '_id' would modify the immutable field '_id'")
        | None => ok
        end
  end.

(** The state outside the collections, set by the events that change it. *)
Definition set_env (e : env) (s : db) : db :=
  mkdb (db_trades s) (db_ledger s) (db_users s) (db_next_oid s) (db_clock s) e.
Definition bump_oid (s : db) : db :=
  mkdb (db_trades s) (db_ledger s) (db_users s) (db_next_oid s + 1) (db_clock s) (db_env s).
Definition advance (ms : Z) (s : db) : db :=
  mkdb (db_trades s) (db_ledger s) (db_users s) (db_next_oid s) (db_clock s + ms) (db_env s).

(** ** The well-formedness of the database

    Every document carries an [_id], the [_id]s of a collection are distinct
    (the server's unique index), and no [ObjectId] in the database is one the
    driver will still generate. *)
Definition ids (c : cname) (s : db) : list (option jval) := map (get "_id") (coll c s).

Definition id_ok (n : N) (o : option jval) : Prop :=
  match o with Some (JOid m) => (m < n)%N | Some _ => True | None => False end.

Record db_wf (s : db) : Prop := {
  wf_unique : forall c, NoDup (ids c s);
  wf_ok : forall c, Forall (id_ok (db_next_oid s)) (ids c s)
}.

(** A document a handler inserts carries no [ObjectId] of its own: its
    [_id], if any, comes from a JSON body. *)
Definition no_oid (d : obj) : Prop :=
  match get "_id" d with Some (JOid _) => False | _ => True end.

Lemma coll_set_coll c c' l s :
  coll c (set_coll c' l s) = if decide (c = c') then l else coll c s.
Proof. by destruct c, c'. Qed.

(** The filter [{ _id: id }] of a scalar [id]. *)
Lemma matches_id id d :
  (forall fs, id <> JObj fs) ->
  matches [("_id", id)] d = bool_decide (undef_null (get "_id" d) = id).
Proof.
  intros Hid. unfold matches. simpl. rewrite andb_true_r.
  destruct id; try done. by destruct (Hid fs).
Qed.

Lemma id_ok_mono n n' o : (n <= n')%N -> id_ok n o -> id_ok n' o.
Proof. destruct o as [[]|]; simpl; try done. lia. Qed.

Lemma existsb_id_false l id :
  existsb (fun x => bool_decide (get "_id" x = Some id)) l = false <->
  Some id ∉ map (get "_id") l.
Proof.
  induction l as [|d l IH]; simpl.
  - split; [intros _ ?%elem_of_nil; done|done].
  - rewrite orb_false_iff, IH, elem_of_cons, bool_decide_eq_false. naive_solver.
Qed.

Lemma fresh_not_in l n : Forall (id_ok n) l -> Some (JOid n) ∉ l.
Proof. intros Hl Hin. rewrite Forall_forall in Hl. apply Hl in Hin. simpl in Hin. lia. Qed.

(** Appending a document with a new, valid [_id] keeps the database
    well formed. *)
Lemma wf_append c s s1 d :
  db_wf s -> (forall c', coll c' s1 = coll c' s) -> (db_next_oid s <= db_next_oid s1)%N ->
  id_ok (db_next_oid s1) (get "_id" d) -> get "_id" d ∉ ids c s ->
  db_wf (set_coll c (coll c s ++ [d]) s1).
Proof.
  intros [Hu Hok] Hc Hn Hd Hnew.
  assert (Hn' : db_next_oid (set_coll c (coll c s ++ [d]) s1) = db_next_oid s1) by by destruct c.
  split; intros c'; unfold ids; rewrite ?Hn', coll_set_coll; case_decide; subst;
    rewrite ?Hc, ?map_app.
  - apply NoDup_app. split; [apply Hu|]. split; [|apply NoDup_singleton].
    intros x Hx ->%list_elem_of_singleton. contradiction.
  - apply Hu.
  - apply Forall_app. split; [|by constructor].
    eapply Forall_impl; [apply Hok|]. intros; by eapply id_ok_mono.
  - eapply Forall_impl; [apply Hok|]. intros; by eapply id_ok_mono.
Qed.

(** An insert of a document without [_id] into a well-formed database
    succeeds with the next [ObjectId]. *)
Lemma insert_one_fresh c d s :
  db_wf s -> get "_id" d = None ->
  insert_one c d s =
  inr (JOid (db_next_oid s), set "_id" (JOid (db_next_oid s)) d,
       set_coll c (coll c s ++ [set "_id" (JOid (db_next_oid s)) d])
         (mkdb (db_trades s) (db_ledger s) (db_users s) (db_next_oid s + 1) (db_clock s) (db_env s))).
Proof.
  intros Hwf Hid. unfold insert_one, with_id. rewrite Hid.
  assert (Hf : existsb (fun x => bool_decide (get "_id" x = Some (JOid (db_next_oid s)))) (coll c s)
               = false) by (apply existsb_id_false, fresh_not_in, Hwf).
  by rewrite Hf.
Qed.

Lemma insert_one_wf c d s id d' s' :
  db_wf s -> no_oid d -> insert_one c d s = inr (id, d', s') -> db_wf s'.
Proof.
  intros Hwf Hno. unfold insert_one, with_id, no_oid in *.
  destruct (get "_id" d) as [v|] eqn:Eid;
    [destruct v; try contradiction|];
  match goal with |- context [existsb ?f ?l] => destruct (existsb f l) eqn:Edup end;
    intros; simplify_eq; apply existsb_id_false in Edup;
    apply wf_append; rewrite ?get_set_eq; simpl; try done; try lia;
    first [by destruct 1 | by rewrite Eid].
Qed.

(** The fields of a [$set] are those of the update, reordered. *)
Lemma set_order_perm upd : Permutation (set_order upd) upd.
Proof.
  induction upd as [|kv upd IH]; simpl; [done|].
  transitivity (kv :: set_order upd); [|by constructor].
  clear IH. induction (set_order upd) as [|kv' l IHl]; simpl; [done|].
  destruct (str_cmp kv.1 kv'.1); try done. rewrite IHl. apply perm_swap.
Qed.

(** A [$set] with a well-formed update keeps the document's [_id] when
    the update has none or the same one. *)
Lemma get_id_set d upd :
  obj_wf upd -> get "_id" upd = None \/ get "_id" upd = get "_id" d ->
  get "_id" (spread d (set_order upd)) = get "_id" d.
Proof.
  intros Hwf Hid. pose proof (set_order_perm upd) as Hp.
  rewrite get_spread_wf by (eapply obj_wf_perm; [symmetry; exact Hp|done]).
  rewrite <-(get_perm upd (set_order upd)) by (done || by symmetry).
  destruct Hid as [-> | ->]; [done|]. by destruct (get "_id" d).
Qed.

Lemma ids_replace_first p x y l :
  find_first p l = Some x -> get "_id" y = get "_id" x ->
  map (get "_id") (replace_first p y l) = map (get "_id") l.
Proof.
  intros Hf Hy. destruct (find_first_split p l x Hf) as (l1 & l2 & -> & HF).
  rewrite replace_first_split by (done || by apply find_first_Some in Hf as []).
  rewrite !map_app. simpl. by rewrite Hy.
Qed.

Lemma wf_same_ids c l s :
  db_wf s -> map (get "_id") l = ids c s -> db_wf (set_coll c l s).
Proof.
  intros [Hu Hok] Hl.
  assert (Hn : db_next_oid (set_coll c l s) = db_next_oid s) by by destruct c.
  split; intros c'; unfold ids; rewrite ?Hn, coll_set_coll; case_decide; subst;
    rewrite ?Hl; [apply Hu|apply Hu|apply Hok|apply Hok].
Qed.

Lemma update_one_wf c f upd s m n s' :
  db_wf s -> obj_wf upd -> update_one c f upd s = inr (m, n, s') -> db_wf s'.
Proof.
  intros Hwf Hupd. unfold update_one.
  destruct (find_one c f s) as [d|] eqn:Ef; [|by intros [= <- <- <-]].
  destruct (get "_id" upd) as [id|] eqn:Eid;
    [destruct (decide (get "_id" d = Some id)) as [Hdid|Hdid];
       [rewrite bool_decide_true by done|rewrite bool_decide_false by done]|];
    intros; simplify_eq; apply wf_same_ids; try done;
    apply (ids_replace_first _ d); try done; apply get_id_set; auto.
  right. by rewrite Eid.
Qed.

Lemma delete_one_wf c f s n s' :
  db_wf s -> delete_one c f s = (n, s') -> db_wf s'.
Proof.
  intros [Hu Hok]. unfold delete_one.
  destruct (find_one c f s) as [d|] eqn:Ef; [|intros [=<- <-]; by split].
  intros [=<- <-]. destruct (find_first_split _ _ _ Ef) as (l1 & l2 & Hl & HF).
  assert (Hn : db_next_oid (set_coll c (remove_first (matches f) (coll c s)) s) = db_next_oid s)
    by by destruct c.
  split; intros c'; unfold ids; rewrite ?Hn, coll_set_coll; case_decide; subst;
    try apply Hu; try apply Hok;
    rewrite Hl, remove_first_split by (done || by apply find_first_Some in Ef as []);
    specialize (Hu c); specialize (Hok c); unfold ids in Hu, Hok; rewrite Hl, !map_app in *.
  - apply NoDup_app in Hu as (? & Hd & Hu). apply NoDup_cons in Hu as [_ ?].
    apply NoDup_app. split; [done|]. split; [|done]. intros x Hx1 Hx2. apply (Hd x Hx1). by right.
  - apply Forall_app in Hok as [? Hok]. apply Forall_cons in Hok as [_ ?]. by apply Forall_app.
Qed.

Lemma get_unset k ks d : k ∉ ks -> get k (unset_keys ks d) = get k d.
Proof.
  intros Hk. induction d as [|[k' v'] d IH]; [done|]. unfold unset_keys in *. rewrite filter_cons.
  destruct (decide (k' ∈ ks)) as [Hin|Hin];
    [rewrite bool_decide_true by done|rewrite bool_decide_false by done]; simpl; rewrite IH; [|done].
  destruct (String.eqb_spec k k'); [subst; contradiction|done].
Qed.

Lemma update_unset_wf c f upd uns s m n s' :
  db_wf s -> obj_wf upd -> update_unset c f upd uns s = inr (m, n, s') -> db_wf s'.
Proof.
  intros Hwf Hupd. unfold update_unset.
  destruct (find_one c f s) as [d|] eqn:Ef; [|by intros [= <- <- <-]].
  cbv zeta. destruct (existsb _ uns); [done|].
  destruct (decide ("_id" ∈ uns)) as [Hid|Hid];
    [by rewrite (bool_decide_true ("_id" ∈ uns))|rewrite (bool_decide_false ("_id" ∈ uns)) by done].
  assert (Hkeep : get "_id" upd = None \/ get "_id" upd = get "_id" d ->
            get "_id" (unset_keys uns (spread d (set_order upd))) = get "_id" d)
    by (intros; rewrite get_unset by done; by apply get_id_set).
  destruct (get "_id" upd) as [id|] eqn:Eid;
    [destruct (decide (get "_id" d = Some id)) as [Hdid|Hdid];
       [rewrite (bool_decide_true (get "_id" d = Some id)) by done
       |rewrite (bool_decide_false (get "_id" d = Some id)) by done]|];
    intros; simplify_eq; apply wf_same_ids; try done;
    apply (ids_replace_first _ d); try done; apply Hkeep; auto.
Qed.

Lemma wf_set_env e s : db_wf s -> db_wf (set_env e s).
Proof. intros [Hu Hok]. split; intros []; [apply (Hu Trades)|apply (Hu Ledger)|apply (Hu Users)|apply (Hok Trades)|apply (Hok Ledger)|apply (Hok Users)]. Qed.

Lemma wf_advance ms s : db_wf s -> db_wf (advance ms s).
Proof. intros [Hu Hok]. split; intros []; [apply (Hu Trades)|apply (Hu Ledger)|apply (Hu Users)|apply (Hok Trades)|apply (Hok Ledger)|apply (Hok Users)]. Qed.

Lemma wf_bump_oid s : db_wf s -> db_wf (bump_oid s).
Proof.
  intros [Hu Hok]. split; intros c; [destruct c; [exact (Hu Trades)|exact (Hu Ledger)|exact (Hu Users)]|].
  eapply Forall_impl; [destruct c; [exact (Hok Trades)|exact (Hok Ledger)|exact (Hok Users)]|].
  intros o Ho. eapply id_ok_mono; [|exact Ho]. simpl; lia.
Qed.

(** The compensating delete by [_id] of the document just appended removes
    exactly that document. *)
Lemma not_fresh_match l n :
  Forall (id_ok n) (map (get "_id") l) ->
  Forall (fun y => matches [("_id", JOid n)] y = false) l.
Proof.
  induction l as [|d l IH]; cbn [map]; intros Hl; [done|].
  apply Forall_cons in Hl as [Hd Hl]. constructor; [|by apply IH].
  rewrite matches_id by done. apply bool_decide_eq_false.
  destruct (get "_id" d) as [[]|]; simpl in *; try done. intros [=]. lia.
Qed.

Lemma delete_appended c s l d n :
  coll c s = l ++ [d] -> Forall (id_ok n) (map (get "_id") l) -> get "_id" d = Some (JOid n) ->
  delete_one c [("_id", JOid n)] s = (1, set_coll c l s).
Proof.
  intros Hs Hok Hd. pose proof (not_fresh_match _ _ Hok) as HF.
  assert (Hm : matches [("_id", JOid n)] d = true)
    by (rewrite matches_id by done; apply bool_decide_eq_true; by rewrite Hd).
  unfold delete_one, find_one. rewrite Hs.
  rewrite find_first_app_l by done. cbn [find_first]. rewrite Hm.
  rewrite remove_first_app_l by done. cbn [remove_first]. rewrite Hm, app_nil_r. done.
Qed.

(** The operations on a document found by the filter. *)
Lemma delete_one_found c f s d :
  find_one c f s = Some d ->
  delete_one c f s = (1, set_coll c (remove_first (matches f) (coll c s)) s).
Proof. unfold delete_one. by intros ->. Qed.

Lemma update_one_found c f upd s d :
  find_one c f s = Some d -> get "_id" upd = None ->
  let d' := spread d (set_order upd) in
  update_one c f upd s =
  inr (1, (if bool_decide (d' = d) then 0 else 1),
       set_coll c (replace_first (matches f) d' (coll c s)) s).
Proof. unfold update_one. by intros -> ->. Qed.

(** After [$set], every field of the update has the update's value. *)
Lemma set_fields d upd k v :
  obj_wf upd -> get k upd = Some v -> get k (spread d (set_order upd)) = Some v.
Proof.
  intros Hwf Hk. pose proof (set_order_perm upd) as Hp.
  rewrite get_spread_wf by (eapply obj_wf_perm; [symmetry; exact Hp|done]).
  by rewrite <-(get_perm upd (set_order upd)), Hk by (done || by symmetry).
Qed.

(** A [$set] keeps the fields it does not name. *)
Lemma set_other d upd k :
  obj_wf upd -> get k upd = None -> get k (spread d (set_order upd)) = get k d.
Proof.
  intros Hwf Hk. pose proof (set_order_perm upd) as Hp.
  rewrite get_spread_wf by (eapply obj_wf_perm; [symmetry; exact Hp|done]).
  by rewrite <-(get_perm upd (set_order upd)), Hk by (done || by symmetry).
Qed.

Lemma get_unset_in k ks d : k ∈ ks -> get k (unset_keys ks d) = None.
Proof.
  intros Hk. induction d as [|[k' v'] d IH]; [done|]. unfold unset_keys in *. rewrite filter_cons.
  destruct (decide (k' ∈ ks)) as [Hin|Hin];
    [rewrite bool_decide_true by done|rewrite bool_decide_false by done]; simpl; rewrite ?IH; [done|].
  destruct (String.eqb_spec k k'); [subst; contradiction|done].
Qed.

Lemma update_unset_found c f upd uns s d :
  find_one c f s = Some d -> get "_id" upd = None ->
  existsb (fun k => bool_decide (k ∈ map fst upd)) uns = false -> "_id" ∉ uns ->
  let d' := unset_keys uns (spread d (set_order upd)) in
  update_unset c f upd uns s =
  inr (1, (if bool_decide (d' = d) then 0 else 1),
       set_coll c (replace_first (matches f) d' (coll c s)) s).
Proof.
  intros Hf Hid Hc Hu. unfold update_unset. rewrite Hf. cbv zeta. rewrite Hc.
  by rewrite (bool_decide_false ("_id" ∈ uns)), Hid by done.
Qed.

Lemma find_one_Some c f s d : find_one c f s = Some d -> matches f d = true /\ d ∈ coll c s.
Proof. apply find_first_Some. Qed.

Lemma find_one_None_intro c f s : (forall x, x ∈ coll c s -> matches f x = false) -> find_one c f s = None.
Proof. apply find_first_None_intro. Qed.

Lemma find_one_same_coll c f s s' : coll c s' = coll c s -> find_one c f s' = find_one c f s.
Proof. unfold find_one. by intros ->. Qed.

Lemma find_one_split c f s l1 d l2 :
  coll c s = l1 ++ d :: l2 -> Forall (fun y => matches f y = false) l1 -> matches f d = true ->
  find_one c f s = Some d.
Proof. unfold find_one. intros -> Hl Hd. rewrite find_first_app_l by done. simpl. by rewrite Hd. Qed.

Lemma find_one_Some_split c f s d :
  find_one c f s = Some d ->
  exists l1 l2, coll c s = l1 ++ d :: l2 /\ Forall (fun y => matches f y = false) l1.
Proof. apply find_first_split. Qed.

(** A document that fails the first condition of a filter fails the filter. *)
Lemma matches_head k v f d : matches [(k, v)] d = false -> matches ((k, v) :: f) d = false.
Proof. unfold matches. simpl. rewrite andb_true_r. by intros ->. Qed.

(** In a well-formed database no document before the one with a given
    [ObjectId] has that id. *)
Lemma unique_id_before c s l1 d l2 n :
  db_wf s -> coll c s = l1 ++ d :: l2 -> get "_id" d = Some (JOid n) ->
  Forall (fun y => matches [("_id", JOid n)] y = false) l1.
Proof.
  intros [Hu _] Hc Hd. specialize (Hu c). unfold ids in Hu. rewrite Hc, map_app in Hu.
  apply NoDup_app in Hu as (_ & Hdis & _). apply Forall_forall. intros y Hy.
  rewrite matches_id by done. apply bool_decide_eq_false. intros Hy'.
  apply (Hdis (get "_id" y)).
  - apply list_elem_of_In, in_map, list_elem_of_In, Hy.
  - simpl. apply elem_of_cons. left. rewrite Hd. destruct (get "_id" y); simpl in Hy'; congruence.
Qed.

(** A document that matches some filter makes [findOne] find one. *)
Lemma find_one_exists c f s x :
  x ∈ coll c s -> matches f x = true -> exists d, find_one c f s = Some d.
Proof.
  intros Hx Hm. unfold find_one. destruct (find_first (matches f) (coll c s)) as [d|] eqn:E; [eauto|].
  by rewrite (find_first_None _ _ E x Hx) in Hm.
Qed.

(** The document an update wrote is the one the same filter finds next. *)
Lemma find_one_replaced c f s d d' :
  find_one c f s = Some d -> matches f d' = true ->
  find_one c f (set_coll c (replace_first (matches f) d' (coll c s)) s) = Some d'.
Proof.
  unfold find_one. intros Hf Hm. rewrite coll_set_coll, decide_True by done.
  by eapply find_first_replace.
Qed.

Lemma db_wf_empty n clock e : db_wf (mkdb [] [] [] n clock e).
Proof. split; intros []; simpl; constructor. Qed.
