(* ===== verification/Prog.v ===== *)
(** * Route handlers as programs over database events, run with injected faults

    A handler of the source awaits calls to the driver one after the other,
    and any of them may throw.  [prog A] is the tree of such a computation:
    [Ret a] returns, [Throw x] throws, and [Vis e k] performs the event [e]
    and continues with [k] applied to what the event gave: the error it
    raised ([inl]) or its result ([inr]).  [bind] is [await], [catch] is
    [try]/[catch], and a [catch] that the source places around several
    awaits catches an error from any of them.

    [run] executes a program against a database with a fault script: each
    event that talks to the server takes the next entry of the script
    ([FOk] once the script is exhausted).  A fault is a failure before the
    write ([FFail]), a failure reported after the write was applied
    ([FLost], a lost acknowledgement), or an unacknowledged insert
    ([FUnack]). *)

From stdpp Require Import pretty.
From S2P Require Import Prelude Json Env Mongo.

Inductive event : Type -> Type :=
| EConnect : event unit                                   (* await clientPromise *)
| EFindOne (c : cname) (f : obj) : event (option obj)
| EFind (c : cname) (f : obj) (keys : list string) : event (list obj)
| EInsertOne (c : cname) (d : obj) : event (bool * jval * obj)
| EUpdateOne (c : cname) (f upd : obj) : event (nat * nat)
| EDeleteOne (c : cname) (f : obj) : event nat
| ENow : event Z                                          (* Date.now() *)
| EUpdateUnset (c : cname) (f upd : obj) (uns : list string) : event (nat * nat)
| EFetch (r : request) : event reply                      (* await fetch(...) *)
| ESendMail (m : mail) : event unit                       (* transport.sendMail *)
| ETransport : event bool                                 (* email.ts: if (transporter) *)
| ESetTransport : event unit                              (* transporter = createTransport(...) *)
| ESmtpVerify : event unit                                (* await transporter.verify() *)
| ETestAccount : event unit                               (* await nodemailer.createTestAccount() *)
| EGenToken : event string                                (* generateResetToken() *)
| EGenOTP : event string                                  (* generateOTP() *)
| EHash (pw : string) : event string                      (* await hashPassword(pw) *)
| ESleep (ms : Z) : event unit                            (* await new Promise(r => setTimeout(r, ms)) *)
| ELtpLast : event Z                                      (* read lastRequestTime *)
| ESetLtpLast (t : Z) : event unit                        (* lastRequestTime = t *)
| ENewOid : event N.                                      (* new ObjectId() *)

Inductive prog (A : Type) : Type :=
| Ret (a : A)
| Throw (x : exn)
| Vis {R : Type} (e : event R) (k : exn + R -> prog A).
Arguments Ret {A} a.
Arguments Throw {A} x.
Arguments Vis {A R} e k.

Fixpoint bind {A B} (p : prog A) (f : A -> prog B) : prog B :=
  match p with
  | Ret a => f a
  | Throw x => Throw x
  | Vis e k => Vis e (fun r => bind (k r) f)
  end.

Fixpoint catch {A} (p : prog A) (h : exn -> prog A) : prog A :=
  match p with
  | Ret a => Ret a
  | Throw x => h x
  | Vis e k => Vis e (fun r => catch (k r) h)
  end.

#[export] Instance prog_ret : MRet prog := @Ret.
#[export] Instance prog_bind : MBind prog := fun A B f p => bind p f.

(** [await e]: the event's error is rethrown. *)
Definition call {R} (e : event R) : prog R :=
  Vis e (fun r => match r with inl x => Throw x | inr v => Ret v end).

(** [try { p } catch { return r }], the error itself dropped. *)
Definition attempt {A} (p : prog A) : prog (exn + A) :=
  catch (bind p (fun a => Ret (inr a))) (fun x => Ret (inl x)).

Notation "'try!' p 'catch!' h" := (catch p h)
  (at level 10, p at level 200, h at level 200) : daddy_scope.

(** ** Running a program *)

Inductive fault := FOk | FFail (msg : string) | FLost (msg : string) | FUnack.

(** [@/lib/models/user] is not in the repository: its random token and
    code are drawn from the driver's counter (a fresh value per call), and
    the bcrypt hash is an injective tag of the password. *)
Definition reset_token (n : N) : string := hex_pad 64 n.
Definition otp_code (n : N) : string := pretty (100000 + n mod 900000)%N.
Definition hash_password (pw : string) : string := "$2b$10$" +:+ pw.

(** The result of an event that succeeds at the server. *)
Definition exec {R} (e : event R) (s : db) : exn + (R * db) :=
  match e in event R return exn + (R * db) with
  | EConnect => inr (tt, s)
  | EFindOne c f => inr (find_one c f s, s)
  | EFind c f keys => inr (sort_desc keys (find c f s), s)
  | EInsertOne c d =>
      match insert_one c d s with
      | inl x => inl x
      | inr (id, d', s') => inr (true, id, d', s')
      end
  | EUpdateOne c f upd =>
      match update_one c f upd s with
      | inl x => inl x
      | inr (m, n, s') => inr (m, n, s')
      end
  | EDeleteOne c f => let '(n, s') := delete_one c f s in inr (n, s')
  | ENow => inr (db_clock s, s)
  | EUpdateUnset c f upd uns =>
      match update_unset c f upd uns s with
      | inl x => inl x
      | inr (m, n, s') => inr (m, n, s')
      end
  | EFetch r => inr (env_web (db_env s) r, s)
  | ESendMail m => inr (tt, set_env (set_mail (env_mail (db_env s) ++ [m]) (db_env s)) s)
  | ETransport => inr (env_transport (db_env s), s)
  | ESetTransport => inr (tt, set_env (set_transport true (db_env s)) s)
  | ESmtpVerify | ETestAccount => inr (tt, s)
  | EGenToken => inr (reset_token (db_next_oid s), bump_oid s)
  | EGenOTP => inr (otp_code (db_next_oid s), bump_oid s)
  | EHash pw => inr (hash_password pw, s)
  | ESleep ms => inr (tt, advance ms s)
  | ELtpLast => inr (env_ltp_last (db_env s), s)
  | ESetLtpLast t => inr (tt, set_env (set_ltp_last t (db_env s)) s)
  | ENewOid => inr (db_next_oid s, bump_oid s)
  end.

(** An event that goes to another process (the database, a remote
    service, the mail server) takes a fault; a step of the process itself
    (the clock, module variables, the token generators, hashing) does not. *)
Definition takes_fault {R} (e : event R) : bool :=
  match e with
  | EConnect | EFindOne _ _ | EFind _ _ _ | EInsertOne _ _ | EUpdateOne _ _ _ | EDeleteOne _ _
  | EUpdateUnset _ _ _ _ | EFetch _ | ESendMail _ | ESmtpVerify | ETestAccount => true
  | _ => false
  end.

Definition unack {R} (e : event R) : R -> R :=
  match e in event R return R -> R with
  | EInsertOne _ _ => fun '(_, id, d) => (false, id, d)
  | _ => fun r => r
  end.

(** An event under a fault. *)
Definition handle {R} (e : event R) (ft : fault) (s : db) : (exn + R) * db :=
  match ft, exec e s with
  | FFail msg, _ => (inl (Error msg), s)
  | FLost msg, inr (_, s') => (inl (Error msg), s')
  | FLost _, inl x => (inl x, s)
  | FUnack, inr (r, s') => (inr (unack e r), s')
  | _, inr (r, s') => (inr r, s')
  | _, inl x => (inl x, s)
  end.

Definition next_fault {R} (e : event R) (sc : list fault) : fault * list fault :=
  if takes_fault e then
    match sc with [] => (FOk, []) | f :: sc' => (f, sc') end
  else (FOk, sc).

Fixpoint run {A} (p : prog A) (sc : list fault) (s : db) : (exn + A) * list fault * db :=
  match p with
  | Ret a => (inr a, sc, s)
  | Throw x => (inl x, sc, s)
  | Vis e k =>
      let '(f, sc') := next_fault e sc in
      let '(r, s') := handle e f s in
      run (k r) sc' s'
  end.

(** ** Equations of [run] *)

Lemma run_bind {A B} (p : prog A) (f : A -> prog B) sc s :
  run (bind p f) sc s =
  match run p sc s with
  | (inr a, sc', s') => run (f a) sc' s'
  | (inl x, sc', s') => (inl x, sc', s')
  end.
Proof.
  revert sc s. induction p as [a|x|R e k IH]; intros sc s; simpl; [done|done|].
  destruct (next_fault e sc) as [ft sc']. destruct (handle e ft s) as [r s']. apply IH.
Qed.

Lemma run_catch {A} (p : prog A) h sc s :
  run (catch p h) sc s =
  match run p sc s with
  | (inl x, sc', s') => run (h x) sc' s'
  | r => r
  end.
Proof.
  revert sc s. induction p as [a|x|R e k IH]; intros sc s; simpl; [done|done|].
  destruct (next_fault e sc) as [ft sc']. destruct (handle e ft s) as [r s']. apply IH.
Qed.

Lemma run_mbind {A B} (p : prog A) (f : A -> prog B) sc s :
  run (p ≫= f) sc s =
  match run p sc s with
  | (inr a, sc', s') => run (f a) sc' s'
  | (inl x, sc', s') => (inl x, sc', s')
  end.
Proof. apply run_bind. Qed.

Lemma run_call {R} (e : event R) sc s :
  run (call e) sc s =
  let '(f, sc') := next_fault e sc in
  let '(r, s') := handle e f s in (r, sc', s').
Proof.
  simpl. destruct (next_fault e sc) as [f sc']. by destruct (handle e f s) as [[x|v] s'].
Qed.

Lemma run_attempt {A} (p : prog A) sc s :
  run (attempt p) sc s = let '(r, sc', s') := run p sc s in (inr r, sc', s').
Proof.
  unfold attempt. rewrite run_catch, run_bind. by destruct (run p sc s) as [[[x|a] sc'] s'].
Qed.

#[export] Hint Rewrite @run_bind @run_mbind @run_catch @run_call @run_attempt : daddy_rw.

(** ** Invariants of runs

    A property of the database that every event a program may perform
    preserves, also under every fault, holds after the run.  [events_in P p]
    says that every event of [p] satisfies [P], whatever the earlier events
    returned. *)

Inductive events_in {A} (P : forall R, event R -> Prop) : prog A -> Prop :=
| ev_ret a : events_in P (Ret a)
| ev_throw x : events_in P (Throw x)
| ev_vis {R} (e : event R) k : P R e -> (forall r, events_in P (k r)) -> events_in P (Vis e k).

Lemma events_in_bind {A B} P (p : prog A) (f : A -> prog B) :
  events_in P p -> (forall a, events_in P (f a)) -> events_in P (bind p f).
Proof. induction 1; simpl; intros; [done|constructor|constructor; auto]. Qed.

Lemma events_in_catch {A} P (p : prog A) h :
  events_in P p -> (forall x, events_in P (h x)) -> events_in P (catch p h).
Proof. induction 1; simpl; intros; [constructor|done|constructor; auto]. Qed.

Lemma events_in_call {R} P (e : event R) : P R e -> events_in P (call e).
Proof. intros. constructor; [done|]. intros [x|v]; constructor. Qed.

Lemma events_in_attempt {A} P (p : prog A) : events_in P p -> events_in P (attempt p).
Proof.
  intros. apply events_in_catch; [apply events_in_bind; [done|constructor]|constructor].
Qed.

#[export] Hint Resolve events_in_bind events_in_catch events_in_call events_in_attempt : daddy.
#[export] Hint Constructors events_in : daddy.

Section invariant.
  Context (I : db -> Prop) (P : forall R, event R -> Prop).
  Hypothesis step_ok : forall R (e : event R) f s, P R e -> I s -> I (handle e f s).2.

Lemma run_preserves {A} (p : prog A) sc s :
  events_in P p -> I s -> I (run p sc s).2.
Proof.
  intros Hp. revert sc s. induction Hp as [a|x|R e k He Hk IH]; intros sc s Hs; simpl; [done|done|].
  destruct (next_fault e sc) as [f sc'] eqn:Ef.
  destruct (handle e f s) as [r s'] eqn:Eh. apply IH.
  change s' with (r, s').2. rewrite <-Eh. by apply step_ok.
Qed.
End invariant.

(** A relation between the database before and after, reflexive and
    transitive, that each allowed event establishes, holds across the run. *)
Section relation.
  Context (Rl : db -> db -> Prop) (P : forall R, event R -> Prop).
  Hypothesis Rl_refl : forall s, Rl s s.
  Hypothesis Rl_trans : forall s1 s2 s3, Rl s1 s2 -> Rl s2 s3 -> Rl s1 s3.
  Hypothesis step_rel : forall R (e : event R) f s, P R e -> Rl s (handle e f s).2.

Lemma run_relates {A} (p : prog A) sc s :
  events_in P p -> Rl s (run p sc s).2.
Proof.
  intros Hp. revert sc s. induction Hp as [a|x|R e k He Hk IH]; intros sc s; simpl; [done|done|].
  destruct (next_fault e sc) as [f sc'] eqn:Ef.
  destruct (handle e f s) as [r s'] eqn:Eh.
  apply (Rl_trans _ s'); [|apply IH].
  change s' with (r, s').2. rewrite <-Eh. by apply step_rel.
Qed.
End relation.

(** ** The effect of one event under any fault *)

(** Whatever the fault, the database afterwards is the one before or the
    one the event, succeeding, produces. *)
Lemma handle_state {R} (e : event R) ft s :
  (handle e ft s).2 = s \/ exists r, exec e s = inr (r, (handle e ft s).2).
Proof. unfold handle. destruct ft, (exec e s) as [x|[r s']]; simpl; eauto. Qed.

(** The events of the trade handlers keep the database well formed:
    inserted documents carry no [ObjectId] of their own, and updates are
    JSON objects. *)
Definition wf_event {R} (e : event R) : Prop :=
  match e with
  | EInsertOne _ d => no_oid d
  | EUpdateOne _ _ upd | EUpdateUnset _ _ upd _ => obj_wf upd
  | _ => True
  end.

Lemma exec_wf {R} (e : event R) s r s' :
  wf_event e -> db_wf s -> exec e s = inr (r, s') -> db_wf s'.
Proof.
  destruct e; simpl; intros He Hwf Hx; simplify_eq; try done.
  - destruct (insert_one c d s) as [|[[id d'] s1]] eqn:E; simplify_eq. by eapply insert_one_wf.
  - destruct (update_one c f upd s) as [|[[m n] s1]] eqn:E; simplify_eq. by eapply update_one_wf.
  - destruct (delete_one c f s) as [n s1] eqn:E; simplify_eq. by eapply delete_one_wf.
  - destruct (update_unset c f upd uns s) as [|[[m n] s1]] eqn:E; simplify_eq. by eapply update_unset_wf.
  - by apply wf_set_env.
  - by apply wf_set_env.
  - by apply wf_bump_oid.
  - by apply wf_bump_oid.
  - by apply wf_advance.
  - by apply wf_set_env.
  - by apply wf_bump_oid.
Qed.

Lemma run_wf {A} (p : prog A) sc s :
  events_in (@wf_event) p -> db_wf s -> db_wf (run p sc s).2.
Proof.
  apply run_preserves. intros R e ft s0 He Hs.
  destruct (handle_state e ft s0) as [->|[r Hx]]; [done|]. by eapply exec_wf.
Qed.

(** The events of the trade handlers never update or delete a ledger entry
    and never touch [users]. *)
Definition audit_event {R} (e : event R) : Prop :=
  match e with
  | EInsertOne c _ => c <> Users
  | EUpdateOne c _ _ | EDeleteOne c _ | EUpdateUnset c _ _ _ => c = Trades
  | _ => True
  end.

(** The ledger only grows at its end, and [users] stays as it was. *)
Definition audit_rel (s s' : db) : Prop :=
  db_ledger s `prefix_of` db_ledger s' /\ db_users s' = db_users s.

Lemma exec_audit {R} (e : event R) s r s' :
  audit_event e -> exec e s = inr (r, s') -> audit_rel s s'.
Proof.
  unfold audit_rel. destruct e; simpl; intros He Hx; simplify_eq; try done.
  - destruct (insert_one c d s) as [|[[id d'] s1]] eqn:E; simplify_eq.
    revert E. unfold insert_one, with_id. repeat case_match; intros; simplify_eq;
      destruct c; simpl; try done; split; try done; by eexists.
  - subst. destruct (update_one Trades f upd s) as [|[[m n] s1]] eqn:E; simplify_eq.
    revert E. unfold update_one. repeat case_match; intros; simplify_eq; done.
  - subst. destruct (delete_one Trades f s) as [n s1] eqn:E; simplify_eq.
    revert E. unfold delete_one. repeat case_match; intros; simplify_eq; done.
  - subst. destruct (update_unset Trades f upd uns s) as [|[[m n] s1]] eqn:E; simplify_eq.
    revert E. unfold update_unset. repeat case_match; intros; simplify_eq; done.
  all: done.
Qed.

Lemma run_audit {A} (p : prog A) sc s :
  events_in (@audit_event) p -> audit_rel s (run p sc s).2.
Proof.
  apply run_relates.
  - intros s0. split; done.
  - intros s1 s2 s3 [H1 H1'] [H2 H2']. split; [by etrans|congruence].
  - intros R e ft s0 He. destruct (handle_state e ft s0) as [->|[r Hx]]; [split; done|].
    by eapply exec_audit.
Qed.

(** Proving [events_in] of a handler: through its binds, catches and
    branches, down to the events. *)
Ltac solve_events :=
  repeat first
    [ progress intros
    | apply events_in_bind | apply events_in_catch | apply events_in_attempt
    | apply events_in_call
    | constructor
    | case_match ].

(** With the script exhausted every event succeeds, and the script stays
    empty. *)
Lemma run_script_nil {A} (p : prog A) s : (run p [] s).1.2 = [].
Proof.
  revert s. induction p as [a|x|R e k IH]; intros s; [done|done|]. simpl.
  unfold next_fault. destruct (takes_fault e); destruct (handle e FOk s) as [r s']; apply IH.
Qed.

(** The events of the mail functions: they read the clock and change
    only the world outside the database (the transport and the mails). *)
Definition mail_event {R} (e : event R) : Prop :=
  match e with
  | ETransport | ESetTransport | ESmtpVerify | ETestAccount | ENow | ESendMail _ => True
  | _ => False
  end.

(** Two states with the same collections, clock and id counter. *)
Definition same_data (s s' : db) : Prop :=
  (forall c, coll c s' = coll c s) /\ db_clock s' = db_clock s /\ db_next_oid s' = db_next_oid s.

Lemma run_mail {A} (p : prog A) sc s : events_in (@mail_event) p -> same_data s (run p sc s).2.
Proof.
  apply run_relates.
  - intros s0. by split.
  - intros s1 s2 s3 (H1 & H1' & H1'') (H2 & H2' & H2''). split; [|split]; [|congruence..].
    intros c. by rewrite H2, H1.
  - intros R e ft s0 He. destruct (handle_state e ft s0) as [->|[r Hx]]; [by split|].
    revert Hx. generalize (handle e ft s0).2 as s1. intros s1 Hx.
    destruct e; try contradiction; simpl in Hx; simplify_eq; (split; [by intros []|done]).
Qed.

Lemma events_in_mono {A} (P Q : forall R, event R -> Prop) (p : prog A) :
  (forall R e, P R e -> Q R e) -> events_in P p -> events_in Q p.
Proof. intros HPQ. induction 1; constructor; auto. Qed.

Lemma mail_wf_events {A} (p : prog A) : events_in (@mail_event) p -> events_in (@wf_event) p.
Proof. apply events_in_mono. intros R e. by destruct e. Qed.

(** ** What a program returns

    [rets_in P p]: every value [p] returns satisfies [P], whatever the
    events gave. *)
Inductive rets_in {A} (P : A -> Prop) : prog A -> Prop :=
| rets_ret a : P a -> rets_in P (Ret a)
| rets_throw x : rets_in P (Throw x)
| rets_vis {R} (e : event R) k : (forall r, rets_in P (k r)) -> rets_in P (Vis e k).

Lemma rets_in_bind {A B} (Q : A -> Prop) (P : B -> Prop) (p : prog A) (f : A -> prog B) :
  rets_in Q p -> (forall a, Q a -> rets_in P (f a)) -> rets_in P (bind p f).
Proof. induction 1; simpl; intros; [auto|constructor|constructor; auto]. Qed.

Lemma rets_in_catch {A} (P : A -> Prop) (p : prog A) h :
  rets_in P p -> (forall x, rets_in P (h x)) -> rets_in P (catch p h).
Proof. induction 1; simpl; intros; [by constructor|auto|constructor; auto]. Qed.

Lemma run_rets {A} (P : A -> Prop) (p : prog A) sc s a sc' s' :
  rets_in P p -> run p sc s = (inr a, sc', s') -> P a.
Proof.
  intros Hp. revert sc s. induction Hp as [a0 H|x|R e k Hk IH]; intros sc s; simpl.
  - by intros [= ->].
  - done.
  - destruct (next_fault e sc) as [f sc0]. destruct (handle e f s) as [r s0]. apply IH.
Qed.

Lemma rets_in_True {A} (p : prog A) : rets_in (fun _ => True) p.
Proof. induction p; constructor; auto. Qed.
