(* ===== verification/JsDate.v ===== *)
(** * The JS [Date] operations the code calls, as an interface with an instance

    The code calls [new Date(x).toISOString()] (the ledger's [tradeDate]),
    [new Date().toISOString()] ([updatedAt], [deletedAt]) and compares
    dates.  The JS runtime is not part of the repository, so the handlers are
    proved against the class [DateEnv]: [date_of v] is the time value of
    [new Date(v)] ([None] for an Invalid Date) and [date_iso ms] is
    [toISOString()] of a valid time.  The instance [iso_date_env] implements
    the ISO-8601 forms V8 parses ([YYYY-MM-DD], optionally followed by
    [THH:mm], [:ss], [.sss] and [Z] or an offset [+HH:mm]) with the server's
    local time zone taken as UTC, and prints by the civil-calendar
    algorithm.  Non-ISO strings, which V8 parses heuristically, are Invalid
    Dates in the instance. *)

From S2P Require Import Prelude Json.
From stdpp Require Import pretty.
From Stdlib Require Import Ascii.

Class DateEnv := {
  date_of : option jval -> option Z;
  date_iso : Z -> string;
  date_year : Z -> Z          (* getFullYear() *)
}.

Module IsoDate.
Local Open Scope Z_scope.

(** Days since 1970-01-01 of a proleptic Gregorian date. *)
Definition days_from_civil (y m d : Z) : Z :=
  let y := if (m <=? 2)%Z then y - 1 else y in
  let era := y / 400 in
  let yoe := y - era * 400 in
  let mp := (m + 9) mod 12 in
  let doy := (153 * mp + 2) / 5 + d - 1 in
  let doe := yoe * 365 + yoe / 4 - yoe / 100 + doy in
  era * 146097 + doe - 719468.

(** The date of a day number. *)
Definition civil_from_days (z : Z) : Z * Z * Z :=
  let z := z + 719468 in
  let era := z / 146097 in
  let doe := z - era * 146097 in
  let yoe := (doe - doe / 1460 + doe / 36524 - doe / 146096) / 365 in
  let doy := doe - (365 * yoe + yoe / 4 - yoe / 100) in
  let mp := (5 * doy + 2) / 153 in
  let d := doy - (153 * mp + 2) / 5 + 1 in
  let m := if (mp <? 10)%Z then mp + 3 else mp - 9 in
  ((if (m <=? 2)%Z then yoe + era * 400 + 1 else yoe + era * 400), m, d).

Definition ms_per_day : Z := 86400000.

(** The range of a valid time value: 8.64e15 ms either side of the epoch. *)
Definition time_clip (t : Z) : option Z :=
  if (Z.abs t <=? 8640000000000000)%Z then Some t else None.

(** Printing. *)
Fixpoint pad_digits (k : nat) (n : Z) : string :=
  match k with
  | O => ""
  | S k' => pad_digits k' (n / 10) +:+ String (ascii_of_nat (Z.to_nat (48 + n mod 10))) ""
  end.

Definition year_str (y : Z) : string :=
  if (0 <=? y)%Z && (y <=? 9999)%Z then pad_digits 4 y
  else if (y <? 0)%Z then "-" +:+ pad_digits 6 (- y) else "+" +:+ pad_digits 6 y.

Definition to_iso (t : Z) : string :=
  let '(y, m, d) := civil_from_days (t / ms_per_day) in
  let r := t mod ms_per_day in
  year_str y +:+ "-" +:+ pad_digits 2 m +:+ "-" +:+ pad_digits 2 d +:+ "T" +:+
  pad_digits 2 (r / 3600000) +:+ ":" +:+ pad_digits 2 (r / 60000 mod 60) +:+ ":" +:+
  pad_digits 2 (r / 1000 mod 60) +:+ "." +:+ pad_digits 3 (r mod 1000) +:+ "Z".

(** Parsing. *)
Definition digit (c : ascii) : option Z :=
  let n := Z.of_nat (nat_of_ascii c) in
  if (48 <=? n) && (n <=? 57) then Some (n - 48) else None.

(** Exactly [k] digits. *)
Fixpoint digits (k : nat) (acc : Z) (l : list ascii) : option (Z * list ascii) :=
  match k with
  | O => Some (acc, l)
  | S k' =>
      match l with
      | c :: l' => match digit c with Some v => digits k' (acc * 10 + v) l' | None => None end
      | [] => None
      end
  end.

(** A fraction of a second: one or more digits, the first three kept. *)
Fixpoint frac (k : nat) (acc : Z) (l : list ascii) : Z * list ascii :=
  match l with
  | c :: l' =>
      match digit c with
      | Some v => match k with S k' => frac k' (acc * 10 + v) l' | O => frac O acc l' end%nat
      | None => (acc * 10 ^ Z.of_nat k, l)
      end
  | [] => (acc * 10 ^ Z.of_nat k, [])
  end.

Definition in_range (lo x hi : Z) : bool := (lo <=? x)%Z && (x <=? hi)%Z.

(** The zone suffix: [Z], [+HH:mm], [-HH:mm], or nothing (local time, UTC). *)
Definition zone (l : list ascii) : option Z :=
  match l with
  | [] => Some 0%Z
  | ["Z"%char] => Some 0%Z
  | sgn :: l' =>
      let s := if Ascii.eqb sgn "+"%char then Some 1%Z
               else if Ascii.eqb sgn "-"%char then Some (-1)%Z else None in
      match s, digits 2 0 l' with
      | Some s, Some (hh, ":"%char :: l'') =>
          match digits 2 0 l'' with
          | Some (mm, []) => if in_range 0 hh 23 && in_range 0 mm 59
                             then Some (s * (hh * 60 + mm) * 60000)%Z else None
          | _ => None
          end
      | _, _ => None
      end
  end.

(** [THH:mm], then optionally [:ss] and [.sss]: ms into the day and the rest. *)
Definition time_part (l : list ascii) : option (Z * list ascii) :=
  match digits 2 0 l with
  | Some (hh, ":"%char :: l1) =>
      match digits 2 0 l1 with
      | Some (mi, l2) =>
          let '(ss, ms, l3) :=
            match l2 with
            | ":"%char :: l2' =>
                match digits 2 0 l2' with
                | Some (ss, "."%char :: l4) => let '(ms, l5) := frac 3 0 l4 in (ss, ms, l5)
                | Some (ss, l4) => (ss, 0%Z, l4)
                | None => (99%Z, 0%Z, l2)
                end
            | _ => (0%Z, 0%Z, l2)
            end in
          if in_range 0 hh 23 && in_range 0 mi 59 && in_range 0 ss 59
          then Some (((hh * 60 + mi) * 60 + ss) * 1000 + ms, l3)%Z else None
      | None => None
      end
  | _ => None
  end.

Definition year_of (t : Z) : Z := let '(y, _, _) := civil_from_days (t / ms_per_day) in y.

Definition parse_iso (str : string) : option Z :=
  let l := String.list_ascii_of_string str in
  match digits 4 0 l with
  | Some (y, "-"%char :: l1) =>
      match digits 2 0 l1 with
      | Some (mo, "-"%char :: l2) =>
          match digits 2 0 l2 with
          | Some (d, l3) =>
              if negb (in_range 1 mo 12 && in_range 1 d 31) then None else
              let day := days_from_civil y mo d in
              match l3 with
              | [] => time_clip (day * ms_per_day)
              | "T"%char :: l4 =>
                  match time_part l4 with
                  | Some (t, l5) =>
                      match zone l5 with
                      | Some off => time_clip (day * ms_per_day + t - off)
                      | None => None
                      end
                  | None => None
                  end
              | _ => None
              end
          | None => None
          end
      | _ => None
      end
  | _ => None
  end.

(** [new Date(v)]: a string is parsed, a number is a time value, [null]
    is 0, a boolean is 0 or 1, [undefined] and objects are Invalid Dates. *)
Definition date_of (v : option jval) : option Z :=
  match v with
  | Some (JStr s) => parse_iso s
  | Some (JNum z) => time_clip z
  | Some (JDate z) => time_clip z
  | Some JNull => Some 0%Z
  | Some (JBool b) => Some (if b then 1 else 0)%Z
  | _ => None
  end.

End IsoDate.

#[export] Instance iso_date_env : DateEnv := {|
  date_of := IsoDate.date_of;
  date_iso := IsoDate.to_iso;
  date_year := IsoDate.year_of
|}.

(** What every implementation does with a [Date] argument: a time value
    within the range is kept. *)
Class DateLaws `{DateEnv} := {
  date_of_date z : (Z.abs z <= 8640000000000000)%Z -> date_of (Some (JDate z)) = Some z
}.

#[export] Instance iso_date_laws : DateLaws.
Proof.
  constructor. intros z Hz. cbn [date_of iso_date_env IsoDate.date_of]. unfold IsoDate.time_clip.
  by rewrite (proj2 (Z.leb_le _ _) Hz).
Qed.

Example iso_date_examples :
  IsoDate.date_of (Some (JStr "2025-01-01T10:00:00Z")) = Some 1735725600000%Z /\
  IsoDate.to_iso 1735725600000 = "2025-01-01T10:00:00.000Z" /\
  IsoDate.date_of (Some (JStr "2025-06-26T09:15:00+05:30")) = Some 1750909500000%Z /\
  IsoDate.date_of (Some (JStr "garbage")) = None.
Proof. vm_compute. auto. Qed.
