(* ===== verification/JsonText.v ===== *)
(** * [JSON.stringify] and [JSON.parse] on the values of [Json]

    The handlers and the client send [JSON.stringify] of their bodies and
    read replies with [response.json()] or [JSON.parse].  [jtext] is
    [JSON.stringify] without indentation (strings escaped as ECMA-262's
    QuoteJSONString does, an [ObjectId] as its hex string, a [Date] as its
    ISO string); [parse] is [JSON.parse] (RFC 8259 grammar, whitespace
    between tokens, duplicate keys resolved as [JSON.parse] does: the last
    value at the first position).  Numbers are the integers of [jval]: a
    number text with a fraction or an exponent is read when its value is an
    integer, and refused otherwise.  The parser recurses with fuel, which
    the length of the text always bounds. *)

From S2P Require Import Prelude Json JsDate.
From Stdlib Require Import Ascii NArith DecimalN.

Module JsonText.

Definition DQ : ascii := Ascii false true false false false true false false.
Definition BS : ascii := "\"%char.

(** ** Numbers *)

Fixpoint uint_chars (u : Decimal.uint) : list ascii :=
  match u with
  | Decimal.Nil => []
  | Decimal.D0 u => "0"%char :: uint_chars u
  | Decimal.D1 u => "1"%char :: uint_chars u
  | Decimal.D2 u => "2"%char :: uint_chars u
  | Decimal.D3 u => "3"%char :: uint_chars u
  | Decimal.D4 u => "4"%char :: uint_chars u
  | Decimal.D5 u => "5"%char :: uint_chars u
  | Decimal.D6 u => "6"%char :: uint_chars u
  | Decimal.D7 u => "7"%char :: uint_chars u
  | Decimal.D8 u => "8"%char :: uint_chars u
  | Decimal.D9 u => "9"%char :: uint_chars u
  end.

Definition is_digit (c : ascii) : bool :=
  let n := nat_of_ascii c in (48 <=? n)%nat && (n <=? 57)%nat.

(** The digits of a span of digit characters. *)
Fixpoint chars_uint (l : list ascii) : Decimal.uint :=
  match l with
  | [] => Decimal.Nil
  | c :: l' =>
      let u := chars_uint l' in
      match (nat_of_ascii c - 48)%nat with
      | 0 => Decimal.D0 u | 1 => Decimal.D1 u | 2 => Decimal.D2 u | 3 => Decimal.D3 u
      | 4 => Decimal.D4 u | 5 => Decimal.D5 u | 6 => Decimal.D6 u | 7 => Decimal.D7 u
      | 8 => Decimal.D8 u | _ => Decimal.D9 u
      end
  end.

Fixpoint span_digits (l : list ascii) : list ascii * list ascii :=
  match l with
  | c :: l' => if is_digit c then let '(d, r) := span_digits l' in (c :: d, r) else ([], l)
  | [] => ([], [])
  end.

Definition show_N (n : N) : list ascii := uint_chars (N.to_uint n).

(** [String(n)] of an integer. *)
Definition show_Z (z : Z) : list ascii :=
  if (z <? 0)%Z then "-"%char :: show_N (Z.to_N (- z)) else show_N (Z.to_N z).

Definition digits_N (l : list ascii) : N := N.of_uint (chars_uint l).

(** [m * 10^e] when it is an integer. *)
Definition scale (m : Z) (e : Z) : option Z :=
  if (0 <=? e)%Z then Some (m * 10 ^ e)%Z
  else if (m mod 10 ^ (- e) =? 0)%Z then Some (m / 10 ^ (- e))%Z else None.

(** [-? (0 | [1-9][0-9]* ) (. [0-9]+)? ([eE] [+-]? [0-9]+)?] *)
Definition pnumber (l : list ascii) : option (Z * list ascii) :=
  let '(neg, l1) := match l with "-"%char :: r => (true, r) | _ => (false, l) end in
  let '(ds, l2) := span_digits l1 in
  match ds with
  | [] => None
  | "0"%char :: _ :: _ => None
  | _ =>
      let '(fs, l3, okf) :=
        match l2 with
        | "."%char :: r => let '(fs, r') := span_digits r in (fs, r', bool_decide (fs <> []))
        | _ => ([], l2, true)
        end in
      let '(ex, l4, oke) :=
        match l3 with
        | c :: r =>
            if Ascii.eqb c "e" || Ascii.eqb c "E" then
              let '(sg, r1) := match r with
                               | "-"%char :: r1 => ((-1)%Z, r1) | "+"%char :: r1 => (1%Z, r1)
                               | _ => (1%Z, r) end in
              let '(es, r2) := span_digits r1 in
              ((sg * Z.of_N (digits_N es))%Z, r2, bool_decide (es <> []))
            else (0%Z, l3, true)
        | [] => (0%Z, l3, true)
        end in
      if okf && oke then
        let m := Z.of_N (digits_N (ds ++ fs)) in
        match scale m (ex - Z.of_nat (length fs)) with
        | Some z => Some ((if neg then - z else z)%Z, l4)
        | None => None
        end
      else None
  end.

(** ** Strings *)

Definition hexl (n : nat) : ascii :=
  ascii_of_nat (if (n <? 10)%nat then 48 + n else 87 + n).

(** One byte of a string in QuoteJSONString. *)
Definition esc_char (c : ascii) : list ascii :=
  let n := nat_of_ascii c in
  if Ascii.eqb c DQ then [BS; DQ]
  else if Ascii.eqb c BS then [BS; BS]
  else if (n =? 8)%nat then [BS; "b"%char]
  else if (n =? 9)%nat then [BS; "t"%char]
  else if (n =? 10)%nat then [BS; "n"%char]
  else if (n =? 12)%nat then [BS; "f"%char]
  else if (n =? 13)%nat then [BS; "r"%char]
  else if (n <? 32)%nat then [BS; "u"%char; "0"%char; "0"%char; hexl (n / 16); hexl (n mod 16)]
  else [c].

Definition quote (l : list ascii) : list ascii := DQ :: flat_map esc_char l ++ [DQ].

Definition hex_val (c : ascii) : option N :=
  let n := N_of_ascii c in
  if (48 <=? n)%N && (n <=? 57)%N then Some (n - 48)%N
  else if (97 <=? n)%N && (n <=? 102)%N then Some (n - 87)%N
  else if (65 <=? n)%N && (n <=? 70)%N then Some (n - 55)%N else None.

Definition hex4 (a b c d : ascii) : option N :=
  match hex_val a, hex_val b, hex_val c, hex_val d with
  | Some a, Some b, Some c, Some d => Some (((a * 16 + b) * 16 + c) * 16 + d)%N
  | _, _, _, _ => None
  end.

(** The bytes of a code point: UTF-8, a lone surrogate taking the three
    bytes of its value. *)
Definition utf8 (cp : N) : list ascii :=
  if (cp <? 128)%N then [ascii_of_N cp]
  else if (cp <? 2048)%N then [ascii_of_N (192 + cp / 64); ascii_of_N (128 + cp mod 64)]
  else if (cp <? 65536)%N then
    [ascii_of_N (224 + cp / 4096); ascii_of_N (128 + (cp / 64) mod 64); ascii_of_N (128 + cp mod 64)]
  else [ascii_of_N (240 + cp / 262144); ascii_of_N (128 + (cp / 4096) mod 64);
        ascii_of_N (128 + (cp / 64) mod 64); ascii_of_N (128 + cp mod 64)].

Definition simple_escape (e : ascii) : option ascii :=
  if Ascii.eqb e DQ then Some DQ
  else if Ascii.eqb e BS then Some BS
  else if Ascii.eqb e "/" then Some "/"%char
  else if Ascii.eqb e "b" then Some (ascii_of_nat 8)
  else if Ascii.eqb e "t" then Some (ascii_of_nat 9)
  else if Ascii.eqb e "n" then Some (ascii_of_nat 10)
  else if Ascii.eqb e "f" then Some (ascii_of_nat 12)
  else if Ascii.eqb e "r" then Some (ascii_of_nat 13)
  else None.

Definition cons_opt (c : list ascii) (o : option (list ascii * list ascii)) :=
  match o with Some (s, r) => Some (c ++ s, r) | None => None end.

(** The characters of a string literal after its opening quote, and the
    text after its closing quote.  [\uD8xx\uDCxx] is one code point. *)
Fixpoint pstring (l : list ascii) : option (list ascii * list ascii) :=
  match l with
  | [] => None
  | c :: r =>
      if Ascii.eqb c DQ then Some ([], r) else
      if Ascii.eqb c BS then
        match r with
        | e :: r' =>
            if Ascii.eqb e "u" then
              match r' with
              | a :: b :: c1 :: d :: r'' =>
                  match hex4 a b c1 d with
                  | Some cp =>
                      if (55296 <=? cp)%N && (cp <=? 56319)%N then
                        match r'' with
                        | s1 :: s2 :: a' :: b' :: c' :: d' :: r3 =>
                            match hex4 a' b' c' d' with
                            | Some lo =>
                                if Ascii.eqb s1 BS && Ascii.eqb s2 "u" && (56320 <=? lo)%N && (lo <=? 57343)%N
                                then cons_opt (utf8 (65536 + (cp - 55296) * 1024 + (lo - 56320))) (pstring r3)
                                else cons_opt (utf8 cp) (pstring r'')
                            | None => cons_opt (utf8 cp) (pstring r'')
                            end
                        | _ => cons_opt (utf8 cp) (pstring r'')
                        end
                      else cons_opt (utf8 cp) (pstring r'')
                  | None => None
                  end
              | _ => None
              end
            else match simple_escape e with Some x => cons_opt [x] (pstring r') | None => None end
        | [] => None
        end
      else if (nat_of_ascii c <? 32)%nat then None else cons_opt [c] (pstring r)
  end.

(** ** Values *)

Definition is_ws (c : ascii) : bool :=
  let n := nat_of_ascii c in (n =? 32)%nat || (n =? 9)%nat || (n =? 10)%nat || (n =? 13)%nat.

Fixpoint skip_ws (l : list ascii) : list ascii :=
  match l with c :: r => if is_ws c then skip_ws r else l | [] => [] end.

(** The value at the start of the text (after whitespace) and the text
    after it.  [pelems] reads the elements of an array after its [[] and
    [pmembers] the members of an object after its [{], the values read so
    far accumulated. *)
Fixpoint pvalue (n : nat) (l : list ascii) : option (jval * list ascii) :=
  match n with
  | O => None
  | S n' =>
      match skip_ws l with
      | "n"%char :: "u"%char :: "l"%char :: "l"%char :: r => Some (JNull, r)
      | "t"%char :: "r"%char :: "u"%char :: "e"%char :: r => Some (JBool true, r)
      | "f"%char :: "a"%char :: "l"%char :: "s"%char :: "e"%char :: r => Some (JBool false, r)
      | "["%char :: r =>
          match skip_ws r with
          | "]"%char :: r' => Some (JArr [], r')
          | _ => pelems n' [] r
          end
      | "{"%char :: r =>
          match skip_ws r with
          | "}"%char :: r' => Some (JObj [], r')
          | _ => pmembers n' [] r
          end
      | c :: r =>
          if Ascii.eqb c DQ then
            match pstring r with
            | Some (s, r') => Some (JStr (String.string_of_list_ascii s), r')
            | None => None
            end
          else match pnumber (c :: r) with Some (z, r') => Some (JNum z, r') | None => None end
      | [] => None
      end
  end
with pelems (n : nat) (acc : list jval) (l : list ascii) : option (jval * list ascii) :=
  match n with
  | O => None
  | S n' =>
      match pvalue n' l with
      | Some (v, r) =>
          match skip_ws r with
          | ","%char :: r' => pelems n' (acc ++ [v]) r'
          | "]"%char :: r' => Some (JArr (acc ++ [v]), r')
          | _ => None
          end
      | None => None
      end
  end
with pmembers (n : nat) (acc : obj) (l : list ascii) : option (jval * list ascii) :=
  match n with
  | O => None
  | S n' =>
      match skip_ws l with
      | c :: r =>
          if Ascii.eqb c DQ then
            match pstring r with
            | Some (k, r1) =>
                match skip_ws r1 with
                | ":"%char :: r2 =>
                    match pvalue n' r2 with
                    | Some (v, r3) =>
                        let acc' := set (String.string_of_list_ascii k) v acc in
                        match skip_ws r3 with
                        | ","%char :: r4 => pmembers n' acc' r4
                        | "}"%char :: r4 => Some (JObj acc', r4)
                        | _ => None
                        end
                    | None => None
                    end
                | _ => None
                end
            | None => None
            end
          else None
      | [] => None
      end
  end.

(** [JSON.parse(text)]: one value, then only whitespace; [None] where
    [JSON.parse] throws a [SyntaxError] (or the number is not an
    integer). *)
Definition parse (t : string) : option jval :=
  let l := String.list_ascii_of_string t in
  match pvalue (S (length l)) l with
  | Some (v, r) => match skip_ws r with [] => Some v | _ => None end
  | None => None
  end.

(** The texts separated by commas. *)
Fixpoint join (l : list (list ascii)) : list ascii :=
  match l with
  | [] => []
  | [x] => x
  | x :: l' => x ++ ","%char :: join l'
  end.

Section text.
Context `{DateEnv}.

Fixpoint jtext (v : jval) : list ascii :=
  match v with
  | JNull => String.list_ascii_of_string "null"
  | JBool true => String.list_ascii_of_string "true"
  | JBool false => String.list_ascii_of_string "false"
  | JNum z => show_Z z
  | JStr s => quote (String.list_ascii_of_string s)
  | JOid n => quote (String.list_ascii_of_string (oid_hex n))
  | JDate z => quote (String.list_ascii_of_string (date_iso z))
  | JArr xs => "["%char :: join (map jtext xs) ++ ["]"%char]
  | JObj fs =>
      "{"%char :: join (map (fun kv => quote (String.list_ascii_of_string kv.1) ++ ":"%char :: jtext kv.2) fs)
        ++ ["}"%char]
  end.

(** [JSON.stringify(v)]. *)
Definition stringify (v : jval) : string := String.string_of_list_ascii (jtext v).

End text.

(** ** [JSON.parse] inverts [JSON.stringify] *)

Section roundtrip.
Context `{DE : DateEnv}.

Definition stop (r : list ascii) : Prop :=
  match r with [] => True | c :: _ => c = ","%char \/ c = "]"%char \/ c = "}"%char end.

Fixpoint jneed (v : jval) : nat :=
  match v with
  | JArr xs => S (foldr (fun m acc => S (max m acc)) 0 (map jneed xs))
  | JObj fs => S (foldr (fun m acc => S (max m acc)) 0 (map (fun kv => jneed kv.2) fs))
  | _ => 1
  end.

Definition start_chars : list ascii :=
  ["n"; "t"; "f"; DQ; "["; "{"; "-"; "0"; "1"; "2"; "3"; "4"; "5"; "6"; "7"; "8"; "9"]%char.

Definition member (kv : string * jval) : list ascii :=
  quote (String.list_ascii_of_string kv.1) ++ ":"%char :: jtext kv.2.

Definition roundtrips (v : jval) : Prop :=
  forall n r, jneed v <= n -> stop r -> pvalue n (jtext v ++ r) = Some (v, r).

Lemma pstring_esc c t : pstring (esc_char c ++ t) = cons_opt [c] (pstring t).
Proof. destruct c as [[] [] [] [] [] [] [] []]; reflexivity. Qed.

Lemma pstring_quote l r : pstring (flat_map esc_char l ++ DQ :: r) = Some (l, r).
Proof.
  induction l as [|c l IH]; [done|]. cbn [flat_map]. rewrite <-app_assoc, pstring_esc, IH. done.
Qed.

Lemma span_digits_stop r : stop r -> span_digits r = ([], r).
Proof. destruct r as [|c r]; [done|]. by intros [-> | [-> | ->]]. Qed.

Lemma span_uint u r : stop r -> span_digits (uint_chars u ++ r) = (uint_chars u, r).
Proof. intros Hr. induction u; simpl; rewrite ?IHu; [by apply span_digits_stop|..]; done. Qed.

Lemma chars_uint_chars u : chars_uint (uint_chars u) = u.
Proof. induction u; simpl; by rewrite ?IHu. Qed.

Lemma nzhead_len x : length (uint_chars (Decimal.nzhead x)) <= length (uint_chars x).
Proof. induction x; simpl; lia. Qed.

Lemma to_uint_lead n x : N.to_uint n = Decimal.D0 x -> x = Decimal.Nil.
Proof.
  intros E. pose proof (DecimalN.Unsigned.to_of (N.to_uint n)) as H.
  rewrite DecimalN.Unsigned.of_to, E in H. unfold Decimal.unorm in H. simpl in H.
  destruct (Decimal.nzhead x) eqn:Ez; try (by injection H);
    pose proof (nzhead_len x) as Hl; rewrite Ez in Hl; rewrite <-H in Hl; simpl in Hl; lia.
Qed.


Lemma span_cons c l d r : is_digit c = true -> span_digits l = (d, r) -> span_digits (c :: l) = (c :: d, r).
Proof. intros Hc Hl. simpl. by rewrite Hc, Hl. Qed.

Lemma pnumber_digits (b : bool) c ds r :
  is_digit c = true -> span_digits (ds ++ r) = (ds, r) -> (c = "0"%char -> ds = []) -> stop r ->
  pnumber ((if b then ["-"%char] else []) ++ c :: ds ++ r) =
  Some (if b then Z.opp (Z.of_N (digits_N (c :: ds))) else Z.of_N (digits_N (c :: ds)), r).
Proof.
  intros Hc Hs H0 Hr. pose proof (span_cons _ _ _ _ Hc Hs) as Hs'.
  destruct r as [|c' r']; [|destruct Hr as [-> | [-> | ->]]];
  destruct c as [[] [] [] [] [] [] [] []]; try discriminate Hc;
  destruct b; cbn [app]; cbn -[span_digits digits_N app]; rewrite Hs';
  try (rewrite H0 by done); cbn -[digits_N]; rewrite ?app_nil_r, ?Z.sub_0_r; unfold scale; simpl;
  rewrite ?Z.mul_1_r; try done.
Qed.

Lemma to_uint_not_nil n : N.to_uint n <> Decimal.Nil.
Proof.
  intros E. pose proof (DecimalN.Unsigned.to_of (N.to_uint n)) as H.
  rewrite DecimalN.Unsigned.of_to, E in H. discriminate H.
Qed.

Lemma show_N_cons n :
  exists c ds, show_N n = c :: ds /\ is_digit c = true /\ (c = "0"%char -> ds = []).
Proof.
  unfold show_N. pose proof (to_uint_not_nil n).
  destruct (N.to_uint n) eqn:E; try done; simpl; do 2 eexists; (split; [done|]); split; try done;
    intros [=]; by rewrite (to_uint_lead n _ E).
Qed.

Lemma digits_show_N n : digits_N (show_N n) = n.
Proof. unfold digits_N, show_N. by rewrite chars_uint_chars, DecimalN.Unsigned.of_to. Qed.

Lemma pnumber_show_N (b : bool) n r :
  stop r ->
  pnumber ((if b then ["-"%char] else []) ++ show_N n ++ r) =
  Some (if b then Z.opp (Z.of_N n) else Z.of_N n, r).
Proof.
  intros Hr. destruct (show_N_cons n) as (c & ds & E & Hc & H0).
  pose proof (span_uint (N.to_uint n) r Hr) as Hs.
  change (uint_chars (N.to_uint n)) with (show_N n) in Hs. rewrite E in Hs. simpl in Hs.
  rewrite Hc in Hs. destruct (span_digits (ds ++ r)) eqn:Hs'. injection Hs as <- <-.
  rewrite E, <-app_comm_cons, pnumber_digits by done. by rewrite <-E, digits_show_N.
Qed.

Lemma pnumber_show_Z z r : stop r -> pnumber (show_Z z ++ r) = Some (z, r).
Proof.
  intros Hr. unfold show_Z. destruct (Z.ltb_spec z 0).
  - change (("-"%char :: show_N (Z.to_N (- z))) ++ r)
      with ((if true then ["-"%char] else []) ++ show_N (Z.to_N (- z)) ++ r).
    rewrite pnumber_show_N by done. f_equal. f_equal. lia.
  - change (show_N (Z.to_N z) ++ r) with ((if false then ["-"%char] else []) ++ show_N (Z.to_N z) ++ r).
    rewrite pnumber_show_N by done. f_equal. f_equal. lia.
Qed.

Lemma pvalue_open_arr n c t : c ∈ start_chars -> pvalue (S n) ("["%char :: c :: t) = pelems n [] (c :: t).
Proof. intros Hc. unfold start_chars in Hc. repeat (apply elem_of_cons in Hc as [->|Hc]; [reflexivity|]). by apply elem_of_nil in Hc. Qed.

Lemma pvalue_num_head n c t :
  c ∈ ["-"; "0"; "1"; "2"; "3"; "4"; "5"; "6"; "7"; "8"; "9"]%char ->
  pvalue (S n) (c :: t) = match pnumber (c :: t) with Some (z, r') => Some (JNum z, r') | None => None end.
Proof. intros Hc. repeat (apply elem_of_cons in Hc as [->|Hc]; [reflexivity|]). by apply elem_of_nil in Hc. Qed.

Lemma show_Z_head z : exists c t, show_Z z = c :: t /\ c ∈ ["-"; "0"; "1"; "2"; "3"; "4"; "5"; "6"; "7"; "8"; "9"]%char.
Proof.
  unfold show_Z. destruct (z <? 0)%Z; [by do 2 eexists; split; [|left]|].
  destruct (show_N_cons (Z.to_N z)) as (c & ds & -> & Hc & _). exists c, ds. split; [done|].
  destruct c as [[] [] [] [] [] [] [] []]; try discriminate Hc; set_solver.
Qed.

Lemma pvalue_show_Z n z r : stop r -> pvalue (S n) (show_Z z ++ r) = Some (JNum z, r).
Proof.
  intros Hr. pose proof (pnumber_show_Z z r Hr) as Hp.
  destruct (show_Z_head z) as (c & t & E & Hc). rewrite E in Hp |- *. cbn [app] in *.
  by rewrite pvalue_num_head, Hp.
Qed.

Lemma is_json_arr xs : is_json (JArr xs) = true <-> Forall (fun x => is_json x = true) xs.
Proof.
  induction xs as [|x xs IH]; simpl; [split; constructor|].
  rewrite andb_true_iff, Forall_cons. simpl in IH. by rewrite IH.
Qed.

Lemma is_json_objs fs :
  is_json (JObj fs) = true <-> NoDup (map fst fs) /\ Forall (fun kv => is_json kv.2 = true) fs.
Proof.
  simpl. rewrite andb_true_iff, bool_decide_eq_true. f_equiv.
  induction fs as [|kv fs IH]; simpl; [split; constructor|].
  rewrite andb_true_iff, Forall_cons. by rewrite IH.
Qed.

Lemma pelems_S n acc l :
  pelems (S n) acc l =
  match pvalue n l with
  | Some (v, r) =>
      match skip_ws r with
      | ","%char :: r' => pelems n (acc ++ [v]) r'
      | "]"%char :: r' => Some (JArr (acc ++ [v]), r')
      | _ => None
      end
  | None => None
  end.
Proof. reflexivity. Qed.

Lemma pelems_next n acc l v r' :
  pvalue n l = Some (v, ","%char :: r') -> pelems (S n) acc l = pelems n (acc ++ [v]) r'.
Proof. intros H. by rewrite pelems_S, H. Qed.

Lemma pelems_last n acc l v r' :
  pvalue n l = Some (v, "]"%char :: r') -> pelems (S n) acc l = Some (JArr (acc ++ [v]), r').
Proof. intros H. by rewrite pelems_S, H. Qed.

Lemma join_cons a l : join (a :: l) = a ++ match l with [] => [] | _ => ","%char :: join l end.
Proof. destruct l; simpl; by rewrite ?app_nil_r. Qed.

Lemma pelems_join xs acc n r :
  Forall roundtrips xs -> xs <> [] ->
  foldr (fun m acc => S (max m acc)) 0 (map jneed xs) <= n ->
  pelems n acc (join (map jtext xs) ++ "]"%char :: r) = Some (JArr (acc ++ xs), r).
Proof.
  induction xs as [|x xs IH] in acc, n |- *; intros Hrt Hne Hn; [done|].
  apply Forall_cons in Hrt as [Hx Hrt]. simpl in Hn. destruct n as [|n]; [lia|].
  rewrite map_cons, join_cons. destruct xs as [|y xs].
  - rewrite app_nil_r. apply pelems_last, Hx; simpl; [lia|by right; left].
  - rewrite <-app_assoc. simpl app at 2. erewrite pelems_next; [|apply Hx; simpl; [lia|by left]].
    rewrite IH by (simpl in *; done || lia). by rewrite <-app_assoc.
Qed.

Lemma skip_ws_cons c t : is_ws c = false -> skip_ws (c :: t) = c :: t.
Proof. simpl. by intros ->. Qed.

Lemma quote_app l t : quote l ++ t = DQ :: flat_map esc_char l ++ DQ :: t.
Proof. unfold quote. simpl. by rewrite <-app_assoc. Qed.

Lemma pmembers_member n acc k l :
  pmembers (S n) acc (quote (String.list_ascii_of_string k) ++ ":"%char :: l) =
  match pvalue n l with
  | Some (v, r3) =>
      let acc' := set k v acc in
      match skip_ws r3 with
      | ","%char :: r4 => pmembers n acc' r4
      | "}"%char :: r4 => Some (JObj acc', r4)
      | _ => None
      end
  | None => None
  end.
Proof.
  rewrite quote_app. cbn [pmembers]. rewrite skip_ws_cons by done. cbn beta iota.
  rewrite Ascii.eqb_refl, pstring_quote. cbn beta iota. rewrite skip_ws_cons by done. cbn beta iota.
  by rewrite String.string_of_list_ascii_of_string.
Qed.

Lemma set_notin k v acc : k ∉ map fst acc -> set k v acc = acc ++ [(k, v)].
Proof.
  induction acc as [|[k' v'] acc IH]; simpl; [done|]. intros Hk.
  destruct (String.eqb_spec k k') as [->|]; [set_solver|]. rewrite IH by set_solver. done.
Qed.

Lemma join_cons_ne a l : l <> [] -> join (a :: l) = a ++ ","%char :: join l.
Proof. by destruct l. Qed.

Lemma pmembers_join fs acc n r :
  Forall (fun kv => roundtrips kv.2) fs -> fs <> [] -> NoDup (map fst (acc ++ fs)) ->
  foldr (fun m acc => S (max m acc)) 0 (map (fun kv => jneed kv.2) fs) <= n ->
  pmembers n acc (join (map member fs) ++ "}"%char :: r) = Some (JObj (acc ++ fs), r).
Proof.
  induction fs as [|[k v] fs IH] in acc, n |- *; intros Hrt Hne Hnd Hn; [done|].
  apply Forall_cons in Hrt as [Hx Hrt]. simpl in Hn. destruct n as [|n]; [lia|].
  assert (Hk : k ∉ map fst acc).
  { rewrite map_app in Hnd. apply NoDup_app in Hnd as (_ & Hd & _). intros Hin. apply (Hd k Hin). simpl. left. }
  destruct fs as [|kv' fs].
  - change (join (map member [(k, v)])) with (member (k, v)). unfold member.
    rewrite <-app_assoc. cbn [app]. rewrite pmembers_member.
    rewrite Hx by (simpl; first [lia | by right; right]). cbn beta iota zeta.
    rewrite skip_ws_cons by done. cbn beta iota. by rewrite set_notin.
  - rewrite map_cons, join_cons_ne by done. unfold member at 1.
    rewrite <-!app_assoc. cbn [app]. rewrite pmembers_member.
    rewrite Hx by (simpl; first [lia | by left]). cbn beta iota zeta.
    rewrite skip_ws_cons by done. cbn beta iota.
    rewrite set_notin by done. rewrite IH; [by rewrite <-app_assoc|done|done| |simpl in *; lia].
    by rewrite <-app_assoc.
Qed.


Lemma pvalue_open_obj n t : pvalue (S n) ("{"%char :: DQ :: t) = pmembers n [] (DQ :: t).
Proof. reflexivity. Qed.

Lemma pvalue_str n t :
  pvalue (S n) (DQ :: t) =
  match pstring t with Some (s, r') => Some (JStr (String.string_of_list_ascii s), r') | None => None end.
Proof. reflexivity. Qed.

Lemma jtext_start v : is_json v = true -> exists c t, jtext v = c :: t /\ c ∈ start_chars.
Proof.
  destruct v as [| [] | z | s | xs | fs | n | ms]; intros Hj; try discriminate Hj; cbn [jtext];
    try (do 2 eexists; split; [reflexivity|unfold start_chars; set_solver]).
  destruct (show_Z_head z) as (c & t & -> & Hc). exists c, t. split; [done|].
  unfold start_chars. set_solver.
Qed.

Lemma Forall_roundtrips {A} (f : A -> jval) (l : list A) :
  Forall (fun x => is_json (f x) = true -> roundtrips (f x)) l -> Forall (fun x => is_json (f x) = true) l ->
  Forall (fun x => roundtrips (f x)) l.
Proof. intros H1 H2. induction H1; [done|]. apply Forall_cons in H2 as []. constructor; auto. Qed.

Lemma jtext_roundtrips v : is_json v = true -> roundtrips v.
Proof.
  induction v as [| b | z | s | xs IH | fs IH | n | ms] using jval_ind';
    intros Hj n' r Hn Hr; (destruct n' as [|n']; [cbn in Hn; lia|]); try discriminate Hj.
  - reflexivity.
  - by destruct b.
  - by apply pvalue_show_Z.
  - cbn [jtext]. rewrite quote_app, pvalue_str, pstring_quote. by rewrite String.string_of_list_ascii_of_string.
  - cbn [jtext app]. rewrite <-app_assoc. cbn [app]. destruct xs as [|x xs']; [reflexivity|].
    apply is_json_arr in Hj. pose proof (Forall_roundtrips id _ IH Hj) as Hrt.
    destruct (jtext_start x) as (c & t & Ex & Hc); [by apply Forall_cons in Hj as []|].
    assert (HL : exists t', join (map jtext (x :: xs')) ++ "]"%char :: r = c :: t')
      by (rewrite map_cons, join_cons, Ex; eexists; reflexivity).
    destruct HL as [t' HL]. rewrite HL, pvalue_open_arr by done. rewrite <-HL.
    apply pelems_join; [done|done|simpl in Hn |- *; lia].
  - cbn [jtext app]. rewrite <-app_assoc. cbn [app]. destruct fs as [|kv fs']; [reflexivity|].
    apply is_json_objs in Hj as [Hnd Hj]. pose proof (Forall_roundtrips snd _ IH Hj) as Hrt.
    change (map (fun kv => quote (String.list_ascii_of_string kv.1) ++ ":"%char :: jtext kv.2) (kv :: fs'))
      with (map member (kv :: fs')).
    assert (HL : exists t', join (map member (kv :: fs')) ++ "}"%char :: r = DQ :: t')
      by (rewrite map_cons, join_cons; unfold member at 1; rewrite quote_app; eexists; reflexivity).
    destruct HL as [t' HL]. rewrite HL, pvalue_open_obj. rewrite <-HL.
    apply (pmembers_join _ []); [done|done|done|simpl in Hn |- *; lia].
Qed.

(** The fuel the parser needs is at most the length of the text. *)
Lemma foldr_max_sum l : foldr (fun m acc => S (max m acc)) 0 l <= sum_list_with S l.
Proof. induction l; simpl; lia. Qed.

Lemma join_length ls : sum_list_with (fun l => S (length l)) ls <= S (length (join ls)).
Proof.
  induction ls as [|x [|y ls] IH]; [simpl; lia|simpl; lia|].
  rewrite join_cons_ne by done. simpl in *. rewrite length_app. simpl. lia.
Qed.

Lemma sum_list_with_le {A} (f g : A -> nat) l :
  Forall (fun x => f x <= g x) l -> sum_list_with f l <= sum_list_with g l.
Proof. induction 1; simpl; lia. Qed.

Lemma sum_list_with_map {A} (f : A -> nat) l : sum_list_with S (map f l) = sum_list_with (fun x => S (f x)) l.
Proof. induction l; simpl; lia. Qed.

Lemma jneed_length v : is_json v = true -> jneed v <= length (jtext v).
Proof.
  induction v as [| b | z | s | xs IH | fs IH | n | ms] using jval_ind'; intros Hj; try discriminate Hj.
  - cbn. lia.
  - destruct b; cbn; lia.
  - destruct (show_Z_head z) as (c & t & E & _). cbn [jtext jneed]. rewrite E. simpl. lia.
  - cbn [jtext jneed quote]. simpl. lia.
  - apply is_json_arr in Hj. cbn [jtext jneed]. rewrite length_cons, length_app. cbn [length].
    pose proof (foldr_max_sum (map jneed xs)) as H1. rewrite sum_list_with_map in H1.
    pose proof (join_length (map jtext xs)) as H2.
    assert (H3 : sum_list_with (fun x => S (jneed x)) xs <= sum_list_with (fun l => S (length l)) (map jtext xs)).
    { clear H1 H2. induction IH as [|x xs Hx IH' IHl]; [done|]. apply Forall_cons in Hj as [Hj1 Hj2].
      cbn [sum_list_with map]. specialize (Hx Hj1). specialize (IHl Hj2). lia. }
    lia.
  - apply is_json_objs in Hj as [_ Hj]. cbn [jtext jneed]. rewrite length_cons, length_app. cbn [length].
    pose proof (foldr_max_sum (map (fun kv => jneed kv.2) fs)) as H1. rewrite sum_list_with_map in H1.
    pose proof (join_length (map (fun kv => quote (String.list_ascii_of_string kv.1) ++ ":"%char :: jtext kv.2) fs)) as H2.
    assert (H3 : sum_list_with (fun kv => S (jneed kv.2)) fs <=
                 sum_list_with (fun l => S (length l))
                   (map (fun kv => quote (String.list_ascii_of_string kv.1) ++ ":"%char :: jtext kv.2) fs)).
    { clear H1 H2. induction IH as [|kv fs Hx IH' IHl]; [done|]. apply Forall_cons in Hj as [Hj1 Hj2].
      cbn [sum_list_with map]. specialize (Hx Hj1). specialize (IHl Hj2).
      rewrite length_app. cbn [length]. lia. }
    lia.
Qed.

(** [JSON.parse(JSON.stringify(v))] gives back [v] for every JSON value. *)
Theorem parse_stringify v : is_json v = true -> parse (stringify v) = Some v.
Proof.
  intros Hj. unfold parse, stringify. rewrite String.list_ascii_of_string_of_list_ascii.
  pose proof (jneed_length v Hj) as Hl.
  rewrite <-(app_nil_r (jtext v)), (jtext_roundtrips v Hj); [done|rewrite app_nil_r; lia|done].
Qed.

End roundtrip.

End JsonText.
