(* ===== verification/Url.v ===== *)
(** * URLs: [encodeURIComponent] and [URLSearchParams.get]

    The code builds query strings by hand ([`...?token=${t}&email=
    ${encodeURIComponent(email)}`] in the password-reset route,
    [`...?email=${encodeURIComponent(email)}&token=...`] in the client)
    and reads them with [new URL(request.url).searchParams.get(k)].
    [encodeURIComponent] percent-encodes every byte of the UTF-8 text but
    the unreserved characters; [search_params] is the
    application/x-www-form-urlencoded parser of the URL standard (split on
    [&], then on the first [=], [+] read as a space, [%XX] decoded);
    [get_param] the first value of a name.  The query is the part of the
    URL after the first [?] and before the first [#]. *)

From S2P Require Import Prelude Json JsDate JsonText.

Definition hexU (n : nat) : ascii := ascii_of_nat (if (n <? 10)%nat then 48 + n else 55 + n).

Definition is_unreserved (c : ascii) : bool :=
  let n := nat_of_ascii c in
  ((48 <=? n) && (n <=? 57)) || ((65 <=? n) && (n <=? 90)) || ((97 <=? n) && (n <=? 122)) ||
  existsb (Ascii.eqb c) (String.list_ascii_of_string "-_.!~*'()").

Definition encode_char (c : ascii) : list ascii :=
  if is_unreserved c then [c]
  else let n := nat_of_ascii c in ["%"%char; hexU (n / 16); hexU (n mod 16)].

Definition encodeURIComponent (s : string) : string :=
  String.string_of_list_ascii (flat_map encode_char (String.list_ascii_of_string s)).

(** Percent-decoding, with [+] as a space; a [%] not followed by two hex
    digits stays as it is. *)
Fixpoint form_decode (l : list ascii) : list ascii :=
  match l with
  | [] => []
  | c :: r =>
      if Ascii.eqb c "%" then
        match r with
        | a :: b :: r' =>
            match JsonText.hex_val a, JsonText.hex_val b with
            | Some x, Some y => ascii_of_N (x * 16 + y) :: form_decode r'
            | _, _ => c :: form_decode r
            end
        | _ => c :: form_decode r
        end
      else if Ascii.eqb c "+" then " "%char :: form_decode r
      else c :: form_decode r
  end.

(** The characters that delimit a query, or read as a space. *)
Definition url_special : list ascii := ["&"; "#"; "="; "?"; "+"]%char.

(** The pieces of a text between the separators. *)
Fixpoint split_on (sep : ascii) (l : list ascii) : list (list ascii) :=
  match l with
  | [] => [[]]
  | c :: r =>
      if Ascii.eqb c sep then [] :: split_on sep r
      else match split_on sep r with
           | w :: ws => (c :: w) :: ws
           | [] => [[c]]
           end
  end.

Fixpoint after_char (t : ascii) (l : list ascii) : option (list ascii) :=
  match l with
  | [] => None
  | c :: r => if Ascii.eqb c t then Some r else after_char t r
  end.

(** One [name=value] pair; a piece without [=] has the empty value. *)
Definition form_pair (piece : list ascii) : string * string :=
  (String.string_of_list_ascii (form_decode (before_char "=" piece)),
   String.string_of_list_ascii (form_decode (default [] (after_char "=" piece)))).

(** The pairs of a query, empty pieces skipped. *)
Definition search_params (query : list ascii) : list (string * string) :=
  map form_pair (filter (fun p => bool_decide (p <> [])) (split_on "&" query)).

(** The query of a URL. *)
Definition url_query (url : string) : list ascii :=
  match after_char "?" (String.list_ascii_of_string url) with
  | Some q => before_char "#" q
  | None => []
  end.

(** [new URL(url).searchParams.get(k)]. *)
Definition get_param (k : string) (url : string) : option string :=
  snd <$> find_first (fun kv => String.eqb kv.1 k) (search_params (url_query url)).

(** ** Reading back what was encoded *)

Lemma form_decode_encode_char c r : form_decode (encode_char c ++ r) = c :: form_decode r.
Proof. destruct c as [[] [] [] [] [] [] [] []]; reflexivity. Qed.

Lemma form_decode_encode l : form_decode (flat_map encode_char l) = l.
Proof.
  induction l as [|c l IH]; [done|]. cbn [flat_map]. by rewrite form_decode_encode_char, IH.
Qed.

Lemma encode_char_safe c : forallb (fun x => negb (existsb (Ascii.eqb x) url_special)) (encode_char c) = true.
Proof. destruct c as [[] [] [] [] [] [] [] []]; reflexivity. Qed.

Lemma encode_not_special t l : t ∈ url_special -> t ∉ flat_map encode_char l.
Proof.
  intros Ht Hin. apply list_elem_of_In, in_flat_map in Hin as (c & _ & Hc).
  pose proof (encode_char_safe c) as Hs. apply forallb_forall with (x := t) in Hs; [|done].
  apply negb_true_iff in Hs.
  assert (existsb (Ascii.eqb t) url_special = true)
    by (apply existsb_exists; exists t; split; [by apply list_elem_of_In|apply Ascii.eqb_refl]).
  congruence.
Qed.

Lemma before_char_none t a : t ∉ a -> before_char t a = a.
Proof.
  induction a as [|c a IH]; intros Ht; [done|]. simpl.
  destruct (Ascii.eqb_spec c t) as [->|]; [set_solver|]. rewrite IH by set_solver. done.
Qed.

Lemma before_char_app t a b : t ∉ a -> before_char t (a ++ t :: b) = a.
Proof.
  induction a as [|c a IH]; intros Ht; simpl; [by rewrite Ascii.eqb_refl|].
  destruct (Ascii.eqb_spec c t) as [->|]; [set_solver|]. rewrite IH by set_solver. done.
Qed.

Lemma after_char_app t a b : t ∉ a -> after_char t (a ++ t :: b) = Some b.
Proof.
  induction a as [|c a IH]; intros Ht; simpl; [by rewrite Ascii.eqb_refl|].
  destruct (Ascii.eqb_spec c t) as [->|]; [set_solver|]. apply IH. set_solver.
Qed.

Lemma split_on_none sep a : sep ∉ a -> split_on sep a = [a].
Proof.
  induction a as [|c a IH]; intros Ht; [done|]. simpl.
  destruct (Ascii.eqb_spec c sep) as [->|]; [set_solver|]. rewrite IH by set_solver. done.
Qed.

Lemma split_on_app sep a b : sep ∉ a -> split_on sep (a ++ sep :: b) = a :: split_on sep b.
Proof.
  induction a as [|c a IH]; intros Ht; simpl; [by rewrite Ascii.eqb_refl|].
  destruct (Ascii.eqb_spec c sep) as [->|]; [set_solver|]. rewrite IH by set_solver. done.
Qed.

Lemma form_decode_plain l : "%"%char ∉ l -> "+"%char ∉ l -> form_decode l = l.
Proof.
  induction l as [|c l IH]; intros H1 H2; [done|]. simpl.
  destruct (Ascii.eqb_spec c "%") as [->|]; [set_solver|].
  destruct (Ascii.eqb_spec c "+") as [->|]; [set_solver|]. rewrite IH by set_solver. done.
Qed.

(** A value with none of the delimiters, [%] or [+], reads as itself. *)
Definition plain (l : list ascii) : Prop := Forall (fun c => c ∉ "%"%char :: url_special) l.

Definition plainb (l : list ascii) : bool :=
  forallb (fun c => negb (existsb (Ascii.eqb c) ("%"%char :: url_special))) l.

Lemma plainb_plain l : plainb l = true -> plain l.
Proof.
  unfold plainb, plain. rewrite forallb_forall, Forall_forall. intros H c Hc Hin.
  specialize (H c (proj1 (list_elem_of_In _ _) Hc)). apply negb_true_iff in H.
  assert (existsb (Ascii.eqb c) ("%"%char :: url_special) = true)
    by (apply existsb_exists; exists c; split; [by apply list_elem_of_In|apply Ascii.eqb_refl]).
  congruence.
Qed.

Lemma notin_existsb t l : existsb (Ascii.eqb t) l = false -> t ∉ l.
Proof.
  intros H Hin. assert (existsb (Ascii.eqb t) l = true)
    by (apply existsb_exists; exists t; split; [by apply list_elem_of_In|apply Ascii.eqb_refl]).
  congruence.
Qed.

Lemma plain_app a b : plain a -> plain b -> plain (a ++ b).
Proof. apply Forall_app_2. Qed.

Lemma plain_not t l : t ∈ "%"%char :: url_special -> plain l -> t ∉ l.
Proof. intros Ht Hl Hin. unfold plain in Hl. rewrite Forall_forall in Hl. by apply (Hl t Hin). Qed.

(** A value that ends neither its pair nor the query. *)
Definition vclean (v : list ascii) : Prop := "&"%char ∉ v /\ "#"%char ∉ v.

Lemma encode_clean l : vclean (flat_map encode_char l).
Proof. split; apply encode_not_special; set_solver. Qed.

Lemma plain_clean l : plain l -> vclean l.
Proof. intros Hl. split; (eapply plain_not; [set_solver|done]). Qed.

(** The two parameters of [?k1=v1&k2=v2] read back as the decoded values. *)
Lemma get_param_two_gen base k1 v1 k2 v2 :
  "?"%char ∉ base -> plain k1 -> plain k2 -> k1 <> k2 -> vclean v1 -> vclean v2 ->
  let url := String.string_of_list_ascii (base ++ "?"%char :: k1 ++ "="%char :: v1 ++ "&"%char :: k2 ++ "="%char :: v2) in
  get_param (String.string_of_list_ascii k1) url = Some (String.string_of_list_ascii (form_decode v1)) /\
  get_param (String.string_of_list_ascii k2) url = Some (String.string_of_list_ascii (form_decode v2)).
Proof.
  intros Hb Hk1 Hk2 Hne [A1 H1] [A2 H2] url.
  assert (Hq : url_query url = k1 ++ "="%char :: v1 ++ "&"%char :: k2 ++ "="%char :: v2).
  { unfold url_query, url. rewrite String.list_ascii_of_string_of_list_ascii, after_char_app by done.
    apply before_char_none. rewrite !elem_of_app, !elem_of_cons.
    pose proof (plain_not "#" k1) as A. pose proof (plain_not "#" k2) as C. set_solver. }
  assert (Hs : search_params (url_query url) =
               [(String.string_of_list_ascii k1, String.string_of_list_ascii (form_decode v1));
                (String.string_of_list_ascii k2, String.string_of_list_ascii (form_decode v2))]).
  { rewrite Hq. unfold search_params.
    rewrite (app_comm_cons _ _ "="%char), app_assoc, split_on_app.
    2:{ rewrite elem_of_app, elem_of_cons. pose proof (plain_not "&" k1) as A. set_solver. }
    rewrite split_on_none.
    2:{ rewrite elem_of_app, elem_of_cons. pose proof (plain_not "&" k2) as A. set_solver. }
    rewrite filter_cons_True by (by destruct k1). rewrite filter_cons_True by (by destruct k2).
    rewrite filter_nil. cbn [map]. unfold form_pair.
    rewrite !before_char_app, !after_char_app
      by (first [apply (plain_not "=" k1) | apply (plain_not "=" k2)]; [set_solver|done]).
    cbn [default]. rewrite !(form_decode_plain k1), !(form_decode_plain k2)
      by (eapply plain_not; [set_solver|done]). done. }
  unfold get_param. rewrite Hs. cbn [find_first fst]. rewrite String.eqb_refl. split; [done|].
  destruct (String.eqb_spec (String.string_of_list_ascii k1) (String.string_of_list_ascii k2)) as [E|].
  - exfalso. apply Hne. rewrite <-(String.list_ascii_of_string_of_list_ascii k1), E.
    apply String.list_ascii_of_string_of_list_ascii.
  - by rewrite String.eqb_refl.
Qed.

(** The two parameters of [?k1=v1&k2=encodeURIComponent(v2)] read back
    as [v1] and [v2]. *)
Lemma get_param_two base k1 v1 k2 v2 :
  "?"%char ∉ base -> plain k1 -> plain v1 -> plain k2 -> k1 <> k2 ->
  let url := String.string_of_list_ascii
               (base ++ "?"%char :: k1 ++ "="%char :: v1 ++ "&"%char :: k2 ++ "="%char ::
                flat_map encode_char (String.list_ascii_of_string v2)) in
  get_param (String.string_of_list_ascii k1) url = Some (String.string_of_list_ascii v1) /\
  get_param (String.string_of_list_ascii k2) url = Some v2.
Proof.
  intros Hb Hk1 Hv1 Hk2 Hne url.
  destruct (get_param_two_gen base k1 v1 k2 (flat_map encode_char (String.list_ascii_of_string v2)))
    as [A B]; [done..|by apply plain_clean|apply encode_clean|].
  rewrite form_decode_plain in A by (eapply plain_not; [set_solver|done]).
  rewrite form_decode_encode, String.string_of_list_ascii_of_string in B. by split.
Qed.

(** Both values encoded: [?k1=encodeURIComponent(v1)&k2=encodeURIComponent(v2)]. *)
Lemma get_param_two_encoded base k1 v1 k2 v2 :
  "?"%char ∉ base -> plain k1 -> plain k2 -> k1 <> k2 ->
  let url := String.string_of_list_ascii
               (base ++ "?"%char :: k1 ++ "="%char :: flat_map encode_char (String.list_ascii_of_string v1) ++
                "&"%char :: k2 ++ "="%char :: flat_map encode_char (String.list_ascii_of_string v2)) in
  get_param (String.string_of_list_ascii k1) url = Some v1 /\ get_param (String.string_of_list_ascii k2) url = Some v2.
Proof.
  intros Hb Hk1 Hk2 Hne url.
  destruct (get_param_two_gen base k1 (flat_map encode_char (String.list_ascii_of_string v1)) k2
              (flat_map encode_char (String.list_ascii_of_string v2))) as [A B]; [done..|apply encode_clean|apply encode_clean|].
  rewrite form_decode_encode, String.string_of_list_ascii_of_string in A, B. by split.
Qed.


(** ** Queries of several pairs *)

(** [k1=v1&k2=v2&...]. *)
Fixpoint build_query (kvs : list (list ascii * list ascii)) : list ascii :=
  match kvs with
  | [] => []
  | [(k, v)] => k ++ "="%char :: v
  | (k, v) :: kvs' => k ++ "="%char :: v ++ "&"%char :: build_query kvs'
  end.

Definition good_pair (kv : list ascii * list ascii) : Prop := plain kv.1 /\ kv.1 <> [] /\ vclean kv.2.

Lemma build_query_no_amp kv :
  good_pair kv -> "&"%char ∉ kv.1 ++ "="%char :: kv.2.
Proof.
  intros (Hk & _ & [Ha _]). rewrite elem_of_app, elem_of_cons.
  pose proof (plain_not "&" kv.1) as A. set_solver.
Qed.

(** The pairs of such a query read back, values decoded. *)
Lemma search_params_build kvs :
  kvs <> [] -> Forall good_pair kvs ->
  search_params (build_query kvs) =
    map (fun kv => (String.string_of_list_ascii kv.1, String.string_of_list_ascii (form_decode kv.2))) kvs.
Proof.
  unfold search_params. induction kvs as [|[k v] kvs IH]; intros Hne Hg; [done|].
  apply Forall_cons in Hg as [Hkv Hg]. pose proof (build_query_no_amp (k, v) Hkv) as Hamp.
  destruct Hkv as (Hk & Hk0 & Hv).
  assert (Hpair : form_pair (k ++ "="%char :: v) =
                  (String.string_of_list_ascii k, String.string_of_list_ascii (form_decode v))).
  { unfold form_pair. rewrite before_char_app, after_char_app by (eapply plain_not; [set_solver|done]).
    cbn [default]. rewrite (form_decode_plain k) by (eapply plain_not; [set_solver|done]). done. }
  destruct kvs as [|kv' kvs'].
  - simpl build_query. rewrite split_on_none by done.
    rewrite filter_cons_True by (by destruct k). simpl. by rewrite Hpair.
  - replace (build_query ((k, v) :: kv' :: kvs')) with ((k ++ "="%char :: v) ++ "&"%char :: build_query (kv' :: kvs'))
      by (destruct kv'; simpl; by rewrite <-app_assoc).
    rewrite split_on_app by done. rewrite filter_cons_True by (by destruct k).
    cbn [map]. rewrite Hpair, IH by done. done.
Qed.

Lemma get_param_build k url kvs :
  url_query url = build_query kvs -> kvs <> [] -> Forall good_pair kvs ->
  get_param k url = (fun kv => String.string_of_list_ascii (form_decode kv.2)) <$>
                      find_first (fun kv => String.eqb (String.string_of_list_ascii kv.1) k) kvs.
Proof.
  intros Hq Hne Hg. unfold get_param. rewrite Hq, search_params_build by done.
  clear. induction kvs as [|[k' v] kvs IH]; [done|]. simpl. by destruct (String.eqb _ k).
Qed.
