(* ===== verification/Validator.v ===== *)
(** * [validateTrade] of [src/app/models/Trade]

    The model file is imported by both trade routes but is not in the
    repository, so the validator is modelled from the spec (section 4.2):
    a pure function of the payload returning [{ valid, errors }], which
    checks that the payload is an object, that the identity and owner
    fields [id] and [userId] are present, and the presence and primitive
    type of [symbol], [side], [quantity], [price] and [timestamp], the two
    numbers being non-negative.  It checks nothing across fields, and in
    particular not that [timestamp] is a date. *)

From S2P Require Import Prelude Json.

Record validation := { valid : bool; errors : list string }.

Definition check_string (o : obj) (k : string) : list string :=
  match get k o with
  | Some (JStr s) => if String.eqb s "" then [k +:+ " is required"] else []
  | Some _ => [k +:+ " must be a string"]
  | None => [k +:+ " is required"]
  end.

Definition check_amount (o : obj) (k : string) : list string :=
  match get k o with
  | Some (JNum z) => if (z <? 0)%Z then [k +:+ " must be non-negative"] else []
  | Some _ => [k +:+ " must be a number"]
  | None => [k +:+ " is required"]
  end.

Definition validateTrade (t : jval) : validation :=
  match t with
  | JObj o =>
      let errs := check_string o "id" ++ check_string o "userId" ++ check_string o "symbol" ++
                  check_string o "side" ++ check_amount o "quantity" ++ check_amount o "price" ++
                  check_string o "timestamp" in
      {| valid := bool_decide (errs = []); errors := errs |}
  | _ => {| valid := false; errors := ["Trade must be an object"] |}
  end.

(** What a payload the validator accepts has: an object with a non-empty
    string [userId]. *)
Lemma validateTrade_valid t :
  valid (validateTrade t) = true ->
  exists o u, t = JObj o /\ get "userId" o = Some (JStr u) /\ u <> ""%string.
Proof.
  destruct t as [| | | | |o| |]; simpl; try done.
  rewrite bool_decide_eq_true. intros Herr. exists o.
  unfold check_string at 2 in Herr.
  destruct (get "userId" o) as [[| | |u| | | |]|]; simpl in Herr;
    repeat (apply app_nil in Herr as [? Herr]); try discriminate.
  destruct (String.eqb_spec u ""); [discriminate|]. eauto.
Qed.
