(* ===== verification/Ledger.v ===== *)
(** * [src/app/lib/mongodb.ts]: the connection helper and the ledger

    [extractDatabaseName] is the pure function that picks the database name
    out of the connection string with the regular expression
    [/\/([^\/?]+)(\?|$)/]; [extractDatabaseName] below is the leftmost-match
    scan that expression performs.  [connectToDatabase] awaits the shared
    client promise and wraps its error.  [saveTradeToLedger] is the ledger
    append every trade mutation goes through: it refuses a trade without a
    truthy [userId] before any await, derives [tradeDate] from the trade's
    timestamp, inserts the entry, checks the acknowledgement, and wraps any
    error of these steps.  [getUserLedger] reads a user's entries by a date
    range.  The connection string is the section variable [uri]
    ([process.env.MONGODB_URI], which the module requires at load). *)

From S2P Require Import Prelude Json Mongo Prog JsDate.
From Stdlib Require Import Ascii.

(** ** [extractDatabaseName] *)

Definition is_name_char (c : ascii) : bool :=
  negb (Ascii.eqb c "/"%char || Ascii.eqb c "?"%char).

(** The longest prefix of name characters, and the rest: the greedy
    [[^\/?]+]. *)
Fixpoint span_name (l : list ascii) : list ascii * list ascii :=
  match l with
  | c :: l' => if is_name_char c then let '(w, r) := span_name l' in (c :: w, r) else ([], l)
  | [] => ([], [])
  end.

(** The expression tried at each position from the left: a ['/'], then the
    greedy run, which must be followed by ['?'] or the end.  Backtracking
    to a shorter run cannot help, since a shorter run is followed by a name
    character. *)
Fixpoint scan_db_name (l : list ascii) : option (list ascii) :=
  match l with
  | [] => None
  | c :: l' =>
      if Ascii.eqb c "/"%char then
        match span_name l' with
        | (c1 :: w, r) =>
            match r with
            | [] => Some (c1 :: w)
            | c2 :: _ => if Ascii.eqb c2 "?"%char then Some (c1 :: w) else scan_db_name l'
            end
        | ([], _) => scan_db_name l'
        end
      else scan_db_name l'
  end.

Definition extractDatabaseName (uri : option string) : option string :=
  match uri with
  | None => None
  | Some u => option_map String.string_of_list_ascii (scan_db_name (String.list_ascii_of_string u))
  end.

Definition default_db_name : string := "idaddy_vedaai".

Section ledger.
Context `{DateEnv} (uri : string).

Definition connectToDatabase : prog string :=
  catch (bind (call EConnect) (fun _ =>
           Ret (match extractDatabaseName (Some uri) with
                | Some n => n | None => default_db_name end)))
        (fun err => Throw (Error ("Unable to connect to database: " +:+ exn_message err))).

(** [str.split('T')[0]]. *)
Definition before_T (s : string) : string := split_first "T"%char s.

(** The ledger entry of a trade at time [now]. *)
Definition ledger_entry (trade : obj) (tradeDate : string) (now : Z) : obj :=
  [("userId", undef_null (get "userId" trade));
   ("tradeDate", JStr tradeDate);
   ("tradeId", undef_null (get "id" trade));
   ("trade", JObj trade);
   ("createdAt", JDate now)].

(** [saveTradeToLedger(trade)]; the result is [ledgerId]. *)
Definition saveTradeToLedger (trade : obj) : prog jval :=
  if negb (truthy (get "userId" trade)) then
    Throw (Error "User ID is required for saving to ledger")
  else
    catch
      (bind connectToDatabase (fun _ =>
       bind (match date_of (get "timestamp" trade) with
             | Some ms => Ret (before_T (date_iso ms))
             | None => Throw (RangeError "Invalid time value")
             end) (fun tradeDate =>
       bind (call ENow) (fun now =>
       bind (call (EInsertOne Ledger (ledger_entry trade tradeDate now))) (fun '(ack, id, _) =>
       if negb ack then Throw (Error "Ledger entry was not acknowledged by the database")
       else Ret id)))))
      (fun err => Throw (Error ("Failed to save trade " +:+ to_js_string (get "id" trade) +:+
                                " to ledger: " +:+ exn_message err))).

(** [getUserLedger(userId, startDate?, endDate?)]. *)
Definition ledger_query (userId : string) (startDate endDate : option string) : obj :=
  let range := (if truthy (JStr <$> startDate) then [("$gte", JStr (default "" startDate))] else []) ++
               (if truthy (JStr <$> endDate) then [("$lte", JStr (default "" endDate))] else []) in
  if truthy (JStr <$> startDate) || truthy (JStr <$> endDate)
  then [("userId", JStr userId); ("tradeDate", JObj range)]
  else [("userId", JStr userId)].

Definition getUserLedger (userId : string) (startDate endDate : option string) : prog (list obj) :=
  if String.eqb userId "" then Throw (Error "User ID is required for fetching ledger")
  else
    catch
      (bind connectToDatabase (fun _ =>
         call (EFind Ledger (ledger_query userId startDate endDate) ["tradeDate"; "createdAt"])))
      (fun err =>
         let info := if truthy (JStr <$> startDate) || truthy (JStr <$> endDate)
                     then "with date range " +:+
                          (if truthy (JStr <$> startDate) then default "" startDate else "any") +:+
                          " to " +:+
                          (if truthy (JStr <$> endDate) then default "" endDate else "any")
                     else "" in
         Throw (Error ("Failed to fetch ledger for user " +:+ userId +:+ " " +:+ info +:+ ": " +:+
                       exn_message err))).

End ledger.

Lemma span_name_all l : Forall (fun c => is_name_char c = true) l -> span_name l = (l, []).
Proof. induction 1 as [|c l Hc _ IH]; simpl; [done|]. by rewrite Hc, IH. Qed.

(** C11. A connection string without a database path, [mongodb://host] or
    [mongodb://host:port], is read as naming the database [host] (or
    [host:port]): the expression matches the run after the second slash,
    which ends the string, so the default name ["idaddy_vedaai"] is never
    used for such a URI. *)
Theorem extractDatabaseName_host_only (host : string) :
  host <> ""%string ->
  Forall (fun c => is_name_char c = true) (String.list_ascii_of_string host) ->
  extractDatabaseName (Some ("mongodb://" +:+ host)) = Some host.
Proof.
  intros Hne Hh. unfold extractDatabaseName. rewrite list_ascii_of_string_app.
  simpl. rewrite (span_name_all (String.list_ascii_of_string host)) by done.
  destruct (String.list_ascii_of_string host) as [|c l] eqn:E.
  - exfalso. apply Hne. rewrite <-(String.string_of_list_ascii_of_string host), E. done.
  - simpl. f_equal. rewrite <-(String.string_of_list_ascii_of_string host), E. done.
Qed.

Example extractDatabaseName_examples :
  extractDatabaseName (Some "mongodb+srv://u:p@cluster0.example.net/trading?retryWrites=true")
    = Some "trading" /\
  extractDatabaseName (Some "mongodb://localhost:27017/") = None.
Proof. vm_compute. auto. Qed.
