(* ===== verification/Trades.v ===== *)
(** * The trades API: [src/app/api/trades/route.ts] and [.../[tradeId]/route.ts]

    Each route handler is a [prog response]: the HTTP status and JSON body
    of [NextResponse.json(body, { status })].  The request is given by the
    pieces the handler reads: the parsed JSON body ([None] when
    [request.json()] throws), the [tradeId] path parameter and the
    [userId] query parameter ([None] when absent).  The handlers follow the
    source line by line: the guards and early returns, the awaits in their
    order, the inner [try] of each write path with its own [catch], and
    the outer [catch] that answers 500.  Section variables: the [DateEnv]
    and the connection string [uri]. *)

From S2P Require Import Prelude Json Mongo Prog JsDate Validator Ledger.

Record response := { status : Z; body : obj }.

Definition respond (b : obj) (st : Z) : response := {| status := st; body := b |}.

(** [await request.json()]. *)
Definition request_json (b : option jval) : prog jval :=
  match b with
  | Some v => Ret v
  | None => Throw (JsError "SyntaxError" "Unexpected end of JSON input")
  end.

(** The payload as the object it is once [validateTrade] accepted it. *)
Definition as_obj (v : jval) : obj := match v with JObj o => o | _ => [] end.

Definition err_body (e : string) (err : exn) : obj :=
  [("error", JStr e); ("details", JStr (exn_message err))].

Section handlers.
Context `{DateEnv} (uri : string).

(** [GET /api/trades?userId=]: the user's trades, newest first. *)
Definition GET_trades (userId : option string) : prog response :=
  match userId with
  | Some u =>
      if String.eqb u "" then Ret (respond [("error", JStr "User ID is required")] 400) else
      catch
        (bind (connectToDatabase uri) (fun _ =>
         bind (call (EFind Trades [("userId", JStr u)] ["timestamp"])) (fun trades =>
         Ret (respond [("trades", JArr (map JObj trades))] 200))))
        (fun err => Ret (respond (err_body "Failed to fetch trades" err ++ [("userId", JStr u)]) 500))
  | None => Ret (respond [("error", JStr "User ID is required")] 400)
  end.

(** The failure path of the inner [try] of [POST]: when the insert had
    returned a truthy [insertedId], the inserted document is deleted, a
    failure of that delete being only logged. *)
Definition post_rollback (insertedId : option jval) (err : exn) : prog response :=
  bind (if truthy insertedId then
          attempt (call (EDeleteOne Trades [("_id", undef_null insertedId)]))
        else Ret (inr 0)) (fun _ =>
  Ret (respond (err_body "Failed to create trade" err) 500)).

(** [POST /api/trades]. *)
Definition POST_trades (b : option jval) : prog response :=
  catch
    (bind (request_json b) (fun trade =>
     let validation := validateTrade trade in
     if negb (valid validation) then
       Ret (respond [("error", JStr "Invalid trade data");
                     ("details", JArr (map JStr (errors validation)))] 400)
     else
       bind (connectToDatabase uri) (fun _ =>
       bind (attempt (call (EInsertOne Trades (as_obj trade)))) (fun r =>
       match r with
       | inl err => post_rollback None err
       | inr (_, insertedId, stored) =>
           catch (bind (saveTradeToLedger uri stored) (fun _ =>
                    Ret (respond [("message", JStr "Trade saved successfully");
                                  ("tradeId", insertedId)] 201)))
                 (post_rollback (Some insertedId))
       end))))
    (fun err => Ret (respond (err_body "Failed to create trade" err) 500)).

(** The filter [{ id: tradeId, userId }] of the [tradeId] routes. *)
Definition owned (tradeId : string) (userId : jval) : obj :=
  [("id", JStr tradeId); ("userId", userId)].

(** [GET /api/trades/{tradeId}?userId=]. *)
Definition GET_trade (tradeId : string) (userId : option string) : prog response :=
  if String.eqb tradeId "" then Ret (respond [("error", JStr "Trade ID is required")] 400) else
  match userId with
  | Some u =>
      if String.eqb u "" then Ret (respond [("error", JStr "User ID is required for security")] 400) else
      catch
        (bind (connectToDatabase uri) (fun _ =>
         bind (call (EFindOne Trades (owned tradeId (JStr u)))) (fun found =>
         match found with
         | None => Ret (respond [("error", JStr "Trade not found or you do not have permission to view it")] 404)
         | Some trade => Ret (respond [("trade", JObj trade)] 200)
         end)))
        (fun err => Ret (respond (err_body "Failed to fetch trade" err ++
                                  [("tradeId", JStr tradeId); ("userId", JStr u)]) 500))
  | None => Ret (respond [("error", JStr "User ID is required for security")] 400)
  end.

(** The ledger record of a deletion. *)
Definition deletion_record (existing : obj) (now : Z) : obj :=
  spread existing [("action", JStr "deleted"); ("deletedAt", JStr (date_iso now));
                   ("previousState", JObj existing)].

(** [DELETE /api/trades/{tradeId}?userId=]: the ledger first, then the
    document. *)
Definition DELETE_trade (tradeId : string) (userId : option string) : prog response :=
  if String.eqb tradeId "" then Ret (respond [("error", JStr "Trade ID is required")] 400) else
  match userId with
  | Some u =>
      if String.eqb u "" then Ret (respond [("error", JStr "User ID is required for security")] 400) else
      catch
        (bind (connectToDatabase uri) (fun _ =>
         bind (call (EFindOne Trades (owned tradeId (JStr u)))) (fun found =>
         match found with
         | None => Ret (respond [("error", JStr "Trade not found or you do not have permission to delete it")] 404)
         | Some existing =>
             catch
               (bind (call ENow) (fun now =>
                bind (saveTradeToLedger uri (deletion_record existing now)) (fun _ =>
                bind (call (EDeleteOne Trades (owned tradeId (JStr u)))) (fun n =>
                if Nat.eqb n 0 then
                  Ret (respond [("error", JStr "Failed to delete trade");
                                ("details", JStr "Trade was found but could not be deleted")] 500)
                else Ret (respond [("message", JStr "Trade deleted successfully");
                                   ("deletedCount", JNum (Z.of_nat n))] 200)))))
               (fun err => Ret (respond [("error", JStr "Failed to delete trade");
                                         ("details", JStr "Could not record deletion in ledger");
                                         ("ledgerError", JStr (exn_message err))] 500))
         end)))
        (fun err => Ret (respond (err_body "Failed to delete trade" err ++
                                  [("tradeId", JStr tradeId); ("userId", JStr u)]) 500))
  | None => Ret (respond [("error", JStr "User ID is required for security")] 400)
  end.

(** The ledger record of an update: the merged document with [updatedAt]
    and the document before the update. *)
Definition updated_record (existing upd : obj) (now : Z) : obj :=
  spread (spread existing upd) [("updatedAt", JStr (date_iso now)); ("previousState", JObj existing)].

(** [PUT /api/trades/{tradeId}]: the update first, then the ledger; a
    ledger failure answers 207 and keeps the update. *)
Definition PUT_trade (tradeId : string) (b : option jval) : prog response :=
  if String.eqb tradeId "" then Ret (respond [("error", JStr "Trade ID is required")] 400) else
  catch
    (bind (request_json b) (fun updates =>
     match prop updates "userId" with
     | inl err => Throw err
     | inr uid =>
         if negb (truthy uid) then
           Ret (respond [("error", JStr "User ID is required for updating trades")] 400) else
         let validation := validateTrade updates in
         if negb (valid validation) then
           Ret (respond [("error", JStr "Invalid trade data");
                         ("details", JArr (map JStr (errors validation)))] 400) else
         let upd := as_obj updates in
         let filt := owned tradeId (undef_null uid) in
         bind (connectToDatabase uri) (fun _ =>
         bind (call (EFindOne Trades filt)) (fun found =>
         match found with
         | None => Ret (respond [("error", JStr "Trade not found or you do not have permission to update it")] 404)
         | Some existing =>
             bind (call (EUpdateOne Trades filt upd)) (fun '(matched, modified) =>
             if Nat.eqb matched 0 then Ret (respond [("error", JStr "Trade not found")] 404) else
             bind (call ENow) (fun now =>
             catch
               (bind (saveTradeToLedger uri (updated_record existing upd now)) (fun _ =>
                Ret (respond [("message", JStr "Trade updated successfully");
                              ("modifiedCount", JNum (Z.of_nat modified))] 200)))
               (fun _ => Ret (respond [("message", JStr "Trade updated but ledger entry failed");
                                       ("warning", JStr "The trade was updated but may not appear correctly in trade history");
                                       ("modifiedCount", JNum (Z.of_nat modified))] 207))))
         end))
     end))
    (fun err => Ret (respond (err_body "Failed to update trade" err) 500)).

End handlers.
