(* ===== verification/TradesProps.v ===== *)
(** * Properties of the trade write path

    The theorems about the handlers of [Trades]: the invariants every
    handler keeps under every fault script (the ledger is append-only and
    [users] is untouched; the database stays well formed), the outcome of
    each write path on its success and failure branches, ownership
    scoping, and the order of the listing. *)

From S2P Require Import Prelude Json Mongo Prog JsDate Validator Ledger Trades.
From Stdlib Require Import Sorting.Sorted Sorting.Permutation.

Section props.
Context `{DateEnv} (uri : string).

Ltac events_side := repeat (solve_events; try (hnf; done)).

Lemma saveTradeToLedger_audit t : events_in (@audit_event) (saveTradeToLedger uri t).
Proof. unfold saveTradeToLedger, connectToDatabase. events_side. Qed.

Lemma handlers_audit :
  (forall u, events_in (@audit_event) (GET_trades uri u)) /\
  (forall b, events_in (@audit_event) (POST_trades uri b)) /\
  (forall i u, events_in (@audit_event) (GET_trade uri i u)) /\
  (forall i u, events_in (@audit_event) (DELETE_trade uri i u)) /\
  (forall i b, events_in (@audit_event) (PUT_trade uri i b)).
Proof.
  unfold GET_trades, POST_trades, GET_trade, DELETE_trade, PUT_trade, post_rollback,
    connectToDatabase, request_json.
  repeat split; events_side; apply saveTradeToLedger_audit.
Qed.

(** ** Runs of [saveTradeToLedger] *)

Lemma ledger_entry_no_id t d n : get "_id" (ledger_entry t d n) = None.
Proof. reflexivity. Qed.

(** The row a successful append adds to [ledger]. *)
Definition ledger_row (t : obj) (ms : Z) (s : db) : obj :=
  set "_id" (JOid (db_next_oid s)) (ledger_entry t (before_T (date_iso ms)) (db_clock s)).

Definition with_ledger (s : db) (l : list obj) (n : N) : db :=
  mkdb (db_trades s) l (db_users s) n (db_clock s) (db_env s).

Lemma no_oid_json v : is_json v = true -> no_oid (as_obj v).
Proof.
  unfold no_oid. destruct v; try done. intros Hj. apply is_json_obj in Hj as [_ Hj]. cbn [as_obj].
  destruct (get "_id" fs) as [[]|] eqn:E; try done. apply Hj in E. simpl in E. discriminate E.
Qed.

Lemma wf_json v : is_json v = true -> obj_wf (as_obj v).
Proof.
  destruct v; simpl; intros Hj; try (by apply NoDup_nil). by apply is_json_obj in Hj as [? _].
Qed.

Lemma saveTradeToLedger_wf t : events_in (@wf_event) (saveTradeToLedger uri t).
Proof. unfold saveTradeToLedger, connectToDatabase. events_side. Qed.

(** A request body, when there is one, is JSON. *)
Definition json_body (b : option jval) : Prop :=
  match b with Some v => is_json v = true | None => True end.

Lemma handlers_wf_events b :
  json_body b ->
  (forall u, events_in (@wf_event) (GET_trades uri u)) /\
  events_in (@wf_event) (POST_trades uri b) /\
  (forall i u, events_in (@wf_event) (GET_trade uri i u)) /\
  (forall i u, events_in (@wf_event) (DELETE_trade uri i u)) /\
  (forall i, events_in (@wf_event) (PUT_trade uri i b)).
Proof.
  intros Hb. unfold GET_trades, POST_trades, GET_trade, DELETE_trade, PUT_trade, post_rollback,
    connectToDatabase, request_json.
  destruct b as [v|]; simpl in Hb; cbn [request_json bind]; repeat split; events_side;
    first [apply saveTradeToLedger_wf | by apply no_oid_json | by apply wf_json].
Qed.

(** Fields a record built by the handlers keeps from the trade. *)
Lemma deletion_record_get k d now :
  k <> "action"%string -> k <> "deletedAt"%string -> k <> "previousState"%string ->
  get k (deletion_record d now) = get k d.
Proof. intros. unfold deletion_record, spread. simpl. by rewrite !get_set_ne. Qed.

Lemma matches_owned i v d :
  (forall fs, v <> JObj fs) ->
  matches (owned i v) d =
  bool_decide (undef_null (get "id" d) = JStr i) && bool_decide (undef_null (get "userId" d) = v).
Proof.
  intros Hv. unfold matches, owned. simpl. rewrite andb_true_r.
  destruct v; try done. by destruct (Hv fs).
Qed.

(** The document a [tradeId] route finds belongs to the requesting user. *)
Lemma find_owned_user i u s d :
  find_one Trades (owned i (JStr u)) s = Some d -> get "userId" d = Some (JStr u).
Proof.
  intros Hf. apply find_first_Some in Hf as [Hm _].
  rewrite matches_owned in Hm by done. apply andb_true_iff in Hm as [_ Hm].
  apply bool_decide_eq_true in Hm. destruct (get "userId" d) as [[]|]; simpl in Hm; congruence.
Qed.

Lemma updated_record_get k d upd now :
  obj_wf upd -> k <> "updatedAt"%string -> k <> "previousState"%string ->
  get k (updated_record d upd now) = match get k upd with Some v => Some v | None => get k d end.
Proof.
  intros Hwf ? ?. unfold updated_record. rewrite get_spread. simpl.
  destruct (String.eqb_spec k "previousState"); [done|].
  destruct (String.eqb_spec k "updatedAt"); [done|]. by apply get_spread_wf.
Qed.

#[local] Opaque insert_one update_one delete_one find_one find validateTrade get set
  date_of date_iso extractDatabaseName.

Lemma save_ok t s ms sc :
  db_wf s -> truthy (get "userId" t) = true -> date_of (get "timestamp" t) = Some ms ->
  run (saveTradeToLedger uri t) (FOk :: FOk :: sc) s =
  (inr (JOid (db_next_oid s)), sc,
   with_ledger s (db_ledger s ++ [ledger_row t ms s]) (db_next_oid s + 1)).
Proof.
  intros Hwf Hu Hts. unfold saveTradeToLedger. rewrite Hu. simpl. rewrite Hts. simpl.
  rewrite insert_one_fresh by (done || apply ledger_entry_no_id). done.
Qed.

Lemma save_insert_fails t s ms msg sc :
  truthy (get "userId" t) = true -> date_of (get "timestamp" t) = Some ms ->
  run (saveTradeToLedger uri t) (FOk :: FFail msg :: sc) s =
  (inl (Error ("Failed to save trade " +:+ to_js_string (get "id" t) +:+ " to ledger: " +:+ msg)),
   sc, s).
Proof. intros Hu Hts. unfold saveTradeToLedger. rewrite Hu. simpl. by rewrite Hts. Qed.

Lemma save_insert_lost t s ms msg sc :
  db_wf s -> truthy (get "userId" t) = true -> date_of (get "timestamp" t) = Some ms ->
  run (saveTradeToLedger uri t) (FOk :: FLost msg :: sc) s =
  (inl (Error ("Failed to save trade " +:+ to_js_string (get "id" t) +:+ " to ledger: " +:+ msg)),
   sc, with_ledger s (db_ledger s ++ [ledger_row t ms s]) (db_next_oid s + 1)).
Proof.
  intros Hwf Hu Hts. unfold saveTradeToLedger. rewrite Hu. simpl. rewrite Hts. simpl.
  rewrite insert_one_fresh by (done || apply ledger_entry_no_id). done.
Qed.

Lemma save_bad_date t s sc :
  truthy (get "userId" t) = true -> date_of (get "timestamp" t) = None ->
  run (saveTradeToLedger uri t) (FOk :: sc) s =
  (inl (Error ("Failed to save trade " +:+ to_js_string (get "id" t) +:+
               " to ledger: Invalid time value")), sc, s).
Proof. intros Hu Hts. unfold saveTradeToLedger. rewrite Hu. simpl. by rewrite Hts. Qed.

(** ** [POST /api/trades] *)

Lemma valid_truthy_user t :
  valid (validateTrade (JObj t)) = true -> truthy (get "userId" t) = true.
Proof.
  intros Hv. destruct (validateTrade_valid _ Hv) as (o & u & [=<-] & Hu & Hne).
  rewrite Hu. simpl. by destruct (String.eqb_spec u "").
Qed.

Lemma valid_user_truthy t k v :
  valid (validateTrade (JObj t)) = true -> k <> "userId"%string ->
  truthy (get "userId" (set k v t)) = true.
Proof. intros Hv Hk. rewrite get_set_ne by done. by apply valid_truthy_user. Qed.

(** The state after the driver inserted the trade under the next
    [ObjectId]. *)
Lemma post_insert_wf t s :
  db_wf s -> get "_id" t = None ->
  db_wf (set_coll Trades (coll Trades s ++ [set "_id" (JOid (db_next_oid s)) t])
           (mkdb (db_trades s) (db_ledger s) (db_users s) (db_next_oid s + 1) (db_clock s) (db_env s))).
Proof.
  intros Hwf Hid. eapply (insert_one_wf Trades t s); [done| |by apply insert_one_fresh].
  unfold no_oid. by rewrite Hid.
Qed.

Lemma post_prefix t s sc :
  db_wf s -> valid (validateTrade (JObj t)) = true -> get "_id" t = None ->
  run (POST_trades uri (Some (JObj t))) (FOk :: FOk :: sc) s =
  run (catch (catch (bind (saveTradeToLedger uri (set "_id" (JOid (db_next_oid s)) t)) (fun _ =>
                 Ret (respond [("message", JStr "Trade saved successfully");
                               ("tradeId", JOid (db_next_oid s))] 201)))
               (post_rollback (Some (JOid (db_next_oid s)))))
          (fun err => Ret (respond (err_body "Failed to create trade" err) 500)))
      sc (set_coll Trades (coll Trades s ++ [set "_id" (JOid (db_next_oid s)) t])
           (mkdb (db_trades s) (db_ledger s) (db_users s) (db_next_oid s + 1) (db_clock s) (db_env s))).
Proof.
  intros Hwf Hv Hid. unfold POST_trades. simpl. rewrite Hv. simpl.
  by rewrite insert_one_fresh by done.
Qed.

(** C1. A valid trade without [_id], with no fault: 201 with the new
    [ObjectId]; [trades] gets the trade with its [_id] and [ledger] gets one
    entry holding that very document and its day. *)
Theorem POST_trades_created t s ms sc :
  db_wf s -> valid (validateTrade (JObj t)) = true -> get "_id" t = None ->
  date_of (get "timestamp" t) = Some ms ->
  let n := db_next_oid s in
  let stored := set "_id" (JOid n) t in
  run (POST_trades uri (Some (JObj t))) (FOk :: FOk :: FOk :: FOk :: sc) s =
  (inr (respond [("message", JStr "Trade saved successfully"); ("tradeId", JOid n)] 201), sc,
   mkdb (db_trades s ++ [stored])
        (db_ledger s ++ [set "_id" (JOid (n + 1))
                           (ledger_entry stored (before_T (date_iso ms)) (db_clock s))])
        (db_users s) (n + 1 + 1) (db_clock s) (db_env s)).
Proof.
  intros Hwf Hv Hid Hts n stored. rewrite post_prefix by done.
  rewrite !run_catch, run_bind, (save_ok _ _ ms); [done|by apply post_insert_wf|..].
  - by apply valid_user_truthy.
  - by rewrite get_set_ne.
Qed.

(** C2. When the ledger append fails (before writing), the compensating
    delete removes the inserted trade: [trades] and [ledger] are as before
    (only the driver's [ObjectId] counter moved) and the answer is 500. *)
Theorem POST_trades_ledger_fails t s ms msg sc :
  db_wf s -> valid (validateTrade (JObj t)) = true -> get "_id" t = None ->
  date_of (get "timestamp" t) = Some ms ->
  run (POST_trades uri (Some (JObj t))) (FOk :: FOk :: FOk :: FFail msg :: FOk :: sc) s =
  (inr (respond (err_body "Failed to create trade"
                   (Error ("Failed to save trade " +:+ to_js_string (get "id" t) +:+
                           " to ledger: " +:+ msg))) 500), sc,
   mkdb (db_trades s) (db_ledger s) (db_users s) (db_next_oid s + 1) (db_clock s) (db_env s)).
Proof.
  intros Hwf Hv Hid Hts. rewrite post_prefix by done.
  rewrite !run_catch, run_bind, (save_insert_fails _ _ ms);
    [|by apply valid_user_truthy|by rewrite get_set_ne].
  rewrite get_set_ne by done. unfold post_rollback.
  rewrite run_bind. cbn [truthy undef_null]. rewrite run_attempt, run_call.
  cbn [next_fault takes_fault handle exec].
  rewrite (delete_appended Trades _ (db_trades s) (set "_id" (JOid (db_next_oid s)) t));
    [done|done|apply (wf_ok _ Hwf Trades)|apply get_set_eq].
Qed.

(** ** [DELETE /api/trades/{tradeId}] *)

Lemma delete_prefix i u s d sc :
  i <> ""%string -> u <> ""%string -> find_one Trades (owned i (JStr u)) s = Some d ->
  run (DELETE_trade uri i (Some u)) (FOk :: FOk :: sc) s =
  run (catch (catch
        (bind (saveTradeToLedger uri (deletion_record d (db_clock s))) (fun _ =>
         bind (call (EDeleteOne Trades (owned i (JStr u)))) (fun n =>
         if Nat.eqb n 0 then
           Ret (respond [("error", JStr "Failed to delete trade");
                         ("details", JStr "Trade was found but could not be deleted")] 500)
         else Ret (respond [("message", JStr "Trade deleted successfully");
                            ("deletedCount", JNum (Z.of_nat n))] 200))))
        (fun err => Ret (respond [("error", JStr "Failed to delete trade");
                                  ("details", JStr "Could not record deletion in ledger");
                                  ("ledgerError", JStr (exn_message err))] 500)))
        (fun err => Ret (respond (err_body "Failed to delete trade" err ++
                                  [("tradeId", JStr i); ("userId", JStr u)]) 500)))
      sc s.
Proof.
  intros Hi Hu Hf. unfold DELETE_trade.
  apply String.eqb_neq in Hi, Hu. rewrite Hi, Hu. simpl. by rewrite Hf.
Qed.

Lemma deletion_user_truthy i u s d now :
  find_one Trades (owned i (JStr u)) s = Some d -> u <> ""%string ->
  truthy (get "userId" (deletion_record d now)) = true.
Proof.
  intros Hf Hu. rewrite deletion_record_get by done. rewrite (find_owned_user i u s d Hf).
  simpl. by destruct (String.eqb_spec u "").
Qed.

(** C4. The ledger entry of a deletion is written before the document is
    deleted: when that append fails, the database is unchanged and the
    answer is 500. *)
Theorem DELETE_trade_ledger_fails i u s d ms msg sc :
  i <> ""%string -> u <> ""%string -> find_one Trades (owned i (JStr u)) s = Some d ->
  date_of (get "timestamp" d) = Some ms ->
  run (DELETE_trade uri i (Some u)) (FOk :: FOk :: FOk :: FFail msg :: sc) s =
  (inr (respond [("error", JStr "Failed to delete trade");
                 ("details", JStr "Could not record deletion in ledger");
                 ("ledgerError", JStr ("Failed to save trade " +:+
                     to_js_string (get "id" (deletion_record d (db_clock s))) +:+
                     " to ledger: " +:+ msg))] 500), sc, s).
Proof.
  intros Hi Hu Hf Hts. rewrite (delete_prefix i u s d) by done.
  rewrite !run_catch, run_bind, (save_insert_fails _ _ ms); [done|..].
  - by eapply deletion_user_truthy.
  - by rewrite deletion_record_get.
Qed.

(** C5. A deletion with no fault: 200; the first document of the user with
    that [id] leaves [trades], and [ledger] gets one entry whose trade is
    the document tagged [deleted] with the document itself as
    [previousState]. *)
Theorem DELETE_trade_deleted i u s d ms sc :
  db_wf s -> i <> ""%string -> u <> ""%string -> find_one Trades (owned i (JStr u)) s = Some d ->
  date_of (get "timestamp" d) = Some ms ->
  run (DELETE_trade uri i (Some u)) (FOk :: FOk :: FOk :: FOk :: FOk :: sc) s =
  (inr (respond [("message", JStr "Trade deleted successfully"); ("deletedCount", JNum 1)] 200), sc,
   mkdb (remove_first (matches (owned i (JStr u))) (db_trades s))
        (db_ledger s ++ [ledger_row (deletion_record d (db_clock s)) ms s])
        (db_users s) (db_next_oid s + 1) (db_clock s) (db_env s)).
Proof.
  intros Hwf Hi Hu Hf Hts. rewrite (delete_prefix i u s d) by done.
  rewrite !run_catch, run_bind, (save_ok _ _ ms); [|done|by eapply deletion_user_truthy|
    by rewrite deletion_record_get].
  rewrite run_bind, run_call. cbn [next_fault takes_fault handle exec].
  rewrite (delete_one_found _ _ _ d) by done. done.
Qed.

(** ** [PUT /api/trades/{tradeId}] *)

Lemma put_prefix i upd s sc :
  i <> ""%string -> valid (validateTrade (JObj upd)) = true ->
  let filt := owned i (undef_null (get "userId" upd)) in
  run (PUT_trade uri i (Some (JObj upd))) (FOk :: FOk :: sc) s =
  run (catch (match find_one Trades filt s with
      | None => Ret (respond [("error", JStr "Trade not found or you do not have permission to update it")] 404)
      | Some existing =>
          bind (call (EUpdateOne Trades filt upd)) (fun '(matched, modified) =>
          if Nat.eqb matched 0 then Ret (respond [("error", JStr "Trade not found")] 404) else
          bind (call ENow) (fun now =>
          catch
            (bind (saveTradeToLedger uri (updated_record existing upd now)) (fun _ =>
             Ret (respond [("message", JStr "Trade updated successfully");
                           ("modifiedCount", JNum (Z.of_nat modified))] 200)))
            (fun _ => Ret (respond [("message", JStr "Trade updated but ledger entry failed");
                                    ("warning", JStr "The trade was updated but may not appear correctly in trade history");
                                    ("modifiedCount", JNum (Z.of_nat modified))] 207))))
      end) (fun err => Ret (respond (err_body "Failed to update trade" err) 500))) sc s.
Proof.
  intros Hi Hv filt. unfold PUT_trade. apply String.eqb_neq in Hi. rewrite Hi. simpl.
  rewrite valid_truthy_user, Hv by done. reflexivity.
Qed.

(** C6. When the ledger append fails after the update, the update stays:
    the first matching document has the update's fields, and the answer is
    the distinct partial-success status 207, not 200. *)
Theorem PUT_trade_ledger_fails i upd s d ts ms msg sc :
  i <> ""%string -> is_json (JObj upd) = true -> valid (validateTrade (JObj upd)) = true ->
  get "_id" upd = None -> get "timestamp" upd = Some ts -> date_of (Some ts) = Some ms ->
  find_one Trades (owned i (undef_null (get "userId" upd))) s = Some d ->
  run (PUT_trade uri i (Some (JObj upd))) (FOk :: FOk :: FOk :: FOk :: FFail msg :: sc) s =
  (inr (respond [("message", JStr "Trade updated but ledger entry failed");
                 ("warning", JStr "The trade was updated but may not appear correctly in trade history");
                 ("modifiedCount",
                   JNum (Z.of_nat (if bool_decide (spread d (set_order upd) = d) then 0 else 1)))] 207),
   sc,
   set_coll Trades (replace_first (matches (owned i (undef_null (get "userId" upd))))
                      (spread d (set_order upd)) (db_trades s)) s) /\
  (forall k v, get k upd = Some v -> get k (spread d (set_order upd)) = Some v).
Proof.
  intros Hi Hj Hv Hid Hts Hms Hf. destruct (is_json_obj _ Hj) as [Hwf _].
  split; [|intros; by apply set_fields].
  rewrite put_prefix by done. rewrite Hf.
  rewrite run_catch, run_bind, run_call. cbn [next_fault takes_fault handle exec].
  rewrite (update_one_found _ _ _ _ d) by done. simpl.
  rewrite run_catch, run_bind, (save_insert_fails _ _ ms); [done|..].
  - rewrite updated_record_get by done. destruct (validateTrade_valid _ Hv) as (o & u & [=<-] & Hu & Hne).
    rewrite Hu. simpl. by destruct (String.eqb_spec u "").
  - by rewrite updated_record_get, Hts.
Qed.

(** ** Validation, ownership and the invariants of every handler *)

(** C3. A payload the validator rejects is answered 400 before any await:
    no write, whatever the store would do. *)
Theorem invalid_payload_no_write v upd i s sc :
  valid (validateTrade v) = false ->
  truthy (get "userId" upd) = true -> valid (validateTrade (JObj upd)) = false -> i <> ""%string ->
  run (POST_trades uri (Some v)) sc s =
    (inr (respond [("error", JStr "Invalid trade data");
                   ("details", JArr (map JStr (errors (validateTrade v))))] 400), sc, s) /\
  run (PUT_trade uri i (Some (JObj upd))) sc s =
    (inr (respond [("error", JStr "Invalid trade data");
                   ("details", JArr (map JStr (errors (validateTrade (JObj upd)))))] 400), sc, s).
Proof.
  intros Hv Hu Hv' Hi. split.
  - unfold POST_trades. simpl. by rewrite Hv.
  - unfold PUT_trade. apply String.eqb_neq in Hi. rewrite Hi. simpl. by rewrite Hu, Hv'.
Qed.

(** The filter [{ id: tradeId, userId }] matches exactly the documents
    with that [id] and that user. *)
Lemma owned_matches i u d :
  matches (owned i (JStr u)) d = true -> get "id" d = Some (JStr i) /\ get "userId" d = Some (JStr u).
Proof.
  unfold matches, owned, cond_holds. simpl. rewrite !andb_true_iff, !bool_decide_eq_true.
  intros (H1 & H2 & _). split; [destruct (get "id" d)|destruct (get "userId" d)]; simpl in *; congruence.
Qed.

Lemma owned_none i u s :
  (forall d, d ∈ coll Trades s -> get "id" d = Some (JStr i) -> get "userId" d <> Some (JStr u)) ->
  find_one Trades (owned i (JStr u)) s = None.
Proof.
  intros Hno. apply find_one_None_intro. intros d Hd.
  destruct (matches _ d) eqn:E; [|done]. apply owned_matches in E as [E1 E2]. by destruct (Hno d Hd E1).
Qed.

(** C7. Ownership scoping: when no stored trade has that [id] and that
    user (whatever trades other users hold under the same [id]), reading,
    deleting and updating all answer 404, return no trade data and change
    nothing. *)
Theorem not_owned_not_found i u upd s sc :
  i <> ""%string -> u <> ""%string ->
  (forall d, d ∈ coll Trades s -> get "id" d = Some (JStr i) -> get "userId" d <> Some (JStr u)) ->
  get "userId" upd = Some (JStr u) -> valid (validateTrade (JObj upd)) = true ->
  run (GET_trade uri i (Some u)) (FOk :: FOk :: sc) s =
    (inr (respond [("error", JStr "Trade not found or you do not have permission to view it")] 404),
     sc, s) /\
  run (DELETE_trade uri i (Some u)) (FOk :: FOk :: sc) s =
    (inr (respond [("error", JStr "Trade not found or you do not have permission to delete it")] 404),
     sc, s) /\
  run (PUT_trade uri i (Some (JObj upd))) (FOk :: FOk :: sc) s =
    (inr (respond [("error", JStr "Trade not found or you do not have permission to update it")] 404),
     sc, s).
Proof.
  intros Hi Hu Hno Hup Hv. pose proof (owned_none i u s Hno) as Hf.
  rewrite put_prefix, Hup by done. simpl undef_null. rewrite Hf.
  unfold GET_trade, DELETE_trade. apply String.eqb_neq in Hi, Hu. rewrite Hi, Hu.
  simpl. by rewrite Hf.
Qed.

(** C8. Under every fault script, every handler leaves the ledger an
    extension of the old one (entries are never changed or removed) and
    never touches [users]. *)
Theorem handlers_append_only s sc :
  (forall u, audit_rel s (run (GET_trades uri u) sc s).2) /\
  (forall b, audit_rel s (run (POST_trades uri b) sc s).2) /\
  (forall i u, audit_rel s (run (GET_trade uri i u) sc s).2) /\
  (forall i u, audit_rel s (run (DELETE_trade uri i u) sc s).2) /\
  (forall i b, audit_rel s (run (PUT_trade uri i b) sc s).2).
Proof.
  destruct handlers_audit as (H1 & H2 & H3 & H4 & H5).
  repeat split; intros; apply run_audit; auto.
Qed.

(** Under every fault script and for every JSON request body, every
    handler keeps the database well formed: [_id]s present and unique per
    collection, and below the driver's counter. *)
Theorem handlers_keep_wf s sc b :
  db_wf s -> json_body b ->
  (forall u, db_wf (run (GET_trades uri u) sc s).2) /\
  db_wf (run (POST_trades uri b) sc s).2 /\
  (forall i u, db_wf (run (GET_trade uri i u) sc s).2) /\
  (forall i u, db_wf (run (DELETE_trade uri i u) sc s).2) /\
  (forall i, db_wf (run (PUT_trade uri i b) sc s).2).
Proof.
  intros Hwf Hb. destruct (handlers_wf_events b Hb) as (H1 & H2 & H3 & H4 & H5).
  repeat split; intros; apply run_wf; auto.
Qed.

(** C9. The listing answers the user's trades, all of them, sorted by
    [timestamp] descending. *)
Theorem GET_trades_sorted u s sc :
  u <> ""%string ->
  exists l,
    run (GET_trades uri (Some u)) (FOk :: FOk :: sc) s =
      (inr (respond [("trades", JArr (map JObj l))] 200), sc, s) /\
    Sorted (desc_le ["timestamp"]) l /\
    Permutation l (filter (fun d => matches [("userId", JStr u)] d) (db_trades s)).
Proof.
  intros Hu. exists (sort_desc ["timestamp"] (find Trades [("userId", JStr u)] s)).
  split; [|split; [apply sort_desc_sorted|apply sort_desc_perm]].
  unfold GET_trades. apply String.eqb_neq in Hu. rewrite Hu. done.
Qed.

(** C10. A trade whose [timestamp] is not a date can never be deleted:
    [saveTradeToLedger] throws on [toISOString()] before the ledger write,
    so, whatever the store does, the answer is 500 and nothing changes.
    The validator accepts any string as a timestamp, so such trades can be
    created by [PUT] (which answers 207 and keeps them). *)
Theorem DELETE_unparseable_timestamp i u s d sc :
  i <> ""%string -> u <> ""%string -> find_one Trades (owned i (JStr u)) s = Some d ->
  date_of (get "timestamp" d) = None ->
  exists r sc', run (DELETE_trade uri i (Some u)) sc s = (inr r, sc', s) /\ status r = 500%Z.
Proof.
  intros Hi Hu Hf Hts.
  assert (Hut : forall now, truthy (get "userId" (deletion_record d now)) = true)
    by (intros; by eapply deletion_user_truthy).
  assert (Hts' : forall now, date_of (get "timestamp" (deletion_record d now)) = None)
    by (intros; by rewrite deletion_record_get).
  unfold DELETE_trade. apply String.eqb_neq in Hi, Hu. rewrite Hi, Hu.
  destruct sc as [|f1 [|f2 [|f3 sc]]]; repeat match goal with f : fault |- _ => destruct f end;
    simpl; rewrite ?Hf; simpl; unfold saveTradeToLedger; rewrite ?Hut; simpl;
    rewrite ?Hts'; simpl; eauto.
Qed.

(** C12. The compensation is best effort: when the ledger insert is
    applied but its acknowledgement is lost, the trade is rolled back while
    the ledger keeps an entry recording the creation of a trade that is not
    in [trades]. *)
Theorem POST_trades_lost_ack t s ms msg sc :
  db_wf s -> valid (validateTrade (JObj t)) = true -> get "_id" t = None ->
  date_of (get "timestamp" t) = Some ms ->
  let n := db_next_oid s in
  let stored := set "_id" (JOid n) t in
  run (POST_trades uri (Some (JObj t))) (FOk :: FOk :: FOk :: FLost msg :: FOk :: sc) s =
  (inr (respond (err_body "Failed to create trade"
                   (Error ("Failed to save trade " +:+ to_js_string (get "id" t) +:+
                           " to ledger: " +:+ msg))) 500), sc,
   mkdb (db_trades s)
        (db_ledger s ++ [set "_id" (JOid (n + 1))
                           (ledger_entry stored (before_T (date_iso ms)) (db_clock s))])
        (db_users s) (n + 1 + 1) (db_clock s) (db_env s)).
Proof.
  intros Hwf Hv Hid Hts n stored. rewrite post_prefix by done.
  rewrite !run_catch, run_bind, (save_insert_lost _ _ ms);
    [|by apply post_insert_wf|by apply valid_user_truthy|by rewrite get_set_ne].
  rewrite get_set_ne by done. unfold post_rollback.
  rewrite run_bind. cbn [truthy undef_null]. rewrite run_attempt, run_call.
  cbn [next_fault takes_fault handle exec with_ledger].
  rewrite (delete_appended Trades _ (db_trades s) (set "_id" (JOid (db_next_oid s)) t));
    [done|done|apply (wf_ok _ Hwf Trades)|apply get_set_eq].
Qed.
End props.
