(* ===== verification/Auth.v ===== *)
(** * The authentication routes: [src/app/api/auth/...]

    Five handlers over the [users] collection:
    - [forgot-password/route.ts] [POST]: stores a one-hour reset token in
      the user's [passwordReset] and mails a link carrying it;
    - [reset-password/route.ts] [POST]: finds the user by email, token and
      unexpired [expiresAt] and replaces the password hash, unsetting
      [passwordReset]; [GET]: the same lookup from the query of the URL;
    - [verify/route.ts] [POST]: checks the emailed code, marks the user
      verified, sends the welcome mail and sets the [auth_token] cookie to
      a seven-day JSON Web Token; [PUT]: draws and mails a new code;
    - [update-ltp-credentials/route.ts] [POST]: authenticates by that
      cookie and stores the LTP Calculator credentials on the user.

    A handler answers an [aresponse]: status, JSON body, headers and the
    cookie operations the handler performed on [cookies()].  The cookie of
    the request is an argument of the handler.  Signing and checking a
    token is the interface [JwtSig] (the HMAC of [jsonwebtoken], whose
    only law used is that a token signed with a key decodes under that
    key); the claim checks of [jwt.sign] and [jwt.verify] ([iat], [exp],
    [nbf]) are written out.  [JWT_SECRET], [NEXTAUTH_URL] and whether SMTP
    is configured are section variables.  Times are UTC: [setHours(h + 1)]
    and [setMinutes(m + 10)] add one hour and ten minutes. *)

From stdpp Require Import pretty.
From S2P Require Import Prelude Json Env Mongo Prog JsDate JsonText Url Email Trades.

Local Open Scope Z_scope.

(** ** Responses *)

Inductive cookie_op :=
| CSet (name value : string) (maxAge : Z)     (* cookieStore.set({ name, value, maxAge, ... }) *)
| CDelete (name : string).                    (* cookieStore.delete(name) *)

Record aresponse := mkaresp {
  ar_status : Z;
  ar_body : obj;
  ar_headers : list (string * string);
  ar_cookies : list cookie_op
}.

Definition ajson (b : obj) (st : Z) : aresponse := mkaresp st b [] [].

Definition internal_error : aresponse := ajson [("error", JStr "Internal server error")] 500.

(** ** JS operations the handlers use *)

(** [const { k } = v]: destructuring [null] throws. *)
Definition field (v : jval) (k : string) : prog (option jval) :=
  match prop v k with inl e => Throw e | inr o => Ret o end.

(** An object literal as [JSON.stringify] writes it: [undefined] fields
    are left out. *)
Definition defined_fields (fs : list (string * option jval)) : obj :=
  omap (fun kv => (fun v => (kv.1, v)) <$> kv.2) fs.

Definition js_typeof (v : jval) : string :=
  match v with
  | JNull | JArr _ | JObj _ | JOid _ | JDate _ => "object"
  | JBool _ => "boolean"
  | JNum _ => "number"
  | JStr _ => "string"
  end.

(** [s.length] counts UTF-16 code units: one per character of the UTF-8
    text, two for a four-byte sequence, none for a continuation byte. *)
Definition utf16_units (c : ascii) : Z :=
  let n := N_of_ascii c in
  (if (n <? 128)%N then 1 else if (n <? 192)%N then 0 else if (n <? 240)%N then 1 else 2)%Z.

Definition utf16_length (s : string) : Z :=
  foldr (fun c acc => utf16_units c + acc)%Z 0%Z (String.list_ascii_of_string s).

(** [v.length]. *)
Definition js_length (v : jval) : exn + option jval :=
  match v with
  | JStr s => inr (Some (JNum (utf16_length s)))
  | JArr xs => inr (Some (JNum (Z.of_nat (length xs))))
  | _ => prop v "length"
  end.

(** [ToNumber] of a primitive: [undefined] and text that is not an
    integer are NaN ([None]); objects are NaN as well. *)
Definition js_num (v : option jval) : option Z :=
  match v with
  | Some (JNum z) => Some z
  | Some JNull => Some 0
  | Some (JBool b) => Some (if b then 1 else 0)
  | Some (JStr s) =>
      if String.eqb s "" then Some 0
      else match JsonText.parse s with Some (JNum z) => Some z | _ => None end
  | _ => None
  end.

(** [x < n]: false when [x] is NaN. *)
Definition js_lt (x : option jval) (n : Z) : bool :=
  match js_num x with Some z => z <? n | None => false end.

(** [a !== b]'s negation: primitives by value; objects, arrays, ObjectIds
    and Dates by identity, and two values read separately are never the
    same object. *)
Definition js_strict_eq (a b : option jval) : bool :=
  match a, b with
  | None, None => true
  | Some JNull, Some JNull => true
  | Some (JBool x), Some (JBool y) => Bool.eqb x y
  | Some (JNum x), Some (JNum y) => Z.eqb x y
  | Some (JStr x), Some (JStr y) => String.eqb x y
  | _, _ => false
  end.

(** [dateA > dateB] on two [Date]s: their time values, false when one is
    an Invalid Date. *)
Definition date_gt (a b : option Z) : bool :=
  match a, b with Some x, Some y => y <? x | _, _ => false end.

(** ** [new ObjectId(v)] (bson 6) *)

Definition BSONError (msg : string) : exn := JsError "BSONError" msg.

Fixpoint hex_read (acc : N) (l : list ascii) : option N :=
  match l with
  | [] => Some acc
  | c :: r => match JsonText.hex_val c with Some d => hex_read (acc * 16 + d)%N r | None => None end
  end.

(** A 24-character hex string, either case. *)
Definition parse_oid (s : string) : option N :=
  let l := String.list_ascii_of_string s in
  if (length l =? 24)%nat then hex_read 0%N l else None.

Definition oid_of_string (s : string) : prog jval :=
  match parse_oid s with
  | Some n => Ret (JOid n)
  | None => Throw (BSONError "input must be a 24 character hex string, 12 byte Uint8Array, or an integer")
  end.

(** [undefined], [null] and a number generate a fresh id; an object with
    an [id] string is read through it. *)
Definition new_ObjectId (v : option jval) : prog jval :=
  match v with
  | None | Some JNull | Some (JNum _) => bind (call ENewOid) (fun n => Ret (JOid n))
  | Some (JStr s) => oid_of_string s
  | Some (JOid n) => Ret (JOid n)
  | Some (JObj fs) =>
      match get "id" fs with
      | Some (JStr s) => oid_of_string s
      | Some _ => Throw (BSONError "Argument passed in must have an id that is of type string or Buffer")
      | None => Throw (BSONError "Argument passed in does not match the accepted types")
      end
  | Some _ => Throw (BSONError "Argument passed in does not match the accepted types")
  end.

(** [hashPassword] hands the value to bcrypt, which refuses a non-string. *)
Definition hash_arg (v : jval) : prog string :=
  match v with
  | JStr s => Ret s
  | _ => Throw (Error ("Illegal arguments: " +:+ js_typeof v +:+ ", number"))
  end.

(** ** JSON Web Tokens *)

(** The signature scheme: [jws_sign c k] is the token of the claims [c]
    under the key [k]; [jws_decode t k] checks the signature and gives the
    claims ([None]: malformed token or invalid signature). *)
Class JwtSig := {
  jws_sign : obj -> string -> string;
  jws_decode : string -> string -> option obj
}.

(** The claims travel as JSON text, so a token of JSON claims decodes
    under its key to the same claims; a token is never empty (it has
    three parts separated by dots). *)
Class JwtSigLaws `{JwtSig} := {
  jws_decode_sign c k : is_json (JObj c) = true -> jws_decode (jws_sign c k) k = Some c;
  jws_sign_nonempty c k : jws_sign c k <> ""%string
}.

Definition JsonWebTokenError (msg : string) : exn := JsError "JsonWebTokenError" msg.
Definition TokenExpiredError : exn := JsError "TokenExpiredError" "jwt expired".
Definition NotBeforeError : exn := JsError "NotBeforeError" "jwt not active".

(** The error classes of [jsonwebtoken], all [instanceof JsonWebTokenError]. *)
Definition jwt_error_names : list string := ["JsonWebTokenError"; "TokenExpiredError"; "NotBeforeError"].

Section jwt.
Context `{JwtSig}.

(** [jwt.sign(payload, secret, { expiresIn: '7d' })] at [now] (ms):
    [iat] is the second of signing, [exp] seven days later. *)
Definition jwt_sign (payload : obj) (secret : string) (now : Z) : string :=
  let iat := now / 1000 in
  jws_sign (payload ++ [("iat", JNum iat); ("exp", JNum (iat + 604800))]) secret.

(** The expiry check of [jwt.verify] at the second [clock]. *)
Definition exp_check (c : obj) (clock : Z) : exn + obj :=
  match get "exp" c with
  | None => inr c
  | Some (JNum e) => if e <=? clock then inl TokenExpiredError else inr c
  | Some _ => inl (JsonWebTokenError "invalid exp value")
  end.

(** [jwt.verify(token, secret)] at [now] (ms): the signature, then [nbf],
    then [exp]. *)
Definition jwt_verify (token secret : string) (now : Z) : exn + obj :=
  let clock := now / 1000 in
  match jws_decode token secret with
  | None => inl (JsonWebTokenError "invalid signature")
  | Some c =>
      match get "nbf" c with
      | Some (JNum nbf) => if clock <? nbf then inl NotBeforeError else exp_check c clock
      | Some _ => inl (JsonWebTokenError "invalid nbf value")
      | None => exp_check c clock
      end
  end.

End jwt.

(** [process.env.X || d]. *)
Definition env_or (v : option string) (d : string) : string :=
  match v with Some s => if String.eqb s "" then d else s | None => d end.

Definition default_jwt_secret : string := "your-secret-key".

(** ** The handlers *)

Section routes.
Context `{DateEnv} `{JwtSig} (prod : bool) (nextauth_url jwt_env : option string).

Definition jwt_secret : string := env_or jwt_env default_jwt_secret.

Definition reset_message : string :=
  "If your email is registered, you will receive a password reset link shortly.".

(** The link of the reset mail. *)
Definition reset_url (token : string) (email : jval) : string :=
  base_url nextauth_url +:+ "/reset-password?token=" +:+ token +:+ "&email=" +:+
  encodeURIComponent (to_js_string (Some email)).

(** [POST /api/auth/forgot-password]. *)
Definition forgot_password_POST (b : option jval) : prog aresponse :=
  catch
    (bind (request_json b) (fun v =>
     bind (field v "email") (fun email =>
     if negb (truthy email) then Ret (ajson [("error", JStr "Email is required")] 400) else
     let email := undef_null email in
     bind (call EConnect) (fun _ =>
     bind (call (EFindOne Users [("email", email)])) (fun user =>
     match user with
     | None => Ret (ajson [("message", JStr reset_message)] 200)
     | Some u =>
         bind (call EGenToken) (fun token =>
         bind (call ENow) (fun now =>
         bind (call ENow) (fun now' =>
         bind (call (EUpdateOne Users [("_id", undef_null (get "_id" u))]
                       [("passwordReset", JObj [("token", JStr token); ("expiresAt", JDate (now + 3600000))]);
                        ("updatedAt", JDate now')])) (fun _ =>
         bind (sendPasswordResetEmail prod email (reset_url token email)) (fun _ =>
         Ret (ajson [("message", JStr reset_message)] 200))))))
     end)))))
    (fun _ => Ret internal_error).

(** The query of both reset-password routes: the email, the token and an
    [expiresAt] after now. *)
Definition reset_filter (email token : jval) (now : Z) : obj :=
  [("email", email); ("passwordReset.token", token);
   ("passwordReset.expiresAt", JObj [("$gt", JDate now)])].

(** [POST /api/auth/reset-password]. *)
Definition reset_password_POST (b : option jval) : prog aresponse :=
  catch
    (bind (request_json b) (fun v =>
     bind (field v "email") (fun email =>
     bind (field v "token") (fun token =>
     bind (field v "password") (fun password =>
     if negb (truthy email && truthy token && truthy password) then
       Ret (ajson [("error", JStr "Email, token, and password are required")] 400) else
     match js_length (undef_null password) with
     | inl e => Throw e
     | inr len =>
     if js_lt len 8 then
       Ret (ajson [("error", JStr "Password must be at least 8 characters long")] 400) else
     bind (call EConnect) (fun _ =>
     bind (call ENow) (fun now =>
     bind (call (EFindOne Users (reset_filter (undef_null email) (undef_null token) now))) (fun user =>
     match user with
     | None => Ret (ajson [("error", JStr "Invalid or expired reset token")] 400)
     | Some u =>
         bind (hash_arg (undef_null password)) (fun pw =>
         bind (call (EHash pw)) (fun hashed =>
         bind (call ENow) (fun now' =>
         bind (call (EUpdateUnset Users [("_id", undef_null (get "_id" u))]
                       [("password", JStr hashed); ("updatedAt", JDate now')] ["passwordReset"])) (fun _ =>
         Ret (ajson [("message", JStr "Password has been reset successfully")] 200)))))
     end)))
     end)))))
    (fun _ => Ret internal_error).

Definition no_cache : list (string * string) :=
  [("Cache-Control", "no-cache, no-store, must-revalidate"); ("Pragma", "no-cache"); ("Expires", "0")].

Definition hjson (b : obj) (st : Z) : aresponse := mkaresp st b no_cache [].

(** [GET /api/auth/reset-password?email=&token=]. *)
Definition reset_password_GET (url : string) : prog aresponse :=
  catch
    (match get_param "email" url, get_param "token" url with
     | Some email, Some token =>
         if String.eqb email "" || String.eqb token "" then
           Ret (hjson [("error", JStr "Email and token are required")] 400) else
         bind (call EConnect) (fun _ =>
         bind (call ENow) (fun now =>
         bind (call (EFindOne Users (reset_filter (JStr email) (JStr token) now))) (fun user =>
         match user with
         | None => Ret (hjson [("valid", JBool false); ("error", JStr "Invalid or expired reset token")] 400)
         | Some _ => Ret (hjson [("valid", JBool true)] 200)
         end)))
     | _, _ => Ret (hjson [("error", JStr "Email and token are required")] 400)
     end)
    (fun _ => Ret (hjson [("valid", JBool false); ("error", JStr "Internal server error")] 500)).

(** The condition of [verify] [POST] that refuses the code:
    [!user.verificationOTP || user.verificationOTP.code !== otp ||
     new Date() > new Date(user.verificationOTP.expiresAt)], the clock
    read only when the first two are false. *)
Definition otp_rejected (u : obj) (otp : jval) : prog bool :=
  let vo := get "verificationOTP" u in
  if negb (truthy vo) then Ret true else
  match prop (undef_null vo) "code" with
  | inl e => Throw e
  | inr code =>
      if negb (js_strict_eq code (Some otp)) then Ret true else
      bind (call ENow) (fun now =>
      match prop (undef_null vo) "expiresAt" with
      | inl e => Throw e
      | inr exp => Ret (date_gt (date_of (Some (JDate now))) (date_of exp))
      end)
  end.

(** The claims of the session token. *)
Definition session_payload (u : obj) (id : string) : obj :=
  defined_fields [("id", Some (JStr id)); ("email", get "email" u); ("username", get "username" u);
                  ("isVerified", Some (JBool true));
                  ("hasSocialLogin", Some (JBool (truthy (get "socialLogins" u))))].

(** [user._id.toString()]. *)
Definition id_string (u : obj) : exn + string :=
  match get "_id" u with
  | Some JNull | None => inl (TypeError "Cannot read properties of undefined (reading 'toString')")
  | Some i => inr (to_js_string (Some i))
  end.

Definition session_max_age : Z := 60 * 60 * 24 * 7.

(** [POST /api/auth/verify]. *)
Definition verify_POST (b : option jval) : prog aresponse :=
  catch
    (bind (request_json b) (fun v =>
     bind (field v "email") (fun email =>
     bind (field v "otp") (fun otp =>
     if negb (truthy email && truthy otp) then
       Ret (ajson [("error", JStr "Email and OTP are required")] 400) else
     bind (call EConnect) (fun _ =>
     bind (call (EFindOne Users [("email", undef_null email)])) (fun user =>
     match user with
     | None => Ret (ajson [("error", JStr "User not found")] 404)
     | Some u =>
         if truthy (get "isVerified" u) then Ret (ajson [("message", JStr "Email already verified")] 200) else
         bind (otp_rejected u (undef_null otp)) (fun rejected =>
         if rejected then Ret (ajson [("error", JStr "Invalid or expired OTP")] 400) else
         bind (call ENow) (fun now =>
         bind (call (EUpdateUnset Users [("_id", undef_null (get "_id" u))]
                       [("isVerified", JBool true); ("updatedAt", JDate now)] ["verificationOTP"])) (fun _ =>
         bind (attempt (sendWelcomeEmail prod nextauth_url (undef_null (get "email" u)) (get "username" u))) (fun _ =>
         match id_string u with
         | inl e => Throw e
         | inr id =>
             bind (call ENow) (fun now' =>
             let token := jwt_sign (session_payload u id) jwt_secret now' in
             Ret (mkaresp 200
                    (defined_fields [("message", Some (JStr "Email verification successful"));
                                     ("isVerified", Some (JBool true)); ("id", get "_id" u);
                                     ("username", get "username" u); ("email", get "email" u);
                                     ("socialLogins", get "socialLogins" u)])
                    [] [CSet "auth_token" token session_max_age]))
         end))))
     end))))))
    (fun _ => Ret internal_error).

(** [PUT /api/auth/verify]: a new code, valid ten minutes. *)
Definition verify_PUT (b : option jval) : prog aresponse :=
  catch
    (bind (request_json b) (fun v =>
     bind (field v "email") (fun email =>
     if negb (truthy email) then Ret (ajson [("error", JStr "Email is required")] 400) else
     let email := undef_null email in
     bind (call EConnect) (fun _ =>
     bind (call (EFindOne Users [("email", email)])) (fun user =>
     match user with
     | None => Ret (ajson [("error", JStr "User not found")] 404)
     | Some u =>
         if truthy (get "isVerified" u) then Ret (ajson [("message", JStr "Email already verified")] 200) else
         bind (call EGenOTP) (fun otp =>
         bind (call ENow) (fun now =>
         bind (call ENow) (fun now' =>
         bind (call (EUpdateOne Users [("_id", undef_null (get "_id" u))]
                       [("verificationOTP", JObj [("code", JStr otp); ("expiresAt", JDate (now + 600000))]);
                        ("updatedAt", JDate now')])) (fun _ =>
         bind (sendVerificationEmail prod email otp) (fun _ =>
         Ret (ajson [("message", JStr "Verification code resent. Please check your email.")] 200))))))
     end)))))
    (fun _ => Ret internal_error).

(** [POST /api/auth/update-ltp-credentials], with the [auth_token] cookie
    of the request. *)
Definition update_ltp_credentials_POST (cookie : option string) (b : option jval) : prog aresponse :=
  catch
    (match cookie with
     | Some token =>
         if String.eqb token "" then Ret (ajson [("error", JStr "Not authenticated")] 401) else
         bind (call ENow) (fun now =>
         match jwt_verify token jwt_secret now with
         | inl e => Throw e
         | inr decoded =>
             bind (request_json b) (fun v =>
             bind (field v "username") (fun username =>
             bind (field v "password") (fun password =>
             if negb (truthy username && truthy password) then
               Ret (ajson [("error", JStr "LTP username and password are required")] 400) else
             bind (call EConnect) (fun _ =>
             bind (new_ObjectId (get "id" decoded)) (fun oid =>
             bind (call (EFindOne Users [("_id", oid)])) (fun user =>
             match user with
             | None => Ret (mkaresp 404 [("error", JStr "User not found")] [] [CDelete "auth_token"])
             | Some _ =>
                 bind (new_ObjectId (get "id" decoded)) (fun oid' =>
                 bind (call ENow) (fun n1 =>
                 bind (call ENow) (fun n2 =>
                 bind (call (EUpdateOne Users [("_id", oid')]
                               [("ltpCredentials", JObj [("username", undef_null username);
                                                         ("password", undef_null password);
                                                         ("updatedAt", JDate n1)]);
                                ("updatedAt", JDate n2)])) (fun _ =>
                 Ret (ajson [("message", JStr "LTP credentials updated successfully")] 200)))))
             end))))))
         end)
     | None => Ret (ajson [("error", JStr "Not authenticated")] 401)
     end)
    (fun err => Ret (mkaresp 500 [("error", JStr "Internal server error")] []
                       (if bool_decide (exn_name err ∈ jwt_error_names) then [CDelete "auth_token"] else []))).

End routes.
