(* ===== verification/AuthProps.v ===== *)
(** * Properties of the authentication routes

    ObjectIds read back from their hex text; the database lookups and
    writes of each handler on its success and refusal branches; what a
    token of [jwt.sign] lets a later request do; and the composition of
    two routes through the mail or the cookie they hand to the user. *)

From stdpp Require Import pretty.
From S2P Require Import Prelude Json Env Mongo Prog JsDate JsonText Url Email Trades Auth.

Local Open Scope Z_scope.

(** ** ObjectIds and their hex text *)

Lemma hex_digit_chars d :
  (d < 16)%N -> exists c, hex_digit d = String c "" /\ JsonText.hex_val c = Some d.
Proof.
  intros Hd. rewrite <-(N2Nat.id d). assert (Hk : (N.to_nat d < 16)%nat) by lia.
  generalize (N.to_nat d) Hk. clear Hd Hk. intros k Hk.
  do 16 (destruct k as [|k]; [eexists; split; reflexivity|]). lia.
Qed.

Lemma hex_read_app acc l1 l2 :
  hex_read acc (l1 ++ l2) = hex_read acc l1 ≫= fun a => hex_read a l2.
Proof.
  revert acc. induction l1 as [|c l1 IH]; intros acc; [done|]. simpl.
  destruct (JsonText.hex_val c); [apply IH|done].
Qed.

Lemma hex_pad_read k n acc :
  hex_read acc (String.list_ascii_of_string (hex_pad k n)) =
  Some (acc * 16 ^ N.of_nat k + n mod 16 ^ N.of_nat k)%N.
Proof.
  revert n acc. induction k as [|k IH]; intros n acc; simpl.
  - f_equal. rewrite N.pow_0_r, N.mod_1_r. lia.
  - destruct (hex_digit_chars (n mod 16)) as (c & Hc & Hv); [apply N.mod_lt; lia|].
    rewrite list_ascii_of_string_app, Hc, hex_read_app, IH. simpl. rewrite Hv. simpl. f_equal.
    rewrite Nat2N.inj_succ, N.pow_succ_r', N.Div0.mod_mul_r by (try apply N.pow_nonzero; lia). lia.
Qed.

Lemma hex_pad_length k n : length (String.list_ascii_of_string (hex_pad k n)) = k.
Proof.
  revert n. induction k as [|k IH]; intros n; [done|]. simpl.
  destruct (hex_digit_chars (n mod 16)) as (c & Hc & _); [apply N.mod_lt; lia|].
  rewrite list_ascii_of_string_app, Hc, length_app, IH. simpl. lia.
Qed.

(** [new ObjectId(id.toString())] reads back the 96 bits of the id. *)
Theorem parse_oid_hex n : parse_oid (oid_hex n) = Some (n mod 2 ^ 96)%N.
Proof.
  unfold parse_oid, oid_hex. rewrite hex_pad_length. simpl (24 =? 24)%nat. cbv iota.
  by rewrite hex_pad_read.
Qed.

(** [new ObjectId(hex)] reads the text of [oid.toString()] back as
    the same id exactly when the id fits the 96 bits of an ObjectId. *)
Theorem oid_hex_roundtrip n : parse_oid (oid_hex n) = Some n <-> (n < 2 ^ 96)%N.
Proof.
  rewrite parse_oid_hex. split.
  - intros [= <-]. apply N.mod_lt. lia.
  - intros Hn. by rewrite N.mod_small.
Qed.

(** ** The reset link *)

Lemma hex_pad_plain k n : plain (String.list_ascii_of_string (hex_pad k n)).
Proof.
  revert n. induction k as [|k IH]; intros n; [constructor|]. simpl.
  destruct (hex_digit_chars (n mod 16)) as (c & Hc & Hv); [apply N.mod_lt; lia|].
  rewrite list_ascii_of_string_app, Hc. apply plain_app; [apply IH|].
  constructor; [|constructor]. intros Hin.
  repeat (apply elem_of_cons in Hin as [->|Hin]; [by compute in Hv|]). by apply elem_of_nil in Hin.
Qed.

(** The query of the link [forgot-password] mails reads back as the
    token and the email. *)
Lemma reset_url_params nextauth_url token e :
  "?"%char ∉ String.list_ascii_of_string (base_url nextauth_url) ->
  plain (String.list_ascii_of_string token) ->
  get_param "token" (reset_url nextauth_url token (JStr e)) = Some token /\
  get_param "email" (reset_url nextauth_url token (JStr e)) = Some e.
Proof.
  intros Hb Ht.
  set (base := String.list_ascii_of_string (base_url nextauth_url) ++
               String.list_ascii_of_string "/reset-password").
  assert (Hu : reset_url nextauth_url token (JStr e) =
    String.string_of_list_ascii
      (base ++ "?"%char :: String.list_ascii_of_string "token" ++ "="%char ::
       String.list_ascii_of_string token ++ "&"%char :: String.list_ascii_of_string "email" ++
       "="%char :: flat_map encode_char (String.list_ascii_of_string e))).
  { unfold reset_url, encodeURIComponent, base.
    rewrite <-(String.string_of_list_ascii_of_string (_ +:+ _)). f_equal.
    rewrite !list_ascii_of_string_app, String.list_ascii_of_string_of_list_ascii. simpl.
    by rewrite <-!app_assoc. }
  destruct (get_param_two base (String.list_ascii_of_string "token") (String.list_ascii_of_string token)
              (String.list_ascii_of_string "email") e) as [H1 H2].
  - unfold base. rewrite elem_of_app. intros [Hin|Hin]; [done|]. revert Hin. by apply notin_existsb.
  - by apply plainb_plain.
  - done.
  - by apply plainb_plain.
  - done.
  - rewrite !String.string_of_list_ascii_of_string in H1. rewrite Hu. split; [exact H1|exact H2].
Qed.

(** ** Runs of the handlers *)

Definition read_event {R} (e : event R) : Prop :=
  match e with EConnect | ENow | EFindOne _ _ | EFind _ _ _ => True | _ => False end.

Lemma handle_read {R} (e : event R) ft s : read_event e -> (handle e ft s).2 = s.
Proof.
  intros He. destruct (handle_state e ft s) as [|[r Hx]]; [done|].
  destruct e; try contradiction; simpl in Hx; congruence.
Qed.

(** A handler whose events only read leaves the database as it was. *)
Lemma run_read {A} (p : prog A) sc s : events_in (@read_event) p -> (run p sc s).2 = s.
Proof.
  intros Hp. symmetry. apply (run_relates eq (@read_event)); [done|congruence| |done].
  intros. symmetry. by apply handle_read.
Qed.

Lemma jwt_verify_error `{JwtSig} t k now e :
  jwt_verify t k now = inl e -> exn_name e ∈ jwt_error_names.
Proof.
  unfold jwt_verify, exp_check. intros Hv.
  repeat (case_match; simplify_eq); unfold jwt_error_names; simpl; set_solver.
Qed.

Lemma utf16_length_empty : utf16_length "" = 0.
Proof. reflexivity. Qed.

Lemma js_lt_num z n : js_lt (Some (JNum z)) n = (z <? n).
Proof. reflexivity. Qed.

Lemma matches_oid n d : matches [("_id", JOid n)] d = true <-> get "_id" d = Some (JOid n).
Proof.
  rewrite matches_id by done. rewrite bool_decide_eq_true.
  destruct (get "_id" d); simpl; split; congruence.
Qed.

(** [$set] and [$unset] name distinct paths. *)
Ltac solve_disjoint :=
  apply not_true_iff_false; intros Hx; apply existsb_exists in Hx as (k & Hk & Hb);
  apply bool_decide_eq_true in Hb; set_solver.

Section props.
Context `{DateEnv} `{JwtSig} (prod : bool) (nextauth_url jwt_env : option string).

Lemma welcome_mail_events e un : events_in (@mail_event) (sendWelcomeEmail prod nextauth_url e un).
Proof. unfold sendWelcomeEmail, createTransporter. repeat (solve_events; try (hnf; done)). Qed.

Lemma verification_mail_events e otp : events_in (@mail_event) (sendVerificationEmail prod e otp).
Proof. unfold sendVerificationEmail, createTransporter. repeat (solve_events; try (hnf; done)). Qed.

Lemma reset_mail_events e url : events_in (@mail_event) (sendPasswordResetEmail prod e url).
Proof. unfold sendPasswordResetEmail, createTransporter. repeat (solve_events; try (hnf; done)). Qed.

(** A token of [jwt.sign] verifies with the same secret until its [exp]:
    [jwt.verify] gives back the claims with [iat] and [exp] added. *)
Lemma jwt_verify_sign `{!JwtSigLaws} p k now clock :
  let claims := p ++ [("iat", JNum (now / 1000)); ("exp", JNum (now / 1000 + 604800))] in
  is_json (JObj claims) = true -> get "nbf" p = None -> get "exp" p = None ->
  clock / 1000 < now / 1000 + 604800 ->
  jwt_verify (jwt_sign p k now) k clock = inr claims.
Proof.
  intros claims Hj Hnbf Hexp Hclock. unfold jwt_verify, jwt_sign. cbv zeta. rewrite jws_decode_sign by done.
  unfold claims. rewrite get_app, Hnbf. unfold exp_check. rewrite get_app, Hexp. simpl.
  by rewrite (proj2 (Z.leb_gt _ _) Hclock).
Qed.

Lemma jwt_sign_nonempty `{!JwtSigLaws} p k now : jwt_sign p k now <> ""%string.
Proof. apply jws_sign_nonempty. Qed.

Lemma matches_email e d : matches [("email", JStr e)] d = true -> get "email" d = Some (JStr e).
Proof.
  unfold matches. simpl. rewrite andb_true_r, bool_decide_eq_true.
  destruct (get "email" d); simpl; congruence.
Qed.

Lemma coll_advance c d s : coll c (advance d s) = coll c s.
Proof. by destruct c. Qed.

Lemma strict_eq_str_ne c v : v <> JStr c -> js_strict_eq (Some (JStr c)) (Some v) = false.
Proof.
  intros Hv. destruct v; try done. simpl. apply String.eqb_neq. congruence.
Qed.

Lemma strict_eq_str c : js_strict_eq (Some (JStr c)) (Some (JStr c)) = true.
Proof. apply String.eqb_refl. Qed.

Ltac wf_side := repeat (solve_events; try (hnf; done));
  try (simpl; set_solver).

(** Every authentication handler keeps the database well formed
    under every fault script: its updates are objects with distinct keys
    that never change an [_id]. *)
Theorem auth_handlers_keep_wf sc s :
  db_wf s ->
  (forall b, db_wf (run (forgot_password_POST prod nextauth_url b) sc s).2) /\
  (forall b, db_wf (run (reset_password_POST b) sc s).2) /\
  (forall url, db_wf (run (reset_password_GET url) sc s).2) /\
  (forall b, db_wf (run (verify_POST prod nextauth_url jwt_env b) sc s).2) /\
  (forall b, db_wf (run (verify_PUT prod b) sc s).2) /\
  (forall c b, db_wf (run (update_ltp_credentials_POST jwt_env c b) sc s).2).
Proof.
  intros Hwf. repeat split; intros; apply run_wf; try done;
    unfold forgot_password_POST, reset_password_POST, reset_password_GET, verify_POST, verify_PUT,
      update_ltp_credentials_POST, otp_rejected, new_ObjectId, oid_of_string, hash_arg, field,
      request_json; wf_side;
    apply mail_wf_events;
    first [apply reset_mail_events | apply welcome_mail_events | apply verification_mail_events].
Qed.

Lemma reset_mail_ok e url s :
  exists s', run (sendPasswordResetEmail prod (JStr e) url) [] s = (inr (), [], s') /\ same_data s s'.
Proof.
  pose proof (run_mail (sendPasswordResetEmail prod (JStr e) url) [] s (reset_mail_events _ _)) as Hd.
  revert Hd. unfold sendPasswordResetEmail, createTransporter. simpl.
  destruct (env_transport (db_env s)), prod; simpl; eauto.
Qed.

Lemma verification_mail_ok e otp s :
  exists s', run (sendVerificationEmail prod (JStr e) otp) [] s = (inr (), [], s') /\ same_data s s'.
Proof.
  pose proof (run_mail (sendVerificationEmail prod (JStr e) otp) [] s (verification_mail_events _ _)) as Hd.
  revert Hd. unfold sendVerificationEmail, createTransporter. simpl.
  destruct (env_transport (db_env s)), prod; simpl; eauto.
Qed.

Lemma matches_reset_filter d e token x now :
  get "email" d = Some (JStr e) ->
  get "passwordReset" d = Some (JObj [("token", JStr token); ("expiresAt", JDate x)]) -> now < x ->
  matches (reset_filter (JStr e) (JStr token) now) d = true.
Proof.
  intros He Hp Hlt. unfold matches, reset_filter. cbn [forallb fst snd split_dots]. simpl.
  rewrite He, Hp. simpl. unfold op_holds. simpl.
  rewrite (bool_decide_true (JStr e = JStr e)), (bool_decide_true (JStr token = JStr token)) by done.
  by rewrite (bool_decide_true ((x ?= now) = Gt)) by (by apply Z.compare_gt_iff).
Qed.

Lemma reset_token_nonempty n : reset_token n <> ""%string.
Proof.
  intros E. pose proof (hex_pad_length 64 n) as Hl. unfold reset_token in E. rewrite E in Hl. done.
Qed.

Lemma pretty_N_go_nonempty x s : s <> ""%string -> pretty_N_go x s <> ""%string.
Proof.
  revert s. induction x as [x IH] using (well_founded_induction N.lt_wf_0). intros s Hs.
  destruct (decide (x = 0%N)) as [->|Hx]; [by rewrite pretty_N_go_0|].
  rewrite pretty_N_go_step by lia. apply IH; [apply N.div_lt; lia|done].
Qed.

Lemma otp_code_nonempty n : otp_code n <> ""%string.
Proof.
  assert (Hpos : (0 < 100000 + n mod 900000)%N) by (generalize (n mod 900000)%N; lia).
  unfold otp_code, pretty, pretty_N. case_decide as E; [lia|].
  rewrite pretty_N_go_step by done. by apply pretty_N_go_nonempty.
Qed.

(** The code of [verify] [POST] lets a valid expiry that is not before
    the present time pass. *)
Lemma date_gt_valid `{!DateLaws} a b :
  Z.abs a <= 8640000000000000 -> Z.abs b <= 8640000000000000 -> a <= b ->
  date_gt (date_of (Some (JDate a))) (date_of (Some (JDate b))) = false.
Proof. intros Ha Hb Hab. rewrite !date_of_date by done. simpl. by apply Z.ltb_ge. Qed.

Lemma coll_bump_oid c s : coll c (bump_oid s) = coll c s.
Proof. by destruct c. Qed.

#[local] Opaque spread set_order set_coll coll js_strict_eq find_one update_one update_unset utf16_length reset_html verify_html welcome_html
  attempt sendWelcomeEmail sendVerificationEmail sendPasswordResetEmail jwt_sign.

(** The token check of [reset-password] [GET] only reads: whatever
    the URL and whatever fails, the database is left as it was. *)
Theorem reset_password_GET_readonly url sc s : (run (reset_password_GET url) sc s).2 = s.
Proof. apply run_read. unfold reset_password_GET. repeat (solve_events; try (hnf; done)). Qed.

(** C33. [update-ltp-credentials] without a cookie answers 401, and with
    a token that [jwt.verify] refuses (bad signature, expired, not yet
    valid, malformed claims) answers 500 and deletes the cookie; neither
    reads the body nor touches the database. *)
Theorem update_ltp_rejected tok b sc s err :
  run (update_ltp_credentials_POST jwt_env None b) sc s =
    (inr (ajson [("error", JStr "Not authenticated")] 401), sc, s) /\
  (tok <> ""%string -> jwt_verify tok (jwt_secret jwt_env) (db_clock s) = inl err ->
   run (update_ltp_credentials_POST jwt_env (Some tok) b) sc s =
   (inr (mkaresp 500 [("error", JStr "Internal server error")] [] [CDelete "auth_token"]), sc, s)).
Proof.
  split; [done|]. intros Htok Hv. unfold update_ltp_credentials_POST.
  rewrite (proj2 (String.eqb_neq _ _) Htok). simpl. rewrite Hv. simpl.
  apply jwt_verify_error in Hv. by rewrite bool_decide_true.
Qed.

(** The body of a reset request whose email and token are the query
    operator [{ $gt: "" }]. *)
Definition gt_empty : jval := JObj [("$gt", JStr "")].
(** The body [{ email, token, password }] of a reset request. *)
Definition reset_body (em tk : jval) (pw : string) : jval :=
  JObj [("email", em); ("token", tk); ("password", JStr pw)].

Definition injection_body (pw : string) : jval := reset_body gt_empty gt_empty pw.

Lemma reset_password_found s u n em tk pw :
  truthy (Some em) = true -> truthy (Some tk) = true ->
  find_one Users (reset_filter em tk (db_clock s)) s = Some u ->
  get "_id" u = Some (JOid n) -> 8 <= utf16_length pw ->
  exists s' u',
    run (reset_password_POST (Some (reset_body em tk pw))) [] s =
      (inr (ajson [("message", JStr "Password has been reset successfully")] 200), [], s') /\
    find_one Users [("_id", JOid n)] s' = Some u' /\
    get "password" u' = Some (JStr (hash_password pw)) /\ get "passwordReset" u' = None.
Proof.
  intros Hem Htk Hf Hid Hlen.
  assert (Hpw : pw <> ""%string) by (intros ->; rewrite utf16_length_empty in Hlen; lia).
  unfold reset_password_POST. with_strategy opaque [truthy] simpl. rewrite Hem, Htk. simpl.
  rewrite (proj2 (String.eqb_neq _ _) Hpw). simpl.
  rewrite js_lt_num, (proj2 (Z.ltb_ge _ _) Hlen). simpl. rewrite Hf. simpl. rewrite Hid. simpl.
  destruct (find_one_exists Users [("_id", JOid n)] s u) as [d Hd].
  { by apply find_one_Some in Hf as [_ ?]. }
  { by apply matches_oid. }
  rewrite (update_unset_found Users _ _ _ s d Hd) by (first [reflexivity | set_solver | solve_disjoint]).
  set (upd := [("password", JStr (hash_password pw)); ("updatedAt", JDate (db_clock s))]).
  set (d' := unset_keys ["passwordReset"] (spread d (set_order upd))).
  exists (set_coll Users (replace_first (matches [("_id", JOid n)]) d' (coll Users s)) s), d'.
  split; [reflexivity|].
  pose proof Hd as Hd'. apply find_one_Some, proj1, matches_oid in Hd'.
  split; [apply find_one_replaced with d; [done|]|split]; unfold d'.
  - apply matches_oid. rewrite get_unset by set_solver. rewrite get_id_set; [done| |by left].
    apply NoDup_cons; split; [set_solver|apply NoDup_singleton].
  - rewrite get_unset by set_solver. apply set_fields; [|done].
    apply NoDup_cons; split; [set_solver|apply NoDup_singleton].
  - by apply get_unset_in; left.
Qed.

(** An account with a reset pending: a non-empty email, and a non-empty
    string token that expires after [now]. *)
Definition pending_reset (now : Z) (v : obj) : Prop :=
  exists e pr t x, get "email" v = Some (JStr e) /\ e <> ""%string /\
    get "passwordReset" v = Some (JObj pr) /\ get "token" pr = Some (JStr t) /\ t <> ""%string /\
    get "expiresAt" pr = Some (JDate x) /\ now < x.

Lemma str_cmp_empty t : t <> ""%string -> str_cmp t "" = Gt.
Proof. by destruct t. Qed.

Lemma pending_matches now v : pending_reset now v -> matches (reset_filter gt_empty gt_empty now) v = true.
Proof.
  intros (e & pr & t & x & He & He' & Hp & Ht & Ht' & Hx & Hlt).
  unfold matches, reset_filter. cbn [forallb fst snd split_dots]. simpl.
  rewrite He, Hp. simpl. rewrite Ht, Hx. unfold op_holds. simpl.
  rewrite !str_cmp_empty by done.
  by rewrite (bool_decide_true (Gt = Gt)), (bool_decide_true ((x ?= now) = Gt))
    by (done || by apply Z.compare_gt_iff).
Qed.

(** C14. The reset-password route takes its email and token from the body
    as they are, so a body whose email and token are the operator
    [{ $gt: "" }] is a query for any account with a reset pending: as soon
    as one exists and the password is long enough, the request resets the
    password of such an account, knowing neither its email nor its
    token. *)
Theorem reset_password_injection s v pw :
  v ∈ coll Users s -> pending_reset (db_clock s) v ->
  Forall (fun d => exists n, get "_id" d = Some (JOid n)) (coll Users s) -> 8 <= utf16_length pw ->
  exists s' v0 n u',
    run (reset_password_POST (Some (injection_body pw))) [] s =
      (inr (ajson [("message", JStr "Password has been reset successfully")] 200), [], s') /\
    v0 ∈ coll Users s /\ get "_id" v0 = Some (JOid n) /\
    find_one Users [("_id", JOid n)] s' = Some u' /\
    get "password" u' = Some (JStr (hash_password pw)) /\ get "passwordReset" u' = None.
Proof.
  intros Hv Hp Hids Hlen.
  destruct (find_one_exists Users (reset_filter gt_empty gt_empty (db_clock s)) s v) as [v0 Hf];
    [done|by apply pending_matches|].
  pose proof Hf as [_ Hin]%find_one_Some.
  rewrite Forall_forall in Hids. destruct (Hids v0 Hin) as [n Hn].
  destruct (reset_password_found s v0 n gt_empty gt_empty pw) as (s' & u' & H1 & H2 & H3 & H4); [done..|].
  exists s', v0, n, u'. by repeat split.
Qed.

Definition otp_body (e c : string) : jval := JObj [("email", JStr e); ("otp", JStr c)].

Lemma verify_POST_ok s u vo e c n :
  e <> ""%string -> c <> ""%string ->
  find_one Users [("email", JStr e)] s = Some u -> truthy (get "isVerified" u) = false ->
  get "verificationOTP" u = Some (JObj vo) -> get "code" vo = Some (JStr c) ->
  date_gt (date_of (Some (JDate (db_clock s)))) (date_of (get "expiresAt" vo)) = false ->
  get "_id" u = Some (JOid n) ->
  exists s1 u1 r,
    run (verify_POST prod nextauth_url jwt_env (Some (otp_body e c))) [] s = (inr r, [], s1) /\
    ar_status r = 200 /\
    ar_cookies r = [CSet "auth_token" (jwt_sign (session_payload u (oid_hex n)) (jwt_secret jwt_env) (db_clock s))
                      session_max_age] /\
    find_one Users [("_id", JOid n)] s1 = Some u1 /\
    get "isVerified" u1 = Some (JBool true) /\ get "verificationOTP" u1 = None /\
    db_clock s1 = db_clock s.
Proof.
  intros He Hc Hf Hv Hvo Hcode Hexp Hid.
  unfold verify_POST. simpl. rewrite (proj2 (String.eqb_neq _ _) He), (proj2 (String.eqb_neq _ _) Hc). simpl.
  rewrite Hf. simpl. rewrite Hv. unfold otp_rejected. rewrite Hvo. simpl. rewrite Hcode. simpl.
  rewrite strict_eq_str. simpl. rewrite Hexp. simpl. rewrite Hid. simpl.
  destruct (find_one_exists Users [("_id", JOid n)] s u) as [d Hd];
    [by apply find_one_Some in Hf as [_ ?]|by apply matches_oid|].
  rewrite (update_unset_found Users _ _ _ s d Hd) by (first [reflexivity | set_solver | solve_disjoint]).
  set (d' := unset_keys ["verificationOTP"] (spread d (set_order [("isVerified", JBool true); ("updatedAt", JDate (db_clock s))]))).
  set (s1 := set_coll Users (replace_first (matches [("_id", JOid n)]) d' (coll Users s)) s).
  simpl. rewrite run_catch, run_bind, run_attempt.
  destruct (run (sendWelcomeEmail prod nextauth_url (undef_null (get "email" u)) (get "username" u)) [] s1)
    as [[rw sc'] s2] eqn:Ew.
  pose proof (run_script_nil (sendWelcomeEmail prod nextauth_url (undef_null (get "email" u)) (get "username" u)) s1) as Hsc.
  pose proof (run_mail (sendWelcomeEmail prod nextauth_url (undef_null (get "email" u)) (get "username" u)) [] s1
                (welcome_mail_events _ _)) as (Hcoll & Hclock & _).
  rewrite Ew in Hsc, Hcoll, Hclock. simpl in Hsc, Hcoll, Hclock. subst sc'.
  unfold id_string. rewrite Hid. simpl. rewrite Hclock.
  eexists s2, d', _. split; [reflexivity|]. split; [done|]. split; [done|].
  pose proof Hd as Hd'. apply find_one_Some, proj1, matches_oid in Hd'.
  assert (Hwf : obj_wf [("isVerified", JBool true); ("updatedAt", JDate (db_clock s))])
    by (apply NoDup_cons; split; [set_solver|apply NoDup_singleton]).
  split; [|split; [|split]]; [| unfold d'..| done].
  - rewrite (find_one_same_coll _ _ s1 s2) by apply Hcoll. apply find_one_replaced with d; [done|].
    apply matches_oid. unfold d'. rewrite get_unset by set_solver. rewrite get_id_set; [done..|by left].
  - rewrite get_unset by set_solver. by apply set_fields.
  - by apply get_unset_in; left.
Qed.

Definition ltp_body (lu lp : string) : jval := JObj [("username", JStr lu); ("password", JStr lp)].

Lemma new_ObjectId_hex n : (n < 2 ^ 96)%N -> new_ObjectId (Some (JStr (oid_hex n))) = Ret (JOid n).
Proof. intros Hn. unfold new_ObjectId, oid_of_string. by rewrite parse_oid_hex, N.mod_small. Qed.

(** A token that verifies and names the id of an existing user stores the
    credentials of the body on that user. *)
Lemma update_ltp_ok tok claims n u lu lp s :
  tok <> ""%string -> jwt_verify tok (jwt_secret jwt_env) (db_clock s) = inr claims ->
  get "id" claims = Some (JStr (oid_hex n)) -> (n < 2 ^ 96)%N ->
  find_one Users [("_id", JOid n)] s = Some u -> lu <> ""%string -> lp <> ""%string ->
  exists s' u',
    run (update_ltp_credentials_POST jwt_env (Some tok) (Some (ltp_body lu lp))) [] s =
      (inr (ajson [("message", JStr "LTP credentials updated successfully")] 200), [], s') /\
    find_one Users [("_id", JOid n)] s' = Some u' /\
    get "ltpCredentials" u' =
      Some (JObj [("username", JStr lu); ("password", JStr lp); ("updatedAt", JDate (db_clock s))]) /\
    forall k, k <> "ltpCredentials"%string -> k <> "updatedAt"%string -> get k u' = get k u.
Proof.
  intros Ht Hv Hid Hn Hf Hu Hp.
  unfold update_ltp_credentials_POST. rewrite (proj2 (String.eqb_neq _ _) Ht). simpl. rewrite Hv. simpl.
  rewrite (proj2 (String.eqb_neq _ _) Hu), (proj2 (String.eqb_neq _ _) Hp). simpl.
  rewrite Hid, new_ObjectId_hex by done. simpl. rewrite Hf. simpl.
  rewrite (update_one_found Users _ _ s u Hf) by reflexivity.
  set (upd := [("ltpCredentials", JObj [("username", JStr lu); ("password", JStr lp);
                                        ("updatedAt", JDate (db_clock s))]);
               ("updatedAt", JDate (db_clock s))]).
  assert (Hwf : obj_wf upd) by (apply NoDup_cons; split; [set_solver|apply NoDup_singleton]).
  exists (set_coll Users (replace_first (matches [("_id", JOid n)]) (spread u (set_order upd)) (coll Users s)) s),
    (spread u (set_order upd)).
  split; [reflexivity|]. split.
  - apply find_one_replaced with u; [done|]. apply matches_oid. rewrite get_id_set; [|done|by left].
    by apply find_one_Some, proj1, matches_oid in Hf.
  - split; [by apply set_fields|]. intros k Hk1 Hk2. apply set_other; [done|]. simpl.
    by rewrite (proj2 (String.eqb_neq _ _) Hk1), (proj2 (String.eqb_neq _ _) Hk2).
Qed.

(** C15. With [JWT_SECRET] unset both routes sign and verify with the
    literal ['your-secret-key'], so anyone can mint a cookie: a token
    that only names the id of an existing user, made without any secret
    of the deployment, stores the LTP credentials of the request on that
    user's account, and never expires. *)
Theorem forged_session_token `{!JwtSigLaws} s n u lu lp :
  jwt_env = None -> (n < 2 ^ 96)%N -> find_one Users [("_id", JOid n)] s = Some u ->
  lu <> ""%string -> lp <> ""%string ->
  let tok := jws_sign [("id", JStr (oid_hex n))] default_jwt_secret in
  exists s' u',
    run (update_ltp_credentials_POST jwt_env (Some tok) (Some (ltp_body lu lp))) [] s =
      (inr (ajson [("message", JStr "LTP credentials updated successfully")] 200), [], s') /\
    find_one Users [("_id", JOid n)] s' = Some u' /\
    get "ltpCredentials" u' =
      Some (JObj [("username", JStr lu); ("password", JStr lp); ("updatedAt", JDate (db_clock s))]).
Proof.
  intros Henv Hn Hf Hu Hp tok.
  destruct (update_ltp_ok tok [("id", JStr (oid_hex n))] n u lu lp s) as (s' & u' & Hr' & Hf' & Hl' & _);
    try done; [apply jws_sign_nonempty| |by exists s', u'].
  unfold jwt_verify, tok, jwt_secret, env_or. rewrite Henv. by rewrite jws_decode_sign.
Qed.

(** C21. The session the verification hands out is the one the
    credentials route accepts: after [verify] [POST] succeeds with the
    emailed code, its [auth_token] cookie, sent back within the seven
    days of the token, lets [update-ltp-credentials] store the LTP
    credentials on the account just verified. *)
Theorem verify_session_authenticates `{!JwtSigLaws} s u vo e c n un :
  e <> ""%string -> c <> ""%string ->
  find_one Users [("email", JStr e)] s = Some u -> truthy (get "isVerified" u) = false ->
  get "verificationOTP" u = Some (JObj vo) -> get "code" vo = Some (JStr c) ->
  date_gt (date_of (Some (JDate (db_clock s)))) (date_of (get "expiresAt" vo)) = false ->
  get "_id" u = Some (JOid n) -> (n < 2 ^ 96)%N -> get "username" u = Some (JStr un) ->
  exists tok s1 r,
    run (verify_POST prod nextauth_url jwt_env (Some (otp_body e c))) [] s = (inr r, [], s1) /\
    ar_status r = 200 /\ ar_cookies r = [CSet "auth_token" tok session_max_age] /\
    forall d lu lp,
      (db_clock s + d) / 1000 < db_clock s / 1000 + 604800 -> lu <> ""%string -> lp <> ""%string ->
      exists s2 u2,
        run (update_ltp_credentials_POST jwt_env (Some tok) (Some (ltp_body lu lp))) [] (advance d s1) =
          (inr (ajson [("message", JStr "LTP credentials updated successfully")] 200), [], s2) /\
        find_one Users [("_id", JOid n)] s2 = Some u2 /\ get "isVerified" u2 = Some (JBool true) /\
        get "ltpCredentials" u2 =
          Some (JObj [("username", JStr lu); ("password", JStr lp); ("updatedAt", JDate (db_clock s + d))]).
Proof.
  intros He Hc Hf Hv Hvo Hcode Hexp Hid Hn Hun.
  destruct (verify_POST_ok s u vo e c n) as (s1 & u1 & r & Hrun & Hst & Hck & Hf1 & Hv1 & _ & Hc1);
    [done..|].
  eexists _, s1, r. split; [exact Hrun|]. split; [done|]. split; [exact Hck|].
  intros d lu lp Hd Hlu Hlp.
  apply find_one_Some, proj1, matches_email in Hf as Hem.
  destruct (update_ltp_ok (jwt_sign (session_payload u (oid_hex n)) (jwt_secret jwt_env) (db_clock s))
              (session_payload u (oid_hex n) ++
                 [("iat", JNum (db_clock s / 1000)); ("exp", JNum (db_clock s / 1000 + 604800))])
              n u1 lu lp (advance d s1)) as (s2 & u2 & Hr2 & Hf2 & Hl2 & Hk2);
    [apply jwt_sign_nonempty| |unfold session_payload; by rewrite Hem, Hun|done| |done|done|].
  - simpl. rewrite Hc1. apply jwt_verify_sign; [..|done]; unfold session_payload; by rewrite Hem, Hun.
  - by rewrite (find_one_same_coll _ _ s1) by apply coll_advance.
  - simpl in Hl2. rewrite Hc1 in Hl2. exists s2, u2. split; [done|]. split; [done|]. split; [|done].
    by rewrite Hk2.
Qed.


(** C34. Only the exact code verifies: when the account the email finds
    is not verified and holds the code [c], a request whose [otp] is any
    other value (another string, a number, a query operator) is answered
    400, or 500 when the database fails, and under every fault script
    leaves the database as it was. *)
Theorem verify_wrong_otp s sc u vo email otp c :
  truthy (Some email) = true -> truthy (Some otp) = true ->
  find_one Users [("email", email)] s = Some u -> truthy (get "isVerified" u) = false ->
  get "verificationOTP" u = Some (JObj vo) -> get "code" vo = Some (JStr c) -> otp <> JStr c ->
  exists r sc',
    run (verify_POST prod nextauth_url jwt_env (Some (JObj [("email", email); ("otp", otp)]))) sc s =
      (inr r, sc', s) /\ (r = ajson [("error", JStr "Invalid or expired OTP")] 400 \/ r = internal_error).
Proof.
  intros He Ho Hf Hv Hvo Hcode Hne. unfold verify_POST. with_strategy opaque [truthy] simpl.
  rewrite He, Ho. simpl.
  destruct sc as [|[|?|?|] sc]; simpl; try (eexists _, _; split; [reflexivity|by right]);
    try (destruct sc as [|[|?|?|] sc]; simpl; try (eexists _, _; split; [reflexivity|by right]));
  rewrite Hf; simpl; rewrite Hv; unfold otp_rejected; rewrite Hvo; simpl; rewrite Hcode;
    simpl; rewrite strict_eq_str_ne by done; simpl; (eexists _, _; split; [reflexivity|by left]).
Qed.

(** The update [forgot-password] makes: the reset token and its expiry. *)
Definition reset_set (token : string) (now : Z) : obj :=
  [("passwordReset", JObj [("token", JStr token); ("expiresAt", JDate (now + 3600000))]);
   ("updatedAt", JDate now)].

Lemma forgot_password_ok s u e n l1 l2 :
  e <> ""%string -> coll Users s = l1 ++ u :: l2 ->
  Forall (fun y => matches [("email", JStr e)] y = false) l1 -> matches [("email", JStr e)] u = true ->
  Forall (fun y => matches [("_id", JOid n)] y = false) l1 -> get "_id" u = Some (JOid n) ->
  exists s1,
    run (forgot_password_POST prod nextauth_url (Some (JObj [("email", JStr e)]))) [] s =
      (inr (ajson [("message", JStr reset_message)] 200), [], s1) /\
    coll Users s1 = l1 ++ spread u (set_order (reset_set (reset_token (db_next_oid s)) (db_clock s))) :: l2 /\
    db_clock s1 = db_clock s.
Proof.
  intros He Hc Hle Hu Hli Hid.
  assert (Hm : matches [("_id", JOid n)] u = true) by by apply matches_oid.
  unfold forgot_password_POST. simpl. rewrite (proj2 (String.eqb_neq _ _) He). simpl.
  rewrite (find_one_split Users _ s l1 u l2) by done. simpl. rewrite Hid. simpl.
  rewrite (update_one_found Users _ _ _ u)
    by (done || by apply (find_one_split Users _ _ l1 u l2); [rewrite coll_bump_oid|..]).
  simpl. rewrite run_catch, run_bind.
  set (sm := set_coll Users _ (bump_oid s)).
  destruct (reset_mail_ok e (reset_url nextauth_url (reset_token (db_next_oid s)) (JStr e)) sm)
    as (s1 & Hr & Hc1 & Hk1 & _).
  rewrite Hr. simpl. exists s1. split; [done|]. split.
  - rewrite Hc1. unfold sm. rewrite coll_set_coll, decide_True, coll_bump_oid, Hc by done.
    by apply replace_first_split.
  - rewrite Hk1. unfold sm. by destruct s.
Qed.

Lemma reset_GET_ok url e token s l1 u' l2 :
  get_param "email" url = Some e -> get_param "token" url = Some token ->
  e <> ""%string -> token <> ""%string ->
  coll Users s = l1 ++ u' :: l2 -> Forall (fun y => matches [("email", JStr e)] y = false) l1 ->
  matches (reset_filter (JStr e) (JStr token) (db_clock s)) u' = true ->
  run (reset_password_GET url) [] s = (inr (hjson [("valid", JBool true)] 200), [], s).
Proof.
  intros He Ht He' Ht' Hc Hl Hm. unfold reset_password_GET. rewrite He, Ht.
  rewrite (proj2 (String.eqb_neq _ _) He'), (proj2 (String.eqb_neq _ _) Ht'). simpl.
  rewrite (find_one_split Users _ s l1 u' l2); [done|done| |done].
  eapply Forall_impl; [exact Hl|]. intros y. apply matches_head.
Qed.

(** The account after [forgot-password] stored its token matches the
    reset lookup of that token for the hour that follows. *)
Lemma reset_set_pending u e t now now' :
  matches [("email", JStr e)] u = true -> now < now' + 3600000 ->
  matches (reset_filter (JStr e) (JStr t) now) (spread u (set_order (reset_set t now'))) = true.
Proof.
  intros Hmu Hlt. apply matches_email in Hmu.
  assert (Hwf : obj_wf (reset_set t now')) by (apply NoDup_cons; split; [set_solver|apply NoDup_singleton]).
  apply matches_reset_filter with (now' + 3600000); [by rewrite set_other|by apply set_fields|done].
Qed.

(** C35. The reset link works for its hour: after [forgot-password]
    answers a registered email, the link it mails, [reset_url] of the
    token it stored, is accepted by [reset-password] [GET] at any time in
    the following hour. *)
Theorem reset_link_valid s u e n :
  db_wf s -> e <> ""%string -> "?"%char ∉ String.list_ascii_of_string (base_url nextauth_url) ->
  find_one Users [("email", JStr e)] s = Some u -> get "_id" u = Some (JOid n) ->
  exists s1,
    run (forgot_password_POST prod nextauth_url (Some (JObj [("email", JStr e)]))) [] s =
      (inr (ajson [("message", JStr reset_message)] 200), [], s1) /\
    forall d, d < 3600000 ->
      run (reset_password_GET (reset_url nextauth_url (reset_token (db_next_oid s)) (JStr e))) []
          (advance d s1) =
      (inr (hjson [("valid", JBool true)] 200), [], advance d s1).
Proof.
  intros Hwf He Hb Hf Hid.
  pose proof Hf as [Hmu _]%find_one_Some.
  destruct (find_one_Some_split _ _ _ _ Hf) as (l1 & l2 & Hc & Hl).
  destruct (forgot_password_ok s u e n l1 l2) as (s1 & Hr & Hc1 & Hk1);
    [done..|by eapply unique_id_before|done|].
  exists s1. split; [done|]. intros d Hd.
  destruct (reset_url_params nextauth_url (reset_token (db_next_oid s)) e) as [Ht Hem];
    [done|apply hex_pad_plain|].
  apply (reset_GET_ok _ e (reset_token (db_next_oid s)) _ l1
           (spread u (set_order (reset_set (reset_token (db_next_oid s)) (db_clock s)))) l2);
    try first [done | apply reset_token_nonempty | by rewrite coll_advance].
  apply reset_set_pending; [done|]. simpl. lia.
Qed.

(** The update [verify] [PUT] makes: a new code valid ten minutes. *)
Definition otp_set (otp : string) (now : Z) : obj :=
  [("verificationOTP", JObj [("code", JStr otp); ("expiresAt", JDate (now + 600000))]);
   ("updatedAt", JDate now)].

Lemma verify_PUT_ok s u e n l1 l2 :
  e <> ""%string -> coll Users s = l1 ++ u :: l2 ->
  Forall (fun y => matches [("email", JStr e)] y = false) l1 -> matches [("email", JStr e)] u = true ->
  Forall (fun y => matches [("_id", JOid n)] y = false) l1 -> get "_id" u = Some (JOid n) ->
  truthy (get "isVerified" u) = false ->
  exists s1,
    run (verify_PUT prod (Some (JObj [("email", JStr e)]))) [] s =
      (inr (ajson [("message", JStr "Verification code resent. Please check your email.")] 200), [], s1) /\
    coll Users s1 = l1 ++ spread u (set_order (otp_set (otp_code (db_next_oid s)) (db_clock s))) :: l2 /\
    db_clock s1 = db_clock s.
Proof.
  intros He Hc Hle Hu Hli Hid Hv.
  assert (Hm : matches [("_id", JOid n)] u = true) by by apply matches_oid.
  unfold verify_PUT. simpl. rewrite (proj2 (String.eqb_neq _ _) He). simpl.
  rewrite (find_one_split Users _ s l1 u l2) by done. simpl. rewrite Hv. simpl. rewrite Hid. simpl.
  rewrite (update_one_found Users _ _ _ u)
    by (done || by apply (find_one_split Users _ _ l1 u l2); [rewrite coll_bump_oid|..]).
  simpl. rewrite run_catch, run_bind.
  set (sm := set_coll Users _ (bump_oid s)).
  destruct (verification_mail_ok e (otp_code (db_next_oid s)) sm) as (s1 & Hr & Hc1 & Hk1 & _).
  rewrite Hr. simpl. exists s1. split; [done|]. split.
  - rewrite Hc1. unfold sm. rewrite coll_set_coll, decide_True, coll_bump_oid, Hc by done.
    by apply replace_first_split.
  - rewrite Hk1. unfold sm. by destruct s.
Qed.

(** C36. The code [verify] [PUT] mails verifies the account: after the
    route answers for an unverified registered email, a [verify] [POST]
    with that email and the code it drew, sent within the ten minutes of
    the code, verifies the account. *)
Theorem resent_code_verifies `{!DateLaws} s u e n :
  db_wf s -> e <> ""%string -> find_one Users [("email", JStr e)] s = Some u ->
  get "_id" u = Some (JOid n) -> truthy (get "isVerified" u) = false ->
  0 <= db_clock s <= 8640000000000000 - 600000 ->
  exists s1,
    run (verify_PUT prod (Some (JObj [("email", JStr e)]))) [] s =
      (inr (ajson [("message", JStr "Verification code resent. Please check your email.")] 200), [], s1) /\
    forall d, 0 <= d <= 600000 ->
      exists r s2 u2,
        run (verify_POST prod nextauth_url jwt_env (Some (otp_body e (otp_code (db_next_oid s))))) []
            (advance d s1) = (inr r, [], s2) /\
        ar_status r = 200 /\ find_one Users [("_id", JOid n)] s2 = Some u2 /\
        get "isVerified" u2 = Some (JBool true) /\ get "verificationOTP" u2 = None.
Proof.
  intros Hwf He Hf Hid Hv Hclock.
  pose proof Hf as [Hmu _]%find_one_Some.
  destruct (find_one_Some_split _ _ _ _ Hf) as (l1 & l2 & Hc & Hl).
  destruct (verify_PUT_ok s u e n l1 l2) as (s1 & Hr & Hc1 & Hk1);
    [done..|by eapply unique_id_before|done|done|].
  exists s1. split; [done|]. intros d Hd.
  set (otp := otp_code (db_next_oid s)).
  set (u' := spread u (set_order (otp_set otp (db_clock s)))).
  assert (Hwf' : obj_wf (otp_set otp (db_clock s)))
    by (apply NoDup_cons; split; [set_solver|apply NoDup_singleton]).
  assert (Hid' : get "_id" u' = Some (JOid n)) by (unfold u'; by rewrite set_other).
  destruct (verify_POST_ok (advance d s1) u'
              [("code", JStr otp); ("expiresAt", JDate (db_clock s + 600000))] e otp n)
    as (s2 & u2 & r & Hr2 & Hst & _ & Hf2 & Hv2 & Ho2 & _).
  - done.
  - apply otp_code_nonempty.
  - apply (find_one_split Users _ _ l1 u' l2); [by rewrite coll_advance|done|].
    apply matches_email in Hmu. unfold matches. simpl. unfold u'. rewrite set_other by done.
    rewrite Hmu. simpl. by rewrite bool_decide_true.
  - unfold u'. by rewrite set_other.
  - unfold u'. by apply set_fields.
  - done.
  - simpl. rewrite Hk1. apply date_gt_valid; lia.
  - done.
  - by exists r, s2, u2.
Qed.

End props.
