(* ===== verification/AuthWitnesses.v ===== *)
(** * The theorems of [AuthProps] at a concrete account

    One registered, unverified account [ana@example.com] with ObjectId 7,
    a pending verification code and a pending password reset, at 10:00 UTC
    on 2025-01-01; the ISO-8601 instance of [DateEnv] and a model of the
    token signature.  Each lemma applies one theorem there, the hypotheses
    discharged by computation. *)

From S2P Require Import Prelude Json Env Mongo Prog JsDate JsonText Url Email Trades Auth AuthProps.

Local Open Scope Z_scope.

(** ** A model of the signature scheme

    The token is the JSON text of the claims and the key: it satisfies the
    laws [JwtSigLaws] (a JSON token decodes to its claims under its key),
    which is all the theorems use; it is not a MAC. *)
Definition model_sign (c : obj) (k : string) : string :=
  JsonText.stringify (JArr [JObj c; JStr k]).

Definition model_decode (t k : string) : option obj :=
  match JsonText.parse t with
  | Some (JArr [JObj c; JStr k']) => if String.eqb k k' then Some c else None
  | _ => None
  end.

#[export] Instance model_jwt : JwtSig := {| jws_sign := model_sign; jws_decode := model_decode |}.

#[export] Instance model_jwt_laws : JwtSigLaws.
Proof.
  split.
  - intros c k Hc. cbn [jws_sign jws_decode model_jwt]. unfold model_decode, model_sign.
    rewrite JsonText.parse_stringify by (change (is_json (JObj c) && (true && true) = true); by rewrite Hc).
    by rewrite String.eqb_refl.
  - intros c k. cbn [jws_sign model_jwt]. unfold model_sign, JsonText.stringify. simpl. done.
Qed.

(** ** The account *)

Definition a_clock : Z := 1735725600000.
Definition a_env : env := mkenv [] false (fun _ => mkreply 503 "") 0.
Definition a_user : obj :=
  [("_id", JOid 7); ("email", JStr "ana@example.com"); ("username", JStr "ana");
   ("isVerified", JBool false);
   ("verificationOTP", JObj [("code", JStr "123456"); ("expiresAt", JDate (a_clock + 600000))]);
   ("passwordReset", JObj [("token", JStr "5f2c"); ("expiresAt", JDate (a_clock + 3600000))])].
Definition a_db : db := mkdb [] [] [a_user] 8 a_clock a_env.

Lemma a_db_wf : db_wf a_db.
Proof.
  split; intros []; vm_compute; repeat constructor; try (by intros ?%list_elem_of_In); lia.
Qed.

Ltac closed := first [ reflexivity | discriminate | lia | by vm_compute | vm_compute; lia ].

Definition a_code : obj := [("code", JStr "123456"); ("expiresAt", JDate (a_clock + 600000))].

(** A session token of the account, signed eight days ago. *)
Definition a_old_token : string :=
  jwt_sign [("id", JStr (oid_hex 7))] default_jwt_secret (a_clock - 691200000).

Lemma reset_password_injection_witness :
  exists s' v0 n u',
    run (reset_password_POST (Some (injection_body "correct-horse"))) [] a_db =
      (inr (ajson [("message", JStr "Password has been reset successfully")] 200), [], s') /\
    v0 ∈ coll Users a_db /\ get "_id" v0 = Some (JOid n) /\
    find_one Users [("_id", JOid n)] s' = Some u' /\
    get "password" u' = Some (JStr (hash_password "correct-horse")) /\ get "passwordReset" u' = None.
Proof.
  apply (reset_password_injection a_db a_user "correct-horse").
  - constructor.
  - exists "ana@example.com"%string, [("token", JStr "5f2c"); ("expiresAt", JDate (a_clock + 3600000))],
      "5f2c"%string, (a_clock + 3600000). repeat split; closed.
  - repeat constructor. eexists. reflexivity.
  - closed.
Defined.

Lemma update_ltp_rejected_witness :
  run (update_ltp_credentials_POST None (Some a_old_token) None) [] a_db =
  (inr (mkaresp 500 [("error", JStr "Internal server error")] [] [CDelete "auth_token"]), [], a_db).
Proof.
  apply (proj2 (update_ltp_rejected None a_old_token None [] a_db TokenExpiredError)); closed.
Defined.

Lemma verify_wrong_otp_witness :
  exists r sc',
    run (verify_POST false None None
           (Some (JObj [("email", JStr "ana@example.com"); ("otp", JObj [("$ne", JStr "")])])))
        [FOk; FOk] a_db = (inr r, sc', a_db) /\
    (r = ajson [("error", JStr "Invalid or expired OTP")] 400 \/ r = internal_error).
Proof.
  apply (verify_wrong_otp false None None a_db [FOk; FOk] a_user a_code (JStr "ana@example.com")
           (JObj [("$ne", JStr "")]) "123456"); closed.
Defined.

Lemma forged_session_token_witness :
  let tok := jws_sign [("id", JStr (oid_hex 7))] default_jwt_secret in
  exists s' u',
    run (update_ltp_credentials_POST None (Some tok) (Some (ltp_body "ana-ltp" "s3cret"))) [] a_db =
      (inr (ajson [("message", JStr "LTP credentials updated successfully")] 200), [], s') /\
    find_one Users [("_id", JOid 7)] s' = Some u' /\
    get "ltpCredentials" u' =
      Some (JObj [("username", JStr "ana-ltp"); ("password", JStr "s3cret"); ("updatedAt", JDate (db_clock a_db))]).
Proof. apply (forged_session_token None a_db 7 a_user "ana-ltp" "s3cret"); closed. Defined.

Lemma verify_session_authenticates_witness :
  exists tok s1 r,
    run (verify_POST false None None (Some (otp_body "ana@example.com" "123456"))) [] a_db =
      (inr r, [], s1) /\
    ar_status r = 200 /\ ar_cookies r = [CSet "auth_token" tok session_max_age] /\
    forall d lu lp,
      (db_clock a_db + d) / 1000 < db_clock a_db / 1000 + 604800 -> lu <> ""%string -> lp <> ""%string ->
      exists s2 u2,
        run (update_ltp_credentials_POST None (Some tok) (Some (ltp_body lu lp))) [] (advance d s1) =
          (inr (ajson [("message", JStr "LTP credentials updated successfully")] 200), [], s2) /\
        find_one Users [("_id", JOid 7)] s2 = Some u2 /\ get "isVerified" u2 = Some (JBool true) /\
        get "ltpCredentials" u2 =
          Some (JObj [("username", JStr lu); ("password", JStr lp); ("updatedAt", JDate (db_clock a_db + d))]).
Proof.
  apply (verify_session_authenticates false None None a_db a_user a_code "ana@example.com" "123456" 7 "ana");
    closed.
Defined.

Lemma reset_link_valid_witness :
  exists s1,
    run (forgot_password_POST false None (Some (JObj [("email", JStr "ana@example.com")]))) [] a_db =
      (inr (ajson [("message", JStr reset_message)] 200), [], s1) /\
    forall d, d < 3600000 ->
      run (reset_password_GET (reset_url None (reset_token (db_next_oid a_db)) (JStr "ana@example.com"))) []
          (advance d s1) =
      (inr (hjson [("valid", JBool true)] 200), [], advance d s1).
Proof.
  apply (reset_link_valid false None a_db a_user "ana@example.com" 7);
    first [apply a_db_wf | apply notin_existsb; reflexivity | closed].
Defined.

Lemma resent_code_verifies_witness :
  exists s1,
    run (verify_PUT false (Some (JObj [("email", JStr "ana@example.com")]))) [] a_db =
      (inr (ajson [("message", JStr "Verification code resent. Please check your email.")] 200), [], s1) /\
    forall d, 0 <= d <= 600000 ->
      exists r s2 u2,
        run (verify_POST false None None (Some (otp_body "ana@example.com" (otp_code (db_next_oid a_db))))) []
            (advance d s1) = (inr r, [], s2) /\
        ar_status r = 200 /\ find_one Users [("_id", JOid 7)] s2 = Some u2 /\
        get "isVerified" u2 = Some (JBool true) /\ get "verificationOTP" u2 = None.
Proof.
  apply (resent_code_verifies false None None a_db a_user "ana@example.com" 7);
    first [apply a_db_wf | closed].
Defined.

Lemma auth_handlers_keep_wf_witness :
  (forall b, db_wf (run (forgot_password_POST false None b) [FLost "reset"] a_db).2) /\
  (forall b, db_wf (run (reset_password_POST b) [FLost "reset"] a_db).2) /\
  (forall url, db_wf (run (reset_password_GET url) [FLost "reset"] a_db).2) /\
  (forall b, db_wf (run (verify_POST false None None b) [FLost "reset"] a_db).2) /\
  (forall b, db_wf (run (verify_PUT false b) [FLost "reset"] a_db).2) /\
  (forall c b, db_wf (run (update_ltp_credentials_POST None c b) [FLost "reset"] a_db).2).
Proof. apply (auth_handlers_keep_wf false None None [FLost "reset"] a_db a_db_wf). Defined.
