(* ===== verification/Ltp.v ===== *)
(** * The LTP Calculator routes: [src/app/api/ltp-calculator/...]

    [verify/route.ts] [POST] checks a pair of LTP Calculator credentials by
    fetching one option chain with them; [historical/route.ts] [GET]
    fetches a historical option chain for the dashboard, with the
    credentials stored on the user (found through a [token] cookie) or in
    the environment, behind a rate limiter that lets one request through
    every two seconds (the module variable [lastRequestTime], the
    [env_ltp_last] field of the world), and one retry after a 429 of the
    remote service.  Both send the credentials as an HTTP Basic
    [Authorization] header, [Buffer.from(`${u}:${p}`).toString('base64')],
    modelled by [base64] on the UTF-8 bytes; [base64_decode] is the
    receiving side (RFC 4648), used to state what the header carries. *)

From stdpp Require Import pretty.
From S2P Require Import Prelude Json Env Mongo Prog JsDate JsonText Url Trades Auth.

Local Open Scope Z_scope.

(** ** Base64 *)

Definition b64_char (n : N) : ascii :=
  ascii_of_N (if (n <? 26)%N then 65 + n
              else if (n <? 52)%N then 71 + n
              else if (n <? 62)%N then n - 4
              else if (n =? 62)%N then 43 else 47)%N.

Definition pad : ascii := "="%char.

Fixpoint base64 (l : list ascii) : list ascii :=
  match l with
  | a :: b :: c :: r =>
      let n := (N_of_ascii a * 65536 + N_of_ascii b * 256 + N_of_ascii c)%N in
      b64_char (n / 262144) :: b64_char (n / 4096 mod 64) :: b64_char (n / 64 mod 64) ::
      b64_char (n mod 64) :: base64 r
  | [a; b] =>
      let n := (N_of_ascii a * 65536 + N_of_ascii b * 256)%N in
      [b64_char (n / 262144); b64_char (n / 4096 mod 64); b64_char (n / 64 mod 64); pad]
  | [a] =>
      let n := (N_of_ascii a * 65536)%N in [b64_char (n / 262144); b64_char (n / 4096 mod 64); pad; pad]
  | [] => []
  end.

(** [Buffer.from(s).toString('base64')]. *)
Definition to_base64 (s : string) : string :=
  String.string_of_list_ascii (base64 (String.list_ascii_of_string s)).

Definition b64_val (c : ascii) : option N :=
  let n := N_of_ascii c in
  if (65 <=? n)%N && (n <=? 90)%N then Some (n - 65)%N
  else if (97 <=? n)%N && (n <=? 122)%N then Some (n - 71)%N
  else if (48 <=? n)%N && (n <=? 57)%N then Some (n + 4)%N
  else if (n =? 43)%N then Some 62%N
  else if (n =? 47)%N then Some 63%N else None.

Definition bytes3 (n : N) : list ascii :=
  [ascii_of_N (n / 65536); ascii_of_N (n / 256 mod 256); ascii_of_N (n mod 256)].

(** The decoder: groups of four characters, the last one padded. *)
Fixpoint base64_decode (l : list ascii) : option (list ascii) :=
  match l with
  | [] => Some []
  | c1 :: c2 :: c3 :: c4 :: r =>
      match b64_val c1, b64_val c2 with
      | Some d1, Some d2 =>
          if Ascii.eqb c3 pad then
            if Ascii.eqb c4 pad then
              match r with
              | [] => Some [ascii_of_N ((d1 * 262144 + d2 * 4096) / 65536)]
              | _ => None
              end
            else None
          else match b64_val c3 with
               | None => None
               | Some d3 =>
                   if Ascii.eqb c4 pad then
                     match r with
                     | [] => Some (take 2 (bytes3 (d1 * 262144 + d2 * 4096 + d3 * 64)))
                     | _ => None
                     end
                   else match b64_val c4 with
                        | Some d4 =>
                            match base64_decode r with
                            | Some rest => Some (bytes3 (d1 * 262144 + d2 * 4096 + d3 * 64 + d4) ++ rest)
                            | None => None
                            end
                        | None => None
                        end
               end
      | _, _ => None
      end
  | _ => None
  end.

(** [`Basic ${Buffer.from(`${u}:${p}`).toString('base64')}`]. *)
Definition basic_auth (u p : string) : string := "Basic " +:+ to_base64 (u +:+ ":" +:+ p).

(** *** Decoding what was encoded *)

Lemma b64_val_char d : (d < 64)%N -> b64_val (b64_char d) = Some d /\ b64_char d <> pad.
Proof.
  intros Hd. rewrite <-(N2Nat.id d). assert (Hk : (N.to_nat d < 64)%nat) by lia.
  generalize (N.to_nat d) Hk. clear Hd Hk. intros k Hk.
  do 64 (destruct k as [|k]; [split; [reflexivity|discriminate]|]). lia.
Qed.

Lemma digits64 n :
  n = (n / 262144 * 262144 + (n / 4096 mod 64) * 4096 + (n / 64 mod 64) * 64 + n mod 64)%N.
Proof.
  pose proof (N.div_mod n 64 ltac:(lia)) as E1.
  pose proof (N.div_mod (n / 64) 64 ltac:(lia)) as E2.
  pose proof (N.div_mod (n / 4096) 64 ltac:(lia)) as E3.
  rewrite N.Div0.div_div in E2. rewrite N.Div0.div_div in E3.
  change (64 * 64)%N with 4096%N in E2. change (4096 * 64)%N with 262144%N in E3. lia.
Qed.

Lemma bytes3_of a b c :
  bytes3 (N_of_ascii a * 65536 + N_of_ascii b * 256 + N_of_ascii c) = [a; b; c].
Proof.
  pose proof (N_ascii_bounded a) as Ha. pose proof (N_ascii_bounded b) as Hb.
  pose proof (N_ascii_bounded c) as Hc. unfold bytes3.
  set (x := N_of_ascii a). set (y := N_of_ascii b). set (z := N_of_ascii c).
  assert (E1 : ((x * 65536 + y * 256 + z) / 65536 = x)%N).
  { rewrite <-N.add_assoc, N.div_add_l by lia. rewrite N.div_small by lia. lia. }
  assert (E2 : ((x * 65536 + y * 256 + z) / 256 = x * 256 + y)%N).
  { replace (x * 65536 + y * 256 + z)%N with (z + (x * 256 + y) * 256)%N by lia.
    rewrite N.div_add by lia. rewrite N.div_small by lia. lia. }
  assert (E3 : ((x * 65536 + y * 256 + z) mod 256 = z)%N).
  { replace (x * 65536 + y * 256 + z)%N with (z + (x * 256 + y) * 256)%N by lia.
    rewrite N.Div0.mod_add. by apply N.mod_small. }
  rewrite E1, E2, E3. replace (x * 256 + y)%N with (y + x * 256)%N by lia.
  rewrite N.Div0.mod_add, N.mod_small by lia. unfold x, y, z. by rewrite !ascii_N_embedding.
Qed.

Lemma digit_bounds n :
  (n < 16777216)%N ->
  (n / 262144 < 64)%N /\ (n / 4096 mod 64 < 64)%N /\ (n / 64 mod 64 < 64)%N /\ (n mod 64 < 64)%N.
Proof.
  intros Hn. split; [apply N.Div0.div_lt_upper_bound; lia|].
  split; [|split]; apply N.mod_lt; lia.
Qed.

(** Decoding the four characters of a digit group. *)
Ltac b64_group :=
  repeat match goal with
  | H : (?d < 64)%N |- context [b64_val (b64_char ?d)] => rewrite (proj1 (b64_val_char d H))
  | H : (?d < 64)%N |- context [Ascii.eqb (b64_char ?d) pad] =>
      rewrite (proj2 (Ascii.eqb_neq _ _) (proj2 (b64_val_char d H)))
  end; cbn iota beta.

Theorem base64_roundtrip l : base64_decode (base64 l) = Some l.
Proof.
  revert l. fix IH 1. intros [|a [|b [|c r]]]; [done| | |].
  - pose proof (N_ascii_bounded a) as Ha. cbn [base64].
    set (n := (N_of_ascii a * 65536)%N).
    destruct (digit_bounds n) as (H1 & H2 & H3 & H4); [unfold n; lia|].
    cbn [base64_decode]. b64_group. rewrite !Ascii.eqb_refl.
    do 2 f_equal.
    assert (E1 : (n mod 64 = 0)%N).
    { unfold n. replace (N_of_ascii a * 65536)%N with (N_of_ascii a * 1024 * 64)%N by lia.
      apply N.Div0.mod_mul. }
    assert (E2 : (n / 64 mod 64 = 0)%N).
    { unfold n. replace (N_of_ascii a * 65536)%N with (N_of_ascii a * 1024 * 64)%N by lia.
      rewrite N.div_mul by lia.
      replace (N_of_ascii a * 1024)%N with (N_of_ascii a * 16 * 64)%N by lia. apply N.Div0.mod_mul. }
    pose proof (digits64 n) as D. rewrite E1, E2 in D.
    replace (n / 262144 * 262144 + n / 4096 mod 64 * 4096)%N with n by lia.
    unfold n. rewrite N.div_mul by lia. apply ascii_N_embedding.
  - pose proof (N_ascii_bounded a) as Ha. pose proof (N_ascii_bounded b) as Hb. cbn [base64].
    set (n := (N_of_ascii a * 65536 + N_of_ascii b * 256)%N).
    destruct (digit_bounds n) as (H1 & H2 & H3 & H4); [unfold n; lia|].
    cbn [base64_decode]. b64_group. rewrite !Ascii.eqb_refl.
    assert (E : (n mod 64 = 0)%N).
    { unfold n. replace (N_of_ascii a * 65536 + N_of_ascii b * 256)%N
        with ((N_of_ascii a * 1024 + N_of_ascii b * 4) * 64)%N by lia.
      apply N.Div0.mod_mul. }
    pose proof (digits64 n) as D. rewrite E in D.
    replace (n / 262144 * 262144 + n / 4096 mod 64 * 4096 + n / 64 mod 64 * 64)%N with n by lia.
    replace n with (N_of_ascii a * 65536 + N_of_ascii b * 256 + N_of_ascii (ascii_of_N 0))%N
      by (unfold n; rewrite N_ascii_embedding by lia; lia).
    by rewrite bytes3_of.
  - pose proof (N_ascii_bounded a) as Ha. pose proof (N_ascii_bounded b) as Hb.
    pose proof (N_ascii_bounded c) as Hc. cbn [base64].
    set (n := (N_of_ascii a * 65536 + N_of_ascii b * 256 + N_of_ascii c)%N).
    destruct (digit_bounds n) as (H1 & H2 & H3 & H4); [unfold n; lia|].
    cbn [base64_decode]. b64_group. rewrite IH. rewrite <-digits64. unfold n. by rewrite bytes3_of.
Qed.

(** ** [POST /api/ltp-calculator/verify] *)

Definition ltp_verify_url : string :=
  "https://login.ltpcalculator.com/optionChain/fetch-data?symbol=NIFTY&expiry=26-06-2025&lotSize=75".

Definition ltp_verify_POST (b : option jval) : prog aresponse :=
  catch
    (bind (request_json b) (fun v =>
     bind (field v "email") (fun email =>
     bind (field v "password") (fun password =>
     if negb (truthy email && truthy password) then
       Ret (ajson [("error", JStr "Email and password are required")] 400) else
     bind (call (EFetch (mkreq "GET" ltp_verify_url
                           [("Authorization", basic_auth (to_js_string email) (to_js_string password))]
                           None))) (fun response =>
     if negb (rp_ok response) then Throw (Error "Invalid credentials")
     else Ret (ajson [("success", JBool true)] 200))))))
    (fun err => Ret (ajson [("error", JStr (exn_message err))] 401)).

(** ** [GET /api/ltp-calculator/historical] *)

(** [v || d]. *)
Definition js_or (v : option jval) (d : jval) : jval :=
  if truthy v then undef_null v else d.

(** [searchParams.get(k) || d]. *)
Definition param_or (k url : string) (d : string) : string :=
  match get_param k url with Some v => if String.eqb v "" then d else v | None => d end.

(** [v?.k]: [undefined] and [null] give [undefined]. *)
Definition opt_prop (v : option jval) (k : string) : option jval :=
  match v with
  | None | Some JNull => None
  | Some (JObj fs) => get k fs
  | Some _ => None
  end.

(** [formatResponse(data)]. *)
Definition formatResponse (data : jval) : obj :=
  match data with
  | JObj fs =>
      [("direction", js_or (get "direction" fs) (JStr "UNKNOWN"));
       ("scenario", js_or (get "scenario" fs) (JStr "UNKNOWN"));
       ("riskyResistance", js_or (get "riskyResistance" fs) JNull);
       ("riskySupport", js_or (get "riskySupport" fs) JNull);
       ("moderateResistance", js_or (get "moderateResistance" fs) JNull);
       ("moderateSupport", js_or (get "moderateSupport" fs) JNull);
       ("rMaxGain", js_or (get "rMaxGain" fs) JNull);
       ("sMaxGain", js_or (get "sMaxGain" fs) JNull);
       ("rMaxPain", js_or (get "rMaxPain" fs) JNull);
       ("sMaxPain", js_or (get "sMaxPain" fs) JNull)]
  | JArr _ | JOid _ | JDate _ =>
      [("direction", JStr "UNKNOWN"); ("scenario", JStr "UNKNOWN");
       ("riskyResistance", JNull); ("riskySupport", JNull);
       ("moderateResistance", JNull); ("moderateSupport", JNull);
       ("rMaxGain", JNull); ("sMaxGain", JNull); ("rMaxPain", JNull); ("sMaxPain", JNull)]
  | _ => [("error", JStr "Invalid data format")]
  end.

(** [await response.json()]: a body that is not JSON throws. *)
Definition response_json (r : reply) : prog jval :=
  match JsonText.parse (rp_text r) with
  | Some v => Ret v
  | None => Throw (JsError "SyntaxError" "Unexpected token in JSON")
  end.

Definition MIN_REQUEST_INTERVAL : Z := 2000.

Definition contains_char (c : ascii) (s : string) : bool :=
  existsb (Ascii.eqb c) (String.list_ascii_of_string s).

Section historical.
Context `{JwtSig} (jwt_env ltp_username_env ltp_password_env : option string).

(** The user id of a [token] cookie: [jwt.verify] and [decoded.userId],
    an error only logged. *)
Definition cookie_user (cookie : option string) : prog (option jval) :=
  match cookie with
  | Some token =>
      if String.eqb token "" then Ret None else
      bind (call ENow) (fun now =>
      match jwt_verify token (jwt_secret jwt_env) now with
      | inl _ => Ret None
      | inr decoded => Ret (get "userId" decoded)
      end)
  | None => Ret None
  end.

(** The stored credentials of that user; a failure is only logged. *)
Definition stored_credentials (userId : option jval) : prog (option jval) :=
  if negb (truthy userId) then Ret None else
  bind (attempt
    (bind (call EConnect) (fun _ =>
     bind (new_ObjectId userId) (fun oid =>
     bind (call (EFindOne Users [("_id", oid)])) (fun user =>
     let c := match user with Some u => get "ltpCredentials" u | None => None end in
     Ret (if truthy c then c else None)))))) (fun r =>
  match r with inl _ => Ret None | inr c => Ret c end).

(** [ltpCredentials?.k || process.env.X || '']. *)
Definition credential (cred : option jval) (k : string) (env : option string) : jval :=
  let v := opt_prop cred k in
  if truthy v then undef_null v else JStr (env_or env "").

Definition ltp_error (st : Z) : aresponse :=
  ajson [("error", JStr ("LTP Calculator API error: " +:+ pretty st))] st.

Definition historical_GET (url : string) (cookie : option string) : prog aresponse :=
  catch
    (let symbol := param_or "symbol" url "NIFTY" in
     let expiry := param_or "expiry" url "" in
     let lotSize := param_or "lotSize" url "75" in
     let fetchDate := param_or "fetchDate" url "" in
     let fetchTime := param_or "fetchTime" url "" in
     if String.eqb expiry "" || String.eqb fetchDate "" || String.eqb fetchTime "" then
       Ret (ajson [("error", JStr "Missing required parameters: expiry, fetchDate, or fetchTime")] 400) else
     bind (cookie_user cookie) (fun userId =>
     bind (stored_credentials userId) (fun cred =>
     let user := credential cred "username" ltp_username_env in
     let pass := credential cred "password" ltp_password_env in
     if negb (truthy (Some user) && truthy (Some pass)) then
       Ret (ajson [("error", JStr "LTP Calculator credentials not found")] 401) else
     bind (call ENow) (fun now =>
     bind (call ELtpLast) (fun last =>
     if now - last <? MIN_REQUEST_INTERVAL then
       Ret (ajson [("error", JStr "Rate limit exceeded. Please try again in a few seconds.")] 429) else
     bind (call (ESetLtpLast now)) (fun _ =>
     let formattedTime := if contains_char ":" fetchTime then fetchTime else fetchTime +:+ ":00" in
     let target := "https://login.ltpcalculator.com/optionChain/fetch-data?symbol=" +:+ symbol +:+
                   "&expiry=" +:+ expiry +:+ "&lotSize=" +:+ lotSize +:+ "&fetchTime=" +:+
                   fetchDate +:+ " " +:+ formattedTime in
     let req := mkreq "GET" target
                  [("Authorization", basic_auth (to_js_string (Some user)) (to_js_string (Some pass)))] None in
     bind (call (EFetch req)) (fun response =>
     if rp_ok response then
       bind (response_json response) (fun data => Ret (ajson (formatResponse data) 200))
     else if Z.eqb (rp_status response) 429 then
       bind (call (ESleep 3000)) (fun _ =>
       bind (call (EFetch req)) (fun retry =>
       if rp_ok retry then
         bind (response_json retry) (fun data => Ret (ajson (formatResponse data) 200))
       else Ret (ltp_error (rp_status retry))))
     else Ret (ltp_error (rp_status response)))))))))
    (fun _ => Ret internal_error).

End historical.
