(* ===== verification/LtpProps.v ===== *)
(** * Properties of the LTP Calculator routes

    What the Basic header carries; the rate limiter of the historical
    route, for one request and for a sequence of requests; and that the
    session cookie of the application never reaches that route. *)

From stdpp Require Import pretty.
From S2P Require Import Prelude Json Env Mongo Prog JsDate JsonText Url Trades Auth AuthProps Ltp.

Local Open Scope Z_scope.

(** ** The Basic header *)

(** The [Authorization] header of both routes is [Basic] followed by
    a text that decodes to [u:p]; the receiving side, which splits at the
    first colon (RFC 7617), reads the user name back exactly when it has
    no colon: a user name with a colon is read as a different user. *)
Theorem basic_auth_credentials u p :
  exists enc, basic_auth u p = "Basic " +:+ enc /\
    base64_decode (String.list_ascii_of_string enc) =
      Some (String.list_ascii_of_string u ++ ":"%char :: String.list_ascii_of_string p) /\
    (before_char ":" (String.list_ascii_of_string u ++ ":"%char :: String.list_ascii_of_string p) =
       String.list_ascii_of_string u <-> ":"%char ∉ String.list_ascii_of_string u).
Proof.
  exists (to_base64 (u +:+ ":" +:+ p)). split; [done|]. split.
  - unfold to_base64. rewrite String.list_ascii_of_string_of_list_ascii, base64_roundtrip.
    by rewrite !list_ascii_of_string_app.
  - generalize (String.list_ascii_of_string p). induction (String.list_ascii_of_string u) as [|c l IH];
      intros q; simpl.
    + split; [intros _; apply not_elem_of_nil|done].
    + destruct (Ascii.eqb_spec c ":") as [->|Hc].
      * split; [done|]. intros H. exfalso. apply H. left.
      * rewrite not_elem_of_cons. split.
        -- intros [= E]. split; [done|]. by apply (IH q).
        -- intros [_ H]. f_equal. by apply IH.
Qed.

(** ** The rate limiter *)

(** The events that leave the limiter's variable and the clock alone. *)
Definition quiet_event {R} (e : event R) : Prop :=
  match e with ESleep _ | ESetLtpLast _ => False | _ => True end.

(** The events after the limiter's check: they keep its variable. *)
Definition keeps_last {R} (e : event R) : Prop :=
  match e with ESetLtpLast _ => False | _ => True end.

Definition ltp_last (s : db) : Z := env_ltp_last (db_env s).

Lemma set_coll_env c l s : db_env (set_coll c l s) = db_env s /\ db_clock (set_coll c l s) = db_clock s.
Proof. by destruct c. Qed.

Lemma exec_keeps {R} (e : event R) s r s' :
  keeps_last e -> exec e s = inr (r, s') ->
  ltp_last s' = ltp_last s /\ (quiet_event e -> db_clock s' = db_clock s).
Proof.
  unfold ltp_last. destruct e; simpl; intros He Hx; try contradiction;
    unfold insert_one, with_id, update_one, update_unset, delete_one in Hx;
    repeat (case_match; simplify_eq); simplify_eq; try done;
    repeat match goal with |- context [set_coll ?c ?l ?s] => destruct (set_coll_env c l s) as [-> ->] end;
    try done.
Qed.

Lemma run_keeps {A} (p : prog A) sc s : events_in (@keeps_last) p -> ltp_last (run p sc s).2 = ltp_last s.
Proof.
  intros Hp. apply (run_relates (fun s s' => ltp_last s' = ltp_last s) (@keeps_last));
    [done|congruence| |done].
  intros R e ft s0 He. destruct (handle_state e ft s0) as [->|[r Hx]]; [done|].
  by apply (exec_keeps e s0 r) in Hx as [? _].
Qed.


(** [solve_events] with the leaves first. *)
Ltac ev_tac :=
  repeat first
    [ apply ev_ret | apply ev_throw | progress intros
    | apply events_in_bind | apply events_in_catch | apply events_in_attempt | apply events_in_call
    | constructor | case_match | (hnf; done) ].

Section limiter.
Context `{JwtSig} (jwt_env ue pe : option string).







(** The request of the dashboard's historical view, with the credentials
    of the environment and no cookie. *)
Definition ready (url : string) : Prop :=
  param_or "expiry" url "" <> ""%string /\ param_or "fetchDate" url "" <> ""%string /\
  param_or "fetchTime" url "" <> ""%string /\ env_or ue "" <> ""%string /\ env_or pe "" <> ""%string.

(** C23. The limiter admits a request exactly when two seconds have
    passed: earlier it answers 429 without any other effect; otherwise it
    records the time of the request, whatever the remote service then
    does. *)
Theorem historical_limiter url sc s :
  ready url ->
  (db_clock s - ltp_last s < MIN_REQUEST_INTERVAL ->
   run (historical_GET jwt_env ue pe url None) sc s =
   (inr (ajson [("error", JStr "Rate limit exceeded. Please try again in a few seconds.")] 429), sc, s)) /\
  (MIN_REQUEST_INTERVAL <= db_clock s - ltp_last s ->
   ltp_last (run (historical_GET jwt_env ue pe url None) sc s).2 = db_clock s).
Proof.
  intros (He & Hd & Ht & Hu & Hp). unfold historical_GET. cbv zeta.
  rewrite (proj2 (String.eqb_neq _ _) He), (proj2 (String.eqb_neq _ _) Hd), (proj2 (String.eqb_neq _ _) Ht).
  unfold credential, opt_prop. cbn [truthy undef_null cookie_user stored_credentials negb bind].
  rewrite (proj2 (String.eqb_neq _ _) Hu), (proj2 (String.eqb_neq _ _) Hp). cbn [negb andb bind].
  split; intros Hlt.
  - simpl. unfold ltp_last in Hlt. by rewrite (proj2 (Z.ltb_lt _ _) Hlt).
  - rewrite run_catch. unfold ltp_last in Hlt. cbn [orb].
    do 2 (rewrite run_bind; cbn [run call next_fault takes_fault handle exec]).
    rewrite (proj2 (Z.ltb_ge _ _) Hlt).
    rewrite run_bind; cbn [run call next_fault takes_fault handle exec].
    match goal with |- context [run ?p sc ?s3] =>
      assert (K : ltp_last (run p sc s3).2 = ltp_last s3)
        by (apply run_keeps; unfold response_json; ev_tac);
      destruct (run p sc s3) as [[r sc'] s'] eqn:E end.
    simpl in K. by destruct r.
Qed.

(** The session token of [verify] [POST] carries no [userId] claim. *)
Lemma cookie_user_session `{!JwtSigLaws} u e un id t sc s :
  get "email" u = Some (JStr e) -> get "username" u = Some (JStr un) ->
  run (cookie_user jwt_env (Some (jwt_sign (session_payload u id) (jwt_secret jwt_env) t))) sc s =
  (inr None, sc, s).
Proof.
  intros He Hu. unfold cookie_user.
  rewrite (proj2 (String.eqb_neq _ _) (jwt_sign_nonempty _ _ _)). simpl.
  destruct (jwt_verify _ _ _) as [x|decoded] eqn:V; [done|].
  unfold jwt_verify, jwt_sign in V. cbv zeta in V.
  unfold session_payload in V. rewrite He, Hu in V. rewrite jws_decode_sign in V by reflexivity.
  simpl in V. unfold exp_check in V. simpl in V. case_match; simplify_eq. done.
Qed.

(** C37. The historical route looks for the session in a cookie named
    [token] with a [userId] claim, while [verify] sets [auth_token] with an
    [id] claim: even the application's own session token, sent under the
    name the route reads, leaves the route as it is without a cookie, so
    the credentials stored on the account are never used. *)
Theorem session_cookie_ignored `{!JwtSigLaws} u e un id t url sc s :
  get "email" u = Some (JStr e) -> get "username" u = Some (JStr un) ->
  run (historical_GET jwt_env ue pe url (Some (jwt_sign (session_payload u id) (jwt_secret jwt_env) t))) sc s =
  run (historical_GET jwt_env ue pe url None) sc s.
Proof.
  intros He Hu. unfold historical_GET. rewrite !run_catch. cbv zeta.
  destruct (_ || _ || _); [reflexivity|].
  rewrite !run_bind. by rewrite (cookie_user_session u e un).
Qed.

End limiter.

(** The credential check of [ltp-calculator/verify] asks the LTP
    Calculator once, with the Basic header of the two values, and answers
    200 when the service accepts them and 401 [Invalid credentials]
    otherwise, leaving the database as it was; a failure of the request
    itself is a 401 with its message. *)
Theorem ltp_verify_answer e p s msg :
  e <> ""%string -> p <> ""%string ->
  let req := mkreq "GET" ltp_verify_url [("Authorization", basic_auth e p)] None in
  let body := Some (JObj [("email", JStr e); ("password", JStr p)]) in
  run (ltp_verify_POST body) [] s =
    (inr (if rp_ok (env_web (db_env s) req) then ajson [("success", JBool true)] 200
          else ajson [("error", JStr "Invalid credentials")] 401), [], s) /\
  run (ltp_verify_POST body) [FFail msg] s = (inr (ajson [("error", JStr msg)] 401), [], s).
Proof.
  intros He Hp req body. unfold ltp_verify_POST, body. simpl.
  rewrite (proj2 (String.eqb_neq _ _) He), (proj2 (String.eqb_neq _ _) Hp). simpl.
  split; [|done]. by destruct (rp_ok _).
Qed.
