(* ===== verification/Chat.v ===== *)
(** * The chat route: [src/app/api/chat/route.ts]

    [POST] reads [{ messages, systemPrompt, useDeepAnalysis }], checks the
    API key and the types, and asks OpenRouter for a completion
    ([generateChatResponse]): one [fetch] with the system prompt and the
    conversation, whose reply must be [ok], JSON, and carry
    [choices[0].message.content].  The reply is then cleaned: the first
    [<think>...</think>] section is split off as [thinking], and bold,
    italic and heading marks are removed so that text-to-speech does not
    read them.  The regular expressions are modelled on the UTF-8 bytes of
    the text: [.] without the [s] flag stops at a line terminator ([\n],
    [\r], U+2028, U+2029), [\s] and [trim] know the whitespace of
    ECMAScript (the ASCII spaces, U+00A0, U+1680, U+2000 to U+200A,
    U+2028, U+2029, U+202F, U+205F, U+3000 and U+FEFF).  The request body
    is the text [JSON.stringify] writes for the payload, its two
    temperatures written out.  The key is [process.env.OPENROUTER_API_KEY]
    or the literal of line 4 (the section variable [key_literal]); the
    [details] of an error body, present only when [NODE_ENV] is
    [development], are not modelled. *)

From stdpp Require Import pretty.
From S2P Require Import Prelude Json Env Mongo Prog JsDate JsonText Trades Auth Ltp.

Local Open Scope Z_scope.

(** ** Bytes, whitespace and line terminators *)

Definition byte (n : nat) : ascii := ascii_of_nat n.

(** The byte sequences of the ECMAScript whitespace and line terminators. *)
Definition ws_seqs : list (list ascii) :=
  [[byte 9]; [byte 10]; [byte 11]; [byte 12]; [byte 13]; [byte 32]; [byte 194; byte 160];
   [byte 225; byte 154; byte 128]] ++
  map (fun k => [byte 226; byte 128; byte (128 + k)]) (seq 0 11) ++
  [[byte 226; byte 128; byte 168]; [byte 226; byte 128; byte 169]; [byte 226; byte 128; byte 175];
   [byte 226; byte 129; byte 159]; [byte 227; byte 128; byte 128]; [byte 239; byte 187; byte 191]].

Definition line_terms : list (list ascii) :=
  [[byte 10]; [byte 13]; [byte 226; byte 128; byte 168]; [byte 226; byte 128; byte 169]].

Fixpoint is_prefix (p l : list ascii) : bool :=
  match p, l with
  | [], _ => true
  | a :: p', b :: l' => Ascii.eqb a b && is_prefix p' l'
  | _ :: _, [] => false
  end.

(** The length of the sequence of [seqs] that starts [l], if any. *)
Definition seq_at (seqs : list (list ascii)) (l : list ascii) : option nat :=
  length <$> find_first (fun p => is_prefix p l) seqs.

(** Strips the sequences of [seqs] at the start, with fuel for the
    recursion on what remains. *)
Fixpoint strip_seqs (seqs : list (list ascii)) (fuel : nat) (l : list ascii) : list ascii :=
  match fuel with
  | O => l
  | S f => match seq_at seqs l with Some k => strip_seqs seqs f (drop k l) | None => l end
  end.

(** [s.trim()]: the end is stripped on the reversed text, with the
    sequences reversed. *)
Definition trim (l : list ascii) : list ascii :=
  let l1 := strip_seqs ws_seqs (length l) l in
  rev (strip_seqs (map (fun p => rev p) ws_seqs) (length l1) (rev l1)).

(** The text before the first occurrence of [p], and the text after it. *)
Fixpoint split_at_sub (p l : list ascii) : option (list ascii * list ascii) :=
  if is_prefix p l then Some ([], drop (length p) l) else
  match l with
  | [] => None
  | c :: r => match split_at_sub p r with Some (b, a) => Some (c :: b, a) | None => None end
  end.

Definition open_tag : list ascii := String.list_ascii_of_string "<think>".
Definition close_tag : list ascii := String.list_ascii_of_string "</think>".

(** [content.match(/<think>(.*?)<\/think>/s)] and the [replace] of the
    same expression: the thinking and the rest, both trimmed, when there
    is a match; the content as it is otherwise. *)
Definition extract_think (l : list ascii) : list ascii * list ascii :=
  match split_at_sub open_tag l with
  | Some (before, after) =>
      match split_at_sub close_tag after with
      | Some (group, rest) => (trim group, trim (before ++ rest))
      | None => ([], l)
      end
  | None => ([], l)
  end.

(** The lazy group of [d(.*?)d] after the opening [d]: the text up to the
    next [d], which must come before any line terminator. *)
Fixpoint lazy_group (d l : list ascii) : option (list ascii * list ascii) :=
  if is_prefix d l then Some ([], drop (length d) l) else
  match l with
  | [] => None
  | c :: r =>
      match seq_at line_terms l with
      | Some _ => None
      | None => match lazy_group d r with Some (g, a) => Some (c :: g, a) | None => None end
      end
  end.

(** [s.replace(/d(.*?)d/g, '$1')]. *)
Fixpoint strip_delim_go (fuel : nat) (d l : list ascii) : list ascii :=
  match fuel with
  | O => l
  | S f =>
      match l with
      | [] => []
      | c :: r =>
          if is_prefix d l then
            match lazy_group d (drop (length d) l) with
            | Some (g, rest) => g ++ strip_delim_go f d rest
            | None => c :: strip_delim_go f d r
            end
          else c :: strip_delim_go f d r
      end
  end.

Definition strip_delim (d l : list ascii) : list ascii := strip_delim_go (length l) d l.

Fixpoint skip_hashes (l : list ascii) : list ascii :=
  match l with c :: r => if Ascii.eqb c "#" then skip_hashes r else l | [] => [] end.

(** [s.replace(/#+\s?/g, '')]. *)
Fixpoint strip_hashes_go (fuel : nat) (l : list ascii) : list ascii :=
  match fuel with
  | O => l
  | S f =>
      match l with
      | [] => []
      | c :: r =>
          if Ascii.eqb c "#" then
            let r' := skip_hashes r in
            match seq_at ws_seqs r' with
            | Some k => strip_hashes_go f (drop k r')
            | None => strip_hashes_go f r'
            end
          else c :: strip_hashes_go f r
      end
  end.

Definition strip_hashes (l : list ascii) : list ascii := strip_hashes_go (length l) l.

(** The three replacements, in the order of the source. *)
Definition clean_markdown (l : list ascii) : list ascii :=
  strip_hashes (strip_delim ["*"%char] (strip_delim ["*"%char; "*"%char] l)).

(** ** [generateChatResponse] and [POST] *)

Definition chat_endpoint : string := "https://openrouter.ai/api/v1/chat/completions".

Definition deep_suffix : string :=
  String (byte 10) (String (byte 10)
    "Please provide a deep, thorough analysis with detailed explanations. Consider multiple perspectives, analyze implications, and provide comprehensive insights. Your response should be well-structured, nuanced, and demonstrate expert-level understanding.").

(** [{ role: msg.role === 'assistant' ? 'assistant' : 'user', content: msg.content }]. *)
Definition chat_message (m : jval) : exn + jval :=
  match prop m "role", prop m "content" with
  | inl e, _ | _, inl e => inl e
  | inr role, inr content =>
      inr (JObj (defined_fields
             [("role", Some (JStr (if js_strict_eq role (Some (JStr "assistant")) then "assistant" else "user")));
              ("content", content)]))
  end.

Fixpoint chat_messages (ms : list jval) : exn + list jval :=
  match ms with
  | [] => inr []
  | m :: ms' =>
      match chat_message m with
      | inl e => inl e
      | inr v => match chat_messages ms' with inl e => inl e | inr vs => inr (v :: vs) end
      end
  end.

(** [v?.[0]]. *)
Definition index0 (v : option jval) : option jval :=
  match v with
  | Some (JArr (x :: _)) => Some x
  | Some (JObj fs) => get "0" fs
  | Some (JStr (String c _)) => Some (JStr (String c ""))
  | _ => None
  end.

Section chat.
Context `{DateEnv} (key_literal : string) (openrouter_env : option string).

Definition openrouter_key : string := env_or openrouter_env key_literal.

(** A key of [JSON.stringify]'s text, with its colon. *)
Definition key_text (k : string) : list ascii :=
  JsonText.quote (String.list_ascii_of_string k) ++ [":"%char].

(** [JSON.stringify(requestPayload)]; the temperatures [0.5] and [0.7]
    are written as [JSON.stringify] writes them. *)
Definition payload_text (model system : string) (msgs : list jval) (deep : bool) : string :=
  String.string_of_list_ascii
    ("{"%char :: key_text "model" ++ JsonText.quote (String.list_ascii_of_string model) ++
     ","%char :: key_text "messages" ++
     JsonText.jtext (JArr (JObj [("role", JStr "system"); ("content", JStr system)] :: msgs)) ++
     ","%char :: key_text "temperature" ++
     String.list_ascii_of_string (if deep then "0.5" else "0.7") ++
     ","%char :: key_text "max_tokens" ++
     String.list_ascii_of_string (if deep then "4096" else "2048") ++
     ","%char :: key_text "stream" ++ String.list_ascii_of_string "false}").

Definition generateChatResponse (messages : list jval) (systemPrompt : string) (deep : bool) : prog jval :=
  let model := if deep then "deepseek/deepseek-r1-0528:free" else "deepseek/deepseek-chat-v3-0324:free" in
  let system := if deep then systemPrompt +:+ deep_suffix else systemPrompt in
  match chat_messages messages with
  | inl e => Throw e
  | inr msgs =>
      bind (call (EFetch (mkreq "POST" chat_endpoint
                            [("Content-Type", "application/json");
                             ("Authorization", "Bearer " +:+ openrouter_key);
                             ("HTTP-Referer", "https://www.optionforbeginner.com"); ("X-Title", "Daddy AI")]
                            (Some (payload_text model system msgs deep))))) (fun response =>
      let text := rp_text response in
      if negb (rp_ok response) then
        Throw (Error ("API request failed with status " +:+ pretty (rp_status response) +:+ ": " +:+ text))
      else match JsonText.parse text with
      | None => Throw (Error ("Failed to parse API response as JSON: " +:+ text))
      | Some data =>
          match prop data "choices" with
          | inl e => Throw e
          | inr choices =>
              let content := opt_prop (opt_prop (index0 choices) "message") "content" in
              if truthy content then Ret (undef_null content)
              else Throw (Error "Invalid response format from API")
          end
      end)
  end.

(** The body of a successful answer. *)
Definition chat_reply (content : string) : obj :=
  let '(thinking, rest) := extract_think (String.list_ascii_of_string content) in
  [("message", JStr (String.string_of_list_ascii (clean_markdown rest)));
   ("thinking", match thinking with [] => JNull | _ => JStr (String.string_of_list_ascii thinking) end)].

Definition chat_POST (b : option jval) : prog aresponse :=
  catch
    (bind (request_json b) (fun body =>
     bind (field body "messages") (fun messages =>
     bind (field body "systemPrompt") (fun systemPrompt =>
     bind (field body "useDeepAnalysis") (fun deep =>
     if String.eqb openrouter_key "" || String.eqb openrouter_key "your-openrouter-api-key-here" then
       Throw (Error "OpenRouter API key not configured") else
     match messages with
     | Some (JArr ms) =>
         match systemPrompt with
         | Some (JStr sp) =>
             bind (generateChatResponse ms sp (truthy deep)) (fun content =>
             match content with
             | JStr c => Ret (ajson (chat_reply c) 200)
             | _ => Throw (TypeError "responseContent.match is not a function")
             end)
         | _ => Throw (Error "System prompt must be a string")
         end
     | _ => Throw (Error "Messages must be an array")
     end)))))
    (fun err => Ret (ajson [("error", JStr (if String.eqb (exn_message err) "" then "Internal server error"
                                            else exn_message err))] 500)).

End chat.
