(* ===== verification/ChatProps.v ===== *)
(** * Properties of the chat route

    The cleaning of the completion: no heading mark survives it, and the
    [<think>] section is split off as it is meant to be; the refusals of
    a malformed request, which never reach OpenRouter. *)

From stdpp Require Import pretty.
From S2P Require Import Prelude Json Env Mongo Prog JsDate JsonText Trades Auth Ltp Chat.

Local Open Scope Z_scope.

(** ** No heading mark survives *)

Lemma skip_hashes_length l : (length (skip_hashes l) <= length l)%nat.
Proof. induction l as [|c l IH]; simpl; [lia|]. destruct (Ascii.eqb c "#"); simpl; lia. Qed.

Lemma strip_hashes_go_no_hash f l : (length l <= f)%nat -> "#"%char ∉ strip_hashes_go f l.
Proof.
  revert l. induction f as [|f IH]; intros l Hl.
  - destruct l; [apply not_elem_of_nil|simpl in Hl; lia].
  - destruct l as [|c r]; [apply not_elem_of_nil|]. simpl in Hl |- *.
    pose proof (skip_hashes_length r) as Hs.
    destruct (Ascii.eqb_spec c "#") as [->|Hc].
    + destruct (seq_at ws_seqs (skip_hashes r)); apply IH; [rewrite length_drop|]; lia.
    + rewrite not_elem_of_cons. split; [done|]. apply IH. lia.
Qed.

Lemma strip_hashes_no_hash l : "#"%char ∉ strip_hashes l.
Proof. by apply strip_hashes_go_no_hash. Qed.

(** ** The [<think>] section *)

Lemma is_prefix_app p x : is_prefix p (p ++ x) = true.
Proof. induction p as [|c p IH]; simpl; [done|]. by rewrite Ascii.eqb_refl, IH. Qed.

Lemma split_at_sub_here p x : split_at_sub p (p ++ x) = Some ([], x).
Proof.
  assert (E : is_prefix p (p ++ x) = true) by apply is_prefix_app.
  destruct p as [|c p]; simpl in *; [by destruct x|]. rewrite E. by rewrite drop_app_length.
Qed.

Lemma split_at_sub_cons p c l :
  split_at_sub p (c :: l) =
  if is_prefix p (c :: l) then Some ([], drop (length p) (c :: l))
  else match split_at_sub p l with Some (b, a) => Some (c :: b, a) | None => None end.
Proof. destruct p; reflexivity. Qed.

Lemma close_not_prefix c l : c <> "<"%char -> is_prefix close_tag (c :: l) = false.
Proof.
  intros Hc. cbn [close_tag String.list_ascii_of_string is_prefix].
  by destruct (Ascii.eqb_spec "<" c); [congruence|].
Qed.

Lemma split_close t r : "<"%char ∉ t -> split_at_sub close_tag (t ++ close_tag ++ r) = Some (t, r).
Proof.
  induction t as [|c t IH]; intros Ht; [exact (split_at_sub_here close_tag r)|].
  rewrite not_elem_of_cons in Ht. destruct Ht as [Hc Ht].
  change ((c :: t) ++ close_tag ++ r) with (c :: (t ++ close_tag ++ r)).
  rewrite split_at_sub_cons, close_not_prefix, IH by done. done.
Qed.

(** A completion that opens with a [<think>] section, whose thinking
    has no [<], is split into that thinking and the text after the
    section, both trimmed. *)
Theorem extract_think_split t r :
  "<"%char ∉ t -> extract_think (open_tag ++ t ++ close_tag ++ r) = (trim t, trim r).
Proof. intros Ht. unfold extract_think. by rewrite split_at_sub_here, split_close. Qed.

Section chat.
Context `{DateEnv} (key_literal : string) (openrouter_env : option string).

(** The answers of [POST]: a 200 carries a cleaned message. *)
Definition cleaned (r : aresponse) : Prop :=
  ar_status r = 200 ->
  exists m, get "message" (ar_body r) = Some (JStr m) /\ "#"%char ∉ String.list_ascii_of_string m.

(** C31. Whatever the request, the remote service and the failures, a
    200 answer of the chat route carries a message with no [#]: the
    heading marks of the completion never reach text-to-speech. *)
Theorem chat_message_no_hash b sc s r sc' s' :
  run (chat_POST key_literal openrouter_env b) sc s = (inr r, sc', s') -> cleaned r.
Proof.
  apply run_rets. unfold chat_POST.
  apply rets_in_catch; [|intros; constructor; by unfold cleaned].
  apply (rets_in_bind (fun _ => True)); [apply rets_in_True|intros v _].
  unfold field. destruct (prop v "messages"); [constructor|]. cbn [bind].
  destruct (prop v "systemPrompt"); [constructor|]. cbn [bind].
  destruct (prop v "useDeepAnalysis"); [constructor|]. cbn [bind].
  case_match; [constructor|]. repeat (case_match; try constructor).
  apply (rets_in_bind (fun _ => True)); [apply rets_in_True|].
  - intros c _. destruct c; try constructor. intros _. unfold chat_reply.
    destruct (extract_think _) as [th rest]. eexists. split; [reflexivity|].
    rewrite String.list_ascii_of_string_of_list_ascii. apply strip_hashes_no_hash.
Qed.

(** C32. With a key configured, a body whose [messages] is not an array,
    or whose [systemPrompt] is not a string, is answered 500 with the
    reason, before any request to OpenRouter and with nothing else
    changed. *)
Theorem chat_bad_request fs sc s :
  openrouter_key key_literal openrouter_env <> ""%string ->
  openrouter_key key_literal openrouter_env <> "your-openrouter-api-key-here"%string ->
  ((forall ms, get "messages" fs <> Some (JArr ms)) ->
   run (chat_POST key_literal openrouter_env (Some (JObj fs))) sc s =
   (inr (ajson [("error", JStr "Messages must be an array")] 500), sc, s)) /\
  (forall ms, get "messages" fs = Some (JArr ms) -> (forall sp, get "systemPrompt" fs <> Some (JStr sp)) ->
   run (chat_POST key_literal openrouter_env (Some (JObj fs))) sc s =
   (inr (ajson [("error", JStr "System prompt must be a string")] 500), sc, s)).
Proof.
  intros Hk1 Hk2. unfold chat_POST. simpl.
  rewrite (proj2 (String.eqb_neq _ _) Hk1), (proj2 (String.eqb_neq _ _) Hk2). simpl.
  split.
  - intros Hm. destruct (get "messages" fs) as [v|] eqn:E; [|done].
    destruct v; try done. exfalso. by eapply Hm.
  - intros ms Hm Hs. rewrite Hm. destruct (get "systemPrompt" fs) as [v|] eqn:E; [|done].
    destruct v; try done. exfalso. by eapply Hs.
Qed.

End chat.
