(* ===== verification/ServiceWitnesses.v ===== *)
(** * The theorems of [LtpProps] and [ChatProps] at concrete requests

    The account of [AuthWitnesses], the LTP credentials [ana]/[pw] in the
    environment, a historical request for the NIFTY chain of 26-06-2025,
    and an OpenRouter that answers one completion with a heading, bold
    text and a [<think>] section. *)

From S2P Require Import Prelude Json Env Mongo Prog JsDate JsonText Url Trades Auth AuthProps AuthWitnesses Ltp LtpProps Chat ChatProps.

Local Open Scope Z_scope.

Definition h_url : string :=
  "/api/ltp-calculator/historical?symbol=NIFTY&expiry=26-06-2025&lotSize=75&fetchDate=2025-06-20&fetchTime=10:15".

(** The last request went through five seconds ago. *)
Definition h_db : db := mkdb [] [] [a_user] 8 a_clock (mkenv [] false (fun _ => mkreply 503 "") (a_clock - 5000)).

Lemma historical_limiter_witness :
  (db_clock h_db - ltp_last h_db < MIN_REQUEST_INTERVAL ->
   run (historical_GET None (Some "ana") (Some "pw") h_url None) [] h_db =
   (inr (ajson [("error", JStr "Rate limit exceeded. Please try again in a few seconds.")] 429), [], h_db)) /\
  (MIN_REQUEST_INTERVAL <= db_clock h_db - ltp_last h_db ->
   ltp_last (run (historical_GET None (Some "ana") (Some "pw") h_url None) [] h_db).2 = db_clock h_db).
Proof. apply historical_limiter. repeat split; vm_compute; congruence. Defined.

Lemma session_cookie_ignored_witness :
  run (historical_GET None (Some "ana") (Some "pw") h_url
         (Some (jwt_sign (session_payload a_user (oid_hex 7)) (jwt_secret None) a_clock))) [] h_db =
  run (historical_GET None (Some "ana") (Some "pw") h_url None) [] h_db.
Proof. apply (session_cookie_ignored None _ _ a_user "ana@example.com" "ana"); reflexivity. Defined.

Lemma ltp_verify_answer_witness :
  let req := mkreq "GET" ltp_verify_url [("Authorization", basic_auth "ana" "pw")] None in
  let body := Some (JObj [("email", JStr "ana"); ("password", JStr "pw")]) in
  run (ltp_verify_POST body) [] h_db =
    (inr (if rp_ok (env_web (db_env h_db) req) then ajson [("success", JBool true)] 200
          else ajson [("error", JStr "Invalid credentials")] 401), [], h_db) /\
  run (ltp_verify_POST body) [FFail "timeout"] h_db = (inr (ajson [("error", JStr "timeout")] 401), [], h_db).
Proof. apply ltp_verify_answer; discriminate. Defined.

(** ** The chat route *)

Definition completion : string :=
  "<think>plan the answer</think>  ## Scenario 9" ++ String (byte 10) "**Buy** the *dip*".

Definition openrouter_reply : reply :=
  mkreply 200 (JsonText.stringify
                 (JObj [("choices", JArr [JObj [("message", JObj [("content", JStr completion)])]])])).

Definition chat_db : db := mkdb [] [] [] 1 a_clock (mkenv [] false (fun _ => openrouter_reply) 0).

Definition chat_body : jval :=
  JObj [("messages", JArr [JObj [("role", JStr "user"); ("content", JStr "scenario")]]);
        ("systemPrompt", JStr "You are Daddy's AI")].

Lemma chat_message_no_hash_witness :
  exists r, (run (chat_POST "sk-or-v1-key" None (Some chat_body)) [] chat_db).1.1 = inr r /\
    ar_status r = 200 /\ cleaned r.
Proof.
  eexists. split; [vm_compute; reflexivity|]. split; [vm_compute; reflexivity|].
  apply (chat_message_no_hash "sk-or-v1-key" None (Some chat_body) [] chat_db _ [] chat_db).
  vm_compute. reflexivity.
Defined.

Lemma extract_think_split_witness :
  extract_think (open_tag ++ String.list_ascii_of_string "plan" ++ close_tag ++
                 String.list_ascii_of_string " Buy") =
  (trim (String.list_ascii_of_string "plan"), trim (String.list_ascii_of_string " Buy")).
Proof. apply extract_think_split. apply notin_existsb. reflexivity. Defined.

Lemma chat_bad_request_witness :
  ((forall ms, get "messages" [("messages", JStr "hi"); ("systemPrompt", JStr "p")] <> Some (JArr ms)) ->
   run (chat_POST "sk-or-v1-key" None (Some (JObj [("messages", JStr "hi"); ("systemPrompt", JStr "p")]))) [] chat_db =
   (inr (ajson [("error", JStr "Messages must be an array")] 500), [], chat_db)) /\
  (forall ms, get "messages" [("messages", JStr "hi"); ("systemPrompt", JStr "p")] = Some (JArr ms) ->
   (forall sp, get "systemPrompt" [("messages", JStr "hi"); ("systemPrompt", JStr "p")] <> Some (JStr sp)) ->
   run (chat_POST "sk-or-v1-key" None (Some (JObj [("messages", JStr "hi"); ("systemPrompt", JStr "p")]))) [] chat_db =
   (inr (ajson [("error", JStr "System prompt must be a string")] 500), [], chat_db)).
Proof. apply chat_bad_request; discriminate. Defined.
