(* ===== verification/Client.v ===== *)
(** * [src/app/contexts/AuthContext.tsx]: the browser side of authentication

    [AuthProvider] keeps three pieces of React state, [user], [isLoading]
    and [error], and offers operations that each make one [fetch] to an
    API route and update the state from the answer.  [cstate] is that
    state, with the navigations scheduled by [router.push] and the time of
    the browser's clock.  An operation is a computation of the monad [cm]:
    state passing with JavaScript exceptions, whose [try]/[catch]/[finally]
    is [ctry].  [fetch] is a section variable, a function from the request
    to its outcome: a rejected promise or a reply whose text
    [response.json()] parses with [JsonText.parse].  Setting state in
    React is asynchronous; the model applies each [setX] in program order,
    which is the state React renders once the operation has returned. *)

From S2P Require Import Prelude Json Env JsDate JsonText Url Auth.

Local Open Scope Z_scope.

Record cstate := mkcs {
  cs_user : option jval;       (* user *)
  cs_loading : bool;           (* isLoading *)
  cs_error : option string;    (* error *)
  cs_nav : list string;        (* router.push targets, in order *)
  cs_now : Z                   (* Date.now() in the browser *)
}.

Definition set_user (u : option jval) (s : cstate) : cstate :=
  mkcs u (cs_loading s) (cs_error s) (cs_nav s) (cs_now s).
Definition set_loading (b : bool) (s : cstate) : cstate :=
  mkcs (cs_user s) b (cs_error s) (cs_nav s) (cs_now s).
Definition set_error (e : option string) (s : cstate) : cstate :=
  mkcs (cs_user s) (cs_loading s) e (cs_nav s) (cs_now s).
Definition push_nav (p : string) (s : cstate) : cstate :=
  mkcs (cs_user s) (cs_loading s) (cs_error s) (cs_nav s ++ [p]) (cs_now s).

(** The state when the provider mounts: [useState(null)], [useState(true)],
    [useState(null)]. *)
Definition cinit (now : Z) : cstate := mkcs None true None [] now.

(** ** The monad

    [sm S W A]: a computation over a component's state [S] and the world
    [W] the requests reach (the servers), returning an [A] or throwing;
    [cm W A] is that of the auth context. *)

Definition sm (S W A : Type) : Type := S * W -> (S * W) * (exn + A).
Definition cm (W A : Type) : Type := sm cstate W A.

Definition cret {S W A} (a : A) : sm S W A := fun sw => (sw, inr a).
Definition cthrow {S W A} (x : exn) : sm S W A := fun sw => (sw, inl x).
Definition cbind {S W A B} (m : sm S W A) (f : A -> sm S W B) : sm S W B :=
  fun sw => match m sw with (sw', inl x) => (sw', inl x) | (sw', inr a) => f a sw' end.
Definition cmodify {S W} (f : S -> S) : sm S W unit := fun sw => ((f sw.1, sw.2), inr tt).
Definition cget {S W} : sm S W S := fun sw => (sw, inr sw.1).

(** [try { m } catch (e) { h(e) } finally { fin }]: [fin] runs on every
    path; its own exception would replace the outcome. *)
Definition ctry {S W A} (m : sm S W A) (h : exn -> sm S W A) (fin : sm S W unit) : sm S W A :=
  fun sw =>
    let '(s2, r2) := match m sw with (s1, inl x) => h x s1 | (s1, inr a) => (s1, inr a) end in
    match fin s2 with (s3, inl x) => (s3, inl x) | (s3, inr _) => (s3, r2) end.

Declare Scope client_scope.
Delimit Scope client_scope with client.
Notation "x <- m ;; k" := (cbind m (fun x => k))
  (at level 100, m at next level, right associativity) : client_scope.
Notation "m ;;; k" := (cbind m (fun _ => k))
  (at level 100, right associativity) : client_scope.
Local Open Scope client_scope.

(** [response.json()]: the reply's text as JSON. *)
Definition cjson {S W} (r : reply) : sm S W jval :=
  match JsonText.parse (rp_text r) with
  | Some v => cret v
  | None => cthrow (JsError "SyntaxError" "Unexpected token in JSON")
  end.

(** [data.k]. *)
Definition cprop {S W} (v : jval) (k : string) : sm S W (option jval) :=
  match prop v k with inl x => cthrow x | inr o => cret o end.

(** [new Error(data.error || fallback)]. *)
Definition api_error (e : option jval) (fallback : string) : exn :=
  Error (if truthy e then to_js_string e else fallback).

(** A JSON request with [Content-Type: application/json]. *)
Definition json_request (meth path : string) (body : obj) : request :=
  mkreq meth path [("Content-Type", "application/json")] (Some (JsonText.stringify (JObj body))).

(** The outcome of [await fetch(...)]. *)
Inductive fresult := FReject (x : exn) | FReply (r : reply).

Section client.
Context `{DateEnv} {W : Type}.
(** [fetch] answers a request and may change the world. *)
Variable fetch : request -> W -> fresult * W.

Definition cfetch {S} (r : request) : sm S W reply :=
  fun sw => let '(res, w') := fetch r sw.2 in
            match res with FReject x => ((sw.1, w'), inl x) | FReply rp => ((sw.1, w'), inr rp) end.

(** [const response = await fetch(req); const data = await response.json();
    if (!response.ok) throw new Error(data.error || fallback);]: the data
    of a successful answer. *)
Definition call_api {S} (req : request) (fallback : string) : sm S W (reply * jval) :=
  r <- cfetch req ;;
  data <- cjson r ;;
  if rp_ok r then cret (r, data)
  else e <- cprop data "error" ;; cthrow (api_error e fallback).

(** The same, keeping only [data]. *)
Definition call_data {S} (req : request) (fallback : string) : sm S W jval :=
  rd <- call_api req fallback ;; cret (snd rd).

(** The frame shared by the operations: [setError(null)] and
    [setIsLoading(true)] first, the message of a caught error into
    [error], and [setIsLoading(false)] in [finally]. *)
Definition guarded {A} (body : cm W A) (on_error : exn -> cm W A) : cm W A :=
  ctry (cmodify (set_error None) ;;; cmodify (set_loading true) ;;; body)
       (fun x => cmodify (set_error (Some (exn_message x))) ;;; on_error x)
       (cmodify (set_loading false)).

(** Rethrow, as [register] and most other operations do. *)
Definition rethrow {A} (x : exn) : cm W A := cthrow x.

(** [checkAuth], the effect run on mount: [/api/auth/me] fills [user];
    any failure empties it; [isLoading] ends false. *)
Definition checkAuth : cm W unit :=
  ctry (r <- cfetch (mkreq "GET" "/api/auth/me" [] None) ;;
        if rp_ok r then (d <- cjson r ;; cmodify (set_user (Some d)))
        else cmodify (set_user None))
       (fun _ => cmodify (set_user None))
       (cmodify (set_loading false)).

(** The five-second timer of the same effect. *)
Definition loading_timeout : cm W unit := cmodify (set_loading false).

Definition login (identifier password : string) (redirectUrl : option string) : cm W unit :=
  guarded
    (r <- cfetch (json_request "POST" "/api/auth/login"
                    [("identifier", JStr identifier); ("password", JStr password)]) ;;
     data <- cjson r ;;
     if negb (rp_ok r) then
       (if Z.eqb (rp_status r) 403 then
          rv <- cprop data "requiresVerification" ;;
          if truthy rv then cthrow (Error "Email not verified. Please check your email for a verification code.")
          else e <- cprop data "error" ;; cthrow (api_error e "Failed to login")
        else e <- cprop data "error" ;; cthrow (api_error e "Failed to login"))
     else
       cmodify (set_user (Some data)) ;;;
       cmodify (push_nav (match redirectUrl with Some u => if String.eqb u "" then "/dashboard" else u
                                            | None => "/dashboard" end)))
    (fun _ => cret tt).

Definition register (username email password : string) : cm W (bool * string) :=
  guarded
    (_ <- call_data (json_request "POST" "/api/auth/register"
                      [("username", JStr username); ("email", JStr email); ("password", JStr password)])
                   "Failed to register" ;;
     cret (true, email))
    rethrow.

(** The user the verify route described, as [verifyEmail] stores it. *)
Definition verified_user (data : jval) : cm W (option jval) :=
  id <- cprop data "id" ;; em <- cprop data "email" ;;
  if truthy id && truthy em then
    un <- cprop data "username" ;; sl <- cprop data "socialLogins" ;;
    cret (Some (JObj (defined_fields [("id", id); ("username", un); ("email", em);
                                      ("isVerified", Some (JBool true)); ("socialLogins", sl)])))
  else cret None.

Definition verifyEmail (email otp : string) : cm W jval :=
  guarded
    (data <- call_data (json_request "POST" "/api/auth/verify" [("email", JStr email); ("otp", JStr otp)])
                            "Failed to verify email" ;;
     u <- verified_user data ;;
     match u with Some u => cmodify (set_user (Some u)) | None => cret tt end ;;;
     cret data)
    rethrow.

Definition resendVerificationCode (email : string) : cm W jval :=
  guarded
    (data <- call_data (json_request "PUT" "/api/auth/verify" [("email", JStr email)])
                            "Failed to resend verification code" ;; cret data)
    rethrow.

(** [{...user, k: v}] for the user objects the routes answer; spreading a
    value that is not an object adds no property of its own here. *)
Definition with_field (u : jval) (k : string) (v : jval) : jval :=
  JObj (spread (match u with JObj fs => fs | _ => [] end) [(k, v)]).

Definition completeProfile (username password : string) : cm W jval :=
  guarded
    (data <- call_data (json_request "POST" "/api/auth/complete-profile"
                               [("username", JStr username); ("password", JStr password)])
                            "Failed to update profile" ;;
     s <- cget ;;
     match cs_user s with
     | Some u => if truthy (Some u) then
                   un <- cprop data "username" ;; cmodify (set_user (Some (with_field u "username" (undef_null un))))
                 else cret tt
     | None => cret tt
     end ;;;
     cret data)
    rethrow.

(** [logout]: no [setError]; a failure is only logged. *)
Definition logout : cm W unit :=
  ctry (cmodify (set_loading true) ;;;
        r <- cfetch (mkreq "POST" "/api/auth/logout" [] None) ;;
        (if negb (rp_ok r) then d <- cjson r ;; e <- cprop d "error" ;; cthrow (api_error e "Failed to logout")
         else cret tt) ;;;
        cmodify (set_user None) ;;; cmodify (push_nav "/"))
       (fun _ => cret tt)
       (cmodify (set_loading false)).

Definition forgotPassword (email : string) : cm W jval :=
  guarded
    (data <- call_data (json_request "POST" "/api/auth/forgot-password" [("email", JStr email)])
                            "Failed to process forgot password request" ;; cret data)
    rethrow.

Definition resetPassword (email token password : string) : cm W jval :=
  guarded
    (data <- call_data (json_request "POST" "/api/auth/reset-password"
                               [("email", JStr email); ("token", JStr token); ("password", JStr password)])
                            "Failed to reset password" ;; cret data)
    rethrow.

(** The query the client builds for the reset-link check. *)
Definition reset_check_url (email token : string) : string :=
  "/api/auth/reset-password?email=" +:+ encodeURIComponent email +:+ "&token=" +:+ encodeURIComponent token.

(** [verifyResetToken]: [data.valid] on success, [false] on any error. *)
Definition verifyResetToken (email token : string) : cm W (option jval) :=
  guarded
    (data <- call_data (mkreq "GET" (reset_check_url email token) no_cache None)
                            "Invalid or expired reset token" ;; cprop data "valid")
    (fun _ => cret (Some (JBool false))).

(** [updateLTPCredentials]: the password is sent, and the copy kept in the
    client state is masked. *)
Definition updateLTPCredentials (username password : string) : cm W jval :=
  guarded
    (data <- call_data (json_request "POST" "/api/auth/update-ltp-credentials"
                               [("username", JStr username); ("password", JStr password)])
                            "Failed to update LTP credentials" ;;
     s <- cget ;;
     match cs_user s with
     | Some u => if truthy (Some u) then
                   cmodify (set_user (Some (with_field u "ltpCredentials"
                     (JObj [("username", JStr username); ("password", JStr "********");
                            ("updatedAt", JStr (date_iso (cs_now s)))]))))
                 else cret tt
     | None => cret tt
     end ;;;
     cret data)
    rethrow.

End client.

(** [isAuthenticated: !!user]. *)
Definition isAuthenticated (s : cstate) : bool := truthy (cs_user s).

(** [useAuth()] outside a provider throws. *)
Definition useAuth {C} (ctx : option C) : exn + C :=
  match ctx with
  | Some c => inr c
  | None => inl (Error "useAuth must be used within an AuthProvider")
  end.
