(* ===== verification/Forms.v ===== *)
(** * The authentication forms: [src/components/auth/*.tsx], [src/app/reset-password/page.tsx]

    - [ForgotPasswordForm.handleSubmit] checks the address against
      [/^[^\s@]+@[^\s@]+\.[^\s@]+$/] and calls the context's
      [forgotPassword];
    - [reset-password/page.tsx] reads [email] and [token] from the query
      of the link; [ResetPasswordForm] checks the pair once with
      [verifyResetToken] and its [handleSubmit] checks the two password
      fields before calling [resetPassword];
    - [LTPCredentialsDialog.handleUpdateCredentials] checks the fields,
      asks [/api/ltp-calculator/verify] whether the LTP Calculator accepts
      them, then calls the context's [updateLTPCredentials].

    Each form's React state is a record; a handler takes the form state
    and the context state ([Client.cstate]) and returns both, with the
    outcome.  The regular expression is data ([re]) run by a backtracking
    matcher ([rmatch]) in continuation-passing style, the way a JavaScript
    engine runs it, over the code points of the text. *)

From S2P Require Import Prelude Json Env JsDate JsonText Url Auth Client.

Local Open Scope Z_scope.

(** ** Code points *)

(** The code points of a UTF-8 text; a byte that starts no sequence
    stands for itself. *)
Fixpoint code_points (l : list ascii) : list Z :=
  match l with
  | [] => []
  | a :: r =>
      let n := Z.of_nat (nat_of_ascii a) in
      if n <? 128 then n :: code_points r
      else if n <? 192 then n :: code_points r
      else if n <? 224 then
        match r with
        | b :: r' => ((n - 192) * 64 + (Z.of_nat (nat_of_ascii b) - 128)) :: code_points r'
        | [] => [n]
        end
      else if n <? 240 then
        match r with
        | b :: c :: r' => ((n - 224) * 4096 + (Z.of_nat (nat_of_ascii b) - 128) * 64
                           + (Z.of_nat (nat_of_ascii c) - 128)) :: code_points r'
        | _ => n :: code_points r
        end
      else
        match r with
        | b :: c :: d :: r' => ((n - 240) * 262144 + (Z.of_nat (nat_of_ascii b) - 128) * 4096
                                + (Z.of_nat (nat_of_ascii c) - 128) * 64
                                + (Z.of_nat (nat_of_ascii d) - 128)) :: code_points r'
        | _ => n :: code_points r
        end
  end.

(** [\s]: the WhiteSpace and LineTerminator code points of ECMAScript. *)
Definition js_space (c : Z) : bool :=
  existsb (Z.eqb c) [9; 10; 11; 12; 13; 32; 160; 5760; 8232; 8233; 8239; 8287; 12288; 65279]
  || ((8192 <=? c) && (c <=? 8202)).

(** ** Regular expressions *)

Inductive re :=
| RChar (c : Z)                              (* a literal character *)
| RClass (neg : bool) (cs : list Z) (sp : bool)  (* [..] or [^..], with \s when [sp] *)
| RSeq (r1 r2 : re)
| RPlus (r : re).                            (* r+, greedy *)

Definition in_class (cs : list Z) (sp : bool) (c : Z) : bool :=
  existsb (Z.eqb c) cs || (sp && js_space c).

(** The backtracking matcher: [rmatch fuel r l k] tries the ways [r]
    matches a prefix of [l], longest first for [+], and succeeds when the
    continuation [k] accepts the rest.  Each turn of [+] consumes a
    character. *)
Fixpoint rmatch (fuel : nat) (r : re) (l : list Z) (k : list Z -> bool) : bool :=
  match fuel with
  | O => false
  | S f =>
      match r with
      | RChar c => match l with x :: l' => Z.eqb x c && k l' | [] => false end
      | RClass neg cs sp => match l with x :: l' => xorb neg (in_class cs sp x) && k l' | [] => false end
      | RSeq r1 r2 => rmatch f r1 l (fun l' => rmatch f r2 l' k)
      | RPlus r1 =>
          rmatch f r1 l (fun l' => (Nat.ltb (length l') (length l) && rmatch f (RPlus r1) l' k) || k l')
      end
  end.

Fixpoint re_size (r : re) : nat :=
  match r with
  | RSeq r1 r2 => S (re_size r1 + re_size r2)
  | RPlus r1 => S (re_size r1)
  | _ => 1
  end.

(** [/^r$/.test(s)], with fuel for every character and every node. *)
Definition re_test (r : re) (s : string) : bool :=
  let l := code_points (String.list_ascii_of_string s) in
  rmatch (re_size r * S (length l) + 1) r l (fun rest => match rest with [] => true | _ => false end).

(** [^\s@]. *)
Definition not_space_at : re := RClass true [64] true.

(** [/^[^\s@]+@[^\s@]+\.[^\s@]+$/]. *)
Definition email_re : re :=
  RSeq (RPlus not_space_at) (RSeq (RChar 64) (RSeq (RPlus not_space_at) (RSeq (RChar 46) (RPlus not_space_at)))).

Definition validateEmail (email : string) : bool := re_test email_re email.

(** ** [ForgotPasswordForm] *)

Record fpform := mkfp { fp_email : string; fp_error : option string; fp_success : option string }.

Definition fp_message : string := "If your email is registered, you will receive a password reset link shortly.".

Section forms.
Context `{DateEnv} {W : Type}.
Variable fetch : request -> W -> fresult * W.

Definition forgot_handleSubmit (f : fpform) (s : cstate * W) : fpform * (cstate * W) :=
  let email := fp_email f in
  if String.eqb email "" then (mkfp email (Some "Email is required") None, s)
  else if negb (validateEmail email) then (mkfp email (Some "Please enter a valid email address") None, s)
  else match forgotPassword fetch email s with
       | (s', inr _) => (mkfp "" None (Some fp_message), s')
       | (s', inl _) => (mkfp email None None, s')
       end.

(** ** The reset page and [ResetPasswordForm] *)

(** [ResetPasswordContent]'s effect: the two parameters of the link, or
    its error. *)
Definition reset_page_params (url : string) : string + (string * string) :=
  match get_param "email" url, get_param "token" url with
  | Some e, Some t =>
      if String.eqb e "" || String.eqb t "" then inl "Invalid reset password link. Please request a new one."
      else inr (e, t)
  | _, _ => inl "Invalid reset password link. Please request a new one."
  end.

Record rpform := mkrp {
  rp_password : string; rp_confirm : string;
  rp_error : option string; rp_success : option string;
  rp_valid : option jval;          (* isTokenValid; [None] is undefined *)
  rp_attempted : bool;             (* tokenVerificationAttempted *)
  rp_nav : list string             (* router.push after the timeout *)
}.

Definition rp_init : rpform := mkrp "" "" None None (Some JNull) false [].

(** The two inputs' [onChange]: [setPassword] and [setConfirmPassword]. *)
Definition set_password (p : string) (f : rpform) : rpform :=
  mkrp p (rp_confirm f) (rp_error f) (rp_success f) (rp_valid f) (rp_attempted f) (rp_nav f).
Definition set_confirm (p : string) (f : rpform) : rpform :=
  mkrp (rp_password f) p (rp_error f) (rp_success f) (rp_valid f) (rp_attempted f) (rp_nav f).

(** [checkToken], once: [verifyResetToken] catches its own errors, so its
    value goes to [isTokenValid]. *)
Definition checkToken (email token : string) (f : rpform) (s : cstate * W) : rpform * (cstate * W) :=
  if rp_attempted f then (f, s) else
  match verifyResetToken fetch email token s with
  | (s', inr v) => (mkrp (rp_password f) (rp_confirm f) (rp_error f) (rp_success f) v true (rp_nav f), s')
  | (s', inl _) => (mkrp (rp_password f) (rp_confirm f) (Some "This password reset link is invalid or has expired.")
                         (rp_success f) (Some (JBool false)) true (rp_nav f), s')
  end.

Definition rp_fail (f : rpform) (msg : string) : rpform :=
  mkrp (rp_password f) (rp_confirm f) (Some msg) None (rp_valid f) (rp_attempted f) (rp_nav f).

Definition reset_handleSubmit (email token : string) (f : rpform) (s : cstate * W) : rpform * (cstate * W) :=
  let p := rp_password f in
  if String.eqb p "" || String.eqb (rp_confirm f) "" then (rp_fail f "Both fields are required", s)
  else if utf16_length p <? 8 then (rp_fail f "Password must be at least 8 characters long", s)
  else if negb (String.eqb p (rp_confirm f)) then (rp_fail f "Passwords do not match", s)
  else match resetPassword fetch email token p s with
       | (s', inr _) => (mkrp p (rp_confirm f) None (Some "Your password has been reset successfully!")
                              (rp_valid f) (rp_attempted f) (rp_nav f ++ ["/sign-in"]), s')
       | (s', inl _) => (mkrp p (rp_confirm f) None None (rp_valid f) (rp_attempted f) (rp_nav f), s')
       end.

(** What the form shows: the invalid-link notice, the spinner, or the form. *)
Inductive rp_view := RPInvalid | RPChecking | RPForm.

Definition reset_view (f : rpform) : rp_view :=
  match rp_valid f with
  | Some (JBool false) => RPInvalid
  | Some JNull => RPChecking
  | _ => RPForm
  end.

(** ** [LTPCredentialsDialog] *)

Record ltpform := mkltp {
  lf_email : string; lf_password : string; lf_updating : bool;
  lf_error : option string; lf_success : option string;
  lf_timers : nat                  (* onSuccess callbacks scheduled *)
}.

(** [useState(user?.ltpCredentials?.email || '')]. *)
Definition ltp_prefill (s : cstate) : string :=
  match cs_user s with
  | Some (JObj u) =>
      match get "ltpCredentials" u with
      | Some (JObj c) => match get "email" c with Some (JStr e) => e | _ => "" end
      | _ => ""
      end
  | _ => ""
  end.

Definition lf_fail (f : ltpform) (msg : string) : ltpform :=
  mkltp (lf_email f) (lf_password f) (lf_updating f) (Some msg) (lf_success f) (lf_timers f).

Definition ltp_verify_request (email password : string) : request :=
  json_request "POST" "/api/ltp-calculator/verify" [("email", JStr email); ("password", JStr password)].

Definition handleUpdateCredentials (onSuccess : bool) (f : ltpform) (s : cstate * W) : ltpform * (cstate * W) :=
  let email := lf_email f in
  let pw := lf_password f in
  if String.eqb email "" then (lf_fail f "Email is required", s)
  else if negb (validateEmail email) then (lf_fail f "Please enter a valid email address", s)
  else if String.eqb pw "" then (lf_fail f "Password is required", s)
  else
    let '(res, w) := fetch (ltp_verify_request email pw) s.2 in
    let fail msg := (mkltp email pw false (Some msg) None (lf_timers f), (s.1, w)) in
    match res with
    | FReject x => fail (exn_message x)
    | FReply r =>
        if negb (rp_ok r) then fail "Invalid LTP Calculator credentials"
        else match updateLTPCredentials fetch email pw (s.1, w) with
             | (s', inr _) =>
                 (mkltp email "" false None (Some "LTP credentials verified and updated successfully")
                        (if onSuccess then S (lf_timers f) else lf_timers f), s')
             | (s', inl x) => (mkltp email pw false (Some (exn_message x)) None (lf_timers f), s')
             end
    end.

End forms.
