(* ===== verification/Routes.v ===== *)
(** * The App Router and the browser's world

    Next.js answers [METHOD /api/<path>] with the function [METHOD]
    exported by [src/app/api/<path>/route.ts]; a path with no such file
    answers the 404 page, which is HTML.  [route] is that table for the
    routes of the repository, [serve] runs the chosen handler against the
    database with the fault script, writes the handler's answer as
    [NextResponse.json] does (the body as JSON text) and applies its
    cookie operations to the browser's cookie jar.  A handler that throws
    past its own [catch] gives Next's 500 page.  [world] is what the
    browser's [fetch] reaches: the cookie jar, the fault script and the
    database; [serve] is the [fetch] of [Client] in the composed
    development. *)

From S2P Require Import Prelude Json Env Mongo Prog JsDate JsonText Auth Ltp Chat Client.

Local Open Scope Z_scope.

Record world := mkworld {
  w_jar : list (string * string);   (* the browser's cookies for the site *)
  w_script : list fault;
  w_db : db
}.

(** The path of a request URL: what precedes the query. *)
Definition path_of (url : string) : string :=
  String.string_of_list_ascii (before_char "?" (String.list_ascii_of_string url)).

(** [await request.json()] on the text the client sent. *)
Definition body_of (r : request) : option jval :=
  match rq_body r with Some t => JsonText.parse t | None => None end.

Definition jar_get (jar : list (string * string)) (k : string) : option string :=
  snd <$> find_first (fun kv => String.eqb kv.1 k) jar.

(** The browser applying [Set-Cookie]: a set replaces the cookie of that
    name, a delete removes it. *)
Definition apply_cookie (jar : list (string * string)) (c : cookie_op) : list (string * string) :=
  match c with
  | CSet n v _ => (n, v) :: filter (fun kv => negb (String.eqb kv.1 n)) jar
  | CDelete n => filter (fun kv => negb (String.eqb kv.1 n)) jar
  end.

(** The reply the browser receives for a handler's outcome. *)
Definition to_reply `{DateEnv} (res : exn + aresponse) : reply :=
  match res with
  | inr a => mkreply (ar_status a) (JsonText.stringify (JObj (ar_body a)))
  | inl _ => mkreply 500 "Internal Server Error"
  end.

Definition not_found : reply := mkreply 404 "404: This page could not be found.".

Section routes.
Context `{DateEnv} `{JwtSig}.
Variables (prod : bool) (nextauth_url jwt_env ltp_username_env ltp_password_env openrouter_env : option string)
          (openrouter_literal : string).

Definition route (jar : list (string * string)) (r : request) : option (prog aresponse) :=
  let at_ m p := String.eqb (rq_method r) m && String.eqb (path_of (rq_url r)) p in
  if at_ "POST" "/api/auth/forgot-password" then Some (forgot_password_POST prod nextauth_url (body_of r))
  else if at_ "POST" "/api/auth/reset-password" then Some (reset_password_POST (body_of r))
  else if at_ "GET" "/api/auth/reset-password" then Some (reset_password_GET (rq_url r))
  else if at_ "POST" "/api/auth/verify" then Some (verify_POST prod nextauth_url jwt_env (body_of r))
  else if at_ "PUT" "/api/auth/verify" then Some (verify_PUT prod (body_of r))
  else if at_ "POST" "/api/auth/update-ltp-credentials" then
    Some (update_ltp_credentials_POST jwt_env (jar_get jar "auth_token") (body_of r))
  else if at_ "POST" "/api/ltp-calculator/verify" then Some (ltp_verify_POST (body_of r))
  else if at_ "GET" "/api/ltp-calculator/historical" then
    Some (historical_GET jwt_env ltp_username_env ltp_password_env (rq_url r) (jar_get jar "token"))
  else if at_ "POST" "/api/chat" then Some (chat_POST openrouter_literal openrouter_env (body_of r))
  else None.

Definition serve (r : request) (w : world) : fresult * world :=
  match route (w_jar w) r with
  | None => (FReply not_found, w)
  | Some p =>
      let '(res, sc', s') := run p (w_script w) (w_db w) in
      let jar' := match res with inr a => foldl apply_cookie (w_jar w) (ar_cookies a) | inl _ => w_jar w end in
      (FReply (to_reply res), mkworld jar' sc' s')
  end.

End routes.
