(* ===== verification/ClientProps.v ===== *)
(** * Properties of the browser side: [Client], [Forms] and their composition with the routes

    The operations of [AuthContext] always settle ([isLoading] ends
    false), [verifyResetToken] never throws, the LTP password never enters
    the client state, the address check of the forms is the regular
    language it is meant to be, and the whole password reset, driven from
    the forms through [Routes.serve] to the handlers, resets the
    password. *)

From S2P Require Import Prelude Json Env Mongo Prog JsDate JsonText Url Email Auth AuthProps Client Forms Routes.

Local Open Scope Z_scope.
Local Open Scope client_scope.

(** ** The monad *)

Section monad.
Context {W : Type}.

Lemma ctry_settles {A} (m : cm W A) h sw :
  cs_loading (ctry m h (cmodify (set_loading false)) sw).1.1 = false.
Proof. unfold ctry. destruct (m sw) as [s1 [x|a]]; [destruct (h x s1)|]; reflexivity. Qed.

Lemma ctry_ok {A} (m : cm W A) h fin sw sw1 a sw2 :
  m sw = (sw1, inr a) -> fin sw1 = (sw2, inr tt) -> ctry m h fin sw = (sw2, inr a).
Proof. intros Hm Hf. unfold ctry. by rewrite Hm, Hf. Qed.

Lemma ctry_err {A} (m : cm W A) h fin sw sw1 x :
  m sw = (sw1, inl x) -> ctry m h fin sw = (let '(s2, r2) := h x sw1 in
                                            match fin s2 with (s3, inl y) => (s3, inl y) | (s3, inr _) => (s3, r2) end).
Proof. intros Hm. unfold ctry. by rewrite Hm. Qed.

(** The frame of an operation around a body that returns. *)
Lemma guarded_ok {A} (body : cm W A) h s w sw' a :
  body (set_loading true (set_error None s), w) = (sw', inr a) ->
  guarded body h (s, w) = ((set_loading false sw'.1, sw'.2), inr a).
Proof. intros Hb. unfold guarded. eapply ctry_ok; [|reflexivity]. exact Hb. Qed.

Lemma guarded_settles {A} (body : cm W A) h sw : cs_loading (guarded body h sw).1.1 = false.
Proof. apply ctry_settles. Qed.

Section fetch.
Context `{DateEnv}.
Variable fetch : request -> W -> fresult * W.

(** A request answered with a success whose text is the JSON [d]. *)
Lemma call_data_ok {S} r fb (s : S) w rep w' d :
  fetch r w = (FReply rep, w') -> rp_ok rep = true -> JsonText.parse (rp_text rep) = Some d ->
  call_data fetch r fb (s, w) = ((s, w'), inr d).
Proof.
  intros Hf Hok Hp. unfold call_data, call_api, cbind, cfetch. simpl. rewrite Hf.
  unfold cjson. rewrite Hp. simpl. by rewrite Hok.
Qed.

(** The body's first request rejected: the frame records the message. *)
Lemma guarded_reject {A} r fb (k : jval -> cm W A) h s w x w' :
  fetch r w = (FReject x, w') ->
  guarded (d <- call_data fetch r fb ;; k d) h (s, w) =
    (let '(s2, r2) := h x (set_error (Some (exn_message x)) (set_loading true (set_error None s)), w') in
     ((set_loading false s2.1, s2.2), r2)).
Proof.
  intros Hf. cbv [guarded ctry cbind cmodify call_data call_api cfetch fst snd]. rewrite Hf.
  destruct (h x _) as [s2 r2]. reflexivity.
Qed.

End fetch.
End monad.

Lemma set_loading_error b s : cs_error (set_loading b s) = cs_error s.
Proof. reflexivity. Qed.
Lemma set_loading_user b s : cs_user (set_loading b s) = cs_user s.
Proof. reflexivity. Qed.
Lemma set_error_user e s : cs_user (set_error e s) = cs_user s.
Proof. reflexivity. Qed.
Lemma set_error_error e s : cs_error (set_error e s) = e.
Proof. reflexivity. Qed.

Lemma set_user_user u s : cs_user (set_user u s) = u.
Proof. reflexivity. Qed.
Lemma set_loading_now b s : cs_now (set_loading b s) = cs_now s.
Proof. reflexivity. Qed.
Lemma set_error_now e s : cs_now (set_error e s) = cs_now s.
Proof. reflexivity. Qed.

Create Rewrite HintDb cstate.
#[export] Hint Rewrite set_loading_error set_loading_user set_error_user set_error_error set_user_user
  set_loading_now set_error_now : cstate.

#[local] Opaque set_loading set_error set_user.

(** ** The strings a JSON value holds *)

Fixpoint jstrs (v : jval) : list string :=
  match v with
  | JStr s => [s]
  | JArr xs => (fix go (l : list jval) : list string :=
                  match l with [] => [] | x :: l' => jstrs x ++ go l' end) xs
  | JObj fs => (fix go (l : obj) : list string :=
                  match l with [] => [] | kv :: l' => jstrs kv.2 ++ go l' end) fs
  | _ => []
  end.

Definition ostrs (o : obj) : list string := flat_map (fun kv => jstrs kv.2) o.

Lemma jstrs_obj o : jstrs (JObj o) = ostrs o.
Proof. induction o as [|kv o IH]; simpl; [done|]. f_equal; exact IH. Qed.

Lemma ostrs_set k v o x : x ∈ ostrs (set k v o) -> x ∈ ostrs o \/ x ∈ jstrs v.
Proof.
  induction o as [|[k' v'] o IH]; intros Hx; simpl in *.
  - rewrite app_nil_r in Hx. by right.
  - destruct (String.eqb k k'); simpl in Hx; rewrite !elem_of_app in Hx |- *; [set_solver|].
    destruct Hx as [?|?%IH]; set_solver.
Qed.

(** The strings of [{...u, k: v}] come from [u] or from [v]. *)
Lemma with_field_strs u k v x : x ∈ jstrs (with_field u k v) -> x ∈ jstrs u \/ x ∈ jstrs v.
Proof.
  unfold with_field, spread. simpl foldl. rewrite jstrs_obj. intros Hx.
  destruct (ostrs_set _ _ _ _ Hx) as [H|H].
  - left. destruct u; simpl in H; try set_solver; by rewrite jstrs_obj.
  - by right.
Qed.

#[local] Opaque with_field.

(** C28. Every operation of the context settles: whatever [fetch] does,
    [isLoading] is false once [checkAuth], [login], [register],
    [verifyEmail], [resendVerificationCode], [completeProfile], [logout],
    [forgotPassword], [resetPassword], [verifyResetToken] or
    [updateLTPCredentials] has returned or thrown. *)
Theorem client_ops_settle `{DateEnv} {W} (fetch : request -> W -> fresult * W) sw a b c r :
  cs_loading (checkAuth fetch sw).1.1 = false /\ cs_loading (login fetch a b r sw).1.1 = false /\
  cs_loading (register fetch a b c sw).1.1 = false /\ cs_loading (verifyEmail fetch a b sw).1.1 = false /\
  cs_loading (resendVerificationCode fetch a sw).1.1 = false /\
  cs_loading (completeProfile fetch a b sw).1.1 = false /\ cs_loading (logout fetch sw).1.1 = false /\
  cs_loading (forgotPassword fetch a sw).1.1 = false /\ cs_loading (resetPassword fetch a b c sw).1.1 = false /\
  cs_loading (verifyResetToken fetch a b sw).1.1 = false /\
  cs_loading (updateLTPCredentials fetch a b sw).1.1 = false.
Proof. repeat split; first [apply guarded_settles | apply ctry_settles]. Qed.

(** C29. [verifyResetToken] never throws: it always returns, with
    [isLoading] false, and when the request itself fails it returns
    [false] and shows the error's message. *)
Theorem verifyResetToken_total `{DateEnv} {W} (fetch : request -> W -> fresult * W) e t sw :
  exists sw' v, verifyResetToken fetch e t sw = (sw', inr v) /\ cs_loading sw'.1 = false /\
    forall x w', fetch (mkreq "GET" (reset_check_url e t) no_cache None) sw.2 = (FReject x, w') ->
      v = Some (JBool false) /\ cs_error sw'.1 = Some (exn_message x) /\ sw'.2 = w'.
Proof.
  destruct sw as [s w].
  destruct (verifyResetToken fetch e t (s, w)) as [sw' r] eqn:E.
  assert (Hl : cs_loading sw'.1 = false).
  { pose proof (f_equal (fun p => cs_loading p.1.1) E) as G. unfold verifyResetToken in G.
    rewrite guarded_settles in G. by rewrite G. }
  destruct r as [y|v].
  - exfalso. unfold verifyResetToken, guarded, ctry, cmodify, cbind in E. simpl in E.
    destruct (call_data fetch _ _ _) as [sw1 [z|d]]; simpl in E; [|unfold cprop in E; destruct (prop d "valid")];
      simpl in E; congruence.
  - exists sw', v. split; [done|]. split; [done|]. intros x w' Hf. simpl in Hf.
    unfold verifyResetToken in E. rewrite (guarded_reject fetch) with (x := x) (w' := w') in E by exact Hf.
    simpl in E. injection E as <- <-. simpl. rewrite set_loading_error, set_error_error. done.
Qed.

(** C30. The LTP password never enters the client state:
    [updateLTPCredentials] sends it, but afterwards the user object holds
    it only if it held it before, or if it is the username, the mask
    ["********"] or the time stamp. *)
Theorem ltp_password_masked `{DateEnv} {W} (fetch : request -> W -> fresult * W) un p sw v :
  cs_user (updateLTPCredentials fetch un p sw).1.1 = Some v -> p ∈ jstrs v ->
  (exists v0, cs_user sw.1 = Some v0 /\ p ∈ jstrs v0) \/ p = un \/ p = "********"%string \/
  p = date_iso (cs_now sw.1).
Proof.
  destruct sw as [s w]. intros Hu Hp.
  cbv [updateLTPCredentials guarded ctry cbind cmodify cget cret cthrow call_data call_api cfetch cjson cprop
       rethrow fst snd] in Hu.
  repeat (case_match; simplify_eq/=; autorewrite with cstate in * ).
  all: try (left; by eauto).
  all: match goal with H : _ ∈ jstrs (with_field _ _ _) |- _ => apply with_field_strs in H as [Hw|Hw] end.
  all: first [left; by eauto | simpl in Hw; rewrite list_elem_of_In in Hw; simpl in Hw; naive_solver].
Qed.

(** ** The address check of the forms *)

Definition cls_ok (neg : bool) (cs : list Z) (sp : bool) (x : Z) : Prop := xorb neg (in_class cs sp x) = true.

Lemma rmatch_plus_step f r1 l k :
  rmatch (S f) (RPlus r1) l k =
  rmatch f r1 l (fun l' => (Nat.ltb (length l') (length l) && rmatch f (RPlus r1) l' k) || k l').
Proof. reflexivity. Qed.

Lemma rmatch_char_step f c l k :
  rmatch (S f) (RChar c) l k = match l with x :: l' => Z.eqb x c && k l' | [] => false end.
Proof. reflexivity. Qed.

Lemma rmatch_class_step f neg cs sp l k :
  rmatch (S f) (RClass neg cs sp) l k =
  match l with x :: l' => xorb neg (in_class cs sp x) && k l' | [] => false end.
Proof. reflexivity. Qed.

(** A greedy [c+] followed by the continuation [k]: some non-empty prefix
    of class characters, whatever [k] accepts after it. *)
Lemma rmatch_plus_class f neg cs sp l k :
  (length l <= f)%nat ->
  rmatch (S f) (RPlus (RClass neg cs sp)) l k = true <->
  exists p r, l = p ++ r /\ p <> [] /\ Forall (cls_ok neg cs sp) p /\ k r = true.
Proof.
  revert l. induction f as [|f IH]; intros l Hl.
  - destruct l; simpl in Hl; [|lia]. split; [done|]. intros (p & r & Hpr & Hp & _).
    destruct p; [done|discriminate].
  - rewrite rmatch_plus_step, rmatch_class_step. destruct l as [|x l'].
    { split; [done|]. intros (p & r & Hpr & Hp & _). destruct p; [done|discriminate]. }
    cbv beta. simpl in Hl. rewrite (proj2 (Nat.ltb_lt (length l') (length (x :: l')))) by (simpl; lia).
    rewrite andb_true_l, andb_true_iff, orb_true_iff, IH by lia. split.
    + intros [Hx [(p & r & -> & Hp & Hf & Hk)|Hk]].
      * exists (x :: p), r. repeat split; [done|by constructor|done].
      * exists [x], l'. repeat split; [done|by constructor|done].
    + intros ([|y p] & r & Hpr & Hp & Hf & Hk); [done|]. injection Hpr as -> ->.
      apply Forall_cons in Hf as [Hy Hf]. split; [done|].
      destruct p as [|z p]; [by right|]. left. exists (z :: p), r. by repeat split.
Qed.

Section stages.
Variables (neg : bool) (cs : list Z) (sp : bool) (R : re) (k : list Z -> bool) (Q : list Z -> Prop).

(** [c+R]: a class prefix, then what [R] accepts. *)
Lemma rmatch_seq_plus f l :
  (length l <= f)%nat -> (forall r, (length r <= length l)%nat -> rmatch (S f) R r k = true <-> Q r) ->
  rmatch (S (S f)) (RSeq (RPlus (RClass neg cs sp)) R) l k = true <->
  exists p r, l = p ++ r /\ p <> [] /\ Forall (cls_ok neg cs sp) p /\ Q r.
Proof.
  intros Hl HR.
  change (rmatch (S (S f)) (RSeq (RPlus (RClass neg cs sp)) R) l k)
    with (rmatch (S f) (RPlus (RClass neg cs sp)) l (fun l' => rmatch (S f) R l' k)).
  rewrite rmatch_plus_class by done. split.
  - intros (p & r & -> & Hp & Hf & Hk). exists p, r. rewrite <-HR by (rewrite length_app; lia). done.
  - intros (p & r & -> & Hp & Hf & Hq). exists p, r. rewrite HR by (rewrite length_app; lia). done.
Qed.

(** [cR]: the character, then what [R] accepts. *)
Lemma rmatch_seq_char f c l :
  (forall r, (length r < length l)%nat -> rmatch (S f) R r k = true <-> Q r) ->
  rmatch (S (S f)) (RSeq (RChar c) R) l k = true <-> exists r, l = c :: r /\ Q r.
Proof.
  intros HR.
  change (rmatch (S (S f)) (RSeq (RChar c) R) l k) with (rmatch (S f) (RChar c) l (fun l' => rmatch (S f) R l' k)).
  rewrite rmatch_char_step. destruct l as [|x r]; cbv beta.
  - split; [done|]. by intros (r & ? & _).
  - rewrite andb_true_iff, Z.eqb_eq, HR by (simpl; lia). split.
    + intros [-> Hq]. by exists r.
    + intros (r' & [=-> ->] & Hq). done.
Qed.

End stages.

(** The regular language of [/^[^\s@]+@[^\s@]+\.[^\s@]+$/]: three
    non-empty runs of characters that are neither white space nor [@],
    the first two separated by [@] and the last two by a dot. *)
Definition email_shape (l : list Z) : Prop :=
  exists a b c, l = a ++ 64 :: b ++ 46 :: c /\ a <> [] /\ b <> [] /\ c <> [] /\
    Forall (cls_ok true [64] true) a /\ Forall (cls_ok true [64] true) b /\ Forall (cls_ok true [64] true) c.

Definition end_of_input (rest : list Z) : bool := match rest with [] => true | _ => false end.

Lemma email_re_stages f l :
  (length l <= f)%nat ->
  rmatch (S (S (S (S (S f))))) email_re l end_of_input = true <-> email_shape l.
Proof.
  intros Hl. unfold email_re.
  assert (H3 : forall r, (length r <= length l)%nat ->
            rmatch (S f) (RPlus not_space_at) r end_of_input = true <->
            r <> [] /\ Forall (cls_ok true [64] true) r).
  { intros r Hr. unfold not_space_at. rewrite rmatch_plus_class by lia. split.
    - intros (p & [|] & -> & Hp & Hf & Hk); [|done]. by rewrite app_nil_r.
    - intros [Hr0 Hf]. exists r, []. by rewrite app_nil_r. }
  assert (H2 : forall r, (length r <= length l)%nat ->
            rmatch (S (S f)) (RSeq (RChar 46) (RPlus not_space_at)) r end_of_input = true <->
            exists c, r = 46 :: c /\ c <> [] /\ Forall (cls_ok true [64] true) c).
  { intros r Hr. rewrite (rmatch_seq_char _ _ (fun c => c <> [] /\ Forall (cls_ok true [64] true) c)); [done|].
    intros r' Hr'. apply H3. lia. }
  assert (H1 : forall r, (length r <= length l)%nat ->
            rmatch (S (S (S f))) (RSeq (RPlus not_space_at) (RSeq (RChar 46) (RPlus not_space_at))) r end_of_input
              = true <->
            exists b c, r = b ++ 46 :: c /\ b <> [] /\ c <> [] /\
              Forall (cls_ok true [64] true) b /\ Forall (cls_ok true [64] true) c).
  { intros r Hr. unfold not_space_at.
    rewrite (rmatch_seq_plus _ _ _ _ _ (fun r => exists c, r = 46 :: c /\ c <> [] /\ Forall (cls_ok true [64] true) c));
      [|lia|intros r' Hr'; apply H2; lia]. split.
    - intros (b & ? & -> & Hb & Hfb & c & -> & Hc & Hfc). by exists b, c.
    - intros (b & c & -> & Hb & Hc & Hfb & Hfc). exists b, (46 :: c). repeat split; try done. by exists c. }
  assert (H0 : forall r, (length r <= length l)%nat ->
            rmatch (S (S (S (S f)))) (RSeq (RChar 64) (RSeq (RPlus not_space_at)
                                       (RSeq (RChar 46) (RPlus not_space_at)))) r end_of_input = true <->
            exists b c, r = 64 :: b ++ 46 :: c /\ b <> [] /\ c <> [] /\
              Forall (cls_ok true [64] true) b /\ Forall (cls_ok true [64] true) c).
  { intros r Hr. rewrite (rmatch_seq_char _ _ (fun r => exists b c, r = b ++ 46 :: c /\ b <> [] /\ c <> [] /\
      Forall (cls_ok true [64] true) b /\ Forall (cls_ok true [64] true) c)); [|intros r' Hr'; apply H1; lia]. split.
    - intros (? & -> & b & c & -> & ?). by exists b, c.
    - intros (b & c & -> & ?). eexists. split; [done|]. by exists b, c. }
  unfold not_space_at.
  rewrite (rmatch_seq_plus _ _ _ _ _ (fun r => exists b c, r = 64 :: b ++ 46 :: c /\ b <> [] /\ c <> [] /\
      Forall (cls_ok true [64] true) b /\ Forall (cls_ok true [64] true) c)); [|lia|intros r Hr; apply H0; lia]. split.
  - intros (a & ? & -> & Ha & Hfa & b & c & -> & ?). exists a, b, c. naive_solver.
  - intros (a & b & c & -> & ?). exists a, (64 :: b ++ 46 :: c). split; [done|]. naive_solver.
Qed.

(** C24. The address check of [ForgotPasswordForm] and
    [LTPCredentialsDialog] accepts exactly the texts of the form
    [a@b.c] with [a], [b] and [c] non-empty and free of white space and
    [@] ([b] may hold dots): the backtracking matcher with the fuel
    [re_test] gives it decides the regular language. *)
Theorem validateEmail_spec e :
  validateEmail e = true <-> email_shape (code_points (String.list_ascii_of_string e)).
Proof.
  unfold validateEmail, re_test. set (l := code_points (String.list_ascii_of_string e)).
  replace (re_size email_re * S (length l) + 1)%nat
    with (S (S (S (S (S (length l + 11 * length l + 8)))))) by (simpl; lia).
  apply email_re_stages. lia.
Qed.

(** ** The password reset through the browser *)

Section flow.
Context `{DateEnv} `{JwtSig}.
Variables (prod : bool) (nextauth_url jwt_env ltp_username_env ltp_password_env openrouter_env : option string)
          (openrouter_literal : string).

Local Abbreviation fetch := (serve prod nextauth_url jwt_env ltp_username_env ltp_password_env openrouter_env
                         openrouter_literal).

Lemma serve_ok r w p a sc' s' :
  route prod nextauth_url jwt_env ltp_username_env ltp_password_env openrouter_env openrouter_literal
        (w_jar w) r = Some p ->
  run p (w_script w) (w_db w) = (inr a, sc', s') ->
  fetch r w = (FReply (to_reply (inr a)), mkworld (foldl apply_cookie (w_jar w) (ar_cookies a)) sc' s').
Proof. intros Hr Hrun. unfold serve. by rewrite Hr, Hrun. Qed.

Lemma body_of_json m p b : is_json (JObj b) = true -> body_of (json_request m p b) = Some (JObj b).
Proof. intros Hj. unfold body_of, json_request. simpl. by apply JsonText.parse_stringify. Qed.

(** A handler's JSON answer with a 2xx status, as the client reads it. *)
Lemma served_data {S W} r w a w' (cs : S) fb (fw : request -> W -> fresult * W) :
  fw r w = (FReply (to_reply (inr a)), w') -> is_json (JObj (ar_body a)) = true ->
  (200 <=? ar_status a) && (ar_status a <=? 299) = true ->
  call_data fw r fb (cs, w) = ((cs, w'), inr (JObj (ar_body a))).
Proof.
  intros Hf Hj Hs. apply call_data_ok with (to_reply (inr a)); [done|done|].
  simpl. by apply JsonText.parse_stringify.
Qed.

Lemma forgot_step s jar cs e u n l1 l2 :
  validateEmail e = true -> coll Users s = l1 ++ u :: l2 ->
  Forall (fun y => matches [("email", JStr e)] y = false) l1 -> matches [("email", JStr e)] u = true ->
  Forall (fun y => matches [("_id", JOid n)] y = false) l1 -> get "_id" u = Some (JOid n) ->
  exists s1,
    forgot_handleSubmit fetch (mkfp e None None) (cs, mkworld jar [] s) =
      (mkfp "" None (Some fp_message), (set_loading false (set_loading true (set_error None cs)), mkworld jar [] s1)) /\
    coll Users s1 = l1 ++ spread u (set_order (reset_set (reset_token (db_next_oid s)) (db_clock s))) :: l2 /\
    db_clock s1 = db_clock s.
Proof.
  intros Hv Hc Hl Hu Hli Hid.
  assert (He : e <> ""%string) by (intros ->; discriminate).
  destruct (forgot_password_ok prod nextauth_url s u e n l1 l2) as (s1 & Hrun & Hc1 & Hk1); [done..|].
  exists s1. split; [|done].
  unfold forgot_handleSubmit. cbn [fp_email]. rewrite (proj2 (String.eqb_neq _ _) He), Hv. cbn [negb].
  unfold forgotPassword.
  rewrite (guarded_ok _ _ cs (mkworld jar [] s) (set_loading true (set_error None cs), mkworld jar [] s1)
             (JObj [("message", JStr reset_message)])); [reflexivity|].
  unfold cbind at 1.
  rewrite (served_data _ _ (ajson [("message", JStr reset_message)] 200) (mkworld jar [] s1));
    [reflexivity| |reflexivity|reflexivity].
  eapply serve_ok; [reflexivity|]. cbn [w_script w_db]. rewrite body_of_json by reflexivity. exact Hrun.
Qed.

(** The query [verifyResetToken] builds reads back as its two arguments. *)
Lemma reset_check_url_params e t :
  get_param "email" (reset_check_url e t) = Some e /\ get_param "token" (reset_check_url e t) = Some t.
Proof.
  assert (Hu : reset_check_url e t = String.string_of_list_ascii
    (String.list_ascii_of_string "/api/auth/reset-password" ++ "?"%char :: String.list_ascii_of_string "email" ++
     "="%char :: flat_map encode_char (String.list_ascii_of_string e) ++ "&"%char ::
     String.list_ascii_of_string "token" ++ "="%char :: flat_map encode_char (String.list_ascii_of_string t))).
  { rewrite <-(String.string_of_list_ascii_of_string (reset_check_url e t)). f_equal.
    unfold reset_check_url, encodeURIComponent.
    rewrite !list_ascii_of_string_app, !String.list_ascii_of_string_of_list_ascii. reflexivity. }
  rewrite Hu.
  destruct (get_param_two_encoded (String.list_ascii_of_string "/api/auth/reset-password")
              (String.list_ascii_of_string "email") e (String.list_ascii_of_string "token") t) as [A B];
    [apply notin_existsb; reflexivity|apply plainb_plain; reflexivity|apply plainb_plain; reflexivity|done|].
  rewrite !String.string_of_list_ascii_of_string in A, B. by split.
Qed.

Lemma check_step s1 jar cs e t l1 u' l2 :
  e <> ""%string -> t <> ""%string -> coll Users s1 = l1 ++ u' :: l2 ->
  Forall (fun y => matches [("email", JStr e)] y = false) l1 ->
  matches (reset_filter (JStr e) (JStr t) (db_clock s1)) u' = true ->
  checkToken fetch e t rp_init (cs, mkworld jar [] s1) =
    (mkrp "" "" None None (Some (JBool true)) true [],
     (set_loading false (set_loading true (set_error None cs)), mkworld jar [] s1)).
Proof.
  intros He Ht Hc Hl Hm. destruct (reset_check_url_params e t) as [Pe Pt].
  unfold checkToken. cbn [rp_attempted rp_init]. unfold verifyResetToken.
  rewrite (guarded_ok _ _ cs (mkworld jar [] s1) (set_loading true (set_error None cs), mkworld jar [] s1)
             (Some (JBool true))); [reflexivity|].
  unfold cbind at 1.
  rewrite (served_data _ _ (hjson [("valid", JBool true)] 200) (mkworld jar [] s1));
    [reflexivity| |reflexivity|reflexivity].
  eapply serve_ok; [reflexivity|]. cbn [w_script w_db rq_url].
  by apply (reset_GET_ok _ e t _ l1 u' l2).
Qed.

Lemma submit_step s1 jar cs e t p f u n :
  e <> ""%string -> t <> ""%string ->
  find_one Users (reset_filter (JStr e) (JStr t) (db_clock s1)) s1 = Some u -> get "_id" u = Some (JOid n) ->
  8 <= utf16_length p ->
  exists s2 u',
    reset_handleSubmit fetch e t (set_confirm p (set_password p f)) (cs, mkworld jar [] s1) =
      (mkrp p p None (Some "Your password has been reset successfully!") (rp_valid f) (rp_attempted f)
            (rp_nav f ++ ["/sign-in"]),
       (set_loading false (set_loading true (set_error None cs)), mkworld jar [] s2)) /\
    find_one Users [("_id", JOid n)] s2 = Some u' /\
    get "password" u' = Some (JStr (hash_password p)) /\ get "passwordReset" u' = None.
Proof.
  intros He Ht Hf Hid Hlen.
  assert (Hp : p <> ""%string) by (intros ->; rewrite utf16_length_empty in Hlen; lia).
  destruct (reset_password_found s1 u n (JStr e) (JStr t) p) as (s2 & u' & Hrun & Hu');
    [by simpl; rewrite (proj2 (String.eqb_neq _ _) He)|by simpl; rewrite (proj2 (String.eqb_neq _ _) Ht)|done..|].
  exists s2, u'. split; [|done].
  unfold reset_handleSubmit. cbn [rp_password rp_confirm set_confirm set_password].
  rewrite (proj2 (String.eqb_neq _ _) Hp), (proj2 (Z.ltb_ge _ _) Hlen), String.eqb_refl. cbn [orb negb].
  unfold resetPassword.
  rewrite (guarded_ok _ _ cs (mkworld jar [] s1) (set_loading true (set_error None cs), mkworld jar [] s2)
             (JObj [("message", JStr "Password has been reset successfully")])); [reflexivity|].
  unfold cbind at 1.
  rewrite (served_data _ _ (ajson [("message", JStr "Password has been reset successfully")] 200)
             (mkworld jar [] s2)); [reflexivity| |reflexivity|reflexivity].
  eapply serve_ok; [reflexivity|]. cbn [w_script w_db]. rewrite body_of_json by reflexivity. exact Hrun.
Qed.

(** C13. The password reset works end to end through the browser: on a
    well-formed database with an account for the address [e], the
    [ForgotPasswordForm] submission answers its success message; the link
    the route mails, opened on the reset page, yields [e] and the stored
    token; [ResetPasswordForm]'s check of that pair through
    [verifyResetToken] and the [GET] route shows the form; and submitting
    a password of at least eight characters twice resets that account's
    password through [resetPassword] and the [POST] route, clearing the
    pending reset, with no error left in the context. *)
Theorem reset_through_browser s jar cs e u n p :
  db_wf s -> find_one Users [("email", JStr e)] s = Some u -> get "_id" u = Some (JOid n) ->
  validateEmail e = true -> "?"%char ∉ String.list_ascii_of_string (base_url nextauth_url) ->
  8 <= utf16_length p ->
  let t := reset_token (db_next_oid s) in
  exists cs1 w1 f2 cs2 w2 f3 cs3 w3 u',
    forgot_handleSubmit fetch (mkfp e None None) (cs, mkworld jar [] s) =
      (mkfp "" None (Some fp_message), (cs1, w1)) /\
    reset_page_params (reset_url nextauth_url t (JStr e)) = inr (e, t) /\
    checkToken fetch e t rp_init (cs1, w1) = (f2, (cs2, w2)) /\ reset_view f2 = RPForm /\
    reset_handleSubmit fetch e t (set_confirm p (set_password p f2)) (cs2, w2) = (f3, (cs3, w3)) /\
    rp_success f3 = Some "Your password has been reset successfully!"%string /\
    cs_error cs3 = None /\ cs_loading cs3 = false /\
    find_one Users [("_id", JOid n)] (w_db w3) = Some u' /\
    get "password" u' = Some (JStr (hash_password p)) /\ get "passwordReset" u' = None.
Proof.
  intros Hwf Hf Hid Hv Hb Hlen t.
  pose proof Hf as [Hmu _]%find_one_Some.
  destruct (find_one_Some_split _ _ _ _ Hf) as (l1 & l2 & Hc & Hl).
  assert (He : e <> ""%string) by (intros ->; discriminate).
  assert (Ht : t <> ""%string) by apply reset_token_nonempty.
  destruct (forgot_step s jar cs e u n l1 l2) as (s1 & H1 & Hc1 & Hk1); [done..|by eapply unique_id_before|done|].
  set (u1 := spread u (set_order (reset_set t (db_clock s)))).
  assert (Hm1 : matches (reset_filter (JStr e) (JStr t) (db_clock s1)) u1 = true)
    by (apply reset_set_pending; [done|lia]).
  assert (Hl1 : Forall (fun y => matches (reset_filter (JStr e) (JStr t) (db_clock s1)) y = false) l1)
    by (eapply Forall_impl; [exact Hl|]; intros y; apply matches_head).
  assert (Hid1 : get "_id" u1 = Some (JOid n))
    by (unfold u1; rewrite set_other; [done|apply NoDup_cons; split; [set_solver|apply NoDup_singleton]|done]).
  destruct (submit_step s1 jar (set_loading false (set_loading true (set_error None (set_loading false
              (set_loading true (set_error None cs)))))) e t p (mkrp "" "" None None (Some (JBool true)) true [])
              u1 n) as (s2 & u' & H3 & Hu'); [done|done|by apply (find_one_split _ _ _ l1 u1 l2)|done|done|].
  set (cs1 := set_loading false (set_loading true (set_error None cs))).
  exists cs1, (mkworld jar [] s1), (mkrp "" "" None None (Some (JBool true)) true []),
    (set_loading false (set_loading true (set_error None cs1))), (mkworld jar [] s1).
  eexists _, _, _, u'. split; [exact H1|]. split.
  { unfold reset_page_params. destruct (reset_url_params nextauth_url t e) as [Pt Pe]; [done|apply hex_pad_plain|].
    rewrite Pe, Pt, (proj2 (String.eqb_neq _ _) He), (proj2 (String.eqb_neq _ _) Ht). reflexivity. }
  split; [by apply (check_step s1 jar _ e t l1 u1 l2)|]. split; [reflexivity|].
  split; [exact H3|]. split; [reflexivity|].
  rewrite !set_loading_error, set_error_error. split; [done|]. split; [reflexivity|]. exact Hu'.
Qed.

End flow.
