(* ===== verification/Dashboard.v ===== *)
(** * [src/app/dashboard/page.tsx]: the chat page's logic

    The page keeps the conversation and the state of its dialogs in React
    state ([dstate]); its handlers talk to [/api/chat], to the LTP routes
    and to a translation service through [fetch], in the state-and-world
    monad [sm] of [Client].  The user comes from [useAuth()] and is a
    section variable.  Modelled: the keyword check [checkForScenarioKeyword]
    ([/\bscenario\b/i]), [fetchLTPData] with its URL, [generateLTPSummary],
    [handleSubmit], [handleLTPCredentialsSuccess],
    [handleScenarioDataSelection], [handleFeedback], [translateText] with
    its retries, and the markdown cleaning of [speakText].  Speech
    recognition, audio visualisation, scrolling and styling are browser
    effects without state the handlers read, and are not modelled.

    [generateLTPSummary] reads the identifier [systemPrompt] (line 705),
    which is declared only inside [handleSubmit]: the read throws a
    [ReferenceError] ([systemPrompt_ref]) and the [catch] answers the
    fallback text; the code after it is modelled as written. *)

From stdpp Require Import pretty.
From S2P Require Import Prelude Json Env JsDate JsonText Url Email Auth Chat Ltp Client Prompts.

Local Open Scope Z_scope.
Local Open Scope client_scope.

(** The [Message] type. *)
Record message := mkmsg {
  m_role : string;
  m_content : jval;
  m_thinking : option jval;
  m_deep : option bool        (* metadata.deepAnalysis *)
}.

Definition user_msg (c : string) : message := mkmsg "user" (JStr c) None None.
Definition assistant_msg (c : string) : message := mkmsg "assistant" (JStr c) None None.

(** [JSON.stringify] of a message: [undefined] fields left out. *)
Definition message_json (m : message) : jval :=
  JObj (defined_fields [("role", Some (JStr (m_role m))); ("content", Some (m_content m));
                        ("thinking", m_thinking m);
                        ("metadata", (fun b => JObj [("deepAnalysis", JBool b)]) <$> m_deep m)]).

Record dstate := mkds {
  ds_messages : list message;
  ds_input : string;
  ds_loading : bool;
  ds_typing : bool;
  ds_pending : option string;                 (* pendingScenarioMessage *)
  ds_show_scenario : bool;                    (* showScenarioDataModal *)
  ds_show_ltp : bool;                         (* showLTPCredentialsModal *)
  ds_feedback : list (string * option string);  (* feedbackGiven *)
  ds_translated : list (string * string);     (* translatedMessages *)
  ds_translating : list (string * bool);      (* isTranslating *)
  ds_deep : bool;                             (* useDeepAnalysis *)
  ds_waits : list Z                           (* the retry delays awaited, in ms *)
}.

Definition add_message (m : message) (d : dstate) : dstate :=
  mkds (ds_messages d ++ [m]) (ds_input d) (ds_loading d) (ds_typing d) (ds_pending d) (ds_show_scenario d)
       (ds_show_ltp d) (ds_feedback d) (ds_translated d) (ds_translating d) (ds_deep d) (ds_waits d).
Definition set_input (i : string) (d : dstate) : dstate :=
  mkds (ds_messages d) i (ds_loading d) (ds_typing d) (ds_pending d) (ds_show_scenario d)
       (ds_show_ltp d) (ds_feedback d) (ds_translated d) (ds_translating d) (ds_deep d) (ds_waits d).
Definition set_dloading (b : bool) (d : dstate) : dstate :=
  mkds (ds_messages d) (ds_input d) b (ds_typing d) (ds_pending d) (ds_show_scenario d)
       (ds_show_ltp d) (ds_feedback d) (ds_translated d) (ds_translating d) (ds_deep d) (ds_waits d).
Definition set_typing (b : bool) (d : dstate) : dstate :=
  mkds (ds_messages d) (ds_input d) (ds_loading d) b (ds_pending d) (ds_show_scenario d)
       (ds_show_ltp d) (ds_feedback d) (ds_translated d) (ds_translating d) (ds_deep d) (ds_waits d).
Definition set_pending (p : option string) (d : dstate) : dstate :=
  mkds (ds_messages d) (ds_input d) (ds_loading d) (ds_typing d) p (ds_show_scenario d)
       (ds_show_ltp d) (ds_feedback d) (ds_translated d) (ds_translating d) (ds_deep d) (ds_waits d).
Definition set_show_scenario (b : bool) (d : dstate) : dstate :=
  mkds (ds_messages d) (ds_input d) (ds_loading d) (ds_typing d) (ds_pending d) b
       (ds_show_ltp d) (ds_feedback d) (ds_translated d) (ds_translating d) (ds_deep d) (ds_waits d).
Definition set_show_ltp (b : bool) (d : dstate) : dstate :=
  mkds (ds_messages d) (ds_input d) (ds_loading d) (ds_typing d) (ds_pending d) (ds_show_scenario d)
       b (ds_feedback d) (ds_translated d) (ds_translating d) (ds_deep d) (ds_waits d).
Definition set_feedback (f : list (string * option string)) (d : dstate) : dstate :=
  mkds (ds_messages d) (ds_input d) (ds_loading d) (ds_typing d) (ds_pending d) (ds_show_scenario d)
       (ds_show_ltp d) f (ds_translated d) (ds_translating d) (ds_deep d) (ds_waits d).
Definition set_translated (t : list (string * string)) (d : dstate) : dstate :=
  mkds (ds_messages d) (ds_input d) (ds_loading d) (ds_typing d) (ds_pending d) (ds_show_scenario d)
       (ds_show_ltp d) (ds_feedback d) t (ds_translating d) (ds_deep d) (ds_waits d).
Definition set_translating (t : list (string * bool)) (d : dstate) : dstate :=
  mkds (ds_messages d) (ds_input d) (ds_loading d) (ds_typing d) (ds_pending d) (ds_show_scenario d)
       (ds_show_ltp d) (ds_feedback d) (ds_translated d) t (ds_deep d) (ds_waits d).
Definition add_wait (ms : Z) (d : dstate) : dstate :=
  mkds (ds_messages d) (ds_input d) (ds_loading d) (ds_typing d) (ds_pending d) (ds_show_scenario d)
       (ds_show_ltp d) (ds_feedback d) (ds_translated d) (ds_translating d) (ds_deep d) (ds_waits d ++ [ms]).

(** [{ ...prev, [k]: v }]. *)
Fixpoint aset {A} (k : string) (v : A) (l : list (string * A)) : list (string * A) :=
  match l with
  | [] => [(k, v)]
  | (k', v') :: l' => if String.eqb k k' then (k', v) :: l' else (k', v') :: aset k v l'
  end.

Fixpoint aget {A} (k : string) (l : list (string * A)) : option A :=
  match l with
  | [] => None
  | (k', v) :: l' => if String.eqb k k' then Some v else aget k l'
  end.

(** ** [/\bscenario\b/i] *)

(** [\w]: ASCII letters, digits and [_]; a byte of a multi-byte character is
    none of them. *)
Definition word_char (c : ascii) : bool :=
  let n := nat_of_ascii c in
  ((48 <=? n) && (n <=? 57))%nat || ((65 <=? n) && (n <=? 90))%nat || ((97 <=? n) && (n <=? 122))%nat
  || (n =? 95)%nat.

(** The case folding of the [i] flag without [u]: only ASCII letters fold. *)
Definition fold_case (c : ascii) : ascii :=
  let n := nat_of_ascii c in if ((65 <=? n) && (n <=? 90))%nat then ascii_of_nat (n + 32) else c.

Definition scenario_word : list ascii := String.list_ascii_of_string "scenario".

(** The match at the current position: the folded word, then a boundary. *)
Definition word_here (l : list ascii) : bool :=
  bool_decide (map fold_case (take 8 l) = scenario_word) &&
  match drop 8 l with [] => true | c :: _ => negb (word_char c) end.

(** The search of [test], position by position; [prev] is whether the
    character before the position is a word character. *)
Fixpoint scan_word (prev : bool) (l : list ascii) : bool :=
  match l with
  | [] => false
  | c :: r => (negb prev && word_here l) || scan_word (word_char c) r
  end.

Definition has_scenario (s : string) : bool := scan_word false (String.list_ascii_of_string s).

(** [user?.ltpCredentials]. *)
Definition user_ltp (user : option jval) : option jval := opt_prop user "ltpCredentials".

(** ** The LTP request *)

(** [fetchTime.includes(':') ? (fetchTime.split(':').length === 3 ? fetchTime : `${fetchTime}:00`) : `${fetchTime}:00`]. *)
Definition formatted_time (t : string) : string :=
  if contains_char ":" t then
    (if (length (split_on ":" (String.list_ascii_of_string t)) =? 3)%nat then t else t +:+ ":00")
  else t +:+ ":00".

Definition ltp_url (useHistorical : bool) (expiry fetchDate fetchTime : string) : string :=
  if useHistorical && negb (String.eqb expiry "") && negb (String.eqb fetchDate "") && negb (String.eqb fetchTime "")
  then "/api/ltp-calculator/historical?symbol=NIFTY&expiry=" +:+ expiry +:+ "&lotSize=75&fetchTime=" +:+
       fetchDate +:+ "%20" +:+ formatted_time fetchTime
  else "/api/ltp-calculator?symbol=NIFTY".

(** [`${v.k || d}`]. *)
Definition field_text {S W} (v : jval) (k d : string) : sm S W string :=
  o <- cprop v k ;; cret (if truthy o then to_js_string o else d).

(** The ten fields of [generateLTPSummary]'s prompt, line 358. *)
Definition summary_header {S W} (v : jval) : sm S W string :=
  dir <- field_text v "direction" "UNKNOWN" ;; sc <- field_text v "scenario" "UNKNOWN" ;;
  rr <- field_text v "riskyResistance" "N/A" ;; rs <- field_text v "riskySupport" "N/A" ;;
  mr <- field_text v "moderateResistance" "N/A" ;; ms <- field_text v "moderateSupport" "N/A" ;;
  rg <- field_text v "rMaxGain" "N/A" ;; sg <- field_text v "sMaxGain" "N/A" ;;
  rp <- field_text v "rMaxPain" "N/A" ;; sp <- field_text v "sMaxPain" "N/A" ;;
  let nl := String (Ascii.ascii_of_nat 10) "" in
  cret ("Summarize the following LTP Calculator and tell what trader should do and also tell all thing you get define all and prperly in formal Hindi (WhatsApp language) :" +:+ nl +:+ nl +:+
        "Market Direction: " +:+ dir +:+ nl +:+ "Scenario: " +:+ sc +:+ nl +:+
        "Risky Resistance: " +:+ rr +:+ nl +:+ "Risky Support: " +:+ rs +:+ nl +:+
        "Moderate Resistance: " +:+ mr +:+ nl +:+ "Moderate Support: " +:+ ms +:+ nl +:+
        "Resistance Max Gain: " +:+ rg +:+ nl +:+ "Support Max Gain: " +:+ sg +:+ nl +:+
        "Resistance Max Pain: " +:+ rp +:+ nl +:+ "Support Max Pain: " +:+ sp).

(** Reading [systemPrompt] inside [generateLTPSummary]: no binding of that
    name is in scope there. *)
Definition systemPrompt_ref {S W} : sm S W string :=
  cthrow (JsError "ReferenceError" "systemPrompt is not defined").

Definition think_instruction : string :=
  "When you need to show your thinking process or detailed analysis, wrap it in <think></think> tags. This content will be displayed in a collapsible section that users can open if they want to see your detailed reasoning.".

Definition summary_error : string := "Unable to generate summary due to an error".

Section dashboard.
Context `{DateEnv} {W : Type}.
Variable fetch : request -> W -> fresult * W.
Variable user : option jval.

Definition generateLTPSummary (ltpData : jval) : sm dstate W string :=
  ctry
    (hd <- summary_header ltpData ;;
     let prompt := hd +:+ summary_prompt_rest in
     sp <- systemPrompt_ref ;;
     let _ := sp +:+ String (Ascii.ascii_of_nat 10) (String (Ascii.ascii_of_nat 10) "") +:+ think_instruction in
     r <- cfetch fetch (json_request "POST" "/api/chat"
                          [("messages", JArr [JObj [("role", JStr "user"); ("content", JStr prompt)]]);
                           ("systemPrompt", JStr summary_system_prompt)]) ;;
     if negb (rp_ok r) then cthrow (Error ("Failed to generate AI summary: " +:+ pretty (rp_status r))) else
     data <- cjson r ;;
     m <- cprop data "message" ;;
     cret (if truthy m then to_js_string m else "Unable to generate summary"))
    (fun _ => cret summary_error)
    (cret tt).

Definition fetchLTPData (useHistorical : bool) (expiry fetchDate fetchTime : string) : sm dstate W (option jval) :=
  ctry
    (r <- cfetch fetch (mkreq "GET" (ltp_url useHistorical expiry fetchDate fetchTime) [] None) ;;
     if negb (rp_ok r) then cthrow (Error ("Failed to fetch LTP data: " +:+ pretty (rp_status r))) else
     ltpData <- cjson r ;;
     aiSummary <- generateLTPSummary ltpData ;;
     cret (Some (with_field ltpData "aiSummary" (JStr aiSummary))))
    (fun _ => cret None)
    (cret tt).

Definition scenario_question : string :=
  "Would you like to use live market data or historical data for this scenario analysis?".

Definition checkForScenarioKeyword (message : string) : sm dstate W bool :=
  if has_scenario message then
    if truthy (user_ltp user) then
      cmodify (add_message (user_msg message)) ;;; cmodify (set_input "") ;;;
      cmodify (add_message (assistant_msg scenario_question)) ;;;
      cmodify (set_pending (Some message)) ;;; cmodify (set_show_scenario true) ;;; cret true
    else cmodify (set_pending (Some message)) ;;; cmodify (set_show_ltp true) ;;; cret true
  else cret false.

(** Line 2086: the system prompt with the LTP data. *)
Definition enhanced_prompt (sp : string) (d : jval) : sm dstate W string :=
  dir <- field_text d "direction" "UNKNOWN" ;; sc <- field_text d "scenario" "UNKNOWN" ;;
  rr <- field_text d "riskyResistance" "N/A" ;; rs <- field_text d "riskySupport" "N/A" ;;
  mr <- field_text d "moderateResistance" "N/A" ;; ms <- field_text d "moderateSupport" "N/A" ;;
  rg <- field_text d "rMaxGain" "N/A" ;; sg <- field_text d "sMaxGain" "N/A" ;;
  rp <- field_text d "rMaxPain" "N/A" ;; sm' <- field_text d "sMaxPain" "N/A" ;;
  ai <- cprop d "aiSummary" ;;
  let nl := String (Ascii.ascii_of_nat 10) "" in
  cret (sp +:+ nl +:+ nl +:+ "Here is the current LTP Calculator data for NIFTY:" +:+ nl +:+
        "- Market Direction: " +:+ dir +:+ nl +:+ "- Scenario: " +:+ sc +:+ nl +:+
        "- Risky Resistance: " +:+ rr +:+ nl +:+ "- Risky Support: " +:+ rs +:+ nl +:+
        "- Moderate Resistance: " +:+ mr +:+ nl +:+ "- Moderate Support: " +:+ ms +:+ nl +:+
        "- Resistance Max Gain: " +:+ rg +:+ nl +:+ "- Support Max Gain: " +:+ sg +:+ nl +:+
        "- Resistance Max Pain: " +:+ rp +:+ nl +:+ "- Support Max Pain: " +:+ sm' +:+ nl +:+ nl +:+
        "AI Market Summary: " +:+ to_js_string ai +:+ nl +:+ nl +:+
        "When responding to scenario questions, use this data to provide accurate market analysis. Incorporate the AI summary in your response when explaining the current scenario. Remember to use formal Hindi (WhatsApp language) and be professional.").

(** The request of [handleSubmit] to [/api/chat]. *)
Definition chat_request (msgs : list message) (sp : string) (deep : bool) : request :=
  json_request "POST" "/api/chat"
    [("messages", JArr (map message_json msgs)); ("systemPrompt", JStr sp); ("useDeepAnalysis", JBool deep)].

Definition chat_error_text (x : exn) : string :=
  "Sorry, I encountered an error: " +:+
  (if String.eqb (exn_message x) "" then "Unknown error occurred" else exn_message x) +:+ ". Please try again.".

Definition handleSubmit (overrideInput : option string) : sm dstate W unit :=
  d <- cget ;;
  let message := match overrideInput with
                 | Some o => if String.eqb o "" then ds_input d else o
                 | None => ds_input d end in
  if bool_decide (trim (String.list_ascii_of_string message) = []) then cret tt else
  b <- checkForScenarioKeyword message ;;
  if b then cmodify (set_input "") else
  let um := user_msg message in
  cmodify (add_message um) ;;; cmodify (set_input "") ;;; cmodify (set_typing false) ;;;
  cmodify (set_dloading true) ;;;
  ctry
    (sp <- (if has_scenario message && truthy (user_ltp user) then
              ltp <- fetchLTPData false "" "" "" ;;
              match ltp with Some l => enhanced_prompt chat_system_prompt l | None => cret chat_system_prompt end
            else cret chat_system_prompt) ;;
     r <- cfetch fetch (chat_request (ds_messages d ++ [um]) sp (ds_deep d)) ;;
     (if negb (rp_ok r) then
        ed <- (fun sw => match cjson r sw with (sw', inl _) => (sw', inr (JObj [])) | res => res end) ;;
        e <- cprop ed "error" ;;
        cthrow (Error (if truthy e then to_js_string e else "Request failed with status " +:+ pretty (rp_status r)))
      else cret tt) ;;;
     data <- cjson r ;;
     msg <- cprop data "message" ;;
     if negb (truthy msg) then cthrow (Error "Invalid response format from API") else
     th <- cprop data "thinking" ;;
     cmodify (add_message (mkmsg "assistant" (undef_null msg) (if truthy th then th else None) (Some (ds_deep d)))))
    (fun x => cmodify (add_message (assistant_msg (chat_error_text x))))
    (cmodify (set_dloading false)).

Definition handleLTPCredentialsSuccess : sm dstate W unit :=
  cmodify (set_show_ltp false) ;;;
  d <- cget ;;
  match ds_pending d with
  | Some p => if String.eqb p "" then cret tt
              else cmodify (add_message (assistant_msg scenario_question)) ;;; cmodify (set_show_scenario true)
  | None => cret tt
  end.

Definition scenario_fetch_error : string :=
  "Sorry, I encountered an error while fetching LTP data. Please try again later.".

(** [`${x}`] of an optional argument. *)
Definition opt_text (x : option string) : string := match x with Some s => s | None => "undefined" end.

(** The promise chain runs after [setPendingScenarioMessage(null)]; none
    of its callbacks reads or writes the pending message. *)
Definition handleScenarioDataSelection (useHistorical : bool) (expiry date time : option string) : sm dstate W unit :=
  cmodify (set_show_scenario false) ;;;
  d <- cget ;;
  match ds_pending d with
  | Some p =>
      if String.eqb p "" then cret tt else
      cmodify (set_dloading true) ;;;
      cmodify (add_message (user_msg (if useHistorical
                                      then "Using historical data for " +:+ opt_text date +:+ " at " +:+ opt_text time
                                      else "Using live market data"))) ;;;
      ctry
        (data <- fetchLTPData useHistorical (default "" expiry) (default "" date) (default "" time) ;;
         summary <- match data with Some v => generateLTPSummary v | None => cthrow (Error "Failed to fetch LTP data") end ;;
         cmodify (add_message (assistant_msg summary)) ;;; cmodify (set_dloading false))
        (fun _ => cmodify (add_message (assistant_msg scenario_fetch_error)) ;;; cmodify (set_dloading false))
        (cret tt) ;;;
      cmodify (set_pending None)
  | None => cret tt
  end.

(** [handleFeedback]: the same feedback again clears it. *)
Definition handleFeedback (messageId feedbackType : string) : sm dstate W unit :=
  d <- cget ;;
  cmodify (set_feedback (aset messageId (if bool_decide (aget messageId (ds_feedback d) = Some (Some feedbackType))
                                         then None else Some feedbackType) (ds_feedback d))).

(** ** [translateText] *)

Definition translate_url (targetLang text : string) : string :=
  "https://translate.googleapis.com/translate_a/single?client=gtx&sl=auto&tl=" +:+ targetLang +:+
  "&dt=t&q=" +:+ encodeURIComponent text.

(** [data[0].forEach(item => { if (item[0]) translatedText += item[0]; })]. *)
Definition translated_text {S} (data : jval) : sm S W string :=
  if negb (truthy (Some data)) then cret "" else
  match index0 (Some data) with
  | None => cret ""
  | Some d0 =>
      if negb (truthy (Some d0)) then cret "" else
      match d0 with
      | JArr items =>
          fold_left (fun acc item =>
            t <- acc ;;
            match item with
            | JNull => cthrow (TypeError "Cannot read properties of null (reading '0')")
            | _ => let x := index0 (Some item) in cret (if truthy x then t +:+ to_js_string x else t)
            end) items (cret "")
      | _ => cthrow (TypeError "data[0].forEach is not a function")
      end
  end.

Definition translation_failed : string := "Translation failed. Please try again later.".

(** One attempt of the loop: the request, the reply and the stored text. *)
Definition translate_attempt (text messageId targetLang : string) : sm dstate W unit :=
  r <- cfetch fetch (mkreq "GET" (translate_url targetLang text) [] None) ;;
  if negb (rp_ok r) then cthrow (Error ("Translation API returned status: " +:+ pretty (rp_status r))) else
  data <- cjson r ;;
  t <- translated_text data ;;
  if String.eqb t "" then cthrow (Error "Empty translation result") else
  d <- cget ;; cmodify (set_translated (aset messageId t (ds_translated d))).

(** [while (retries <= maxRetries && !success)] with [maxRetries = 2]:
    the head checks [retries <= maxRetries]; a success leaves the loop
    ([success = true]); a failure counts a retry and either records the
    failure message or waits [1000 * retries] ms.  [fuel] bounds the
    iterations of the model; [translate_loop_enough] shows that three are
    always enough, so the check of the source, not the fuel, ends it. *)
Fixpoint translate_loop (fuel : nat) (retries : Z) (text messageId targetLang : string) : sm dstate W unit :=
  match fuel with
  | O => cret tt
  | S f =>
      fun sw =>
        if retries <=? 2 then
          match translate_attempt text messageId targetLang sw with
          | (sw', inr _) => (sw', inr tt)
          | (sw', inl _) =>
              let retries' := retries + 1 in
              let sw'' := if 2 <? retries'
                          then (set_translated (aset messageId translation_failed (ds_translated sw'.1)) sw'.1, sw'.2)
                          else (add_wait (1000 * retries') sw'.1, sw'.2) in
              translate_loop f retries' text messageId targetLang sw''
          end
        else (sw, inr tt)
  end.

Definition ascii_only (s : string) : bool :=
  forallb (fun c => (nat_of_ascii c <? 128)%nat) (String.list_ascii_of_string s).

Definition translateText (text messageId targetLang : string) : sm dstate W unit :=
  d <- cget ;; cmodify (set_translating (aset messageId true (ds_translating d))) ;;;
  (if String.eqb targetLang "en" && ascii_only text then
     d1 <- cget ;; cmodify (set_translated (aset messageId text (ds_translated d1)))
   else translate_loop 3 0 text messageId targetLang) ;;;
  d2 <- cget ;; cmodify (set_translating (aset messageId false (ds_translating d2))).

End dashboard.

(** [speakText]'s cleaning before [SpeechSynthesisUtterance]: the same
    three replacements as the chat route. *)
Definition speak_clean (text : string) : string :=
  String.string_of_list_ascii (clean_markdown (String.list_ascii_of_string text)).
