(* ===== verification/DashboardProps.v ===== *)
(** * Properties of the dashboard: [Dashboard] alone and against the routes

    [generateLTPSummary] never reaches the chat route, so a scenario
    analysis ends either with the fetch error or with the summary's
    fallback text; the LTP-enhanced system prompt of [handleSubmit] is
    unreachable; [translateText] makes at most three requests; and the
    historical request the page builds lacks the [fetchDate] parameter
    the route requires. *)

From stdpp Require Import pretty.
From S2P Require Import Prelude Json Env Mongo Prog JsDate JsonText Url Email Auth Chat Ltp Client Prompts Dashboard Routes ClientProps.

Local Open Scope Z_scope.
Local Open Scope client_scope.

(** ** Computations that leave the state and the world alone *)

Definition pure {S W A} (m : sm S W A) : Prop := forall sw, (m sw).1 = sw.

Lemma pure_ret {S W A} (a : A) : pure (S:=S) (W:=W) (cret a).
Proof. done. Qed.

Lemma pure_throw {S W A} x : pure (S:=S) (W:=W) (A:=A) (cthrow x).
Proof. done. Qed.

Lemma pure_bind {S W A B} (m : sm S W A) (f : A -> sm S W B) :
  pure m -> (forall a, pure (f a)) -> pure (cbind m f).
Proof.
  intros Hm Hf sw. unfold cbind. specialize (Hm sw). destruct (m sw) as [sw' [x|a]]; simpl in *; [done|].
  subst. apply Hf.
Qed.

Lemma pure_prop {S W} v k : pure (S:=S) (W:=W) (cprop v k).
Proof. intros sw. unfold cprop. by destruct (prop v k). Qed.

Lemma pure_field_text {S W} v k d : pure (S:=S) (W:=W) (field_text v k d).
Proof. apply pure_bind; [apply pure_prop|intros; apply pure_ret]. Qed.

Create HintDb pure.
#[local] Hint Resolve pure_ret pure_throw pure_bind pure_prop pure_field_text : pure.

Lemma pure_summary_header {S W} v : pure (S:=S) (W:=W) (summary_header v).
Proof. unfold summary_header. repeat (apply pure_bind; [auto with pure|intros]). auto with pure. Qed.

(** The outcome of a pure computation is one of two. *)
Lemma pure_cases {S W A} (m : sm S W A) sw : pure m -> exists r, m sw = (sw, r).
Proof. intros Hm. specialize (Hm sw). destruct (m sw) as [sw' r]. simpl in Hm. subst. by exists r. Qed.

Section summary.
Context `{DateEnv} {W : Type}.
Variable fetch : request -> W -> fresult * W.

Lemma summary_returns_fallback ltpData sw : generateLTPSummary fetch ltpData sw = (sw, inr summary_error).
Proof.
  unfold generateLTPSummary, ctry.
  destruct (pure_cases (summary_header ltpData) sw) as [[x|h] Hh]; [apply pure_summary_header| |];
    unfold cbind at 1; rewrite Hh; reflexivity.
Qed.

(** [fetchLTPData] only changes the world, and returns [null] or the data
    with the fallback summary. *)
Lemma fetchLTPData_outcome b ex dt tm d w :
  exists w' o, fetchLTPData fetch b ex dt tm (d, w) = ((d, w'), inr o) /\
    (o = None \/ exists v, o = Some (with_field v "aiSummary" (JStr summary_error))).
Proof.
  unfold fetchLTPData, ctry, cbind at 1, cfetch. simpl.
  destruct (fetch _ w) as [[x|r] w']; simpl; [by exists w', None; auto|].
  destruct (rp_ok r); simpl; [|by exists w', None; auto].
  unfold cbind, cjson. destruct (JsonText.parse (rp_text r)) as [v|]; simpl; [|by exists w', None; auto].
  rewrite summary_returns_fallback. exists w', (Some (with_field v "aiSummary" (JStr summary_error))).
  split; [done|]. right. by exists v.
Qed.

End summary.

(** C17. [generateLTPSummary] never makes its request: reading
    [systemPrompt] throws before the [fetch], so for every LTP data, every
    state and every [fetch] it returns the fallback text
    ["Unable to generate summary due to an error"], leaving the page state
    and the world unchanged. *)
Theorem generateLTPSummary_fallback `{DateEnv} {W} (fetch : request -> W -> fresult * W) ltpData sw :
  generateLTPSummary fetch ltpData sw = (sw, inr summary_error).
Proof. apply summary_returns_fallback. Qed.

Lemma pending_show_scenario b d : ds_pending (set_show_scenario b d) = ds_pending d.
Proof. reflexivity. Qed.

Lemma messages_add m d : ds_messages (add_message m d) = ds_messages d ++ [m].
Proof. reflexivity. Qed.
Lemma messages_loading b d : ds_messages (set_dloading b d) = ds_messages d.
Proof. reflexivity. Qed.
Lemma messages_show_scenario b d : ds_messages (set_show_scenario b d) = ds_messages d.
Proof. reflexivity. Qed.
Lemma messages_pending p d : ds_messages (set_pending p d) = ds_messages d.
Proof. reflexivity. Qed.
Lemma pending_pending p d : ds_pending (set_pending p d) = p.
Proof. reflexivity. Qed.
Lemma loading_pending p d : ds_loading (set_pending p d) = ds_loading d.
Proof. reflexivity. Qed.
Lemma loading_loading b d : ds_loading (set_dloading b d) = b.
Proof. reflexivity. Qed.

Create Rewrite HintDb dstate.
#[export] Hint Rewrite messages_add messages_loading messages_show_scenario messages_pending pending_pending
  loading_pending loading_loading : dstate.

#[local] Opaque fetchLTPData generateLTPSummary add_message set_dloading set_show_scenario set_pending.

Definition selection_text (useHistorical : bool) (date time : option string) : string :=
  if useHistorical then "Using historical data for " +:+ opt_text date +:+ " at " +:+ opt_text time
  else "Using live market data".

(** C18. A scenario analysis never shows an analysis: whatever the LTP
    Calculator and the chat route answer, choosing live or historical data
    for a pending scenario question appends the choice and then exactly
    one answer, which is the fetch error or the summary's fallback text,
    and clears the pending question and the loading flag. *)
Theorem scenario_selection_outcome `{DateEnv} {W} (fetch : request -> W -> fresult * W) b ex dt tm d w p :
  ds_pending d = Some p -> p <> ""%string ->
  exists d' w' x,
    handleScenarioDataSelection fetch b ex dt tm (d, w) = ((d', w'), inr tt) /\
    ds_messages d' = ds_messages d ++ [user_msg (selection_text b dt tm); assistant_msg x] /\
    (x = summary_error \/ x = scenario_fetch_error) /\ ds_pending d' = None /\ ds_loading d' = false.
Proof.
  intros Hp Hne.
  set (d1 := add_message (user_msg (selection_text b dt tm)) (set_dloading true (set_show_scenario false d))).
  destruct (fetchLTPData_outcome fetch b (default "" ex) (default "" dt) (default "" tm) d1 w)
    as (w' & o & Hf & [->|(v & ->)]).
  - exists (set_pending None (set_dloading false (add_message (assistant_msg scenario_fetch_error) d1))), w',
      scenario_fetch_error.
    cbv [handleScenarioDataSelection cbind cmodify cget ctry fst snd]. rewrite pending_show_scenario, Hp.
    rewrite (proj2 (String.eqb_neq _ _) Hne). cbv [negb]. unfold d1, selection_text in Hf. rewrite Hf. cbv [cthrow cret fst snd].
    repeat split; try reflexivity; auto; unfold d1; autorewrite with dstate; by rewrite <-app_assoc.
  - exists (set_pending None (set_dloading false (add_message (assistant_msg summary_error) d1))), w',
      summary_error.
    cbv [handleScenarioDataSelection cbind cmodify cget ctry fst snd]. rewrite pending_show_scenario, Hp.
    rewrite (proj2 (String.eqb_neq _ _) Hne). cbv [negb]. unfold d1, selection_text in Hf. rewrite Hf. cbv beta iota.
    rewrite summary_returns_fallback. cbv [cthrow cret fst snd].
    repeat split; try reflexivity; auto; unfold d1; autorewrite with dstate; by rewrite <-app_assoc.
Qed.

(** ** [handleSubmit] *)

(** ** The translation loop: three iterations are enough *)

Section loop.
Context `{DateEnv} {W : Type} (fetch : request -> W -> fresult * W).

(** From [retries], the source's check stops the loop after [3 - retries]
    iterations: any fuel at least that gives the same run. *)
Lemma translate_loop_enough n m retries text mid lang sw :
  0 <= retries -> (Z.to_nat (3 - retries) <= n)%nat -> (Z.to_nat (3 - retries) <= m)%nat ->
  translate_loop fetch n retries text mid lang sw = translate_loop fetch m retries text mid lang sw.
Proof.
  revert m retries sw. induction n as [|n IH]; intros m retries sw Hr Hn Hm.
  - destruct m as [|m]; [done|]. simpl. by rewrite (proj2 (Z.leb_gt retries 2)) by lia.
  - destruct m as [|m]; simpl.
    + by rewrite (proj2 (Z.leb_gt retries 2)) by lia.
    + destruct (retries <=? 2) eqn:E; [|done].
      destruct (translate_attempt fetch text mid lang sw) as [sw' [x|u]]; [|done].
      apply IH; lia.
Qed.

End loop.

Section submit.
Context `{DateEnv} (answer : request -> fresult) (user : option jval).

(** A world that records the requests. *)
Definition logging (r : request) (l : list request) : fresult * list request := (answer r, l ++ [r]).

Lemma check_scenario_true m d w :
  has_scenario m = true ->
  exists d', checkForScenarioKeyword (W:=list request) user m (d, w) = ((d', w), inr true).
Proof.
  intros Hs. unfold checkForScenarioKeyword. rewrite Hs.
  destruct (truthy (user_ltp user)); eexists; reflexivity.
Qed.

Lemma check_scenario_false m d w :
  has_scenario m = false -> checkForScenarioKeyword (W:=list request) user m (d, w) = ((d, w), inr false).
Proof. intros Hs. unfold checkForScenarioKeyword. by rewrite Hs. Qed.

(** What runs after the request of [handleSubmit] leaves the world alone. *)
Definition wkeep {S W A} (m : sm S W A) : Prop := forall sw, (m sw).1.2 = sw.2.

Lemma wkeep_bind {S W A B} (m : sm S W A) (f : A -> sm S W B) :
  wkeep m -> (forall a, wkeep (f a)) -> wkeep (cbind m f).
Proof.
  intros Hm Hf sw. unfold cbind. specialize (Hm sw). destruct (m sw) as [sw' [x|a]]; simpl in *; [done|].
  rewrite Hf. done.
Qed.

Lemma wkeep_ctry {S W A} (m : sm S W A) h fin :
  wkeep m -> (forall x, wkeep (h x)) -> wkeep fin -> wkeep (ctry m h fin).
Proof.
  intros Hm Hh Hfin sw. unfold ctry. specialize (Hm sw).
  destruct (m sw) as [s1 [x|a]] eqn:E; simpl in Hm.
  - specialize (Hh x s1). destruct (h x s1) as [s2 r2]. simpl in *. specialize (Hfin s2).
    destruct (fin s2) as [s3 [y|[]]]; simpl in *; congruence.
  - specialize (Hfin s1). destruct (fin s1) as [s3 [y|[]]]; simpl in *; congruence.
Qed.

Lemma wkeep_ret {S W A} (a : A) : wkeep (S:=S) (W:=W) (cret a).
Proof. done. Qed.
Lemma wkeep_throw {S W A} x : wkeep (S:=S) (W:=W) (A:=A) (cthrow x).
Proof. done. Qed.
Lemma wkeep_modify {S W} f : wkeep (S:=S) (W:=W) (cmodify f).
Proof. done. Qed.
Lemma wkeep_get {S W} : wkeep (S:=S) (W:=W) cget.
Proof. done. Qed.
Lemma wkeep_prop {S W} v k : wkeep (S:=S) (W:=W) (cprop v k).
Proof. intros sw. unfold cprop. by destruct (prop v k). Qed.
Lemma wkeep_json {S W} r : wkeep (S:=S) (W:=W) (cjson r).
Proof. intros sw. unfold cjson. by destruct (JsonText.parse _). Qed.

Lemma cbind_get {S W A} (k : S -> sm S W A) sw : cbind cget k sw = k sw.1 sw.
Proof. by destruct sw. Qed.
Lemma cbind_modify {S W A} f (k : unit -> sm S W A) sw : cbind (cmodify f) k sw = k tt (f sw.1, sw.2).
Proof. done. Qed.
Lemma cbind_ret {S W A B} (a : A) (k : A -> sm S W B) sw : cbind (cret a) k sw = k a sw.
Proof. done. Qed.
Lemma cbind_ok {S W A B} (m : sm S W A) (k : A -> sm S W B) sw sw' a :
  m sw = (sw', inr a) -> cbind m k sw = k a sw'.
Proof. intros Hm. unfold cbind. by rewrite Hm. Qed.

(** A [try] whose handlers leave the world alone ends in the world its
    body ends in. *)
Lemma ctry_world {S W A} (m : sm S W A) h fin sw :
  (forall x, wkeep (h x)) -> wkeep fin -> (ctry m h fin sw).1.2 = (m sw).1.2.
Proof.
  intros Hh Hfin. unfold ctry. destruct (m sw) as [s1 [x|a]]; simpl.
  - specialize (Hh x s1). destruct (h x s1) as [s2 r2]. simpl in *. specialize (Hfin s2).
    destruct (fin s2) as [s3 [y|[]]]; simpl in *; congruence.
  - specialize (Hfin s1). destruct (fin s1) as [s3 [y|[]]]; simpl in *; congruence.
Qed.

Create HintDb wkeep.
#[local] Hint Resolve wkeep_bind wkeep_ctry wkeep_ret wkeep_throw wkeep_modify wkeep_get wkeep_prop wkeep_json
  : wkeep.

(** Everything after the reply of the chat request. *)
Lemma submit_tail_keeps (r : reply) (deep : bool) sw :
  (cbind ((if negb (rp_ok r) then
             ed <- (fun sw => match cjson (S:=dstate) (W:=list request) r sw with
                              | (sw', inl _) => (sw', inr (JObj [])) | res => res end) ;;
             e <- cprop ed "error" ;;
             cthrow (Error (if truthy e then to_js_string e else "Request failed with status " +:+ pretty (rp_status r)))
           else cret tt))
    (fun _ =>
     data <- cjson r ;;
     msg <- cprop data "message" ;;
     if negb (truthy msg) then cthrow (Error "Invalid response format from API") else
     th <- cprop data "thinking" ;;
     cmodify (add_message (mkmsg "assistant" (undef_null msg) (if truthy th then th else None) (Some deep)))) sw).1.2
  = sw.2.
Proof.
  apply wkeep_bind; [|intros; apply wkeep_bind; [auto with wkeep|intros; apply wkeep_bind;
    [auto with wkeep|intros; destruct (negb _); auto with wkeep]]].
  destruct (negb _); [|auto with wkeep]. apply wkeep_bind; [|auto with wkeep].
  intros sw'. pose proof (wkeep_json (S:=dstate) (W:=list request) r sw') as Hj.
  destruct (cjson r sw') as [sw'' [x|v]]; simpl in *; done.
Qed.

(** C19. The LTP-enhanced system prompt of [handleSubmit] is unreachable:
    [checkForScenarioKeyword] takes every message with the word
    [scenario] first, so whatever the services answer, [handleSubmit]
    makes at most one request, to [/api/chat], and it carries the default
    system prompt. *)
Theorem submit_sends_default_prompt o d log :
  exists reqs, (handleSubmit logging user o (d, log)).1.2 = log ++ reqs /\
    (reqs = [] \/ exists msgs, reqs = [chat_request msgs chat_system_prompt (ds_deep d)]).
Proof.
  unfold handleSubmit. rewrite cbind_get. cbn [fst].
  set (message := match o with Some o0 => _ | None => _ end).
  destruct (bool_decide _); [exists []; split; [by rewrite app_nil_r|by left]|].
  destruct (has_scenario message) eqn:Hs.
  - destruct (check_scenario_true message d log Hs) as [d' Hc]. rewrite (cbind_ok _ _ _ _ _ Hc).
    exists []. split; [by rewrite app_nil_r|by left].
  - rewrite (cbind_ok _ _ _ _ _ (check_scenario_false message d log Hs)). cbn iota.
    rewrite !cbind_modify. cbn [fst snd]. rewrite ctry_world by auto with wkeep.
    cbn [andb]. rewrite cbind_ret.
    exists [chat_request (ds_messages d ++ [user_msg message]) chat_system_prompt (ds_deep d)].
    split; [|right; by exists (ds_messages d ++ [user_msg message])].
    unfold cbind at 1, cfetch, logging. cbn [fst snd].
    destruct (answer _) as [x|r]; [done|]. apply submit_tail_keeps.
Qed.

Lemma translated_text_keeps (data : jval) : wkeep (S:=dstate) (W:=list request) (translated_text data).
Proof.
  unfold translated_text. destruct (negb _); [auto with wkeep|]. destruct (index0 _) as [d0|]; [|auto with wkeep].
  destruct (negb _); [auto with wkeep|]. destruct d0; auto with wkeep.
  assert (Hf : forall items (acc : sm dstate (list request) string), wkeep acc ->
            wkeep (fold_left (fun acc item => t <- acc ;;
                      match item with
                      | JNull => cthrow (TypeError "Cannot read properties of null (reading '0')")
                      | _ => let x := index0 (Some item) in cret (if truthy x then t +:+ to_js_string x else t)
                      end) items acc)).
  { induction items as [|it items IH]; intros acc Ha; simpl; [done|]. apply IH.
    apply wkeep_bind; [done|]. intros t. destruct it; auto with wkeep. }
  apply Hf. auto with wkeep.
Qed.

(** One attempt of [translateText]: exactly one request. *)
Lemma attempt_one_request text mid lang sw :
  (translate_attempt logging text mid lang sw).1.2 = sw.2 ++ [mkreq "GET" (translate_url lang text) [] None].
Proof.
  unfold translate_attempt, cbind at 1, cfetch, logging. cbn [fst snd].
  destruct (answer _) as [x|r]; [done|].
  match goal with |- (?m ?w1).1.2 = _ => assert (Hk : wkeep m); [|exact (Hk w1)] end.
  destruct (negb (rp_ok r)); [auto with wkeep|].
  apply wkeep_bind; [auto with wkeep|]. intros data. apply wkeep_bind; [apply translated_text_keeps|].
  intros t. destruct (String.eqb t ""); auto with wkeep.
Qed.

Lemma translate_loop_requests n retries text mid lang sw :
  0 <= retries ->
  exists k, (translate_loop logging n retries text mid lang sw).1.2 =
              sw.2 ++ repeat (mkreq "GET" (translate_url lang text) [] None) k /\ (k <= Z.to_nat (3 - retries))%nat.
Proof.
  revert retries sw. induction n as [|n IH]; intros retries sw Hr; simpl.
  { exists 0%nat. split; [by rewrite app_nil_r|lia]. }
  destruct (Z.leb_spec retries 2) as [Hle|Hgt]; [|exists 0%nat; split; [by rewrite app_nil_r|lia]].
  pose proof (attempt_one_request text mid lang sw) as Ha.
  destruct (translate_attempt logging text mid lang sw) as [sw' [x|[]]]; simpl in Ha.
  - match goal with |- context [translate_loop logging n _ _ _ _ ?sw''] =>
      destruct (IH (retries + 1) sw'') as (k & Hk & Hk'); [lia|] end.
    exists (S k). rewrite Hk. destruct (2 <? retries + 1); simpl; rewrite Ha, <-app_assoc; split; try done; lia.
  - exists 1%nat. split; [done|lia].
Qed.

(** C25. [translateText] terminates after at most three requests to the
    translation service, all for the same URL, and makes none for an
    ASCII text to be shown in English; the bound is the loop's own
    [retries <= maxRetries] check: with any number of iterations allowed
    the loop makes at most three requests, and three iterations give the
    same run as any larger number. *)
Theorem translate_at_most_three text mid lang d log :
  (exists k, (translateText logging text mid lang (d, log)).1.2 =
              log ++ repeat (mkreq "GET" (translate_url lang text) [] None) k /\ (k <= 3)%nat /\
            (String.eqb lang "en" && ascii_only text = true -> k = 0%nat)) /\
  (forall n sw, exists k, (translate_loop logging n 0 text mid lang sw).1.2 =
                  sw.2 ++ repeat (mkreq "GET" (translate_url lang text) [] None) k /\ (k <= 3)%nat) /\
  (forall n sw, (3 <= n)%nat ->
     translate_loop logging n 0 text mid lang sw = translate_loop logging 3 0 text mid lang sw).
Proof.
  split; [|split; [intros n sw; apply (translate_loop_requests n 0); lia|
                   intros n sw Hn; apply translate_loop_enough; simpl; lia]].
  unfold translateText. rewrite cbind_get, cbind_modify. cbn [fst snd].
  destruct (String.eqb lang "en" && ascii_only text) eqn:E.
  - exists 0%nat. split; [|split; [lia|done]]. rewrite app_nil_r. reflexivity.
  - destruct (translate_loop_requests 3 0 text mid lang
                (set_translating (aset mid true (ds_translating d)) d, log)) as (k & Hk & Hle); [lia|].
    exists k. split; [|split; [simpl in Hle; lia|done]].
    unfold cbind at 1. destruct (translate_loop _ _ _ _ _ _ _) as [sw' [x|[]]] eqn:Hl; simpl in *; rewrite <-Hk; done.
Qed.

End submit.

(** ** The historical request against the route *)

Lemma formatted_time_clean t : vclean (String.list_ascii_of_string t) -> vclean (String.list_ascii_of_string (formatted_time t)).
Proof.
  intros [A B]. unfold formatted_time.
  destruct (contains_char _ _); [destruct (_ =? 3)%nat|]; try (split; done);
    rewrite list_ascii_of_string_app; split; rewrite elem_of_app; simpl; set_solver.
Qed.

(** The query of the historical request the page builds. *)
Lemma ltp_url_query e dt tm :
  e <> ""%string -> dt <> ""%string -> tm <> ""%string ->
  vclean (String.list_ascii_of_string e) -> vclean (String.list_ascii_of_string dt) ->
  vclean (String.list_ascii_of_string tm) ->
  url_query (ltp_url true e dt tm) =
    build_query [(String.list_ascii_of_string "symbol", String.list_ascii_of_string "NIFTY");
                 (String.list_ascii_of_string "expiry", String.list_ascii_of_string e);
                 (String.list_ascii_of_string "lotSize", String.list_ascii_of_string "75");
                 (String.list_ascii_of_string "fetchTime",
                  String.list_ascii_of_string dt ++ String.list_ascii_of_string "%20" ++
                  String.list_ascii_of_string (formatted_time tm))].
Proof.
  intros He Hd Ht [Ae Be] [Ad Bd] Htm. destruct (formatted_time_clean tm Htm) as [At Bt].
  unfold ltp_url. rewrite (proj2 (String.eqb_neq _ _) He), (proj2 (String.eqb_neq _ _) Hd),
    (proj2 (String.eqb_neq _ _) Ht). cbn [andb negb].
  unfold url_query. rewrite !list_ascii_of_string_app. simpl.
  rewrite before_char_none; [reflexivity|]. rewrite !elem_of_app. simpl. set_solver.
Qed.

#[local] Transparent fetchLTPData.

Definition missing_params : aresponse :=
  ajson [("error", JStr "Missing required parameters: expiry, fetchDate, or fetchTime")] 400.

Section historical.
Context `{DateEnv} `{JwtSig}.
Variables (prod : bool) (nextauth_url jwt_env ltp_username_env ltp_password_env openrouter_env : option string)
          (openrouter_literal : string).
Local Abbreviation server := (serve prod nextauth_url jwt_env ltp_username_env ltp_password_env openrouter_env
                         openrouter_literal).

Lemma ltp_url_path e dt tm :
  e <> ""%string -> dt <> ""%string -> tm <> ""%string ->
  path_of (ltp_url true e dt tm) = "/api/ltp-calculator/historical".
Proof.
  intros He Hd Ht. unfold ltp_url. rewrite (proj2 (String.eqb_neq _ _) He), (proj2 (String.eqb_neq _ _) Hd),
    (proj2 (String.eqb_neq _ _) Ht). cbn [andb negb]. unfold path_of. simpl. reflexivity.
Qed.

(** The route answers the page's historical request with 400, and the
    browser's world does not change. *)
Lemma historical_request_400 e dt tm w :
  e <> ""%string -> dt <> ""%string -> tm <> ""%string ->
  vclean (String.list_ascii_of_string e) -> vclean (String.list_ascii_of_string dt) ->
  vclean (String.list_ascii_of_string tm) ->
  server (mkreq "GET" (ltp_url true e dt tm) [] None) w = (FReply (to_reply (inr missing_params)), w).
Proof.
  intros He Hd Ht Ce Cd Ct.
  assert (Hf : get_param "fetchDate" (ltp_url true e dt tm) = None).
  { destruct (formatted_time_clean tm Ct) as [At Bt]. destruct Ce as [Ae Be], Cd as [Ad Bd].
    rewrite (get_param_build _ _ _ (ltp_url_query e dt tm He Hd Ht (conj Ae Be) (conj Ad Bd) Ct)); [done|done|].
    assert (Hk : forall k v, plainb k = true -> k <> [] -> vclean v -> good_pair (k, v))
      by (intros k v Hk Hne Hv; split; [by apply plainb_plain|split; assumption]).
    repeat (apply List.Forall_cons; [apply Hk; [reflexivity|discriminate|]|]); try apply List.Forall_nil;
      try (apply plain_clean, plainb_plain; reflexivity); try (split; assumption).
    split; rewrite !elem_of_app; simpl; set_solver. }
  unfold serve, route. cbn [rq_method rq_url]. rewrite ltp_url_path by done.  cbv [String.eqb andb Ascii.eqb Bool.eqb].
  unfold historical_GET, param_or at 2. rewrite Hf. cbn [String.eqb]. rewrite orb_true_r. cbn [orb]. simpl.
  destruct w; reflexivity.
Qed.

(** C16. The historical analysis of the dashboard never receives data:
    against the repository's own route, [fetchLTPData] for a historical
    scenario (expiry, date and time given, none holding [&] or [#]) gets
    the route's 400 "Missing required parameters", since the page sends
    no [fetchDate], and returns [null]; neither the page nor the browser's
    world changes. *)
Theorem historical_fetch_null e dt tm (d : dstate) w :
  e <> ""%string -> dt <> ""%string -> tm <> ""%string ->
  vclean (String.list_ascii_of_string e) -> vclean (String.list_ascii_of_string dt) ->
  vclean (String.list_ascii_of_string tm) ->
  fetchLTPData server true e dt tm (d, w) = ((d, w), inr None).
Proof.
  intros. unfold fetchLTPData, ctry, cbind at 1, cfetch. cbn [snd].
  rewrite historical_request_400 by done. reflexivity.
Qed.

End historical.
