(* ===== verification/Calendar.v ===== *)
(** * The scenario-data dialog: [src/components/auth/ScenarioDataDialog.tsx]

    The dialog asks whether a scenario analysis should use live or
    historical data.  For historical data it offers the NSE expiries of
    its list up to the coming Thursday, a calendar of trading days and a
    time, and hands the choice to the page's [onDataSelection]
    ([Dashboard.handleScenarioDataSelection]).

    All of it is arithmetic on JS [Date]s in the browser's local time.
    The section [local_time] takes the browser's offset from UTC [off]
    (ms east of Greenwich, [LocalTZA] of ECMAScript; India is
    [19800000]) as a variable and writes the ECMAScript algorithms out:
    [new Date(y, m, d)] is [MakeDay] with month overflow carried into the
    year and a day number linear in [d] (so [d = 0] is the last day of
    the month before), [getDay], [getDate], [getMonth], [getFullYear]
    read the civil date of the local day, and [setDate], [setMonth] keep
    the local time of day.  A time zone with daylight saving time is not
    modelled: the offset is fixed.  [toISOString().split('T')[0]] is the
    UTC date, [new Date("YYYY-MM-DD")] the UTC midnight of [JsDate]'s
    parser.  The dialog's React state is the record [dialog]; each
    handler returns the new state and the callback it makes, or the
    exception it throws. *)

From S2P Require Import Prelude Json JsDate Url.
From Stdlib Require Import Ascii.
From stdpp Require Import pretty.

Local Open Scope Z_scope.
Import IsoDate.

(** ** Local time *)

Section local_time.
Variable off : Z.

Definition local (t : Z) : Z := t + off.
Definition day (t : Z) : Z := t / ms_per_day.
Definition time_within_day (t : Z) : Z := t mod ms_per_day.
Definition week_day (t : Z) : Z := (day t + 4) mod 7.

(** [MakeDay(y, mon, d)]: the month counts from 0 and overflows into the
    year. *)
Definition make_day (y mon d : Z) : Z := days_from_civil (y + mon / 12) (mon mod 12 + 1) d.

(** [new Date(y, mon, d)]: local midnight. *)
Definition new_local (y mon d : Z) : Z := make_day y mon d * ms_per_day - off.

Definition ymd (t : Z) : Z * Z * Z := civil_from_days (day (local t)).
Definition getDay (t : Z) : Z := week_day (local t).
Definition getDate (t : Z) : Z := let '(_, _, d) := ymd t in d.
Definition getMonth (t : Z) : Z := let '(_, m, _) := ymd t in m - 1.
Definition getFullYear (t : Z) : Z := let '(y, _, _) := ymd t in y.

(** [t.setDate(dt)] and [t.setMonth(mo)]: the other fields and the local
    time of day are kept. *)
Definition setDate (t dt : Z) : Z :=
  let '(y, m, _) := ymd t in make_day y (m - 1) dt * ms_per_day + time_within_day (local t) - off.
Definition setMonth (t mo : Z) : Z :=
  let '(y, _, d) := ymd t in make_day y mo d * ms_per_day + time_within_day (local t) - off.

End local_time.

(** [d.toISOString().split('T')[0]]: the UTC date; an instant outside the
    range of [Date] throws. *)
Definition iso_date (t : Z) : exn + string :=
  match time_clip t with
  | Some t => inr (split_first "T" (to_iso t))
  | None => inl (JsError "RangeError" "Invalid time value")
  end.

(** [new Date(s)] of a date text; [None] is an Invalid Date. *)
Definition new_date (s : string) : option Z := parse_iso s.

(** [parseInt(s)] of a text of digits: its leading digits. *)
Fixpoint digits_prefix (acc : Z) (l : list ascii) : Z :=
  match l with
  | c :: r => match digit c with Some v => digits_prefix (acc * 10 + v) r | None => acc end
  | [] => acc
  end.

Definition parseInt (l : list ascii) : option Z :=
  match l with
  | c :: _ => match digit c with Some _ => Some (digits_prefix 0 l) | None => None end
  | [] => None
  end.

(** ** The dialog's state *)

Record dialog := mkdlg {
  dl_open : bool;                  (* the [open] prop, closed by [onOpenChange(false)] *)
  dl_historical : bool;            (* showHistoricalForm *)
  dl_expiry : string;
  dl_date : string;                (* YYYY-MM-DD *)
  dl_time : string;
  dl_error : option string
}.

Definition dlg_init : dialog := mkdlg true false "" "" "" None.

Definition set_expiry (v : string) (d : dialog) : dialog :=
  mkdlg (dl_open d) (dl_historical d) v (dl_date d) (dl_time d) (dl_error d).
Definition set_date (v : string) (d : dialog) : dialog :=
  mkdlg (dl_open d) (dl_historical d) (dl_expiry d) v (dl_time d) (dl_error d).
Definition set_time (v : string) (d : dialog) : dialog :=
  mkdlg (dl_open d) (dl_historical d) (dl_expiry d) (dl_date d) v (dl_error d).
Definition set_dlg_error (v : string) (d : dialog) : dialog :=
  mkdlg (dl_open d) (dl_historical d) (dl_expiry d) (dl_date d) (dl_time d) (Some v).
Definition close (d : dialog) : dialog :=
  mkdlg false (dl_historical d) (dl_expiry d) (dl_date d) (dl_time d) (dl_error d).

(** What the dialog hands to [onDataSelection]. *)
Inductive selection :=
| Live
| Historical (expiry date time : string).

Definition invalid_time : exn := JsError "RangeError" "Invalid time value".

(** The expiries of the list, newest first. *)
Definition newExpiryDates : list string :=
  ["24-12-2025"; "25-09-2025"; "28-08-2025"; "07-08-2025"; "31-07-2025";
   "24-07-2025"; "17-07-2025"; "10-07-2025"; "03-07-2025"; "26-06-2025";
   "19-06-2025"; "12-06-2025"; "05-06-2025"; "29-05-2025"; "22-05-2025";
   "15-05-2025"; "08-05-2025"; "30-04-2025"; "24-04-2025"; "17-04-2025";
   "09-04-2025"; "03-04-2025"; "27-03-2025"; "20-03-2025"; "13-03-2025";
   "06-03-2025"; "27-02-2025"; "20-02-2025"; "13-02-2025"; "06-02-2025";
   "30-01-2025"; "23-01-2025"; "16-01-2025"; "09-01-2025"; "02-01-2025"].

Definition holidays2025 : list string :=
  ["2025-02-26"; "2025-03-14"; "2025-03-31"; "2025-04-10"; "2025-04-14"; "2025-04-18"; "2025-05-01";
   "2025-08-15"; "2025-08-27"; "2025-10-02"; "2025-10-21"; "2025-10-22"; "2025-11-05"; "2025-12-25"].

(** [const [day, month, year] = s.split('-')], each read by [parseInt]. *)
Definition dmy_parts (s : string) : option (Z * Z * Z) :=
  match split_on "-" (String.list_ascii_of_string s) with
  | d :: m :: y :: _ =>
      match parseInt d, parseInt m, parseInt y with
      | Some d, Some m, Some y => Some (d, m, y)
      | _, _, _ => None
      end
  | _ => None
  end.

Section dialog.
Variables (off now : Z).    (* the browser's time zone and [new Date()] *)

(** [getUpcomingThursday]: today, moved forward to Thursday. *)
Definition getUpcomingThursday : Z :=
  setDate off now (getDate off now + (4 - getDay off now + 7) mod 7).

(** [processExpiryDates]: the expiries up to the coming Thursday; a text
    that does not read as a date compares false. *)
Definition processExpiryDates : list string :=
  List.filter (fun s => match dmy_parts s with
                   | Some (d, m, y) => new_local off y (m - 1) d <=? getUpcomingThursday
                   | None => false
                   end) newExpiryDates.

(** The loop of the option list that walks back from the last day of the
    month to its Thursday; it stops only on a Thursday, so [None] is a
    loop that has not stopped within the fuel. *)
Fixpoint back_to_thursday (fuel : nat) (t : Z) : option Z :=
  match fuel with
  | O => None
  | S f => if getDay off t =? 4 then Some t else back_to_thursday f (setDate off t (getDate off t - 1))
  end.

(** An option's [isLastThursday] and [isQuarterlyExpiry]; the month of
    the text counts from 1. *)
Definition option_marks (s : string) : option (bool * bool) :=
  match dmy_parts s with
  | Some (d, m, y) =>
      let lastDay := getDate off (new_local off y m 0) in
      match back_to_thursday 7 (new_local off y (m - 1) lastDay) with
      | Some t =>
          let last := d =? getDate off t in
          Some (last, last && existsb (Z.eqb m) [3; 6; 9; 12])
      | None => None
      end
  | None => None
  end.

(** The month the calendar shows: that of the chosen date, or today's. *)
Definition shown (d : dialog) : option Z :=
  if String.eqb (dl_date d) "" then Some now else new_date (dl_date d).

(** A day cell of the calendar: [isSelectable] of [new Date(year, month, i)]. *)
Definition isSelectable (year month i : Z) : exn + bool :=
  let dayDate := new_local off year month i in
  match iso_date dayDate with
  | inr dateString =>
      let dow := getDay off dayDate in
      let isWeekend := (dow =? 0) || (dow =? 6) in
      let isHoliday := existsb (String.eqb dateString) holidays2025 in
      let isFutureDate := now <? dayDate in
      let isAfterUpcomingThursday := getUpcomingThursday <? dayDate in
      inr (negb isWeekend && negb isHoliday && negb isFutureDate && negb isAfterUpcomingThursday)
  | inl x => inl x
  end.

(** A cell's [isLastThursday] and [isQuarterlyExpiry]: a Thursday whose
    next week falls in another month. *)
Definition cell_marks (year month i : Z) : bool * bool :=
  let last := (getDay off (new_local off year month i) =? 4) &&
              negb (getMonth off (new_local off year month (i + 7)) =? month) in
  (last, last && existsb (Z.eqb month) [2; 5; 8; 11]).

(** The text field: the chosen date one local day on, as
    [toLocaleDateString('en-GB')] with dashes. *)
Definition shown_text (d : dialog) : string :=
  if String.eqb (dl_date d) "" then "" else
  match new_date (dl_date d) with
  | Some t =>
      let '(y, m, dd) := ymd off (setDate off t (getDate off t + 1)) in
      pad_digits 2 dd +:+ "-" +:+ pad_digits 2 m +:+ "-" +:+ pretty y
  | None => "Invalid Date"
  end.

(** The cell's [onClick]. *)
Definition click_day (year month i : Z) (d : dialog) : exn + dialog :=
  match isSelectable year month i with
  | inr true =>
      match iso_date (new_local off year month i) with
      | inr s => inr (set_date s d)
      | inl x => inl x
      end
  | inr false => inr d
  | inl x => inl x
  end.

(** The grid's month: its year, month, first week day and last day. *)
Definition month_grid (d : dialog) : option (Z * Z * Z * Z) :=
  match shown d with
  | Some c =>
      let year := getFullYear off c in
      let month := getMonth off c in
      Some (year, month, getDay off (new_local off year month 1), getDate off (new_local off year (month + 1) 0))
  | None => None
  end.

(** The two arrows: [setMonth(getMonth() -/+ 1)], then the UTC date. *)
Definition change_month (delta : Z) (d : dialog) : exn + dialog :=
  match shown d with
  | Some c =>
      match iso_date (setMonth off c (getMonth off c + delta)) with
      | inr s => inr (set_date s d)
      | inl x => inl x
      end
  | None => inl invalid_time
  end.

(** The [Today] buttons. *)
Definition pick_today (d : dialog) : exn + dialog :=
  match iso_date now with inr s => inr (set_date s d) | inl x => inl x end.

(** The time input's [onChange]: seconds are added to [HH:mm]. *)
Definition time_input (v : string) (d : dialog) : dialog :=
  set_time (if (length (split_on ":" (String.list_ascii_of_string v)) =? 2)%nat then v +:+ ":00" else v) d.

(** The [Now] button: the local time as [HH:mm:ss]. *)
Definition pick_now (d : dialog) : dialog :=
  let r := time_within_day (local off now) in
  set_time (pad_digits 2 (r / 3600000) +:+ ":" +:+ pad_digits 2 (r / 60000 mod 60) +:+ ":" +:+
            pad_digits 2 (r / 1000 mod 60)) d.

Definition handleLiveDataSelection (d : dialog) : dialog * option selection := (close d, Some Live).

(** [handleHistoricalDataSubmit]: the three checks, then the chosen date
    moved one local day forward. *)
Definition handleHistoricalDataSubmit (d : dialog) : exn + (dialog * option selection) :=
  if String.eqb (dl_expiry d) "" then inr (set_dlg_error "Expiry is required" d, None)
  else if String.eqb (dl_date d) "" then inr (set_dlg_error "Date is required" d, None)
  else if String.eqb (dl_time d) "" then inr (set_dlg_error "Time is required" d, None)
  else match new_date (dl_date d) with
       | Some t =>
           match iso_date (setDate off t (getDate off t + 1)) with
           | inr s => inr (close d, Some (Historical (dl_expiry d) s (dl_time d)))
           | inl x => inl x
           end
       | None => inl invalid_time
       end.

End dialog.
