(* ===== verification/CalendarProps.v ===== *)
(** * Properties of the scenario-data dialog

    The local-time operations of [Calendar] are exact on the days of the
    civil calendar the algorithms of [JsDate] round-trip.  That is checked
    by computation on the days 2020-01-01 to 2030-12-31 ([first_day],
    [n_days]): the date of a day number reads back as that day number,
    both through [days_from_civil] and through [new Date("YYYY-MM-DD")].
    The dialog's data (its expiries, its holidays) are of 2025, so the
    range holds every date it can offer.  On it, [setDate(getDate() + k)]
    moves by [k] whole days, whatever the time zone; from this follow the
    date the dialog sends, the coming Thursday and the termination of the
    option list's loop. *)

From S2P Require Import Prelude Json JsDate Url Calendar.
From Stdlib Require Import Ascii.

Local Open Scope Z_scope.
Import IsoDate.

(** ** The checked range of days *)

(** The UTC date text of a day number. *)
Definition iso_day (z : Z) : string := split_first "T" (to_iso (z * ms_per_day)).

Definition day_ok (z : Z) : bool :=
  let '(y, m, d) := civil_from_days z in
  (days_from_civil y m d =? z) && (1 <=? m) && (m <=? 12) &&
  match new_date (iso_day z) with Some t => t =? z * ms_per_day | None => false end.

Fixpoint days_ok_from (z : Z) (n : nat) : bool :=
  match n with O => true | S n' => day_ok z && days_ok_from (z + 1) n' end.

Definition first_day : Z := 18262.     (* 2020-01-01 *)
Definition n_days : nat := 4018.       (* to 2030-12-31 *)

Definition in_range (z : Z) : Prop := first_day <= z < first_day + Z.of_nat n_days.

Lemma days_ok_checked : days_ok_from first_day n_days = true.
Proof. vm_compute. reflexivity. Qed.

Lemma days_ok_from_spec z0 n z :
  days_ok_from z0 n = true -> z0 <= z < z0 + Z.of_nat n -> day_ok z = true.
Proof.
  revert z0. induction n as [|n IH]; intros z0 H Hz; [lia|].
  simpl in H. apply andb_true_iff in H as [H1 H2].
  destruct (Z.eq_dec z z0) as [->|Hne]; [done|]. apply (IH (z0 + 1)); [done|lia].
Qed.

Lemma day_ok_range z : in_range z -> day_ok z = true.
Proof. apply days_ok_from_spec, days_ok_checked. Qed.

Lemma civil_range z :
  in_range z -> exists y m d, civil_from_days z = (y, m, d) /\ days_from_civil y m d = z /\ 1 <= m <= 12.
Proof.
  intros Hz. pose proof (day_ok_range z Hz) as H. unfold day_ok in H.
  destruct (civil_from_days z) as [[y m] d]. repeat rewrite andb_true_iff in H.
  destruct H as [[[H1 H2] H3] _]. exists y, m, d. repeat split; lia.
Qed.

Lemma new_date_iso_day z : in_range z -> new_date (iso_day z) = Some (z * ms_per_day).
Proof.
  intros Hz. pose proof (day_ok_range z Hz) as H. unfold day_ok in H.
  destruct (civil_from_days z) as [[y m] d]. repeat rewrite andb_true_iff in H.
  destruct H as [_ H]. destruct (new_date (iso_day z)); [|done]. f_equal. lia.
Qed.

(** ** Arithmetic of days *)

Lemma days_from_civil_shift y m d k : days_from_civil y m (d + k) = days_from_civil y m d + k.
Proof. unfold days_from_civil. lia. Qed.

Lemma make_day_month y m d : 1 <= m <= 12 -> make_day y (m - 1) d = days_from_civil y m d.
Proof.
  intros Hm. unfold make_day. rewrite Z.div_small, Z.mod_small by lia. f_equal; lia.
Qed.

Lemma day_of z r : 0 <= r < ms_per_day -> day (z * ms_per_day + r) = z.
Proof. intros Hr. unfold day. rewrite Z.div_add_l by (unfold ms_per_day; lia). rewrite Z.div_small by lia. lia. Qed.

Lemma day_split t : t = day t * ms_per_day + time_within_day t.
Proof. unfold day, time_within_day. pose proof (Z.div_mod t ms_per_day). unfold ms_per_day in *. lia. Qed.

Lemma day_add x k : day (x + k * ms_per_day) = day x + k.
Proof. unfold day. rewrite Z.div_add by (unfold ms_per_day; lia). done. Qed.

Lemma local_new_local off y mon d : local off (new_local off y mon d) = make_day y mon d * ms_per_day.
Proof. unfold local, new_local. lia. Qed.

(** [setDate(getDate() + k)] moves by [k] days, in every time zone. *)
Lemma setDate_shift off t k :
  in_range (day (local off t)) -> setDate off t (getDate off t + k) = t + k * ms_per_day.
Proof.
  intros Hr. unfold setDate, getDate, ymd.
  destruct (civil_range _ Hr) as (y & m & d & -> & Hd & Hm).
  rewrite make_day_month, days_from_civil_shift, Hd by done.
  pose proof (day_split (local off t)) as Hs. unfold local in *. lia.
Qed.

Lemma getDay_shift off t k : getDay off (t + k * ms_per_day) = (getDay off t + k) mod 7.
Proof.
  unfold getDay, week_day, local. replace (t + k * ms_per_day + off) with (t + off + k * ms_per_day) by lia.
  rewrite day_add, Zplus_mod_idemp_l. f_equal. lia.
Qed.

(** ** The UTC date text *)

Lemma before_char_sep c a r r' : before_char c (a ++ c :: r) = before_char c (a ++ c :: r').
Proof.
  induction a as [|x a IH]; simpl; [by rewrite Ascii.eqb_refl|]. by rewrite IH.
Qed.

Definition date_chars (z : Z) : list ascii :=
  let '(y, m, d) := civil_from_days z in
  String.list_ascii_of_string (year_str y +:+ "-" +:+ pad_digits 2 m +:+ "-" +:+ pad_digits 2 d).

Lemma to_iso_chars t : exists r, String.list_ascii_of_string (to_iso t) = date_chars (day t) ++ "T"%char :: r.
Proof.
  unfold to_iso, date_chars, day. destruct (civil_from_days (t / ms_per_day)) as [[y m] d].
  rewrite !list_ascii_of_string_app. simpl. eexists. rewrite <-app_assoc. reflexivity.
Qed.

Lemma split_first_to_iso t : split_first "T" (to_iso t) = iso_day (day t).
Proof.
  unfold iso_day, split_first. destruct (to_iso_chars t) as [r1 ->].
  destruct (to_iso_chars (day t * ms_per_day)) as [r2 ->].
  replace (day (day t * ms_per_day)) with (day t)
    by (rewrite <-(Z.add_0_r (day t * ms_per_day)), day_of by (unfold ms_per_day; lia); done).
  by rewrite (before_char_sep _ _ r1 r2).
Qed.

Lemma iso_date_in_range t : in_range (day t) -> iso_date t = inr (iso_day (day t)).
Proof.
  intros Hr. unfold iso_date, time_clip. pose proof (day_split t) as Hs.
  assert (0 <= time_within_day t < ms_per_day) by (apply Z.mod_pos_bound; unfold ms_per_day; lia).
  unfold in_range, first_day, n_days, ms_per_day in *.
  rewrite (proj2 (Z.leb_le _ _)) by lia. by rewrite split_first_to_iso.
Qed.

Lemma day_between z r : - ms_per_day < r < ms_per_day -> z - 1 <= day (z * ms_per_day + r) <= z.
Proof.
  intros Hr. pose proof (day_split (z * ms_per_day + r)) as Hs.
  pose proof (Z.mod_pos_bound (z * ms_per_day + r) ms_per_day) as Hm.
  unfold time_within_day, ms_per_day in *. lia.
Qed.

Lemma day_new_local off y mon i :
  - ms_per_day < off < ms_per_day ->
  day (new_local off y mon i) = make_day y mon i - (if 0 <? off then 1 else 0).
Proof.
  intros Hoff. unfold new_local. destruct (Z.ltb_spec 0 off).
  - replace (make_day y mon i * ms_per_day - off) with ((make_day y mon i - 1) * ms_per_day + (ms_per_day - off)) by lia.
    rewrite day_of by lia. lia.
  - rewrite <-Z.add_opp_r, day_of by lia. lia.
Qed.

(** From a chosen date: [new Date(date)], one local day on, its UTC date. *)
Lemma next_day_text off z :
  - ms_per_day < off < ms_per_day -> in_range (z - 1) -> in_range (z + 1) ->
  exists t, new_date (iso_day z) = Some t /\ iso_date (setDate off t (getDate off t + 1)) = inr (iso_day (z + 1)).
Proof.
  intros Hoff H1 H2. assert (Hz : in_range z) by (unfold in_range in *; lia).
  exists (z * ms_per_day). split; [by apply new_date_iso_day|].
  pose proof (day_between z off Hoff) as Hb.
  rewrite setDate_shift by (unfold local, in_range in *; lia).
  rewrite iso_date_in_range; (replace (z * ms_per_day + 1 * ms_per_day) with ((z + 1) * ms_per_day + 0) by lia;
    rewrite day_of by (unfold ms_per_day; lia)); done.
Qed.

Lemma iso_day_nonempty z : in_range z -> iso_day z <> ""%string.
Proof. intros Hz He. pose proof (new_date_iso_day z Hz) as H. rewrite He in H. discriminate. Qed.

(** ** The date the dialog sends *)

(** C20. The date a historical analysis asks for depends on the browser's
    time zone.  A calendar cell stores the UTC date of local midnight and
    the submission adds one local day: east of UTC (India, where the NSE
    trades) the two cancel and the clicked day is sent; at UTC and west
    of it the day after the clicked one is sent. *)
Theorem dialog_sends_date off now y mon i e tm d :
  - ms_per_day < off < ms_per_day ->
  first_day + 2 <= make_day y mon i < first_day + Z.of_nat n_days - 1 ->
  isSelectable off now y mon i = inr true -> e <> ""%string -> tm <> ""%string ->
  exists d',
    click_day off now y mon i (set_time tm (set_expiry e d)) = inr d' /\
    handleHistoricalDataSubmit off d' =
      inr (close d', Some (Historical e (iso_day (make_day y mon i + (if 0 <? off then 0 else 1))) tm)).
Proof.
  intros Hoff Hr Hs He Ht. pose proof (day_new_local off y mon i Hoff) as Hday.
  set (z := day (new_local off y mon i)) in Hday.
  assert (Hz : in_range z) by (unfold in_range; revert Hday; destruct (0 <? off); lia).
  destruct (next_day_text off z Hoff) as (t & Ht1 & Ht2); [unfold in_range in *; revert Hday; destruct (0 <? off); lia..|].
  exists (set_date (iso_day z) (set_time tm (set_expiry e d))). split.
  - unfold click_day. rewrite Hs, iso_date_in_range by done. done.
  - unfold handleHistoricalDataSubmit. cbn [dl_expiry dl_date dl_time set_date set_time set_expiry].
    rewrite (proj2 (String.eqb_neq _ _) He), (proj2 (String.eqb_neq _ _) Ht),
      (proj2 (String.eqb_neq _ _) (iso_day_nonempty z Hz)), Ht1, Ht2.
    replace (z + 1) with (make_day y mon i + (if 0 <? off then 0 else 1)) by (rewrite Hday; destruct (0 <? off); lia).
    reflexivity.
Qed.

(** ** The coming Thursday and the loop of the option list *)

Lemma getDay_bound off t : 0 <= getDay off t < 7.
Proof. unfold getDay, week_day. apply Z.mod_pos_bound. lia. Qed.

(** C27. [getUpcomingThursday] is a Thursday, today or within the six
    days after [now], in every time zone. *)
Theorem upcoming_thursday off now :
  in_range (day (local off now)) ->
  getDay off (getUpcomingThursday off now) = 4 /\
  now <= getUpcomingThursday off now < now + 7 * ms_per_day.
Proof.
  intros Hr. unfold getUpcomingThursday. rewrite setDate_shift, getDay_shift by done.
  pose proof (getDay_bound off now). pose proof (Z.mod_pos_bound (4 - getDay off now + 7) 7 ltac:(lia)).
  unfold ms_per_day. split; [|lia].
  set (g := getDay off now) in *. clearbody g. rewrite Zplus_mod_idemp_r. replace (g + (4 - g + 7)) with (4 + 7) by lia.
  reflexivity.
Qed.

Lemma back_to_thursday_steps off n t :
  (getDay off t - 4) mod 7 < Z.of_nat n ->
  in_range (day (local off t) - (getDay off t - 4) mod 7) -> in_range (day (local off t)) ->
  back_to_thursday off n t = Some (t - (getDay off t - 4) mod 7 * ms_per_day).
Proof.
  revert t. induction n as [|n IH]; intros t Hn Hlo Hhi; [pose proof (Z.mod_pos_bound (getDay off t - 4) 7); lia|].
  simpl. pose proof (getDay_bound off t) as Hb. destruct (Z.eqb_spec (getDay off t) 4) as [E|E].
  - rewrite E. cbn -[ms_per_day]. f_equal. change ((4 - 4) mod 7) with 0. lia.
  - replace (getDate off t - 1) with (getDate off t + -1) by lia.
    rewrite setDate_shift by done.
    assert (Hg' : (getDay off (t + -1 * ms_per_day) - 4) mod 7 = (getDay off t - 4) mod 7 - 1).
    { rewrite getDay_shift. clear -Hb E. set (g := getDay off t) in *. clearbody g.
      assert (g = 0 \/ g = 1 \/ g = 2 \/ g = 3 \/ g = 5 \/ g = 6) as Hc by lia.
      by repeat destruct Hc as [->|Hc]; [..|subst]. }
    assert (Hd : day (local off (t + -1 * ms_per_day)) = day (local off t) - 1)
      by (unfold local; replace (t + -1 * ms_per_day + off) with (t + off + -1 * ms_per_day) by lia;
          rewrite day_add; lia).
    pose proof (Z.mod_pos_bound (getDay off (t + -1 * ms_per_day) - 4) 7 ltac:(lia)) as Hpos. rewrite Hg' in Hpos.
    rewrite IH; rewrite ?Hg', ?Hd; [f_equal; lia|lia|..]; unfold in_range in *; lia.
Qed.

(** C26. The [while] loop that finds the last Thursday of an expiry's
    month stops: from any instant it reaches a Thursday within the seven
    iterations of [back_to_thursday]'s fuel, at most six days back. *)
Theorem option_loop_terminates off t :
  in_range (day (local off t) - 6) -> in_range (day (local off t)) ->
  exists t', back_to_thursday off 7 t = Some t' /\ getDay off t' = 4 /\ t - 6 * ms_per_day <= t' <= t.
Proof.
  intros Hlo Hhi. pose proof (Z.mod_pos_bound (getDay off t - 4) 7 ltac:(lia)) as Hg.
  rewrite back_to_thursday_steps by (simpl; unfold in_range in *; lia).
  eexists; split; [reflexivity|split; [|unfold ms_per_day; lia]].
  replace (t - (getDay off t - 4) mod 7 * ms_per_day) with (t + - ((getDay off t - 4) mod 7) * ms_per_day) by lia.
  rewrite getDay_shift. pose proof (getDay_bound off t). clear -H. set (g := getDay off t) in *. clearbody g.
  assert (g = 0 \/ g = 1 \/ g = 2 \/ g = 3 \/ g = 4 \/ g = 5 \/ g = 6) as Hc by lia.
  by repeat destruct Hc as [->|Hc]; [..|subst].
Qed.

(** The month arrows keep the day of the month and let it overflow: from
    31 March the previous-month arrow shows 3 March (in India). *)
Example prev_month_from_march_31 :
  change_month 19800000 0 (-1) (set_date "2025-03-31" dlg_init) = inr (set_date "2025-03-03" dlg_init).
Proof. vm_compute. reflexivity. Qed.
