(* ===== verification/ClientWitnesses.v ===== *)
(** * The theorems of [ClientProps] and [DashboardProps] at concrete inputs

    The browser talks to the repository's own routes ([Routes.serve]) with
    no environment variables set, over the database of [AuthWitnesses]
    (the account [ana@example.com] with ObjectId 7); the page asks for the
    NIFTY chain of 26-06-2025 at 10:15 on 2025-06-20.  Each lemma applies
    one theorem there, the hypotheses discharged by computation. *)

From S2P Require Import Prelude Json Env Mongo Prog JsDate JsonText Url Email Trades Auth AuthProps AuthWitnesses Ltp Chat Client Forms Routes ClientProps Dashboard DashboardProps Calendar CalendarProps.

Local Open Scope Z_scope.
Import JsDate.IsoDate.

Local Abbreviation server := (serve false None None None None None "sk-or-key").

Definition c_world : world := mkworld [] [] a_db.

(** The page state with a scenario question waiting for the data choice. *)
Definition c_page : dstate :=
  mkds [] "" false false (Some "Explain the scenario for NIFTY") true false [] [] [] false [].

Lemma reset_through_browser_witness :
  let t := reset_token (db_next_oid a_db) in
  exists cs1 w1 f2 cs2 w2 f3 cs3 w3 u',
    forgot_handleSubmit server (mkfp "ana@example.com" None None) (cinit a_clock, mkworld [] [] a_db) =
      (mkfp "" None (Some fp_message), (cs1, w1)) /\
    reset_page_params (reset_url None t (JStr "ana@example.com")) = inr ("ana@example.com"%string, t) /\
    checkToken server "ana@example.com" t rp_init (cs1, w1) = (f2, (cs2, w2)) /\ reset_view f2 = RPForm /\
    reset_handleSubmit server "ana@example.com" t
      (set_confirm "correct-horse" (set_password "correct-horse" f2)) (cs2, w2) = (f3, (cs3, w3)) /\
    rp_success f3 = Some "Your password has been reset successfully!"%string /\
    cs_error cs3 = None /\ cs_loading cs3 = false /\
    find_one Users [("_id", JOid 7)] (w_db w3) = Some u' /\
    get "password" u' = Some (JStr (hash_password "correct-horse")) /\ get "passwordReset" u' = None.
Proof.
  apply (reset_through_browser false None None None None None "sk-or-key" a_db [] (cinit a_clock)
           "ana@example.com" a_user 7 "correct-horse");
    [exact a_db_wf|reflexivity|reflexivity|vm_compute; reflexivity|
     apply (bool_decide_unpack _); vm_compute; reflexivity|vm_compute; discriminate].
Defined.

Lemma scenario_selection_outcome_witness :
  exists d' w' x,
    handleScenarioDataSelection server true (Some "26-06-2025") (Some "2025-06-20") (Some "10:15")
      (c_page, c_world) = ((d', w'), inr tt) /\
    ds_messages d' = ds_messages c_page ++
      [user_msg (selection_text true (Some "2025-06-20") (Some "10:15")); assistant_msg x] /\
    (x = summary_error \/ x = scenario_fetch_error) /\ ds_pending d' = None /\ ds_loading d' = false.
Proof. apply (scenario_selection_outcome server true _ _ _ c_page c_world "Explain the scenario for NIFTY"); [reflexivity|discriminate]. Defined.

Lemma historical_fetch_null_witness :
  fetchLTPData server true "26-06-2025" "2025-06-20" "10:15" (c_page, c_world) = ((c_page, c_world), inr None).
Proof.
  apply historical_fetch_null; try discriminate;
    split; apply (bool_decide_unpack _); vm_compute; reflexivity.
Defined.

(** A route that accepts every request. *)
Definition accept_all (r : request) (w : unit) : fresult * unit :=
  (FReply (mkreply 200 (JsonText.stringify (JObj [("success", JBool true)]))), w).

(** The context with a signed-in user whose LTP user name is its
    password. *)
Definition c_signed_in : cstate := mkcs (Some (JObj [("username", JStr "ana")])) false None [] a_clock.

Definition c_user_after : jval :=
  JObj [("username", JStr "ana");
        ("ltpCredentials", JObj [("username", JStr "ana"); ("password", JStr "********");
                                 ("updatedAt", JStr (date_iso a_clock))])].

Lemma ltp_password_masked_witness :
  cs_user (updateLTPCredentials accept_all "ana" "ana" (c_signed_in, tt)).1.1 = Some c_user_after /\
  "ana"%string ∈ jstrs c_user_after /\
  ((exists v0, cs_user c_signed_in = Some v0 /\ "ana"%string ∈ jstrs v0) \/ "ana"%string = "ana"%string \/
   "ana"%string = "********"%string \/ "ana"%string = date_iso (cs_now c_signed_in)).
Proof.
  assert (Hu : cs_user (updateLTPCredentials accept_all "ana" "ana" (c_signed_in, tt)).1.1 = Some c_user_after)
    by (vm_compute; reflexivity).
  assert (Hin : "ana"%string ∈ jstrs c_user_after) by (apply (bool_decide_unpack _); vm_compute; reflexivity).
  split; [exact Hu|split; [exact Hin|]].
  exact (ltp_password_masked accept_all "ana" "ana" (c_signed_in, tt) c_user_after Hu Hin).
Defined.

(** ** The scenario-data dialog, in India and at UTC *)

Definition ist : Z := 19800000.
(** 2025-06-25 10:00 in India. *)
Definition c_now : Z := 1750825800000.

(** At UTC, clicking Friday 20 June 2025 sends Saturday 21 June. *)
Lemma dialog_sends_date_witness :
  (exists d',
    click_day 0 c_now 2025 5 20 (set_time "10:15:00" (set_expiry "26-06-2025" dlg_init)) = inr d' /\
    handleHistoricalDataSubmit 0 d' =
      inr (close d', Some (Historical "26-06-2025" (iso_day (make_day 2025 5 20 + (if 0 <? 0 then 0 else 1)))
                                      "10:15:00"))) /\
  iso_day (make_day 2025 5 20 + (if 0 <? 0 then 0 else 1)) = "2025-06-21"%string.
Proof.
  split; [|vm_compute; reflexivity].
  apply dialog_sends_date;
    [unfold ms_per_day; lia|vm_compute; split; congruence|vm_compute; reflexivity|discriminate|discriminate].
Defined.

Lemma upcoming_thursday_witness :
  getDay ist (getUpcomingThursday ist c_now) = 4 /\
  c_now <= getUpcomingThursday ist c_now < c_now + 7 * ms_per_day.
Proof. apply upcoming_thursday. vm_compute. split; congruence. Defined.

(** The loop from 30 June 2025, the last day of the month of the expiry
    26-06-2025. *)
Lemma option_loop_terminates_witness :
  exists t', back_to_thursday ist 7 (new_local ist 2025 5 30) = Some t' /\ getDay ist t' = 4 /\
    new_local ist 2025 5 30 - 6 * ms_per_day <= t' <= new_local ist 2025 5 30.
Proof. apply option_loop_terminates; vm_compute; split; congruence. Defined.
