(* ===== verification/Witnesses.v ===== *)
(** * The theorems of [TradesProps] and [Ledger] at the spec's example

    Each lemma applies one theorem at a concrete input, the example of the
    spec (section 8): trade [t1] of user [u1] on [NIFTY], bought at 10:00 UTC
    on 2025-01-01, with the ISO-8601 instance of [DateEnv]; the hypotheses
    are discharged by computation. *)

From S2P Require Import Prelude Json Env Mongo Prog JsDate Validator Ledger Trades TradesProps.
From Stdlib Require Import Sorting.Sorted Sorting.Permutation.

Definition w_uri : string := "mongodb://cluster0.example.net/trading".
Definition w_clock : Z := 1735725600000.
(** No remote service answers; no mail was sent. *)
Definition w_env : env := mkenv [] false (fun _ => mkreply 503 "") 0.
Definition w_trade : obj :=
  [("id", JStr "t1"); ("userId", JStr "u1"); ("symbol", JStr "NIFTY"); ("side", JStr "BUY");
   ("quantity", JNum 50); ("price", JNum 100); ("timestamp", JStr "2025-01-01T10:00:00Z")].
Definition w_stored : obj := set "_id" (JOid 1) w_trade.
Definition w_empty : db := mkdb [] [] [] 1 w_clock w_env.
Definition w_one : db := mkdb [w_stored] [] [] 2 w_clock w_env.
Definition w_update : obj :=
  [("id", JStr "t1"); ("userId", JStr "u1"); ("symbol", JStr "NIFTY"); ("side", JStr "BUY");
   ("quantity", JNum 75); ("price", JNum 100); ("timestamp", JStr "2025-01-01T10:00:00Z")].
Definition w_bad : obj := set "_id" (JOid 1) (set "timestamp" (JStr "soon") w_trade).

Lemma w_one_wf : db_wf w_one.
Proof.
  split; intros []; vm_compute; repeat constructor; try (by intros ?%list_elem_of_In); lia.
Qed.

Lemma POST_trades_created_witness :
  run (POST_trades w_uri (Some (JObj w_trade))) [FOk; FOk; FOk; FOk] w_empty =
  (inr (respond [("message", JStr "Trade saved successfully"); ("tradeId", JOid 1)] 201), [],
   mkdb [w_stored]
        [set "_id" (JOid 2) (ledger_entry w_stored (before_T (IsoDate.to_iso 1735725600000)) w_clock)]
        [] 3 w_clock w_env).
Proof.
  exact (POST_trades_created (H:=iso_date_env) w_uri w_trade w_empty 1735725600000 []
           (db_wf_empty 1 w_clock w_env) eq_refl eq_refl eq_refl).
Defined.

Lemma POST_trades_ledger_fails_witness :
  run (POST_trades w_uri (Some (JObj w_trade))) [FOk; FOk; FOk; FFail "timeout"; FOk] w_empty =
  (inr (respond (err_body "Failed to create trade"
                   (Error "Failed to save trade t1 to ledger: timeout")) 500), [],
   mkdb [] [] [] 2 w_clock w_env).
Proof.
  exact (POST_trades_ledger_fails (H:=iso_date_env) w_uri w_trade w_empty 1735725600000 "timeout" []
           (db_wf_empty 1 w_clock w_env) eq_refl eq_refl eq_refl).
Defined.

Lemma invalid_payload_no_write_witness :
  run (POST_trades w_uri (Some (JObj (set "quantity" (JNum (-5)) w_trade)))) [] w_one =
    (inr (respond [("error", JStr "Invalid trade data");
                   ("details", JArr [JStr "quantity must be non-negative"])] 400), [], w_one) /\
  run (PUT_trade w_uri "t1" (Some (JObj (set "price" (JStr "100") w_update)))) [] w_one =
    (inr (respond [("error", JStr "Invalid trade data");
                   ("details", JArr [JStr "price must be a number"])] 400), [], w_one).
Proof.
  exact (invalid_payload_no_write (H:=iso_date_env) w_uri
           (JObj (set "quantity" (JNum (-5)) w_trade)) (set "price" (JStr "100") w_update) "t1" w_one []
           eq_refl eq_refl eq_refl ltac:(discriminate)).
Defined.

Lemma DELETE_trade_ledger_fails_witness :
  run (DELETE_trade w_uri "t1" (Some "u1")) [FOk; FOk; FOk; FFail "timeout"] w_one =
  (inr (respond [("error", JStr "Failed to delete trade");
                 ("details", JStr "Could not record deletion in ledger");
                 ("ledgerError", JStr "Failed to save trade t1 to ledger: timeout")] 500), [], w_one).
Proof.
  exact (DELETE_trade_ledger_fails (H:=iso_date_env) w_uri "t1" "u1" w_one w_stored
           1735725600000 "timeout" [] ltac:(discriminate) ltac:(discriminate) eq_refl eq_refl).
Defined.

Lemma DELETE_trade_deleted_witness :
  run (DELETE_trade w_uri "t1" (Some "u1")) [FOk; FOk; FOk; FOk; FOk] w_one =
  (inr (respond [("message", JStr "Trade deleted successfully"); ("deletedCount", JNum 1)] 200), [],
   mkdb [] [ledger_row (H:=iso_date_env) (deletion_record w_stored w_clock) 1735725600000 w_one]
        [] 3 w_clock w_env).
Proof.
  exact (DELETE_trade_deleted (H:=iso_date_env) w_uri "t1" "u1" w_one w_stored 1735725600000 []
           w_one_wf ltac:(discriminate) ltac:(discriminate) eq_refl eq_refl).
Defined.

Lemma PUT_trade_ledger_fails_witness :
  (run (PUT_trade w_uri "t1" (Some (JObj w_update))) [FOk; FOk; FOk; FOk; FFail "timeout"] w_one =
   (inr (respond [("message", JStr "Trade updated but ledger entry failed");
                  ("warning", JStr "The trade was updated but may not appear correctly in trade history");
                  ("modifiedCount", JNum 1)] 207), [],
    set_coll Trades [spread w_stored (set_order w_update)] w_one)) /\
  (forall k v, get k w_update = Some v -> get k (spread w_stored (set_order w_update)) = Some v).
Proof.
  exact (PUT_trade_ledger_fails (H:=iso_date_env) w_uri "t1" w_update w_one w_stored
           (JStr "2025-01-01T10:00:00Z") 1735725600000 "timeout" []
           ltac:(discriminate) eq_refl eq_refl eq_refl eq_refl eq_refl eq_refl).
Defined.

Lemma not_owned_not_found_witness :
  let upd := set "userId" (JStr "u2") w_update in
  run (GET_trade w_uri "t1" (Some "u2")) [FOk; FOk] w_one =
    (inr (respond [("error", JStr "Trade not found or you do not have permission to view it")] 404),
     [], w_one) /\
  run (DELETE_trade w_uri "t1" (Some "u2")) [FOk; FOk] w_one =
    (inr (respond [("error", JStr "Trade not found or you do not have permission to delete it")] 404),
     [], w_one) /\
  run (PUT_trade w_uri "t1" (Some (JObj upd))) [FOk; FOk] w_one =
    (inr (respond [("error", JStr "Trade not found or you do not have permission to update it")] 404),
     [], w_one).
Proof.
  apply (not_owned_not_found (H:=iso_date_env) w_uri "t1" "u2" (set "userId" (JStr "u2") w_update) w_one []);
    [discriminate|discriminate| |reflexivity|reflexivity].
  intros d Hd _. cbn in Hd. apply list_elem_of_singleton in Hd. subst d. vm_compute. discriminate.
Defined.

Lemma handlers_keep_wf_witness :
  (forall u, db_wf (run (GET_trades w_uri u) [FLost "reset"] w_one).2) /\
  db_wf (run (POST_trades w_uri (Some (JObj w_trade))) [FOk; FUnack] w_one).2 /\
  (forall i u, db_wf (run (GET_trade w_uri i u) [FLost "reset"] w_one).2) /\
  (forall i u, db_wf (run (DELETE_trade w_uri i u) [FOk; FUnack] w_one).2) /\
  (forall i, db_wf (run (PUT_trade w_uri i (Some (JObj w_trade))) [FOk; FUnack] w_one).2).
Proof.
  destruct (handlers_keep_wf (H:=iso_date_env) w_uri w_one [FLost "reset"] (Some (JObj w_trade))
              w_one_wf eq_refl) as (H1 & _ & H3 & _ & _).
  destruct (handlers_keep_wf (H:=iso_date_env) w_uri w_one [FOk; FUnack] (Some (JObj w_trade))
              w_one_wf eq_refl) as (_ & H2 & _ & H4 & H5).
  exact (conj H1 (conj H2 (conj H3 (conj H4 H5)))).
Defined.

Lemma GET_trades_sorted_witness :
  exists l,
    run (GET_trades w_uri (Some "u1")) [FOk; FOk] w_one =
      (inr (respond [("trades", JArr (map JObj l))] 200), [], w_one) /\
    Sorted (desc_le ["timestamp"]) l /\
    Permutation l (filter (fun d => matches [("userId", JStr "u1")] d) (db_trades w_one)).
Proof. exact (GET_trades_sorted w_uri "u1" w_one [] ltac:(discriminate)). Defined.

Lemma DELETE_unparseable_timestamp_witness :
  exists r sc',
    run (DELETE_trade w_uri "t1" (Some "u1")) [FOk; FOk; FOk; FOk; FOk] (mkdb [w_bad] [] [] 2 w_clock w_env) =
      (inr r, sc', mkdb [w_bad] [] [] 2 w_clock w_env) /\ status r = 500%Z.
Proof.
  exact (DELETE_unparseable_timestamp (H:=iso_date_env) w_uri "t1" "u1" (mkdb [w_bad] [] [] 2 w_clock w_env)
           w_bad [FOk; FOk; FOk; FOk; FOk] ltac:(discriminate) ltac:(discriminate) eq_refl eq_refl).
Defined.

Lemma POST_trades_lost_ack_witness :
  run (POST_trades w_uri (Some (JObj w_trade))) [FOk; FOk; FOk; FLost "reset"; FOk] w_empty =
  (inr (respond (err_body "Failed to create trade"
                   (Error "Failed to save trade t1 to ledger: reset")) 500), [],
   mkdb [] [set "_id" (JOid 2) (ledger_entry w_stored (before_T (IsoDate.to_iso 1735725600000)) w_clock)]
        [] 3 w_clock w_env).
Proof.
  exact (POST_trades_lost_ack (H:=iso_date_env) w_uri w_trade w_empty 1735725600000 "reset" []
           (db_wf_empty 1 w_clock w_env) eq_refl eq_refl eq_refl).
Defined.

Lemma extractDatabaseName_host_only_witness :
  extractDatabaseName (Some ("mongodb://" +:+ "localhost:27017")) = Some "localhost:27017".
Proof.
  exact (extractDatabaseName_host_only "localhost:27017" ltac:(discriminate)
           ltac:(vm_compute; repeat constructor)).
Defined.
